(* ===== verification/_CoqProject ===== *)
-Q . S2P
Prelude.v
JsValue.v
Filters.v
Query.v
SearchBar.v
Uri.v
UriPaths.v
Routes.v
UserOverview.v
Telemetry.v
EventDefinitionWizard.v
ViewLayout.v
Timeout.v
SharedEntity.v
PluginRoutes.v
RawMessageLoader.v
SetupRoutingStep.v
FetchEvents.v
Pipeline.v
EncryptedInlineBinaryField.v
ExtractorConfiguration.v
SchedulingCell.v
IndexSets.v
DocsHelper.v
SystemMessages.v
SearchBarView.v
TimeRangeFilter.v
OTXAdapter.v
ViewGeneration.v
UserTokensEditPage.v
SidecarRow.v
SearchPage.v
TypeSpecificValue.v
ContentColumn.v
XYPlot.v
SearchExplain.v
AssignOutputDropdown.v
BootstrapForms.v
RuleList.v
AuthenticationBackendEditPage.v
