(* ===== verification/Prelude.v ===== *)
(** * A verification development for the Graylog web interface

    This development models, in Rocq, the parts of the Graylog web
    interface (src/graylog2-web-interface/src) whose behaviour is logic
    rather than rendering. It covers the query/filter data model, the route
    table with its base-path qualification and the plugin route registry,
    and the state machines and decision functions of several components.
    Each part has the theorems that make it correct, or that exhibit where
    it is not.

    ** The program and how its parts interact

    The search page keeps one [Query] per tab
    (views/logic/queries/Query.ts). A query holds a nested boolean filter
    tree over stream ids and stream categories. The search bar
    (views/components/SearchBar.tsx) reads the selected streams out of that
    tree with [filtersToStreamSet] / [filtersToStreamCategorySet]. On submit
    it rebuilds the tree with [newFiltersForQuery] and compares the new query
    with the old one through [Query.equals]. The result decides whether the
    query is updated or only re-executed. Every link of the application goes
    through the route table (routing/Routes.ts). At start-up [qualifyUrls]
    prefixes that table with the deployment's base path, using urijs;
    plugins' routes are looked up through [pluginRoute], whose functions
    write their arguments into a shared urijs object. The other components
    are leaves that call these or the server:
    - the event definition wizard steps through its forms and reports
      telemetry;
    - the event-replay view lays out a grid of widgets;
    - the session timeout input converts milliseconds to a value and a
      unit and back;
    - the raw message loader, the input wizard's routing step and the
      encrypted binary field are forms that report to their parent;
    - the events page builds search requests;
    - the pipeline page edits stage lists.

    ** Files, in dependency order (see _CoqProject)

    - [Prelude] (this file): the JavaScript nullable type ([undefined] /
      [null] / a value) with its [??] notation in [gl_scope];
      insertion-ordered sets modelling Immutable.Set ([oset_add],
      [oset_merge]); [indexOf] and [arr[i]] on lists ([js_index_of],
      [js_at]); the stable sort of [Array.prototype.sort] ([sort_by], with
      its permutation and key-sortedness lemmas); React's memo hook cell
      ([use_memo]); the [gl] hint database,
      the [gl_rw] rewrite database and the shared tactics.
    - [JsValue]: the dynamic values of Immutable.Map / Immutable.List and
      JSON ([jval]), their decidable equality, [truthy], [String(v)]
      ([js_string]), and [Map.get] / [obj[k] = v] ([mget], [mset]).
    - [Filters] (Query.ts 57-139): the filter-tree builders and walkers,
      with an abstract tagged-union filter and its encoding.
    - [Query] (Query.ts 141-323): the Query value object, its Builder,
      [equals], [toJSON] and [fromJSON].
    - [SearchBar] (SearchBar.tsx 95-145): [useInitialFormValues] and
      [defaultOnSubmit].
    - [Uri] and [UriPaths]: the part of urijs 1.19 that Routes.ts calls, on
      URLs without a scheme or host: [parse], [resource], [filename],
      [directory], its setter and [normalizePath]. Its [/..] loop
      [resolve_parents] runs on [length + 1] rounds of fuel, which is
      enough ([resolve_parents_enough]: each round removes at least three
      characters). [UriPaths] proves what these do on absolute paths of
      clean segments.
    - [Routes] (Routes.ts 48-410): the whole route table, [search_with_query],
      [prefixUrlWithoutHostname], [qualifyUrls] and [prefixUrl].
    - [UserOverview] (logic/users/UserOverview.ts): the user value object,
      builder and JSON mapping.
    - [Telemetry] (logic/telemetry/Constants.ts): the telemetry event table.
    - [EventDefinitionWizard] (EventDefinitionForm.tsx): the wizard's steps,
      navigation handlers and telemetry, with the step relation; the step
      forms with their [canEdit] props ([canEditCondition],
      [eventProcedureId]), [handleSubmit], and the form's render: the
      wizard's steps, the controls' step index and the step forms.
    - [ViewLayout] (UseCreateViewForEvent.ts): the widget generator with its
      fresh-id monad, the grid positions and the view parameters.
      [ViewGeneration] wraps them into the view state and the search view.
    - [Timeout] (components/users/TimeoutInput.tsx): the input as a state
      machine with React's effect dependencies, the global session
      timeout it loads, and its render.
    - [SharedEntity] (logic/permissions/SharedEntity.ts): the value object
      and its builder.
    - [PluginRoutes] (Routes.ts 427-465): [pluginRoute]; each stored route
      function is a closure over one mutable urijs object, modelled as data
      that every call threads; urijs's [segment()] and [segment(i, v)].
    - [RawMessageLoader] (components/messageloaders): the form as a state
      machine with the request, notifications and [onMessageLoaded] as
      effects, the option lists, the codec configuration fields, the
      store requests of the mount effects and the rendered form
      ([render], [FormView]).
    - [SetupRoutingStep] (InputSetupWizard/steps): the routing step over an
      interface ([StepHelper] / [StepHelperLaws]) for the step data
      helpers, which live outside src/.
    - [FetchEvents] (components/events/fetchEvents.ts): the URL filter
      parsing and the request and response of the event search.
    - [Pipeline] (components/pipelines/Pipeline.tsx): the stage edits and
      the render's in-place sort of the shared stage array.
    - [EncryptedInlineBinaryField] (components/configurationforms): the
      upload, reset and undo of a binary configuration value.
    - [ExtractorConfiguration] (components/extractors): the regex-replace
      extractor form and the date, flexible date and uppercase converter
      forms. They write into their parent's configuration object in place,
      so the objects live in a heap ([gmap] of locations) and a
      configuration is a location.
    - [SchedulingCell] (event-definitions/SchedulingCell.tsx): the
      schedule text, the details popover built on every render and the
      clear-notifications handler.
    - [IndexSets] (components/indices): [ShardMeter] with its [Meter]
      component, and [useIndexSetsList] over a react-query cache ([gmap]
      from query keys to data).
    - [DocsHelper] (util/DocsHelper.ts): the documentation page table and
      the links built from it, with [SupportSources]
      (components/support/SupportSources.tsx), which links the welcome page.
    - [SystemMessages] (components/systemmessages): the paginated,
      polling page, with its requests answered in any order.
    - [SearchBarView] (SearchBar.tsx 147-357): the stream and category
      options, the validation request and the render's decisions.
    - [TimeRangeFilter] (searchbar/time-range-filter): the type check that
      throws, the picker's open state and its telemetry, read from the
      [Telemetry] table.
    - [OTXAdapter] (threatintel/components/adapters/otx): the OTX adapter's
      fields; its select copies the configuration, on the heap of
      [ExtractorConfiguration].
    - [UserTokensEditPage] (pages/UserTokensEditPage.tsx): the token page
      as a state machine over the requests in flight, answered in any
      order, with React's render/effect cycle explicit.
    - [SidecarRow] (components/sidecars/sidecars/SidecarRow.tsx): a row of
      the sidecar list over its untyped prop; its links come from the
      qualified table of [Routes].
    - [SearchPage] (views/components/Search.tsx): the elements the search
      page renders, and its mount effects and window [beforeunload]
      listener with their cleanups.
    - [TypeSpecificValue] (views/components/messagelist/TypeSpecificValue.tsx):
      how a field value is formatted by its field type, with the unit
      check and the pluggable renderers. [JSON.stringify], [trim] and
      [StringUtils.truncate] are modelled on ASCII strings.
    - [ContentColumn] (views/components/sidebar/ContentColumn.tsx): the
      sidebar column's pinned style and toggle button, over a class
      ([PinningPreferences]) for the preferences store, which is not in
      the repository.
    - [XYPlot] (views/components/visualizations/XYPlot.tsx): the plotly
      layout of an XY chart and its zoom handler, memoised with
      [useCallback], whose hook cell is state. lodash's [merge] is a
      library model on plotly values ([pval]) with its lookup, totality
      and clone lemmas.
    - [SearchExplain] (views/components/contexts/SearchExplainContextProvider.tsx):
      the dashboard's search explanation as a state machine over the
      explain calls in flight, answered in any order, with the memoised
      context value and [getExplainForWidget]'s optional reads.
    - [AssignOutputDropdown] (components/outputs/AssignOutputDropdown.tsx):
      the class component as a state machine over its handlers and its
      outputs prop, with the render's disabled controls.
    - [BootstrapForms] (components/bootstrap/FormGroup.tsx and
      BootstrapModalForm.tsx): the form group's style by validation state,
      and the modal form's submit handler and props.
    - [RuleList] (components/rules/RuleList.tsx): the row formatter and
      the rows the rule table shows, or the TypeError it throws.
    - [AuthenticationBackendEditPage] (pages/AuthenticationBackendEditPage.tsx):
      the page as a state machine over its load effect, with its loads
      answered in any order, and its render.

    ** What the theorems show

    - Filters: reading the stream (category) set out of a filter built by
      [newFiltersForQuery] gives back the selection, deduplicated. The
      walkers refine an abstract filter tree, and they throw on a malformed
      node.
    - Query: the JSON round trip and [toBuilder().build()] give back the
      query (exactly, or up to [equals]). [equals] is an equivalence that
      treats [null] and [undefined] filters alike, and [searchTypes] not.
    - SearchBar: submitting an unchanged form re-executes the search
      exactly when Immutable lists the selections in the filter's order
      (always up to eight streams and eight categories). An update keeps
      the query id and carries the submitted selection.
    - Routes: with a clean prefix every literal and every function result
      of the table is prefixed. Without a prefix the table is unchanged.
      The values of Routes.test.ts are reproduced.
    - Plugin routes: a route function substitutes its arguments for the
      [:param] segments in order. An empty argument removes a segment from
      the shared urijs object for good.
    - UserOverview, SharedEntity: where the JSON and builder round trips
      are exact; past eight roles the hash order can reorder a user's
      roles. [SharedEntity.toBuilder] loses the type.
    - Telemetry: the event table has distinct keys and distinct event names.
    - Wizard: Next and Previous move one step from any step, the
      navigation relation and its reachable steps, and that Next alone
      reaches the summary from any step. A step click sends its own
      telemetry event exactly when editing or off the summary: when
      creating an event definition, Share and summary send the wrong one.
      The form throws for a definition without [_scope] unless [canEdit],
      or without [config]; an [illuminate] scope unlocks the condition
      form only.
    - ViewLayout: widgets do not overlap up to four conditions and do from
      five on; the widget ids are distinct.
    - Timeout: the units chosen, the truncation on mount of values that are
      not whole seconds, the checkbox round trip, and the second report of
      an unchanged number typed again (a string now, not a number).
    - RawMessageLoader: the crash on the selectable "none" codec, the
      options reported by a submission, and the configuration reset by a
      codec choice.
    - SetupRoutingStep: a stream chosen before creating a new one stays in
      the step data.
    - SearchBarView: the category options hold every category once; their
      first-occurrence filter equals a one-pass reference.
    - ExtractorConfiguration: an edit re-enables a converter switched off.
    - IndexSets: in every reachable state the count is the total under
      the hook's key, the previously shown total while that key has no
      data ([keepPreviousData]), or [null] before any data, against its
      declared type; shared cache entries.
    - SystemMessages: from any state that shows the list, a late answer of
      the interval's reload replaces the messages of the page selected
      since; selections come only from the pagination the page shows.
    - UserTokensEditPage: the render/effect cycle terminates (two rounds
      of fuel, [SETTLE_FUEL], suffice for every state, and the re-render
      relation is strongly normalising). In every reachable state the
      token lists are requested only for the loaded user under the
      [users:tokenlist] permission. Overlapping creations clear
      [creatingToken] early.
    - SidecarRow: the row throws exactly on a nullish sidecar or
      [node_details]; its three links are the status page, the
      administration page and the collector's message search.
    - SearchPage: after any sequence of renders, unmounts and unloads, an
      unload cancels the job once through the current dispatch, and never
      after unmount. The elements shown follow the view's type, its
      interactivity and the focused widget.
    - TypeSpecificValue: a value of [0] in a field with a unit loses its
      unit; the empty-value marker is shown exactly for strings of
      whitespace; truncated values are at most 30 characters plus the
      ellipsis.
    - ContentColumn: the toggle button's title says what a click does;
      a forced column is pinned and has no button.
    - XYPlot: the chart throws exactly on a null or unknown axis type;
      its x axis is a date range on a timeline, a category axis when
      sorted, and otherwise keeps the caller's type. A zoom after a
      re-render that keeps [isTimeline] and [onZoom] still uses the first
      render's timezone and dispatch.
    - SearchExplain: the context always shows the current explained
      search (its memo's dependencies are complete), but an older
      explain answer arriving last replaces a newer one.
    - AssignOutputDropdown: only ids of outputs it was given are
      submitted, never the placeholder; an output removed after being
      selected is still submitted.
    - BootstrapForms, RuleList, AuthenticationBackendEditPage (lemmas): the
      modal form calls [onSubmitForm] exactly for a valid form with a
      handler, and lets the browser submit a valid form without one; the
      rule list throws exactly when it has a rule to show and no pipeline
      map; the backend edit page shows the old backend on the new id's page
      when the old load answers last.
    - Timeout, Pipeline, SearchPage (lemmas): an enabled global session
      timeout locks the input; a managed pipeline disables every form,
      and every render sorts the stage array; the search page's
      additional context is always current.

    The list of properties, with their claim ids, is in PROJECT.json, and
    each claim's theorem carries its claim id in its doc comment. Lemmas of
    the later files (FetchEvents, Pipeline, EncryptedInlineBinaryField,
    ExtractorConfiguration, SchedulingCell, IndexSets, DocsHelper, SystemMessages)
    carry further findings: for example, a
    converter switched off is switched on again by an edit of its
    subfields, and a regex test answered after an edit shows the old
    regex's match.

    ** Modelling choices

    - JavaScript [undefined] and [null] are the two empty constructors of
      [nullable]. Code that tests "falsy" is modelled with [truthy] on
      [jval], or with a match on [nullable].
    - Immutable.Set iterates in insertion order while it holds at most 8
      entries. Past that size, iteration follows hash order. The sets are
      kept as insertion-ordered lists ([oset_add]), which determine the
      set; where the code lists a set ([toJS()], [toArray()]), the list is
      [iter_order]: the insertion order up to 8 entries, past that the
      order of a [HashOrder] instance, a permutation of which nothing else
      is known. The theorems that depend on the order (SearchBar,
      UserOverview) hold for every such instance.
    - A thrown TypeError is [None] in an [option] result; a thrown [Error]
      with a message is [Throw] where the message matters.
    - JavaScript numbers are modelled as [Z] where the code only computes
      with integers (milliseconds, grid rows and columns, stage numbers).
    - A React component is a record of its state cells and a [step]
      function per event. Its effects (calls of [onChange], requests,
      navigation) are returned as lists in the order the code makes them,
      and a run composes the steps. A closure that captures state, such as
      a pending request's options or a plugin route's urijs object, is
      data of the state. An object that a component mutates and its parent
      keeps is a location of a heap.
    - Where an effect's dependency array matters (UserTokensEditPage,
      SearchPage), the state records the dependencies each effect last
      ran with. A commit runs the cleanups and then the bodies of the
      effects whose dependencies changed, in declaration order. A
      [setState] in an effect asks for another render; that loop runs on
      fuel, and a theorem shows the fuel chosen always suffices.
    - [useMemo] and [useCallback] are [use_memo]: a cell holding the last
      dependencies and value. Where a component reads a value that is not
      among the dependencies (XYPlot's zoom handler), a theorem shows the
      stale value. Where the dependencies are complete (the search page's
      additional context), a lemma shows the memoised value is always the
      current one.
    - Code outside src/ that a component calls (urijs's percent encoders,
      [localeCompare], formatters, the wizard's step helpers) is a section
      variable or a class, with the laws a theorem needs stated as
      hypotheses.

    ** Not modelled

    React rendering beyond the decisions it makes, styled-components, REST
    calls, the Reflux stores and the plugin store are not modelled, and
    neither is any I/O. PROJECT.json lists every component with its status
    and the reason. The types of modules outside src/ (a store's rule and
    context types, the view classes, the codec and input types of the
    stores) are declared where they are used, with the fields the code
    reads; they translate no line of the program, and the map leaves them
    out. The map names the operations and the state records of each
    component; small helper types that only name a constant of the code
    (the colour variants and submit effects of [BootstrapForms]) are
    covered by the operations that use them.

    The libraries the program calls are modelled only as far as the
    theorems need them: urijs ([Uri], [UriPaths]), Immutable.Map.get
    ([mget]), [Array.prototype.sort] ([sort_by]) and react-query's cache
    ([IndexSets.fetched]), lodash's [merge] ([XYPlot.merge]), and
    [JSON.stringify], [trim] and [truncate] on ASCII strings
    ([TypeSpecificValue]). So are the helpers that model JavaScript
    itself: property reads, truthiness, [String(v)], optional chaining,
    and Immutable.Map's [get] and [first]. These models are not
    translations of the program's lines, so PROJECT.json's map leaves
    them out; their
    behaviour is checked against the library's documented semantics and,
    for urijs, against the values Routes.test.ts expects. *)

From stdpp Require Export base list strings sets.
From Stdlib Require Export ZArith Lia.
From Stdlib Require Import Sorted.
Set Warnings "-clear-no-such-hyp".
#[export] Set Warnings "-clear-no-such-hyp".

Declare Scope gl_scope.
Delimit Scope gl_scope with gl.
Open Scope gl_scope.

Create HintDb gl.
Create Rewrite HintDb gl_rw.

(** ** JavaScript's [undefined] / [null] / value *)

Inductive nullable (A : Type) : Type :=
| Undefined
| Null
| Val (a : A).
Arguments Undefined {A}.
Arguments Null {A}.
Arguments Val {A} a.

#[export] Instance nullable_eq_dec `{EqDecision A} : EqDecision (nullable A).
Proof. solve_decision. Defined.

(** [o === null || o === undefined] *)
Definition isNullish {A} (x : nullable A) : bool :=
  match x with Val _ => false | _ => true end.

(** [x ?? d] *)
Definition coalesce {A} (x : nullable A) (d : A) : A :=
  match x with Val a => a | _ => d end.
Notation "x ?? d" := (coalesce x d) (at level 50, left associativity) : gl_scope.

(** [x?.f]: optional chaining yields [undefined] on a nullish receiver. *)
Definition nmap {A B} (f : A -> B) (x : nullable A) : nullable B :=
  match x with Val a => Val (f a) | _ => Undefined end.
Notation "x ?. f" := (nmap f x) (at level 40, left associativity) : gl_scope.

Lemma isNullish_false {A} (x : nullable A) : isNullish x = false <-> exists a, x = Val a.
Proof. split; [destruct x; simpl; [discriminate | discriminate | eauto] | by intros [a ->]]. Qed.

(** ** Mapping a throwing function over a list

    [l.map(f)] where [f] may throw: the first exception aborts the map. *)

Fixpoint traverse_opt {A B} (f : A -> option B) (l : list A) : option (list B) :=
  match l with
  | [] => Some []
  | x :: l' =>
      match f x, traverse_opt f l' with
      | Some y, Some ys => Some (y :: ys)
      | _, _ => None
      end
  end.

(** The length of a concatenation of strings. *)
Lemma slength_app (a b : string) : String.length (a ++ b)%string = String.length a + String.length b.
Proof. induction a; simpl; auto. Qed.

Lemma traverse_opt_Some {A B} (f : A -> option B) (g : A -> B) l :
  Forall (fun x => f x = Some (g x)) l -> traverse_opt f l = Some (map g l).
Proof. induction 1 as [|x l Hx _ IH]; simpl; [done|]. by rewrite Hx, IH. Qed.

Lemma traverse_opt_map {A A' B} (f : A' -> option B) (h : A -> A') (g : A -> B) l :
  Forall (fun x => f (h x) = Some (g x)) l -> traverse_opt f (map h l) = Some (map g l).
Proof. induction 1 as [|x l Hx _ IH]; simpl; [done|]. by rewrite Hx, IH. Qed.

Lemma traverse_opt_None {A B} (f : A -> option B) l x :
  x ∈ l -> f x = None -> traverse_opt f l = None.
Proof.
  induction l as [|y l IH]; simpl; [set_solver|].
  rewrite elem_of_cons. intros [-> | Hx] Hf.
  - by rewrite Hf.
  - rewrite (IH Hx Hf). by destruct (f y).
Qed.

(** ** Insertion-ordered sets: Immutable.Set with its iteration order *)

Section OSet.
Context {A : Type} `{EqDecision A}.

(** [set.add(x)]: an element already present keeps its position. *)
Definition oset_add (x : A) (s : list A) : list A :=
  if decide (x ∈ s) then s else s ++ [x].

(** [prev.merge(cur)]: adds the elements of [cur] in order. *)
Definition oset_merge (s t : list A) : list A :=
  fold_left (fun acc x => oset_add x acc) t s.

(** [Immutable.Set(l)] *)
Definition oset_of (l : list A) : list A := oset_merge [] l.

Lemma elem_of_oset_add x y s : y ∈ oset_add x s <-> y = x \/ y ∈ s.
Proof.
  unfold oset_add. case_decide; rewrite ?elem_of_app, ?list_elem_of_singleton;
    naive_solver.
Qed.

Lemma NoDup_oset_add x s : NoDup s -> NoDup (oset_add x s).
Proof.
  intros Hs. unfold oset_add. case_decide; [done|].
  apply NoDup_app. split; [done|]. split; [|apply NoDup_singleton].
  intros y Hy ->%list_elem_of_singleton. done.
Qed.

Lemma oset_add_present x s : x ∈ s -> oset_add x s = s.
Proof. intros H. unfold oset_add. by case_decide. Qed.

Lemma oset_add_absent x s : x ∉ s -> oset_add x s = s ++ [x].
Proof. intros H. unfold oset_add. by case_decide. Qed.

Lemma elem_of_oset_merge y s t : y ∈ oset_merge s t <-> y ∈ s \/ y ∈ t.
Proof.
  revert s. induction t as [|x t IH]; intros s; simpl.
  - rewrite elem_of_nil. naive_solver.
  - rewrite IH, elem_of_oset_add, elem_of_cons. naive_solver.
Qed.

Lemma NoDup_oset_merge s t : NoDup s -> NoDup (oset_merge s t).
Proof.
  revert s. induction t as [|x t IH]; intros s Hs; simpl; [done|].
  apply IH, NoDup_oset_add, Hs.
Qed.

Lemma oset_merge_app s t1 t2 :
  oset_merge s (t1 ++ t2) = oset_merge (oset_merge s t1) t2.
Proof. unfold oset_merge. by rewrite fold_left_app. Qed.

Lemma oset_merge_nil_r s : oset_merge s [] = s.
Proof. reflexivity. Qed.

(** Merging a duplicate-free list whose elements are all new appends it. *)
Lemma oset_merge_fresh s t :
  NoDup t -> (forall x, x ∈ t -> x ∉ s) -> oset_merge s t = s ++ t.
Proof.
  revert s. induction t as [|x t IH]; intros s Hnd Hfr; simpl.
  - by rewrite app_nil_r.
  - apply NoDup_cons in Hnd as [Hx Ht].
    rewrite oset_add_absent by (apply Hfr; left).
    rewrite IH, <- app_assoc; [done|done|].
    intros y Hy. rewrite elem_of_app, list_elem_of_singleton.
    intros [Hys | ->]; [|done]. apply (Hfr y); [by right|done].
Qed.

Lemma oset_of_NoDup l : NoDup l -> oset_of l = l.
Proof. intros H. unfold oset_of. rewrite oset_merge_fresh; [done|done|]. set_solver. Qed.

Lemma elem_of_oset_of y l : y ∈ oset_of l <-> y ∈ l.
Proof. unfold oset_of. rewrite elem_of_oset_merge. set_solver. Qed.

Lemma oset_of_NoDup_result l : NoDup (oset_of l).
Proof. apply NoDup_oset_merge, NoDup_nil_2. Qed.

Lemma oset_merge_add s t x :
  oset_merge s (oset_add x t) = oset_add x (oset_merge s t).
Proof.
  unfold oset_add at 1. case_decide as Hx.
  - rewrite oset_add_present; [done|]. apply elem_of_oset_merge. by right.
  - by rewrite oset_merge_app.
Qed.

Lemma oset_merge_assoc s t l :
  oset_merge s (oset_merge t l) = oset_merge (oset_merge s t) l.
Proof.
  revert t. induction l as [|x l IH]; intros t; simpl; [done|].
  by rewrite IH, oset_merge_add.
Qed.

(** Merging the deduplicated pieces is deduplicating the whole. *)
Lemma fold_merge_oset_of s ls :
  fold_left (fun prev cur => oset_merge prev cur) (map oset_of ls) s
  = oset_merge s (concat ls).
Proof.
  revert s. induction ls as [|l ls IH]; intros s; simpl; [done|].
  rewrite IH. unfold oset_of. rewrite oset_merge_assoc. simpl.
  by rewrite oset_merge_app.
Qed.
End OSet.

#[export] Hint Resolve NoDup_oset_add NoDup_oset_merge oset_of_NoDup_result : gl.
#[export] Hint Rewrite @oset_merge_app @elem_of_oset_merge @elem_of_oset_add
  @elem_of_oset_of : gl_rw.

(** ** What [toJS()] and [toArray()] list: Immutable's iteration order

    An [Immutable.Set] is an [Immutable.Map] from its elements. A map of
    at most [MAX_ARRAY_MAP_SIZE] (8) entries is an [ArrayMapNode], which
    keeps insertion order; the ninth entry turns it into a hashed trie,
    iterated in the order of the entries' hashes. The oset lists above
    are the insertion order. [iter_order] is the order the set is listed
    in: the insertion order up to 8 entries, past that the hash order of
    a [HashOrder] instance, of which the model knows only that it
    reorders. *)
Class HashOrder (A : Type) := {
  hash_order : list A -> list A;
  hash_order_perm l : hash_order l ≡ₚ l
}.

Definition MAX_ARRAY_MAP_SIZE : nat := 8.

Section IterOrder.
Context {A : Type} `{HashOrder A}.

Definition iter_order (s : list A) : list A :=
  if decide (length s <= MAX_ARRAY_MAP_SIZE) then s else hash_order s.

Lemma iter_order_perm s : iter_order s ≡ₚ s.
Proof. unfold iter_order. case_decide; [done|apply hash_order_perm]. Qed.

Lemma NoDup_iter_order s : NoDup s -> NoDup (iter_order s).
Proof. intros Hs. by rewrite iter_order_perm. Qed.

(** The set is listed in insertion order exactly when it is small or its
    hash order happens to be that order. *)
Lemma iter_order_id s : iter_order s = s <-> length s <= MAX_ARRAY_MAP_SIZE \/ hash_order s = s.
Proof. unfold iter_order. case_decide; naive_solver. Qed.

End IterOrder.

#[export] Hint Resolve NoDup_iter_order : gl.

(** ** Arrays indexed by JavaScript numbers *)

Section JsArray.
Context {A : Type} `{EqDecision A}.

(** [arr.indexOf(x)]: the first index of [x], or [-1]. *)
Fixpoint js_index_of (x : A) (l : list A) : Z :=
  match l with
  | [] => (-1)%Z
  | y :: l' => if decide (x = y) then 0%Z
               else let i := js_index_of x l' in if decide (i = (-1)%Z) then i else (i + 1)%Z
  end.

(** [arr[i]]: [undefined] outside [0 .. length - 1]. *)
Definition js_at (l : list A) (i : Z) : nullable A :=
  if decide (0 <= i)%Z then match l !! Z.to_nat i with Some a => Val a | None => Undefined end
  else Undefined.

Lemma js_index_of_nth l i x :
  NoDup l -> l !! i = Some x -> js_index_of x l = Z.of_nat i.
Proof.
  revert i. induction l as [|y l IH]; intros i Hnd Hi; [done|].
  apply NoDup_cons in Hnd as [Hy Hnd]. destruct i as [|i]; simpl in Hi.
  - simplify_eq/=. by rewrite decide_True.
  - simpl. rewrite decide_False by (intros ->; apply Hy; by eapply list_elem_of_lookup_2).
    rewrite (IH i) by done. rewrite decide_False by lia. lia.
Qed.

(** The first occurrence decides, whatever follows it. *)
Lemma js_index_of_app l1 x l2 : x ∉ l1 -> js_index_of x (l1 ++ x :: l2) = Z.of_nat (length l1).
Proof.
  induction l1 as [|y l1 IH]; intros Hx; simpl; [by rewrite decide_True|].
  rewrite decide_False by (intros ->; apply Hx; left).
  rewrite IH by (intros ?; apply Hx; by right). rewrite decide_False by lia. lia.
Qed.

Lemma js_index_of_absent l x : x ∉ l -> js_index_of x l = (-1)%Z.
Proof.
  induction l as [|y l IH]; simpl; [done|]. intros Hx.
  rewrite decide_False by (intros ->; apply Hx; left). rewrite IH by (intros ?; apply Hx; by right).
  by rewrite decide_True.
Qed.

Lemma js_at_nat l (i : nat) : js_at l (Z.of_nat i) = match l !! i with Some a => Val a | None => Undefined end.
Proof. unfold js_at. rewrite decide_True by lia. by rewrite Nat2Z.id. Qed.

End JsArray.

(** ** [Array.prototype.sort] with a comparator

    The sort of ECMAScript 2019 and later, and [Immutable]'s [sort], are
    stable: elements the comparator calls equal keep their order. The
    model is the stable insertion sort: each element goes after every
    element already placed that it is not smaller than. *)

Section Sort.
Context {A : Type} (cmp : A -> A -> Z).

Fixpoint insert_by (x : A) (l : list A) : list A :=
  match l with
  | [] => [x]
  | y :: l' => if Z.ltb (cmp x y) 0 then x :: l else y :: insert_by x l'
  end.

Definition sort_by (l : list A) : list A := fold_left (fun acc x => insert_by x acc) l [].

Lemma insert_by_perm x l : insert_by x l ≡ₚ x :: l.
Proof.
  induction l as [|y l IH]; simpl; [done|].
  destruct (Z.ltb (cmp x y) 0); [done|]. rewrite IH. by constructor.
Qed.

Lemma sort_by_perm l : sort_by l ≡ₚ l.
Proof.
  unfold sort_by. cut (forall acc, fold_left (fun acc x => insert_by x acc) l acc ≡ₚ acc ++ l).
  { intros H. by rewrite H. }
  induction l as [|x l IH]; intros acc; simpl; [by rewrite app_nil_r|].
  rewrite IH, insert_by_perm. by rewrite <- Permutation_middle.
Qed.


End Sort.

(** A comparator [(a, b) => key(a) - key(b)] sorts by the key. *)
Section KeySort.
Context {A : Type}.
Variable key : A -> Z.

Definition key_le (a b : A) : Prop := (key a <= key b)%Z.

Lemma insert_by_key_hd y x l :
  HdRel key_le y l -> key_le y x -> HdRel key_le y (insert_by (fun a b => key a - key b)%Z x l).
Proof.
  intros Hy Hyx. destruct l as [|z l]; simpl; [by constructor|].
  destruct (Z.ltb (key x - key z) 0); constructor; [done|]. by inversion Hy.
Qed.

Lemma insert_by_key_sorted x l :
  Sorted key_le l -> Sorted key_le (insert_by (fun a b => key a - key b)%Z x l).
Proof.
  induction 1 as [|y l Hl IH Hy]; simpl; [by repeat constructor|].
  destruct (Z.ltb_spec (key x - key y) 0) as [Hlt|Hge].
  - constructor; [by constructor|]. constructor. unfold key_le. lia.
  - constructor; [done|]. apply insert_by_key_hd; [done|]. unfold key_le. lia.
Qed.

Lemma sort_by_key_sorted l : Sorted key_le (sort_by (fun a b => key a - key b)%Z l).
Proof.
  unfold sort_by. cut (forall acc, Sorted key_le acc ->
    Sorted key_le (fold_left (fun acc x => insert_by (fun a b => key a - key b)%Z x acc) l acc)).
  { intros H. apply H. constructor. }
  induction l as [|x l IH]; intros acc Hacc; simpl; [done|]. by apply IH, insert_by_key_sorted.
Qed.

End KeySort.

(** ** React's memo hooks *)

(** The cell of [useMemo(compute, deps)] or [useCallback(fn, deps)]:
    the dependencies of the last computation and its value. A render whose
    dependencies are those of the cell (compared element-wise with
    [Object.is], here [=] on the tuple) gets the stored value back.
    Otherwise it gets the new value [v], which is stored. *)
Definition use_memo {D V} `{EqDecision D} (cell : option (D * V)) (deps : D) (v : V) : V * option (D * V) :=
  match cell with
  | Some (d, x) => if decide (d = deps) then (x, cell) else (v, Some (deps, v))
  | None => (v, Some (deps, v))
  end.

Lemma use_memo_same {D V} `{EqDecision D} (deps : D) (x v : V) :
  use_memo (Some (deps, x)) deps v = (x, Some (deps, x)).
Proof. unfold use_memo. by rewrite decide_True. Qed.

Lemma use_memo_stores {D V} `{EqDecision D} (cell : option (D * V)) deps v :
  exists x, use_memo cell deps v = (x, Some (deps, x)) /\ (x = v \/ cell = Some (deps, x)).
Proof.
  unfold use_memo. destruct cell as [[d x]|]; [|eauto].
  case_decide; subst; eauto.
Qed.

(** ** Shared tactics *)

(** Case on every [decide] and boolean test in the goal, then close by
    computation or by contradiction with a hypothesis. *)
Ltac gl_cases :=
  repeat (case_decide || case_match); simplify_eq/=; try done.

Ltac invc H := inversion H; subst; clear H.

(** [NoDup] of a list of literals, decided by evaluation. *)
Ltac decide_nodup := apply (bool_decide_eq_true_1 (NoDup _)); vm_compute; reflexivity.
