(* ===== verification/JsValue.v ===== *)
(** * Dynamic values: what Immutable.Map, Immutable.List and JSON hold

    The filter tree of Query.ts is an [Immutable.Map<string, any>]. It is
    built with [Immutable.Map({...})] and [Immutable.List(...)] and
    converted from JSON with [Immutable.fromJS]. All three are modelled
    with one type, [jval]. A map is an association list in insertion order
    with distinct keys, as every map the code builds has them. This file
    gives the type, its decidable equality (what [isDeepEqual] compares),
    JavaScript truthiness, and [Map.get] with a default. *)

From stdpp Require Import pretty.
From S2P Require Import Prelude.
Set Warnings "-clear-no-such-hyp -register-all".

Inductive jval : Type :=
| JUndef
| JNull
| JBool (b : bool)
| JNum (n : Z)
| JStr (s : string)
| JList (xs : list jval)
| JMap (kvs : list (string * jval)).

(** The induction principle that sees through the nested lists. *)
Section JvalInd.
Variable P : jval -> Prop.
Hypothesis HUndef : P JUndef.
Hypothesis HNull : P JNull.
Hypothesis HBool : forall b, P (JBool b).
Hypothesis HNum : forall n, P (JNum n).
Hypothesis HStr : forall s, P (JStr s).
Hypothesis HList : forall xs, Forall P xs -> P (JList xs).
Hypothesis HMap : forall kvs, Forall (fun kv => P kv.2) kvs -> P (JMap kvs).

Fixpoint jval_ind' (v : jval) : P v :=
  match v with
  | JUndef => HUndef
  | JNull => HNull
  | JBool b => HBool b
  | JNum n => HNum n
  | JStr s => HStr s
  | JList xs =>
      HList xs ((fix go (l : list jval) : Forall P l :=
                   match l with
                   | [] => Forall_nil_2 _
                   | x :: l' => Forall_cons_2 _ x l' (jval_ind' x) (go l')
                   end) xs)
  | JMap kvs =>
      HMap kvs ((fix go (l : list (string * jval)) : Forall (fun kv => P kv.2) l :=
                   match l with
                   | [] => Forall_nil_2 _
                   | kv :: l' => Forall_cons_2 _ kv l' (jval_ind' kv.2) (go l')
                   end) kvs)
  end.
End JvalInd.

(** Structural equality, decided. *)
Fixpoint jval_eqb (x y : jval) : bool :=
  match x, y with
  | JUndef, JUndef | JNull, JNull => true
  | JBool a, JBool b => Bool.eqb a b
  | JNum a, JNum b => Z.eqb a b
  | JStr a, JStr b => String.eqb a b
  | JList xs, JList ys =>
      (fix go (xs ys : list jval) : bool :=
         match xs, ys with
         | [], [] => true
         | x :: xs', y :: ys' => jval_eqb x y && go xs' ys'
         | _, _ => false
         end) xs ys
  | JMap xs, JMap ys =>
      (fix go (xs ys : list (string * jval)) : bool :=
         match xs, ys with
         | [], [] => true
         | (k, x) :: xs', (k', y) :: ys' => String.eqb k k' && jval_eqb x y && go xs' ys'
         | _, _ => false
         end) xs ys
  | _, _ => false
  end.

Lemma jval_eqb_eq x y : jval_eqb x y = true <-> x = y.
Proof.
  revert y. induction x as [| | b | n | s | xs IH | kvs IH] using jval_ind';
    intros [| | b' | n' | s' | ys | kvs']; simpl;
    try (split; congruence).
  - rewrite Bool.eqb_true_iff. split; congruence.
  - rewrite Z.eqb_eq. split; congruence.
  - rewrite String.eqb_eq. split; congruence.
  - revert ys. induction IH as [|x xs Hx _ IHxs]; intros [|y ys]; try (split; congruence).
    rewrite andb_true_iff, Hx, IHxs. split; [intros [-> [=->]]|intros [=-> ->]]; done.
  - revert kvs'. induction IH as [|[k x] kvs Hx _ IHkvs]; intros [|[k' y] kvs'];
      try (split; congruence).
    cbn in Hx. rewrite !andb_true_iff, String.eqb_eq, Hx, IHkvs.
    split; [intros [[-> ->] [=->]]|intros [=-> -> ->]]; done.
Qed.

#[export] Instance jval_eq_dec : EqDecision jval.
Proof.
  intros x y. destruct (jval_eqb x y) eqn:E.
  - left. by apply jval_eqb_eq.
  - right. intros H. apply jval_eqb_eq in H. congruence.
Defined.

(** JavaScript truthiness ([!v] is [negb (truthy v)]). A map or list is
    truthy even when empty. *)
Definition truthy (v : jval) : bool :=
  match v with
  | JUndef | JNull => false
  | JBool b => b
  | JNum n => negb (Z.eqb n 0)
  | JStr s => negb (String.eqb s "")
  | JList _ | JMap _ => true
  end.

(** [Immutable.Map.get(k)]: the value of the first entry with key [k]. *)
Fixpoint mget (k : string) (m : list (string * jval)) : option jval :=
  match m with
  | [] => None
  | (k', v) :: m' => if String.eqb k k' then Some v else mget k m'
  end.

(** [map.get(k, notSetValue)] *)
Definition mget_or (k : string) (m : list (string * jval)) (d : jval) : jval :=
  match mget k m with Some v => v | None => d end.

(** [map.get(k)] with no default yields [undefined]. *)
Definition mget_u (k : string) (m : list (string * jval)) : jval := mget_or k m JUndef.

(** A property read [o.k] for a key that is not a built-in property: a
    [TypeError] ([None]) on [undefined] and [null], [undefined] on the
    other primitives and on arrays. *)
Definition js_get (o : jval) (k : string) : option jval :=
  match o with
  | JUndef | JNull => None
  | JMap m => Some (mget_u k m)
  | _ => Some JUndef
  end.

(** [v === undefined || v === null] *)
Definition js_nullish (v : jval) : bool :=
  match v with JUndef | JNull => true | _ => false end.

(** [map.get(k)] continued by [found] on a hit and [absent] on a miss. The
    recursion of a walker may go through [found]: the value it receives is
    an entry of [m]. *)
Fixpoint mget_then {B} (k : string) (m : list (string * jval)) (found : jval -> B) (absent : B) : B :=
  match m with
  | [] => absent
  | (k', v) :: m' => if String.eqb k k' then found v else mget_then k m' found absent
  end.

Lemma mget_then_spec {B} k m (found : jval -> B) absent :
  mget_then k m found absent = match mget k m with Some v => found v | None => absent end.
Proof. induction m as [|[k' v] m IH]; simpl; [done|]. by destruct (String.eqb k k'). Qed.

(** [String(v)], which is also what a template literal [`${v}`] inserts.
    An array is joined with commas, and its [null] / [undefined] elements
    print as empty strings. Numbers are integers here. *)
Fixpoint js_string (v : jval) : string :=
  match v with
  | JUndef => "undefined"
  | JNull => "null"
  | JBool b => if b then "true" else "false"
  | JNum n => pretty n
  | JStr s => s
  | JList xs =>
      String.concat ","
        (map (fun x => match x with JUndef | JNull => "" | _ => js_string x end) xs)
  | JMap _ => "[object Object]"
  end.

(** [obj[k] = v] on a plain object: an existing key keeps its position. *)
Fixpoint mset (k : string) (v : jval) (m : list (string * jval)) : list (string * jval) :=
  match m with
  | [] => [(k, v)]
  | (k', v') :: m' => if String.eqb k k' then (k, v) :: m' else (k', v') :: mset k v m'
  end.

(** [toLowerCase] and [toUpperCase] on ASCII letters; other characters
    are kept. *)
Definition ascii_lower (c : Ascii.ascii) : Ascii.ascii :=
  let n := Ascii.nat_of_ascii c in
  if Nat.leb 65 n && Nat.leb n 90 then Ascii.ascii_of_nat (n + 32) else c.

Fixpoint to_lower (s : string) : string :=
  match s with
  | EmptyString => EmptyString
  | String c s' => String (ascii_lower c) (to_lower s')
  end.

Definition ascii_upper (c : Ascii.ascii) : Ascii.ascii :=
  let n := Ascii.nat_of_ascii c in
  if Nat.leb 97 n && Nat.leb n 122 then Ascii.ascii_of_nat (n - 32) else c.

Fixpoint to_upper (s : string) : string :=
  match s with
  | EmptyString => EmptyString
  | String c s' => String (ascii_upper c) (to_upper s')
  end.

(** [obj[k] = v] then [obj.k] gives [v]; other keys are untouched. *)
Lemma mget_mset k v o : mget_u k (mset k v o) = v.
Proof.
  unfold mget_u, mget_or. induction o as [|[k' v'] o IH]; simpl; [by rewrite String.eqb_refl|].
  destruct (String.eqb_spec k k') as [->|Hne]; simpl; [by rewrite String.eqb_refl|].
  apply String.eqb_neq in Hne. by rewrite Hne.
Qed.

Lemma mget_mset_other k k' v o : k <> k' -> mget_u k (mset k' v o) = mget_u k o.
Proof.
  intros Hne. unfold mget_u, mget_or. induction o as [|[k'' v'] o IH]; simpl.
  - apply String.eqb_neq in Hne. by rewrite Hne.
  - destruct (String.eqb_spec k' k'') as [->|_]; simpl.
    + apply String.eqb_neq in Hne. by rewrite Hne.
    + destruct (String.eqb k k''); [done|]. exact IH.
Qed.

Lemma js_get_some o k : js_nullish o = false -> js_get o k = Some (match o with JMap m => mget_u k m | _ => JUndef end).
Proof. by destruct o. Qed.

Lemma js_get_none o k : js_get o k = None <-> js_nullish o = true.
Proof. by destruct o. Qed.

Lemma truthy_not_nullish v : truthy v = true -> js_nullish v = false.
Proof. by destruct v. Qed.

#[export] Hint Rewrite mget_mset : gl_rw.

(** The string [JStr s] for each element: [Array<string>] as dynamic values. *)
Definition jstrs (l : list string) : list jval := map JStr l.

Lemma jstrs_NoDup l : NoDup l -> NoDup (jstrs l).
Proof. intros H. apply NoDup_fmap_2; [|done]. intros ? ? Heq. by injection Heq. Qed.

Lemma elem_of_jstrs v l : v ∈ jstrs l <-> exists s, v = JStr s /\ s ∈ l.
Proof. unfold jstrs. rewrite list_elem_of_fmap. naive_solver. Qed.

#[export] Hint Resolve jstrs_NoDup : gl.
