(* ===== verification/Filters.v ===== *)
(** * Stream and category filter trees (views/logic/queries/Query.ts, 57-139)

    The builders [filtersForQuery], [categoryFiltersForQuery] and
    [newFiltersForQuery] turn the search bar's selected streams and stream
    categories into an [Immutable.Map] filter tree. The walkers
    [filtersToStreamSet] and [filtersToStreamCategorySet] read the
    selection back out as an [Immutable.Set].

    The walkers are defined on any dynamic value, as the code is: a
    falsy value gives the empty set, and a value without [.get] / [.map]
    throws (the result is [None]). The abstract [filter] is the tagged union
    that the spec's design note asks for. [encode] embeds it into maps, and
    [filtersToSet_encode] is the refinement lemma: the walker of the code
    computes the abstract [leaves] of the tree, deduplicated. *)

From S2P Require Import Prelude JsValue.
Set Warnings "-clear-no-such-hyp".

Module QueryFilters.

(** ** Builders *)

(** [Immutable.Map({ type: 'stream', id: stream })] *)
Definition streamLeaf (stream : jval) : jval :=
  JMap [("type", JStr "stream"); ("id", stream)].

(** [Immutable.Map({ type: 'stream_category', category: category })] *)
Definition categoryLeaf (category : jval) : jval :=
  JMap [("type", JStr "stream_category"); ("category", category)].

(** [Immutable.Map({ type: 'or', filters: ... })] *)
Definition orNode (children : list jval) : jval :=
  JMap [("type", JStr "or"); ("filters", JList children)].

(** [Immutable.List(selectedStreams?.map(...))]: a nullish argument gives
    [Immutable.List(undefined)], the empty list. *)
Definition _streamFilters (selectedStreams : nullable (list jval)) : list jval :=
  match selectedStreams with Val l => map streamLeaf l | _ => [] end.

Definition _streamCategoryFilters (selectedCategories : nullable (list jval)) : list jval :=
  match selectedCategories with Val l => map categoryLeaf l | _ => [] end.

(** [if (!streams || streams.length === 0) return null;] An empty array is
    truthy in JavaScript, so the length test is the one that fires. *)
Definition filtersForQuery (streams : nullable (list jval)) : jval :=
  match streams with
  | Val l => if Nat.eqb (length l) 0 then JNull else orNode (_streamFilters streams)
  | _ => JNull
  end.

Definition categoryFiltersForQuery (categories : nullable (list jval)) : jval :=
  match categories with
  | Val l => if Nat.eqb (length l) 0 then JNull else orNode (_streamCategoryFilters categories)
  | _ => JNull
  end.

(** JavaScript's [a || b]. *)
Definition js_or (a b : jval) : jval := if truthy a then a else b.

Definition newFiltersForQuery (streams categories : nullable (list jval)) : jval :=
  let streamFilter := _streamFilters streams in
  let categoryFilter := _streamCategoryFilters categories in
  if Nat.ltb 0 (length streamFilter) && Nat.ltb 0 (length categoryFilter)
  then orNode (streamFilter ++ categoryFilter)
  else js_or (filtersForQuery streams) (categoryFiltersForQuery categories).

(** ** Walkers *)

(** [.reduce((prev, cur) => prev.merge(cur), Immutable.Set())] *)
Definition mergeAll (sets : list (list jval)) : list jval :=
  fold_left (fun prev cur => oset_merge prev cur) sets [].

(** The body shared by [filtersToStreamSet] (tag ["stream"], key ["id"]) and
    [filtersToStreamCategorySet] (tag ["stream_category"], key
    ["category"]); the two functions of the source differ only in these
    constants. [filter.get('filters', Immutable.List())] is [mget_then], so
    that the recursion is structural; the default empty list gives the empty
    set. A list child is mapped; a map
    child is mapped over its values (what [Immutable.Map.map] and [reduce]
    do). Any other child throws. An [Immutable.List] in filter position
    answers [get] with the default, so it contributes nothing. *)
Fixpoint filtersToSet (tag key : string) (filter : jval) {struct filter} : option (list jval) :=
  if negb (truthy filter) then Some [] else
  match filter with
  | JMap m =>
      if decide (mget_u "type" m = JStr tag) then Some [mget_u key m] else
      (fix lookup (m' : list (string * jval)) : option (list jval) :=
         match m' with
         | [] => Some []
         | (k, v) :: m'' =>
             if String.eqb "filters" k then
               match v with
               | JList xs => option_map mergeAll (traverse_opt (filtersToSet tag key) xs)
               | JMap kvs =>
                   option_map mergeAll (traverse_opt (fun '(_, x) => filtersToSet tag key x) kvs)
               | _ => None
               end
             else lookup m''
         end) m
  | JList _ => Some []
  | _ => None
  end.

Definition filtersToStreamSet (filter : jval) : option (list jval) :=
  filtersToSet "stream" "id" filter.

Definition filtersToStreamCategorySet (filter : jval) : option (list jval) :=
  filtersToSet "stream_category" "category" filter.

(** ** The abstract filter tree and its encoding *)

Inductive filter : Type :=
| FStream (id : jval)
| FCategory (category : jval)
| FAnd (fs : list filter)
| FOr (fs : list filter).

Section FilterInd.
Variable P : filter -> Prop.
Hypothesis HStream : forall id, P (FStream id).
Hypothesis HCategory : forall c, P (FCategory c).
Hypothesis HAnd : forall fs, Forall P fs -> P (FAnd fs).
Hypothesis HOr : forall fs, Forall P fs -> P (FOr fs).

Fixpoint filter_ind' (f : filter) : P f :=
  let fix go (l : list filter) : Forall P l :=
    match l with
    | [] => Forall_nil_2 _
    | x :: l' => Forall_cons_2 _ x l' (filter_ind' x) (go l')
    end in
  match f with
  | FStream id => HStream id
  | FCategory c => HCategory c
  | FAnd fs => HAnd fs (go fs)
  | FOr fs => HOr fs (go fs)
  end.
End FilterInd.

Fixpoint encode (f : filter) : jval :=
  match f with
  | FStream id => streamLeaf id
  | FCategory c => categoryLeaf c
  | FAnd fs => JMap [("type", JStr "and"); ("filters", JList (map encode fs))]
  | FOr fs => orNode (map encode fs)
  end.

(** Which leaves a walker collects: the tag of the leaf and its payload. *)
Inductive leafKind := KStream | KCategory.

Definition kindTag (k : leafKind) : string :=
  match k with KStream => "stream" | KCategory => "stream_category" end.
Definition kindKey (k : leafKind) : string :=
  match k with KStream => "id" | KCategory => "category" end.

(** The abstract specification: the payloads of the leaves of kind [k], in
    left-to-right order. *)
Fixpoint leaves (k : leafKind) (f : filter) : list jval :=
  match f with
  | FStream id => match k with KStream => [id] | KCategory => [] end
  | FCategory c => match k with KCategory => [c] | KStream => [] end
  | FAnd fs | FOr fs => concat (map (leaves k) fs)
  end.

(** The spec's invariant of filter trees: every node has its type
    discriminator, and/or nodes carry a list of children, leaves carry
    their key. Every such tree is the encoding of an abstract filter. *)
Definition wf_filter (v : jval) : Prop := exists f, v = encode f.

(** ** The walker, unfolded *)

Lemma filtersToSet_JMap tag key m :
  filtersToSet tag key (JMap m) =
  if decide (mget_u "type" m = JStr tag) then Some [mget_u key m] else
  match mget "filters" m with
  | None => Some []
  | Some (JList xs) => option_map mergeAll (traverse_opt (filtersToSet tag key) xs)
  | Some (JMap kvs) =>
      option_map mergeAll (traverse_opt (fun '(_, x) => filtersToSet tag key x) kvs)
  | Some _ => None
  end.
Proof.
  cbn -[String.eqb mget_u]. case_decide; [done|]. clear.
  induction m as [|[k v] m IH]; cbn -[String.eqb]; [done|].
  by destruct (String.eqb "filters" k).
Qed.

Lemma mergeAll_oset_of ls : mergeAll (map oset_of ls) = oset_of (concat ls).
Proof. apply fold_merge_oset_of. Qed.

(** Refinement: on an encoded tree the walker of kind [k] never throws and
    returns the leaves of kind [k], deduplicated in first-occurrence order. *)
Lemma filtersToSet_encode k f :
  filtersToSet (kindTag k) (kindKey k) (encode f) = Some (oset_of (leaves k f)).
Proof.
  induction f as [id|c|fs IH|fs IH] using filter_ind'; [by destruct k .. | |];
    cbn [encode]; unfold orNode; rewrite filtersToSet_JMap;
    (case_decide as Hd; [destruct k; discriminate Hd|]); simpl;
    (rewrite (traverse_opt_map _ encode (fun f => oset_of (leaves k f)));
     [|exact IH]);
    simpl; by rewrite <- (map_map (leaves k) oset_of), mergeAll_oset_of.
Qed.

(** The selection the search bar submits: streams first, then categories. *)
Definition selection (ss cs : list jval) : filter := FOr (map FStream ss ++ map FCategory cs).

Lemma leaves_selection_streams ss cs : leaves KStream (selection ss cs) = ss.
Proof.
  unfold selection. simpl.
  induction ss as [|x ss IH]; simpl; [|by f_equal].
  induction cs as [|y cs IH]; simpl; done.
Qed.

Lemma leaves_selection_categories ss cs : leaves KCategory (selection ss cs) = cs.
Proof.
  unfold selection. simpl.
  induction ss as [|x ss IH]; simpl; [|done].
  induction cs as [|y cs IH]; simpl; [done|by f_equal].
Qed.

(** ** Properties *)

(** C3. Functional behaviour of [newFiltersForQuery] on every branch: with
    no stream and no category selected (each argument nullish or empty) it
    returns [null]. Otherwise it returns one "or" node whose children are
    the stream leaves followed by the category leaves, in input order, and
    that node is a well-formed filter tree. *)
Theorem newFiltersForQuery_spec s c :
  newFiltersForQuery s c =
  match s ?? [], c ?? [] with
  | [], [] => JNull
  | ss, cs => encode (selection ss cs)
  end.
Proof.
  unfold selection.
  destruct s as [| |[|x ss]], c as [| |[|y cs]]; cbn -[map]; try done;
    unfold orNode; rewrite ?map_app, ?map_map, ?app_nil_r; done.
Qed.

(** [newFiltersForQuery] builds the encoding of the selection. *)
Lemma newFiltersForQuery_encode s c :
  newFiltersForQuery s c =
  match s ?? [], c ?? [] with
  | [], [] => JNull
  | ss, cs => encode (selection ss cs)
  end.
Proof.
  unfold selection.
  destruct s as [| |[|x ss]], c as [| |[|y cs]]; cbn -[map]; try done;
    unfold orNode; rewrite ?map_app, ?map_map, ?app_nil_r; done.
Qed.

(** The walker of kind [k] over the filter built from a selection. *)
Definition selected (k : leafKind) (s c : nullable (list jval)) : list jval :=
  match k with KStream => s ?? [] | KCategory => c ?? [] end.

Lemma walk_newFiltersForQuery k s c :
  filtersToSet (kindTag k) (kindKey k) (newFiltersForQuery s c) = Some (oset_of (selected k s c)).
Proof.
  rewrite newFiltersForQuery_encode. unfold selected.
  destruct (s ?? []) as [|x ss], (c ?? []) as [|y cs], k; try done;
    rewrite filtersToSet_encode;
    (rewrite leaves_selection_streams || rewrite leaves_selection_categories); done.
Qed.

(** C1. Round trip of the search bar's stream selection: reading the stream
    set back out of the filter built from any stream list and any category
    list gives exactly the streams, deduplicated in first-occurrence order.
    A nullish stream list gives the empty set. The categories never leak
    into the stream set. *)
Theorem filtersToStreamSet_newFiltersForQuery s c :
  filtersToStreamSet (newFiltersForQuery s c) = Some (oset_of (s ?? [])).
Proof. apply (walk_newFiltersForQuery KStream). Qed.

(** The same round trip for stream categories. *)
Theorem filtersToStreamCategorySet_newFiltersForQuery s c :
  filtersToStreamCategorySet (newFiltersForQuery s c) = Some (oset_of (c ?? [])).
Proof. apply (walk_newFiltersForQuery KCategory). Qed.

(** Error path of the walkers: a map node that is not a leaf of the
    walked kind and whose ["filters"] entry is neither a list nor a map
    (a string, a number, a boolean, [null], or an explicit [undefined])
    throws a TypeError. The default empty list applies only when the key
    is absent. *)
Theorem filtersToSet_throws tag key m v :
  mget_u "type" m <> JStr tag ->
  mget "filters" m = Some v ->
  match v with JList _ | JMap _ => False | _ => True end ->
  filtersToSet tag key (JMap m) = None.
Proof.
  intros Ht Hv Hk. rewrite filtersToSet_JMap, decide_False by done.
  rewrite Hv. by destruct v.
Qed.

Lemma filtersToSet_throws_witness :
  filtersToStreamSet (JMap [("type", JStr "or"); ("filters", JStr "s1")]) = None.
Proof.
  apply (filtersToSet_throws "stream" "id" _ (JStr "s1")); [discriminate | reflexivity | exact I].
Defined.

(** C12. Refinement of the stream walker by the abstract filter tree: on
    every well-formed filter tree (the encoding of an abstract and/or tree
    of stream and category leaves), [filtersToStreamSet] never throws. It
    returns the stream ids of the tree's stream leaves in left-to-right
    order, without duplicates. Category leaves and the and/or structure do
    not contribute. *)
Theorem filtersToStreamSet_refines f :
  filtersToStreamSet (encode f) = Some (oset_of (leaves KStream f)).
Proof. apply (filtersToSet_encode KStream). Qed.

End QueryFilters.
