(* ===== verification/Query.v ===== *)
(** * The Query value object (views/logic/queries/Query.ts, 141-323)

    [Query] is the record of the class's [InternalState]. The optional and
    possibly-missing fields are [nullable], because [Builder.build()] reads
    them out of an [Immutable.Map] in which a key never set is [undefined].
    [Builder] is the same record, and every setter returns a new one.
    [equals] is the class's structural comparison; [isDeepEqual]
    (stores/isDeepEqual, outside src/) is structural equality, as the spec
    describes it. [toJSON] / [fromJSON] convert to and from the wire record
    [QueryJson].

    The theorems show four things. The JSON round trip gives a query that
    [equals] the original. [toBuilder] then [build] is the identity.
    [equals] is an equivalence relation. The null/undefined tolerance of
    [equals] covers [filter] and [filters] but not [searchTypes]. *)

From S2P Require Import Prelude JsValue.
Set Warnings "-clear-no-such-hyp".

Module Query.

(** ** Time ranges (Query.ts 141-170) *)

Inductive TimeRangeTypes := TRRelative | TRAbsolute | TRKeyword.

(** One constructor per member of the [TimeRange] union. The shape of each
    member is fixed by its [type] tag, which is the spec's invariant. *)
Inductive TimeRange :=
| RelativeTimeRangeStartOnly (range : Z)
| RelativeTimeRangeWithEnd (from : Z) (to : nullable Z)
| AbsoluteTimeRange (from to : string)
| KeywordTimeRange (keyword : string) (from to timezone : nullable string).

#[export] Instance TimeRange_eq_dec : EqDecision TimeRange.
Proof. solve_decision. Defined.

(** The [type] discriminator of a time range. *)
Definition timeRangeType (t : TimeRange) : TimeRangeTypes :=
  match t with
  | RelativeTimeRangeStartOnly _ | RelativeTimeRangeWithEnd _ _ => TRRelative
  | AbsoluteTimeRange _ _ => TRAbsolute
  | KeywordTimeRange _ _ _ _ => TRKeyword
  end.

(** ** Query strings (Query.ts 52-55) *)

Record QueryString := mkQueryString { qs_type : string; query_string : nullable string }.

#[export] Instance QueryString_eq_dec : EqDecision QueryString.
Proof. solve_decision. Defined.

(** [(query = '') => ({ type: 'elasticsearch', query_string: query })]: the
    default parameter replaces [undefined] only; [null] is kept. *)
Definition createElasticsearchQueryString (query : nullable string) : QueryString :=
  {| qs_type := "elasticsearch";
     query_string := match query with Undefined => Val "" | q => q end |}.

(** ** The value object (Query.ts 176-281) *)

Record Query := mkQuery {
  q_id : nullable string;
  q_query : nullable QueryString;
  q_timerange : nullable TimeRange;
  q_filter : jval;
  q_filters : nullable (list jval);
  q_searchTypes : nullable (list jval)
}.

#[export] Instance Query_eq_dec : EqDecision Query.
Proof. solve_decision. Defined.

(** [new Query(id, query, timerange, filter, searchTypes, filters)]: note the
    argument order of the constructor, [searchTypes] before [filters]. *)
Definition newQuery (id : nullable string) (query : nullable QueryString)
    (timerange : nullable TimeRange) (filter : jval)
    (searchTypes : nullable (list jval)) (filters : nullable (list jval)) : Query :=
  {| q_id := id; q_query := query; q_timerange := timerange; q_filter := filter;
     q_filters := filters; q_searchTypes := searchTypes |}.

(** [isDeepEqual], structural equality. *)
Definition isDeepEqual {A} `{EqDecision A} (x y : A) : bool := bool_decide (x = y).

(** [isNullish] on a dynamic value. *)
Definition isNullishJ (v : jval) : bool :=
  match v with JUndef | JNull => true | _ => false end.

(** [equals(other)]: [false] for an [undefined] (or, through [instanceof],
    a [null]) argument. Otherwise all six fields are compared, and
    [filter] and [filters] accept [null] against [undefined]. *)
Definition equals (this : Query) (other : nullable Query) : bool :=
  match other with
  | Val other =>
      negb (negb (bool_decide (q_id this = q_id other))
            || negb (isDeepEqual (q_query this) (q_query other))
            || negb (isDeepEqual (q_timerange this) (q_timerange other))
            || negb ((isNullishJ (q_filter this) && isNullishJ (q_filter other))
                     || isDeepEqual (q_filter this) (q_filter other))
            || negb ((isNullish (q_filters this) && isNullish (q_filters other))
                     || isDeepEqual (q_filters this) (q_filters other))
            || negb (isDeepEqual (q_searchTypes this) (q_searchTypes other)))
  | _ => false
  end.

(** ** JSON (Query.ts 43-50, 251-280) *)

Record QueryJson := mkQueryJson {
  j_id : nullable string;
  j_query : nullable QueryString;
  j_timerange : nullable TimeRange;
  j_filter : jval;
  j_filters : nullable (list jval);
  j_search_types : nullable (list jval)
}.

(** [filters?.toArray()] turns a [null] list into [undefined]. *)
Definition toJSON (q : Query) : QueryJson :=
  {| j_id := q_id q; j_query := q_query q; j_timerange := q_timerange q;
     j_filter := q_filter q;
     j_filters := match q_filters q with Val l => Val l | _ => Undefined end;
     j_search_types := q_searchTypes q |}.

(** [Immutable.fromJS(filter)] is the identity on [jval], which already is
    the Immutable form. [filters ? Immutable.List(filters) : undefined]
    keeps a (possibly empty) array and maps [null] to [undefined]. *)
Definition fromJSON (value : QueryJson) : Query :=
  newQuery (j_id value) (j_query value) (j_timerange value) (j_filter value)
    (j_search_types value)
    (match j_filters value with Val l => Val l | _ => Undefined end).

(** ** The builder (Query.ts 283-323) *)

Record Builder := mkBuilder {
  b_id : nullable string;
  b_query : nullable QueryString;
  b_timerange : nullable TimeRange;
  b_filter : jval;
  b_filters : nullable (list jval);
  b_searchTypes : nullable (list jval)
}.

(** [new Builder()]: an empty map, every key unset. *)
Definition emptyBuilder : Builder :=
  {| b_id := Undefined; b_query := Undefined; b_timerange := Undefined;
     b_filter := JUndef; b_filters := Undefined; b_searchTypes := Undefined |}.

Definition set_id (value : nullable string) (b : Builder) : Builder :=
  {| b_id := value; b_query := b_query b; b_timerange := b_timerange b;
     b_filter := b_filter b; b_filters := b_filters b; b_searchTypes := b_searchTypes b |}.

(** [newId()] is [id(generateId())]; the generated id is an argument. *)
Definition newId (generated : string) (b : Builder) : Builder := set_id (Val generated) b.

Definition set_query (value : nullable QueryString) (b : Builder) : Builder :=
  {| b_id := b_id b; b_query := value; b_timerange := b_timerange b;
     b_filter := b_filter b; b_filters := b_filters b; b_searchTypes := b_searchTypes b |}.

Definition set_timerange (value : nullable TimeRange) (b : Builder) : Builder :=
  {| b_id := b_id b; b_query := b_query b; b_timerange := value;
     b_filter := b_filter b; b_filters := b_filters b; b_searchTypes := b_searchTypes b |}.

(** [filter(value)] stores [Immutable.fromJS(value)], the value itself. *)
Definition set_filter (value : jval) (b : Builder) : Builder :=
  {| b_id := b_id b; b_query := b_query b; b_timerange := b_timerange b;
     b_filter := value; b_filters := b_filters b; b_searchTypes := b_searchTypes b |}.

(** [value ? Immutable.List(value) : value] *)
Definition set_filters (value : nullable (list jval)) (b : Builder) : Builder :=
  {| b_id := b_id b; b_query := b_query b; b_timerange := b_timerange b;
     b_filter := b_filter b;
     b_filters := match value with Val l => Val l | v => v end;
     b_searchTypes := b_searchTypes b |}.

Definition set_searchTypes (value : nullable (list jval)) (b : Builder) : Builder :=
  {| b_id := b_id b; b_query := b_query b; b_timerange := b_timerange b;
     b_filter := b_filter b; b_filters := b_filters b; b_searchTypes := value |}.

Definition build (b : Builder) : Query :=
  newQuery (b_id b) (b_query b) (b_timerange b) (b_filter b) (b_searchTypes b) (b_filters b).

(** [Query.builder()] is [new Builder().searchTypes([])]. *)
Definition builder : Builder := set_searchTypes (Val []) emptyBuilder.

(** [toBuilder()]: the six setters, then the filter once more when it is
    truthy. *)
Definition toBuilder (q : Query) : Builder :=
  let b := set_searchTypes (q_searchTypes q)
             (set_filters (q_filters q)
               (set_filter (q_filter q)
                 (set_timerange (q_timerange q)
                   (set_query (q_query q) (set_id (q_id q) builder))))) in
  if truthy (q_filter q) then set_filter (q_filter q) b else b.

Lemma b_id_toBuilder q : b_id (toBuilder q) = q_id q.
Proof. unfold toBuilder. by destruct (truthy (q_filter q)). Qed.

(** ** What [equals] decides *)

(** Two optional values the code treats alike: equal, or both nullish. *)
Definition nullish_equiv {A} (x y : nullable A) : Prop :=
  x = y \/ (isNullish x = true /\ isNullish y = true).
Definition nullish_equivJ (x y : jval) : Prop :=
  x = y \/ (isNullishJ x = true /\ isNullishJ y = true).

Lemma nullish_equiv_sym {A} (x y : nullable A) : nullish_equiv x y -> nullish_equiv y x.
Proof. unfold nullish_equiv. intros [-> | [? ?]]; auto. Qed.

Lemma nullish_equiv_trans {A} (x y z : nullable A) :
  nullish_equiv x y -> nullish_equiv y z -> nullish_equiv x z.
Proof. unfold nullish_equiv. intros [-> | [? ?]] [<- | [? ?]]; auto. Qed.

Lemma nullish_equivJ_sym x y : nullish_equivJ x y -> nullish_equivJ y x.
Proof. unfold nullish_equivJ. intros [-> | [? ?]]; auto. Qed.

Lemma nullish_equivJ_trans x y z :
  nullish_equivJ x y -> nullish_equivJ y z -> nullish_equivJ x z.
Proof. unfold nullish_equivJ. intros [-> | [? ?]] [<- | [? ?]]; auto. Qed.

Lemma negb_or6 a b c d e f :
  negb (negb a || negb b || negb c || negb d || negb e || negb f) = a && b && c && d && e && f.
Proof. by destruct a, b, c, d, e, f. Qed.

Lemma equals_spec q1 q2 :
  equals q1 (Val q2) = true <->
  q_id q1 = q_id q2 /\ q_query q1 = q_query q2 /\ q_timerange q1 = q_timerange q2 /\
  nullish_equivJ (q_filter q1) (q_filter q2) /\
  nullish_equiv (q_filters q1) (q_filters q2) /\
  q_searchTypes q1 = q_searchTypes q2.
Proof.
  unfold equals, isDeepEqual, nullish_equiv, nullish_equivJ.
  rewrite negb_or6, !andb_true_iff, !orb_true_iff, !andb_true_iff, !bool_decide_eq_true.
  naive_solver.
Qed.

Definition query_equiv (q1 q2 : Query) : Prop := equals q1 (Val q2) = true.

Lemma query_equiv_refl q : query_equiv q q.
Proof. apply equals_spec. repeat split; by left. Qed.

Lemma query_equiv_sym q1 q2 : query_equiv q1 q2 -> query_equiv q2 q1.
Proof.
  unfold query_equiv. rewrite !equals_spec. intros (?&?&?&?&?&?).
  auto 10 using nullish_equiv_sym, nullish_equivJ_sym.
Qed.

Lemma query_equiv_trans q1 q2 q3 : query_equiv q1 q2 -> query_equiv q2 q3 -> query_equiv q1 q3.
Proof.
  unfold query_equiv. rewrite !equals_spec. intros (?&?&?&?&?&?) (?&?&?&?&?&?).
  repeat split; try congruence; eauto using nullish_equiv_trans, nullish_equivJ_trans.
Qed.

#[export] Instance query_equiv_Equivalence : Equivalence query_equiv :=
  Build_Equivalence _ query_equiv_refl query_equiv_sym query_equiv_trans.

(** ** Properties *)

(** C5. [Query.fromJSON(q.toJSON())] [equals] [q], for every query. This
    includes queries built without some of the required fields. *)
Theorem fromJSON_toJSON_equals q : equals (fromJSON (toJSON q)) (Val q) = true.
Proof.
  apply equals_spec. unfold nullish_equiv, nullish_equivJ.
  destruct q as [id qs tr f [| |fs] st]; simpl; naive_solver.
Qed.

(** The JSON round trip is exact except for one field: a [null]
    [filters] list comes back as [undefined]. This is why [equals] has to
    treat the two alike. *)
Theorem fromJSON_toJSON_exact q : fromJSON (toJSON q) = q <-> q_filters q <> Null.
Proof. destruct q as [id qs tr f [| |fs] st]; cbv [fromJSON toJSON newQuery]; simpl; split; intros; congruence. Qed.

(** [q.toBuilder().build()] is [q] itself, field by field. *)
Theorem toBuilder_build q : build (toBuilder q) = q.
Proof.
  destruct q as [id qs tr f fs st]; unfold toBuilder; simpl.
  destruct (truthy f); destruct fs; reflexivity.
Qed.

(** [equals] is an equivalence relation: it is reflexive, symmetric
    and transitive. So the search bar's "must the search be re-executed"
    test does not depend on the order of comparison. *)
Theorem equals_equivalence : Equivalence query_equiv.
Proof. split; [exact query_equiv_refl | exact query_equiv_sym | exact query_equiv_trans]. Qed.

(** The nullish tolerance of [equals] is asymmetric, as the spec's open
    question notes. Two queries that differ only in [filters] being [null]
    or [undefined] are equal. Two that differ only in [searchTypes] being
    [null] or [undefined] are not. *)
Theorem equals_nullish_asymmetry id qs tr f fs st :
  equals (mkQuery id qs tr f Null st) (Val (mkQuery id qs tr f Undefined st)) = true /\
  equals (mkQuery id qs tr f fs Null) (Val (mkQuery id qs tr f fs Undefined)) = false.
Proof.
  split.
  - apply equals_spec. unfold nullish_equiv, nullish_equivJ. naive_solver.
  - apply not_true_is_false. rewrite equals_spec. naive_solver.
Qed.

End Query.
