(* ===== verification/SearchBar.v ===== *)
(** * The search bar's submit decision (views/components/SearchBar.tsx, 95-145)

    [useInitialFormValues] fills the form from the current query. It reads
    the selected streams and categories out of the query's filter with the
    walkers of [Filters]. [defaultOnSubmit] rebuilds the query from the
    submitted form with [newFiltersForQuery] and
    [createElasticsearchQueryString], and compares it with the current
    query through [Query.equals]. It dispatches [updateQuery] when they
    differ and [executeActiveQuery] otherwise.

    The pluggable submit handler ([executePluggableSubmitHandler]) is a
    section variable. The plugin-provided initial values are taken to be
    empty. The form lists the stream and category sets in Immutable's
    iteration order ([iter_order]). The theorems show that submitting an
    unchanged form re-executes the search instead of updating the query
    exactly when that order is the filter's: always up to eight streams
    and eight categories, and past that only when the hash order keeps
    the filter's order. They also show that an update
    keeps the query's id and carries exactly the submitted stream
    selection. *)

From stdpp Require Import gmap.
From S2P Require Import Prelude JsValue Filters Query.
Set Warnings "-clear-no-such-hyp".

Module SearchBar.
Import QueryFilters Query.

Record SearchBarFormValues := mkFormValues {
  fv_timerange : nullable TimeRange;
  fv_streams : nullable (list jval);
  fv_streamCategories : nullable (list jval);
  fv_queryString : nullable string
}.

(** The effects of [defaultOnSubmit], in the order it performs them. *)
Inductive Action :=
| RestartAutoRefresh
| UpdateQuery (id : nullable string) (q : Query)
| ExecuteActiveQuery.

(** [useInitialFormValues({ currentQuery, queryFilters })]. The
    destructuring of [currentQuery ?? {}] gives [undefined] fields when
    there is no query. [queryFilters.get(id, Immutable.Map())] falls back
    to an empty map, which has no [type] and no [filters], so both sets are
    empty. [None] is a TypeError thrown by a walker. [.toJS()] lists each
    set in Immutable's iteration order ([iter_order]). *)
Definition useInitialFormValues `{HashOrder jval} (currentQuery : nullable Query)
    (queryFilters : gmap string jval) : option SearchBarFormValues :=
  let id := match currentQuery with Val q => q_id q | _ => Undefined end in
  let query := match currentQuery with Val q => q_query q | _ => Undefined end in
  let timerange := match currentQuery with Val q => q_timerange q | _ => Undefined end in
  let queryString := match query with Val qs => query_string qs | _ => Undefined end in
  let filter := match id with
                | Val i => match queryFilters !! i with Some f => f | None => JMap [] end
                | _ => JMap []
                end in
  match filtersToStreamSet filter, filtersToStreamCategorySet filter with
  | Some streams, Some streamCategories =>
      Some {| fv_timerange := timerange; fv_streams := Val (iter_order streams);
              fv_streamCategories := Val (iter_order streamCategories); fv_queryString := queryString |}
  | _, _ => None
  end.

Section Submit.
(** [executePluggableSubmitHandler(dispatch, values, controls, currentQuery)]:
    the query as the registered search-bar plugins leave it. *)
Variable executePluggableSubmitHandler : SearchBarFormValues -> Query -> Query.

(** The query that [defaultOnSubmit] builds from the submitted values. *)
Definition submittedQuery (values : SearchBarFormValues) (currentQuery : Query) : Query :=
  let queryWithPluginData := executePluggableSubmitHandler values currentQuery in
  build (set_query (Val (createElasticsearchQueryString (fv_queryString values)))
           (set_filter (newFiltersForQuery (fv_streams values) (fv_streamCategories values))
              (set_timerange (fv_timerange values) (toBuilder queryWithPluginData)))).

Definition defaultOnSubmit (values : SearchBarFormValues) (currentQuery : Query) : list Action :=
  let newQuery := submittedQuery values currentQuery in
  [RestartAutoRefresh;
   if negb (equals currentQuery (Val newQuery))
   then UpdateQuery (q_id newQuery) newQuery
   else ExecuteActiveQuery].
End Submit.

(** ** The rebuilt query, field by field *)

Lemma submittedQuery_eq h values q :
  submittedQuery h values q =
  mkQuery (q_id (h values q)) (Val (createElasticsearchQueryString (fv_queryString values)))
    (fv_timerange values)
    (newFiltersForQuery (fv_streams values) (fv_streamCategories values))
    (q_filters (h values q)) (q_searchTypes (h values q)).
Proof.
  unfold submittedQuery. destruct (h values q) as [id qs tr f fs st].
  unfold toBuilder; simpl. by destruct (truthy f), fs.
Qed.

(** The initial form values of a query whose filter is the one
    [newFiltersForQuery] builds from duplicate-free selections. *)
Lemma useInitialFormValues_built `{HashOrder jval} q id qs ss cs queryFilters :
  q_id q = Val id ->
  q_query q = Val qs ->
  q_filter q = newFiltersForQuery (Val ss) (Val cs) ->
  NoDup ss -> NoDup cs ->
  queryFilters !! id = Some (q_filter q) ->
  useInitialFormValues (Val q) queryFilters =
  Some (mkFormValues (q_timerange q) (Val (iter_order ss)) (Val (iter_order cs)) (query_string qs)).
Proof.
  intros Hid Hq Hf Hss Hcs Hlk. unfold useInitialFormValues.
  rewrite Hid, Hq, Hlk, Hf. unfold filtersToStreamSet, filtersToStreamCategorySet.
  rewrite (walk_newFiltersForQuery KStream), (walk_newFiltersForQuery KCategory); simpl.
  by rewrite !oset_of_NoDup.
Qed.

(** [defaultOnSubmit] re-executes exactly when the rebuilt query
    [equals] the current one. *)
Lemma defaultOnSubmit_executes h values q :
  defaultOnSubmit h values q = [RestartAutoRefresh; ExecuteActiveQuery] <->
  equals q (Val (submittedQuery h values q)) = true.
Proof.
  unfold defaultOnSubmit. destruct (equals _ _); simpl; split; congruence.
Qed.

(** A nullish filter holds no stream and no category. *)
Lemma filtersToSet_nullish tag key x : isNullishJ x = true -> filtersToSet tag key x = Some [].
Proof. by destruct x. Qed.

(** Filters built by [newFiltersForQuery] from duplicate-free selections
    are equal, or both nullish, exactly when the selections are equal. *)
Lemma newFiltersForQuery_equivJ ss cs ss' cs' :
  NoDup ss -> NoDup cs -> NoDup ss' -> NoDup cs' ->
  nullish_equivJ (newFiltersForQuery (Val ss) (Val cs)) (newFiltersForQuery (Val ss') (Val cs')) <->
  ss' = ss /\ cs' = cs.
Proof.
  intros Hs Hc Hs' Hc'. split; [|intros [-> ->]; by left].
  assert (forall k, nullish_equivJ (newFiltersForQuery (Val ss) (Val cs)) (newFiltersForQuery (Val ss') (Val cs')) ->
            oset_of (selected k (Val ss) (Val cs)) = oset_of (selected k (Val ss') (Val cs'))) as Hk.
  { intros k [E | [N1 N2]].
    - pose proof (walk_newFiltersForQuery k (Val ss) (Val cs)) as W. rewrite E, walk_newFiltersForQuery in W. congruence.
    - pose proof (walk_newFiltersForQuery k (Val ss) (Val cs)) as W1. pose proof (walk_newFiltersForQuery k (Val ss') (Val cs')) as W2.
      rewrite filtersToSet_nullish in W1, W2 by done. congruence. }
  intros E. pose proof (Hk KStream E) as E1. pose proof (Hk KCategory E) as E2. simpl in E1, E2.
  rewrite !oset_of_NoDup in E1, E2 by done. by subst.
Qed.

(** ** Properties *)

(** C10. Submitting the search bar unchanged re-executes the search, as
    long as the form lists the streams and categories in the order the
    filter holds them. The query must have an id, an Elasticsearch query
    string, and a filter built by [newFiltersForQuery] from duplicate-free
    stream and category lists. The filter map must hold that filter under
    the id, and the plugins must leave the query as it is. Then the form's
    initial values exist, and submitting them dispatches
    [executeActiveQuery] (after restarting the auto-refresh) exactly when
    each list has at most eight entries or Immutable's hash order keeps it
    as it is. Otherwise the reordered filter differs from the current one
    and the unchanged form dispatches [updateQuery]. *)
Theorem resubmit_unchanged_executes `{HashOrder jval} h q id s ss cs queryFilters :
  (forall v q', h v q' = q') ->
  q_id q = Val id ->
  q_query q = Val (mkQueryString "elasticsearch" (Val s)) ->
  q_filter q = newFiltersForQuery (Val ss) (Val cs) ->
  NoDup ss -> NoDup cs ->
  queryFilters !! id = Some (q_filter q) ->
  exists values, useInitialFormValues (Val q) queryFilters = Some values /\
    (defaultOnSubmit h values q = [RestartAutoRefresh; ExecuteActiveQuery] <->
     (length ss <= MAX_ARRAY_MAP_SIZE \/ hash_order ss = ss) /\
     (length cs <= MAX_ARRAY_MAP_SIZE \/ hash_order cs = cs)).
Proof.
  intros Hh Hid Hq Hf Hss Hcs Hlk.
  eexists; split; [by eapply useInitialFormValues_built|].
  rewrite defaultOnSubmit_executes, submittedQuery_eq, Hh, equals_spec, <- !iter_order_id.
  destruct q as [qi qq qt qf qfs qst]; simpl in *; subst.
  rewrite <- (newFiltersForQuery_equivJ ss cs (iter_order ss) (iter_order cs)) by auto with gl.
  split; [naive_solver|]. intros Hnf. repeat split; try done; by left.
Qed.

Lemma resubmit_unchanged_executes_witness :
  exists values,
    useInitialFormValues (H := {| hash_order := reverse; hash_order_perm := reverse_Permutation |})
      (Val (mkQuery (Val "q1") (Val (mkQueryString "elasticsearch" (Val "source:x")))
              (Val (RelativeTimeRangeStartOnly 300))
              (newFiltersForQuery (Val [JStr "s1"]) (Val [JStr "c1"])) Undefined (Val [])))
      {[ "q1" := newFiltersForQuery (Val [JStr "s1"]) (Val [JStr "c1"]) ]} = Some values /\
    (defaultOnSubmit (fun _ q => q) values
      (mkQuery (Val "q1") (Val (mkQueryString "elasticsearch" (Val "source:x")))
         (Val (RelativeTimeRangeStartOnly 300))
         (newFiltersForQuery (Val [JStr "s1"]) (Val [JStr "c1"])) Undefined (Val []))
    = [RestartAutoRefresh; ExecuteActiveQuery] <->
    (length [JStr "s1"] <= MAX_ARRAY_MAP_SIZE \/ reverse [JStr "s1"] = [JStr "s1"]) /\
    (length [JStr "c1"] <= MAX_ARRAY_MAP_SIZE \/ reverse [JStr "c1"] = [JStr "c1"])).
Proof.
  apply (resubmit_unchanged_executes (H := {| hash_order := reverse; hash_order_perm := reverse_Permutation |})
           (fun _ q => q) _ "q1" "source:x" [JStr "s1"] [JStr "c1"]);
    try reflexivity; apply NoDup_singleton.
Defined.

(** C11. When the submit updates the query, the update targets the current
    query's id. The plugins may change the query, but not its id. The
    updated query's filter holds exactly the submitted streams and the
    submitted categories, deduplicated. *)
Theorem submit_update_streams h values q id nq :
  (forall v q', q_id (h v q') = q_id q') ->
  defaultOnSubmit h values q = [RestartAutoRefresh; UpdateQuery id nq] ->
  id = q_id q /\
  filtersToStreamSet (q_filter nq) = Some (oset_of (fv_streams values ?? [])) /\
  filtersToStreamCategorySet (q_filter nq) =
    Some (oset_of (fv_streamCategories values ?? [])).
Proof.
  intros Hh Hsub. unfold defaultOnSubmit in Hsub. cbv zeta in Hsub.
  destruct (negb (equals q (Val (submittedQuery h values q)))); [|discriminate].
  injection Hsub as Hid Hnq. subst id nq.
  rewrite !submittedQuery_eq, b_id_toBuilder, Hh; cbn [q_filter].
  unfold filtersToStreamSet, filtersToStreamCategorySet.
  by rewrite (walk_newFiltersForQuery KStream), (walk_newFiltersForQuery KCategory).
Qed.

Lemma submit_update_streams_witness :
  let q := mkQuery (Val "q1") (Val (mkQueryString "elasticsearch" (Val ""))) Undefined JNull
             Undefined (Val []) in
  let values := mkFormValues Undefined (Val [JStr "s1"; JStr "s1"]) Undefined (Val "") in
  defaultOnSubmit (fun _ q => q) values q =
    [RestartAutoRefresh; UpdateQuery (Val "q1") (submittedQuery (fun _ q => q) values q)] /\
  (Val "q1" = q_id q /\
   filtersToStreamSet (q_filter (submittedQuery (fun _ q => q) values q)) =
     Some (oset_of (fv_streams values ?? [])) /\
   filtersToStreamCategorySet (q_filter (submittedQuery (fun _ q => q) values q)) =
     Some (oset_of (fv_streamCategories values ?? []))).
Proof.
  intros q values. split; [vm_compute; reflexivity|].
  apply (submit_update_streams (fun _ q => q) values q); [reflexivity | vm_compute; reflexivity].
Defined.

End SearchBar.
