(* ===== verification/Uri.v ===== *)
(** * The part of urijs that Routes.ts uses

    routing/Routes.ts qualifies paths with [new URI(url)], [uri.directory()],
    [uri.directory(v)], [uri.normalizePath()] and [uri.resource()]. This
    file models these operations on URLs without a scheme or an authority,
    which are the only URLs the route table produces. [parse] returns [None] for any other URL. The
    model follows the library's source (URI.js 1.19): the regular
    expressions of [normalizePath] are written out as character automata
    and loops. Percent-encoding ([URI.recodePath]) is the section variable
    [recodePath]. The theorems that need it assume only that it leaves
    strings of URL-safe characters unchanged. The plugin routes'
    [uri.segment()] is modelled in [PluginRoutes]. *)

From S2P Require Import Prelude.
From Stdlib Require Import Ascii.
Set Warnings "-clear-no-such-hyp".

Module Uri.

Local Open Scope string_scope.

(** ** Characters and small string operations *)

Definition is_char (c d : ascii) : bool := Ascii.eqb c d.

Fixpoint has_char (c : ascii) (s : string) : bool :=
  match s with
  | EmptyString => false
  | String d s' => is_char c d || has_char c s'
  end.

(** [s.indexOf(c)] split: the text before and after the first [c]. *)
Fixpoint split_first (c : ascii) (s : string) : option (string * string) :=
  match s with
  | EmptyString => None
  | String d s' =>
      if is_char c d then Some (EmptyString, s')
      else match split_first c s' with
           | Some (a, b) => Some (String d a, b)
           | None => None
           end
  end.

(** [s.substring(0, n)] and [s.substring(n)] *)
Fixpoint str_take (n : nat) (s : string) : string :=
  match n, s with
  | O, _ | _, EmptyString => EmptyString
  | S n', String c s' => String c (str_take n' s')
  end.

Fixpoint str_drop (n : nat) (s : string) : string :=
  match n, s with
  | O, _ => s
  | _, EmptyString => EmptyString
  | S n', String _ s' => str_drop n' s'
  end.

(** [s.substring(pos + 1)] for [pos = s.lastIndexOf('/')], or [s] when
    there is no slash. *)
Fixpoint after_last_slash (s : string) : string :=
  match s with
  | EmptyString => EmptyString
  | String c s' =>
      if has_char "/"%char s' then after_last_slash s'
      else if is_char c "/"%char then s' else s
  end.

(** [s.lastIndexOf('/')], [None] for -1. *)
Fixpoint last_slash_index (s : string) : option nat :=
  match s with
  | EmptyString => None
  | String c s' =>
      match last_slash_index s' with
      | Some i => Some (S i)
      | None => if is_char c "/"%char then Some O else None
      end
  end.

Definition ends_with_char (c : ascii) (s : string) : bool :=
  match String.length s with
  | O => false
  | S n => match String.get n s with Some d => is_char c d | None => false end
  end.

(** [s.slice(-t.length) === t] *)
Definition ends_with (t s : string) : bool :=
  Nat.leb (String.length t) (String.length s)
  && String.eqb (str_drop (String.length s - String.length t) s) t.

Definition starts_with_char (c : ascii) (s : string) : bool :=
  match s with String d _ => is_char c d | EmptyString => false end.

(** [substring || null] *)
Definition nonempty (s : string) : option string :=
  match s with EmptyString => None | _ => Some s end.

(** ** Parsed URLs *)

Record uri := mkUri { path : string; query : option string; fragment : option string }.

Definition is_slash_or_backslash (c : ascii) : bool := is_char c "/"%char || is_char c "\"%char.

(** The inputs [URI.parse] keeps entirely as a path. A leading pair of
    slashes or backslashes starts an authority. A colon outside a leading
    [/]-path may start a scheme or a URN. *)
Definition path_only (p : string) : bool :=
  match p with
  | String c (String d _) =>
      negb (is_slash_or_backslash c && is_slash_or_backslash d)
      && (is_char c "/"%char || negb (has_char ":"%char p))
  | _ => negb (has_char ":"%char p)
  end.

(** [new URI(string)]: the fragment after the first [#], then the query
    after the first [?], then the path. *)
Definition parse (s : string) : option uri :=
  let '(rest, frag) := match split_first "#"%char s with
                       | Some (a, b) => (a, nonempty b)
                       | None => (s, None)
                       end in
  let '(p, q) := match split_first "?"%char rest with
                 | Some (a, b) => (a, nonempty b)
                 | None => (rest, None)
                 end in
  if path_only p then Some (mkUri p q frag) else None.

(** [uri.resource()]: path, [?query], [#fragment]. *)
Definition resource (u : uri) : string :=
  path u ++ match query u with Some q => "?" ++ q | None => "" end
         ++ match fragment u with Some f => "#" ++ f | None => "" end.

(** [uri.filename()] *)
Definition filename (u : uri) : string :=
  match path u with
  | EmptyString => EmptyString
  | p => if String.eqb p "/" then EmptyString else after_last_slash p
  end.

(** [uri.directory()] on a URL without a host. *)
Definition directory (u : uri) : string :=
  match path u with
  | EmptyString => EmptyString
  | p => if String.eqb p "/" then "/"
         else str_take (String.length p - String.length (filename u) - 1) p
  end.

(** [String.prototype.replace] with a string replacement: [$$], [$&],
    [$`] and [$'] are expanded; the regex of [directory(v)] has no groups,
    so other [$] sequences stay literal. *)
Fixpoint expand_replacement (v matched before after : string) : string :=
  match v with
  | EmptyString => EmptyString
  | String c v' =>
      if is_char c "$"%char then
        match v' with
        | String d v'' =>
            if is_char d "$"%char then String "$"%char (expand_replacement v'' matched before after)
            else if is_char d "&"%char then matched ++ expand_replacement v'' matched before after
            else if is_char d "`"%char then before ++ expand_replacement v'' matched before after
            else if is_char d "'"%char then after ++ expand_replacement v'' matched before after
            else String c (expand_replacement v' matched before after)
        | EmptyString => String c EmptyString
        end
      else String c (expand_replacement v' matched before after)
  end.

Section WithRecode.

(** [URI.recodePath]: decode and re-encode every path segment. *)
Variable recodePath : string -> string.

(** [uri.directory(v)] on a URL without a host: a non-empty [v] gets a
    trailing slash, is re-encoded, and replaces the current directory
    prefix ([path.replace(/^directory/, v)]). *)
Definition set_directory (v : string) (u : uri) : uri :=
  let e := String.length (path u) - String.length (filename u) in
  let dir := str_take e (path u) in
  let v1 := match v with
            | EmptyString => v
            | _ => if ends_with_char "/"%char v then v else v ++ "/"
            end in
  let v2 := recodePath v1 in
  mkUri (expand_replacement v2 dir "" (str_drop e (path u)) ++ str_drop e (path u))
    (query u) (fragment u).

(** [.replace(/(\/(\.\/)+)|(\/\.$)/g, '/')] as an automaton: [RSNormal]
    outside a match, [RSSlash] just after a [/], [RSSlashDot] after [/.],
    [RSMatched] after [/./] (possibly repeated) and [RSMatchedDot] after a
    further [.]. Each state says what has been emitted: the slash that
    starts a candidate match is emitted at once, since both alternatives
    replace the match by a single [/]. *)
Inductive rs_state := RSNormal | RSSlash | RSSlashDot | RSMatched | RSMatchedDot.

Definition rs_normal_step (c : ascii) : string * rs_state :=
  if is_char c "/"%char then ("/", RSSlash) else (String c EmptyString, RSNormal).

Fixpoint resolve_simples_from (st : rs_state) (s : string) : string :=
  match s with
  | EmptyString =>
      match st with
      | RSSlashDot => EmptyString          (* "/." at the end: the [/] stands *)
      | RSMatchedDot => "."                (* the match ended before this dot *)
      | _ => EmptyString
      end
  | String c s' =>
      match st with
      | RSNormal | RSSlash | RSMatched =>
          if is_char c "."%char && (match st with RSNormal => false | _ => true end)
          then resolve_simples_from
                 (match st with RSSlash => RSSlashDot | _ => RSMatchedDot end) s'
          else let '(out, st') := rs_normal_step c in out ++ resolve_simples_from st' s'
      | RSSlashDot | RSMatchedDot =>
          if is_char c "/"%char then resolve_simples_from RSMatched s'
          else let '(out, st') := rs_normal_step c in
               String "."%char (out ++ resolve_simples_from st' s')
      end
  end.

Definition resolve_simples (s : string) : string := resolve_simples_from RSNormal s.

(** [.replace(/\/{2,}/g, '/')] *)
Fixpoint collapse_slashes (s : string) : string :=
  match s with
  | EmptyString => EmptyString
  | String c s' =>
      if is_char c "/"%char && starts_with_char "/"%char s' then collapse_slashes s'
      else String c (collapse_slashes s')
  end.

(** [.match(/^(\.\.\/)+/)]: the leading run of [../]. *)
Fixpoint leading_parents (s : string) : string :=
  match s with
  | String "."%char (String "."%char (String "/"%char s')) => "../" ++ leading_parents s'
  | _ => EmptyString
  end.

(** Whether [/\/\.\.(\/|$)/] matches at the start of [s]. *)
Definition parent_at (s : string) : bool :=
  match s with
  | String c1 (String c2 (String c3 r)) =>
      is_char c1 "/"%char && is_char c2 "."%char && is_char c3 "."%char
      && match r with EmptyString => true | String c4 _ => is_char c4 "/"%char end
  | _ => false
  end.

(** [.search(/\/\.\.(\/|$)/)] *)
Fixpoint find_parent (s : string) : option nat :=
  match s with
  | EmptyString => None
  | String c s' => if parent_at s then Some O else option_map S (find_parent s')
  end.

(** The [while (true)] loop that resolves [/..] segments. Every round
    removes at least three characters, so [String.length s + 1] rounds
    suffice ([UriPaths.resolve_parents_enough]). *)
Fixpoint resolve_parents (fuel : nat) (s : string) : string :=
  match fuel with
  | O => s
  | S fuel' =>
      match find_parent s with
      | None => s
      | Some O => resolve_parents fuel' (str_drop 3 s)
      | Some parent =>
          let pos := match last_slash_index (str_take parent s) with
                     | Some p => p
                     | None => parent
                     end in
          resolve_parents fuel' (str_take pos s ++ str_drop (parent + 3) s)
      end
  end.

(** [uri.normalizePath()] on a URL without a host. *)
Definition normalizePath (u : uri) : uri :=
  match path u with
  | EmptyString => u
  | p =>
      if String.eqb p "/" then u else
      let p1 := recodePath p in
      let was_relative := negb (starts_with_char "/"%char p1) in
      let p2 := if was_relative then "/" ++ p1 else p1 in
      let p3 := if ends_with "/.." p2 || ends_with "/." p2 then p2 ++ "/" else p2 in
      let p4 := collapse_slashes (resolve_simples p3) in
      let leading := if was_relative then leading_parents (str_drop 1 p4) else "" in
      let p5 := resolve_parents (S (String.length p4)) p4 in
      mkUri (if was_relative then leading ++ str_drop 1 p5 else p5) (query u) (fragment u)
  end.

End WithRecode.

End Uri.
