(* ===== verification/UriPaths.v ===== *)
(** * What urijs does to clean absolute paths

    The route table is written with absolute paths whose segments use only
    URL-safe characters ([A-Za-z0-9], [-], [.], [_], [~]) and are never
    [.] or [..]. This file characterises such paths ([abs_path] of a list
    of [clean_seg]s, recognised by [clean_path]) and proves the
    operations of [Uri] on them:
    - [parse] splits off the query and fragment exactly;
    - [filename] is the last segment and [directory] the rest;
    - [set_directory] replaces the directory;
    - [normalizePath] only collapses doubled slashes.
    The last fact rests on three lemmas about the steps of [normalizePath]:
    the [/./] automaton, the [//] collapse and the search for [/..]. *)

From S2P Require Import Prelude Uri.
From Stdlib Require Import Ascii.
Set Warnings "-clear-no-such-hyp".

Module UriPaths.
Import Uri.

Local Open Scope string_scope.
#[local] Arguments String.append : simpl nomatch.
#[local] Arguments is_char : simpl never.
#[local] Arguments parent_at : simpl never.

(** ** Clean segments and paths *)

Definition in_range (lo hi : nat) (c : ascii) : bool :=
  Nat.leb lo (nat_of_ascii c) && Nat.leb (nat_of_ascii c) hi.

(** The unreserved characters of RFC 3986, which [URI.recodePath] leaves
    as they are. *)
Definition url_safe_char (c : ascii) : bool :=
  in_range 48 57 c || in_range 65 90 c || in_range 97 122 c || has_char c "-._~".

Definition path_char (c : ascii) : bool := url_safe_char c || is_char c "/"%char.

Fixpoint all_chars (p : ascii -> bool) (s : string) : bool :=
  match s with
  | EmptyString => true
  | String c s' => p c && all_chars p s'
  end.

(** A segment that path normalisation must keep: safe characters only,
    and neither [.] nor [..]. The empty segment is allowed here: it stands
    for a doubled slash. *)
Definition seg_ok (s : string) : bool :=
  all_chars url_safe_char s && negb (String.eqb s ".") && negb (String.eqb s "..").

Definition clean_seg (s : string) : bool := seg_ok s && negb (String.eqb s "").

(** ["/" + segs.join("/")] *)
Fixpoint abs_path (segs : list string) : string :=
  match segs with
  | [] => ""
  | s :: segs' => "/" ++ s ++ abs_path segs'
  end.

(** [s.split('/')] *)
Fixpoint split_slash (s : string) : list string :=
  match s with
  | EmptyString => [""]
  | String c s' =>
      if is_char c "/"%char then "" :: split_slash s'
      else match split_slash s' with
           | x :: xs => String c x :: xs
           | [] => [String c ""]
           end
  end.

(** An absolute path of clean segments. *)
Definition clean_path (s : string) : bool :=
  match s with
  | String c r => is_char c "/"%char && forallb clean_seg (split_slash r)
  | EmptyString => false
  end.

(** What [resource()] appends to the path. *)
Definition opt_pre (c : ascii) (o : option string) : string :=
  match o with Some s => String c s | None => "" end.

Definition tail (q f : option string) : string := opt_pre "?"%char q ++ opt_pre "#"%char f.

(** A query and a fragment that [parse] gives back: non-empty, and no
    [#] in the query. *)
Definition query_ok (q : option string) : bool :=
  match q with Some s => negb (String.eqb s "") && negb (has_char "#"%char s) | None => true end.

Definition fragment_ok (f : option string) : bool :=
  match f with Some s => negb (String.eqb s "") | None => true end.

(** The hypothesis on [URI.recodePath]: strings of path characters are
    left as they are. *)
Definition recode_safe (recodePath : string -> string) : Prop :=
  forall s, all_chars path_char s = true -> recodePath s = s.

(** ** Strings *)

Lemma sapp_assoc (a b c : string) : (a ++ b) ++ c = a ++ (b ++ c).
Proof. induction a; simpl; congruence. Qed.

Lemma sapp_nil_r (a : string) : a ++ "" = a.
Proof. induction a; simpl; congruence. Qed.

Lemma is_char_spec c d : is_char c d = true <-> c = d.
Proof. apply Ascii.eqb_eq. Qed.

Lemma is_char_refl c : is_char c c = true.
Proof. apply Ascii.eqb_refl. Qed.

Lemma is_char_sym c d : is_char c d = is_char d c.
Proof. apply Ascii.eqb_sym. Qed.

Lemma has_char_app c a b : has_char c (a ++ b) = has_char c a || has_char c b.
Proof. induction a; simpl; [done|]. by rewrite IHa, orb_assoc. Qed.

Lemma all_chars_app p a b : all_chars p (a ++ b) = all_chars p a && all_chars p b.
Proof. induction a; simpl; [done|]. by rewrite IHa, andb_assoc. Qed.

(** A character that [p] rejects is absent from a string of [p]-characters. *)
Lemma all_chars_has_char p d s :
  all_chars p s = true -> p d = false -> has_char d s = false.
Proof.
  induction s as [|c s IH]; simpl; [done|]. intros [Hc Hs]%andb_prop Hd.
  rewrite IH by done. destruct (is_char d c) eqn:E; [|done].
  apply is_char_spec in E; subst; congruence.
Qed.

Lemma all_chars_impl (p p' : ascii -> bool) s :
  (forall c, p c = true -> p' c = true) -> all_chars p s = true -> all_chars p' s = true.
Proof.
  intros H. induction s; simpl; [done|]. intros [? ?]%andb_prop. by rewrite H, IHs.
Qed.

Lemma safe_path_char c : url_safe_char c = true -> path_char c = true.
Proof. unfold path_char. by intros ->. Qed.

Lemma split_first_absent c s : has_char c s = false -> split_first c s = None.
Proof.
  induction s as [|d s IH]; simpl; [done|]. intros [Hd Hs]%orb_false_elim.
  by rewrite Hd, IH.
Qed.

Lemma split_first_app c a b :
  has_char c a = false ->
  split_first c (a ++ b) = option_map (fun '(x, y) => (a ++ x, y)) (split_first c b).
Proof.
  induction a as [|d a IH]; simpl; intros H.
  - by destruct (split_first c b) as [[]|].
  - apply orb_false_elim in H as [Hd Ha]. rewrite Hd, IH by done.
    by destruct (split_first c b) as [[]|].
Qed.

Lemma split_first_here c s : split_first c (String c s) = Some ("", s).
Proof. simpl. by rewrite is_char_refl. Qed.

(** [s.substring] at the length of a prefix. *)
Lemma str_take_app a b : str_take (String.length a) (a ++ b) = a.
Proof. induction a; simpl; [by destruct b|]. by rewrite IHa. Qed.

Lemma str_drop_app a b : str_drop (String.length a) (a ++ b) = b.
Proof. induction a; simpl; [by destruct b|]. done. Qed.

Lemma str_take_drop n s : str_take n s ++ str_drop n s = s.
Proof.
  revert s; induction n as [|n IH]; intros [|c s]; simpl; auto. by rewrite IH.
Qed.

(** Rewrite with a hypothesis [is_char c d = false], in either orientation. *)
Ltac char_false H :=
  rewrite ?H; rewrite is_char_sym in H; rewrite ?H; rewrite is_char_sym in H.

#[export] Hint Rewrite sapp_assoc sapp_nil_r slength_app has_char_app all_chars_app
  str_take_app str_drop_app : gl_rw.

(** ** Clean paths *)

Lemma seg_ok_chars s : seg_ok s = true -> all_chars url_safe_char s = true.
Proof. unfold seg_ok. by intros [[? _]%andb_prop _]%andb_prop. Qed.

Lemma clean_seg_ok s : clean_seg s = true -> seg_ok s = true.
Proof. unfold clean_seg. by intros [? _]%andb_prop. Qed.

Lemma clean_seg_ne s : clean_seg s = true -> s <> "".
Proof. unfold clean_seg. intros [_ H]%andb_prop ->. discriminate. Qed.

(** A safe segment holds no [/], [?], [#], [$] nor [\]. *)
Lemma seg_ok_no_char s d : seg_ok s = true -> url_safe_char d = false -> has_char d s = false.
Proof. intros H. apply all_chars_has_char, seg_ok_chars, H. Qed.

Lemma abs_path_app l1 l2 : abs_path (l1 ++ l2) = abs_path l1 ++ abs_path l2.
Proof. induction l1; simpl; [done|]. by rewrite IHl1, !sapp_assoc. Qed.

Lemma abs_path_chars segs :
  forallb seg_ok segs = true -> all_chars path_char (abs_path segs) = true.
Proof.
  induction segs as [|s segs IH]; simpl; [done|]. intros [Hs Hsegs]%andb_prop.
  rewrite all_chars_app, IH by done. rewrite andb_true_r.
  eapply all_chars_impl; [apply safe_path_char|]. by apply seg_ok_chars.
Qed.

Lemma abs_path_no_char segs d :
  forallb seg_ok segs = true -> path_char d = false -> has_char d (abs_path segs) = false.
Proof. intros. apply (all_chars_has_char path_char); [by apply abs_path_chars|done]. Qed.

Lemma clean_seg_forallb segs : forallb clean_seg segs = true -> forallb seg_ok segs = true.
Proof.
  induction segs; simpl; [done|]. intros [?%clean_seg_ok ?]%andb_prop.
  apply andb_true_intro; auto.
Qed.

(** [("/" + r).split('/')] joined back is the string: the split is a
    round trip. *)
Lemma split_slash_ne r : split_slash r <> [].
Proof.
  induction r as [|c r IH]; simpl; [done|].
  destruct (is_char c "/"); [done|]. by destruct (split_slash r).
Qed.

Lemma abs_path_split_slash r : abs_path (split_slash r) = "/" ++ r.
Proof.
  induction r as [|c r IH]; simpl; [done|].
  destruct (is_char c "/") eqn:E; simpl.
  - apply is_char_spec in E as ->. by rewrite IH.
  - destruct (split_slash r) as [|x xs]; [done|]. simpl in *. by injection IH as ->.
Qed.

Lemma clean_path_spec s :
  clean_path s = true ->
  exists segs, s = abs_path segs /\ segs <> [] /\ forallb clean_seg segs = true.
Proof.
  destruct s as [|c r]; [done|]. simpl. intros [Hc Hr]%andb_prop.
  apply is_char_spec in Hc as ->. exists (split_slash r).
  split; [by rewrite abs_path_split_slash|]. split; [apply split_slash_ne|done].
Qed.

Lemma nonempty_ne s : s <> "" -> nonempty s = Some s.
Proof. by destruct s. Qed.

Lemma path_only_abs s segs :
  clean_seg s = true -> path_only (abs_path (s :: segs)) = true.
Proof.
  intros Hs. pose proof (clean_seg_ne s Hs) as Hne.
  apply clean_seg_ok, seg_ok_chars in Hs. destruct s as [|c s']; [done|].
  simpl in Hs |- *. apply andb_prop in Hs as [Hc _].
  unfold is_slash_or_backslash.
  rewrite (is_char_sym c), (is_char_sym c).
  destruct (is_char "/" c) eqn:E1; [apply is_char_spec in E1; by subst|].
  destruct (is_char "\" c) eqn:E2; [apply is_char_spec in E2; by subst|]. done.
Qed.

(** [new URI(path + tail)] gives the path, query and fragment back. *)
Lemma parse_clean segs q f :
  segs <> [] -> forallb clean_seg segs = true -> query_ok q = true -> fragment_ok f = true ->
  parse (abs_path segs ++ tail q f) = Some (mkUri (abs_path segs) q f).
Proof.
  intros Hne Hc Hq Hf. pose proof (clean_seg_forallb _ Hc) as Hok.
  assert (Hpath : path_only (abs_path segs) = true).
  { destruct segs as [|s segs]; [done|]. simpl in Hc; apply andb_prop in Hc as [Hs _].
    by apply path_only_abs. }
  assert (Hnq : has_char "#" (abs_path segs ++ opt_pre "?" q) = false).
  { rewrite has_char_app, abs_path_no_char by done.
    destruct q as [q|]; simpl in *; [|done].
    apply andb_prop in Hq as [_ Hq]. by apply negb_true_iff in Hq. }
  unfold parse, tail. rewrite <- sapp_assoc.
  assert (Hsplit : match split_first "#" ((abs_path segs ++ opt_pre "?" q) ++ opt_pre "#" f) with
                   | Some (a, b) => (a, nonempty b)
                   | None => ((abs_path segs ++ opt_pre "?" q) ++ opt_pre "#" f, None)
                   end = (abs_path segs ++ opt_pre "?" q, f)).
  { destruct f as [f|]; simpl.
    - rewrite split_first_app, split_first_here by done. simpl.
      rewrite sapp_nil_r, nonempty_ne; [done|]. intros ->. done.
    - by rewrite sapp_nil_r, split_first_absent. }
  rewrite Hsplit. clear Hsplit.
  destruct q as [q|]; simpl.
  - rewrite split_first_app, split_first_here by (apply abs_path_no_char; done).
    simpl. rewrite sapp_nil_r, nonempty_ne, Hpath; [done|].
    simpl in Hq. apply andb_prop in Hq as [Hq _]. intros ->. done.
  - rewrite sapp_nil_r, split_first_absent, Hpath by (apply abs_path_no_char; done). done.
Qed.

(** ** Filename and directory *)

Lemma abs_path_snoc l x : abs_path (l ++ [x]) = abs_path l ++ "/" ++ x.
Proof. by rewrite abs_path_app; simpl; rewrite sapp_nil_r. Qed.

Lemma after_last_slash_app a l :
  has_char "/" l = false -> after_last_slash (a ++ "/" ++ l) = l.
Proof.
  intros Hl. induction a as [|c a IH]; simpl.
  - by rewrite Hl.
  - rewrite has_char_app. simpl. by rewrite orb_true_r.
Qed.

Lemma string_snoc s : s <> "" -> exists s' c, s = s' ++ String c "".
Proof.
  induction s as [|c s IH]; [done|]. intros _. destruct s as [|d s].
  - by exists "", c.
  - destruct IH as (s' & e & ->); [done|]. by exists (String c s'), e.
Qed.

Lemma slength_ne a b : String.length a <> String.length b -> String.eqb a b = false.
Proof. intros H. apply String.eqb_neq. by intros ->. Qed.

(** The path of a clean file [l] under a directory [a]. *)
Section File.
Context (a l : string) (q f : option string).
Hypothesis Hl : clean_seg l = true.

Lemma file_no_slash : has_char "/" l = false.
Proof. apply seg_ok_no_char; [by apply clean_seg_ok|done]. Qed.

Lemma file_path_shape : exists c r, a ++ "/" ++ l = String c r /\ String.eqb (String c r) "/" = false.
Proof.
  destruct (a ++ "/" ++ l) as [|c r] eqn:E.
  { by destruct a. }
  exists c, r. split; [done|]. rewrite <- E. apply slength_ne. rewrite !slength_app.
  simpl. pose proof (clean_seg_ne l Hl). destruct l; simpl; [done|lia].
Qed.

Lemma filename_file : filename (mkUri (a ++ "/" ++ l) q f) = l.
Proof.
  unfold filename; cbn [path]. destruct file_path_shape as (c & r & E & Hne).
  rewrite E, Hne, <- E. apply after_last_slash_app, file_no_slash.
Qed.

Lemma directory_file : directory (mkUri (a ++ "/" ++ l) q f) = a.
Proof.
  unfold directory. rewrite filename_file; cbn [path].
  destruct file_path_shape as (c & r & E & Hne). rewrite E, Hne, <- E.
  rewrite !slength_app; simpl.
  replace (String.length a + S (String.length l) - String.length l - 1) with (String.length a)
    by lia. apply str_take_app.
Qed.

End File.

(** ** Setting the directory *)

Lemma expand_replacement_plain v m b a :
  has_char "$" v = false -> expand_replacement v m b a = v.
Proof.
  induction v as [|c v IH]; simpl; [done|]. intros [Hc Hv]%orb_false_elim.
  rewrite is_char_sym, Hc. by rewrite IH.
Qed.

Lemma get_snoc s c : String.get (String.length s) (s ++ String c "") = Some c.
Proof. induction s; simpl; auto. Qed.

Lemma ends_with_char_snoc d s c : ends_with_char d (s ++ String c "") = is_char d c.
Proof.
  unfold ends_with_char. rewrite slength_app, Nat.add_1_r, get_snoc. done.
Qed.

Lemma ends_with_char_app d a b : b <> "" -> ends_with_char d (a ++ b) = ends_with_char d b.
Proof.
  intros Hb. destruct (string_snoc b Hb) as (b' & c & ->).
  by rewrite <- sapp_assoc, !ends_with_char_snoc.
Qed.

(** A clean segment does not end with a slash. *)
Lemma ends_with_char_clean d s :
  clean_seg s = true -> url_safe_char d = false -> ends_with_char d s = false.
Proof.
  intros Hs Hd. destruct (string_snoc s (clean_seg_ne s Hs)) as (s' & c & ->).
  rewrite ends_with_char_snoc. apply clean_seg_ok, seg_ok_no_char with (d := d) in Hs; [|done].
  rewrite has_char_app in Hs. simpl in Hs. apply orb_false_elim in Hs as [_ Hs].
  by apply orb_false_elim in Hs as [-> _].
Qed.

(** [uri.directory(v)] on the path [a/l]: [v], completed with a slash, in
    front of [l]. *)
Lemma set_directory_file rp v a l q f :
  recode_safe rp -> clean_seg l = true -> v <> "" -> all_chars path_char v = true ->
  set_directory rp v (mkUri (a ++ "/" ++ l) q f) =
  mkUri ((if ends_with_char "/" v then v else v ++ "/") ++ l) q f.
Proof.
  intros Hrp Hl Hv Hc. unfold set_directory. rewrite filename_file by done. cbn [path query fragment].
  replace (String.length (a ++ "/" ++ l) - String.length l) with (String.length (a ++ "/"))
    by (rewrite !slength_app; simpl; lia).
  rewrite <- sapp_assoc, str_take_app, str_drop_app.
  assert (Hv1 : all_chars path_char (if ends_with_char "/" v then v else v ++ "/") = true).
  { destruct (ends_with_char "/" v); [done|]. by rewrite all_chars_app, Hc. }
  assert (Hm : match v with "" => v | String _ _ => if ends_with_char "/" v then v else v ++ "/" end
               = if ends_with_char "/" v then v else v ++ "/") by (by destruct v).
  rewrite Hm, Hrp, expand_replacement_plain by (done || by eapply all_chars_has_char). done.
Qed.

(** ** Normalisation of clean paths *)

Definition nonemptyb (s : string) : bool := negb (String.eqb s "").

(** The [/./] automaton copies a slash-free run in its normal state. *)
Lemma rs_normal_run s r :
  has_char "/" s = false ->
  resolve_simples_from RSNormal (s ++ r) = s ++ resolve_simples_from RSNormal r.
Proof.
  induction s as [|c s IH]; simpl; [done|]. intros [Hc Hs]%orb_false_elim.
  rewrite andb_false_r. unfold rs_normal_step. rewrite is_char_sym, Hc. simpl. by rewrite IH.
Qed.

(** After a slash it copies a safe segment other than [.] and [..]. *)
Lemma rs_slash_seg s r :
  seg_ok s = true -> s <> "" ->
  resolve_simples_from RSSlash (s ++ r) = s ++ resolve_simples_from RSNormal r.
Proof.
  intros Hs Hne. pose proof (seg_ok_no_char s "/" Hs eq_refl) as Hsl.
  destruct s as [|c s]; [done|]. simpl in Hsl |- *. apply orb_false_elim in Hsl as [Hc Hsl].
  unfold rs_normal_step. rewrite (is_char_sym c "/"), Hc, andb_true_r.
  destruct (is_char c ".") eqn:Hdot; simpl.
  - apply is_char_spec in Hdot as ->. destruct s as [|d s].
    { unfold seg_ok in Hs. by rewrite andb_false_r in Hs. }
    simpl in Hsl |- *. apply orb_false_elim in Hsl as [Hd Hsl].
    unfold rs_normal_step. rewrite (is_char_sym d "/"), Hd. simpl. by rewrite rs_normal_run.
  - by rewrite rs_normal_run.
Qed.

Lemma rs_abs_path segs st :
  forallb seg_ok segs = true -> st = RSNormal \/ st = RSSlash ->
  resolve_simples_from st (abs_path segs) = abs_path segs.
Proof.
  revert st. induction segs as [|s segs IH]; intros st Hok Hst.
  { by destruct Hst as [-> | ->]. }
  simpl in Hok. apply andb_prop in Hok as [Hs Hok].
  assert (Hstep : resolve_simples_from st (String "/" (s ++ abs_path segs))
                  = String "/" (resolve_simples_from RSSlash (s ++ abs_path segs)))
    by (by destruct Hst as [-> | ->]).
  change (abs_path (s :: segs)) with (String "/" (s ++ abs_path segs)). rewrite Hstep. destruct (String.eqb s "") eqn:Hemp.
  - apply String.eqb_eq in Hemp as ->. simpl. rewrite IH; auto.
  - apply String.eqb_neq in Hemp. rewrite rs_slash_seg, IH; auto.
Qed.

Lemma collapse_run s r :
  has_char "/" s = false -> collapse_slashes (s ++ r) = s ++ collapse_slashes r.
Proof.
  induction s as [|c s IH]; simpl; [done|]. intros [Hc Hs]%orb_false_elim.
  by rewrite is_char_sym, Hc, IH.
Qed.

Lemma starts_with_slash_abs (l : list string) x : starts_with_char "/" (abs_path (l ++ [x])) = true.
Proof. destruct l; simpl; apply is_char_refl. Qed.

(** [//] collapses exactly the empty segments, the last one excepted. *)
Lemma collapse_abs_path segs x :
  forallb seg_ok segs = true -> clean_seg x = true ->
  collapse_slashes (abs_path (segs ++ [x])) = abs_path (List.filter nonemptyb (segs ++ [x])%list).
Proof.
  intros Hok Hx. pose proof (clean_seg_ok x Hx) as Hxok.
  induction segs as [|s segs IH]; simpl.
  - rewrite ?is_char_refl. simpl. unfold nonemptyb.
    destruct x as [|c x']; [by apply clean_seg_ne in Hx|]. simpl.
    pose proof (seg_ok_no_char _ "/" Hxok eq_refl) as Hxs. simpl in Hxs.
    apply orb_false_elim in Hxs as [Hc Hxs]. rewrite !sapp_nil_r. char_false Hc. simpl.
    pose proof (collapse_run x' "" Hxs) as E. rewrite !sapp_nil_r in E. by rewrite E.
  - simpl in Hok. apply andb_prop in Hok as [Hs Hok]. unfold nonemptyb at 1.
    destruct s as [|c s]; simpl.
    + rewrite ?is_char_refl, starts_with_slash_abs. simpl. by apply IH.
    + pose proof (seg_ok_no_char _ "/" Hs eq_refl) as Hss. simpl in Hss.
      apply orb_false_elim in Hss as [Hc Hss]. rewrite ?is_char_refl. simpl.
      char_false Hc. rewrite collapse_run, IH by done. done.
Qed.

(** No [/..] segment in a path of safe segments. *)
Lemma find_parent_run s r :
  has_char "/" s = false ->
  find_parent (s ++ r) = option_map (Nat.add (String.length s)) (find_parent r).
Proof.
  induction s as [|c s IH]; simpl; intros H.
  - by destruct (find_parent r).
  - apply orb_false_elim in H as [Hc Hs].
    assert (Hhere : parent_at (String c (s ++ r)) = false).
    { unfold parent_at. destruct (s ++ r) as [|? [|? ?]]; [done|done|].
      by rewrite is_char_sym, Hc. }
    rewrite Hhere, IH by done. by destruct (find_parent r).
Qed.

Lemma parent_at_true t :
  parent_at t = true ->
  exists r, t = "/.." ++ r /\ (r = "" \/ exists r', r = "/" ++ r').
Proof.
  destruct t as [|c1 [|c2 [|c3 r]]]; simpl; try discriminate.
  intros H. apply andb_prop in H as [H Hr]. apply andb_prop in H as [H H3].
  apply andb_prop in H as [H1 H2]. apply is_char_spec in H1, H2, H3. subst.
  exists r. split; [done|]. destruct r as [|c r]; [by left|right].
  apply is_char_spec in Hr as ->. by exists r.
Qed.

Lemma abs_path_head segs : abs_path segs = "" \/ exists r, abs_path segs = "/" ++ r.
Proof. destruct segs; [by left|right]. simpl. eauto. Qed.

Lemma find_parent_abs_path segs : forallb seg_ok segs = true -> find_parent (abs_path segs) = None.
Proof.
  induction segs as [|s segs IH]; simpl; [done|]. intros [Hs Hok]%andb_prop.
  match goal with |- context [parent_at ?t] => destruct (parent_at t) eqn:E end.
  - exfalso. apply parent_at_true in E as (r & E & Hr). injection E as E.
    pose proof (seg_ok_chars s Hs) as Hc. unfold seg_ok in Hs.
    apply andb_prop in Hs as [[_ Hd]%andb_prop Hdd].
    destruct s as [|c1 [|c2 s]]; simpl in E.
    + destruct (abs_path_head segs) as [H | [r' H]]; rewrite H in E; discriminate.
    + injection E as -> E. destruct (abs_path_head segs) as [H | [r' H]]; rewrite H in E;
        discriminate.
    + injection E as -> -> E. destruct s as [|c3 s]; [done|].
      simpl in Hc. destruct Hr as [-> | [r' ->]]; [discriminate|].
      injection E as -> _. discriminate.
  - rewrite find_parent_run, IH by (done || by apply seg_ok_no_char). done.
Qed.

Lemma ends_with_ex t s : ends_with t s = true -> exists x, s = x ++ t.
Proof.
  unfold ends_with. intros [_ H]%andb_prop. apply String.eqb_eq in H.
  exists (str_take (String.length s - String.length t) s).
  by rewrite <- H at 2; rewrite str_take_drop.
Qed.

(** A path whose last segment is clean does not end with [/.] or [/..]. *)
Lemma ends_with_dots a x :
  seg_ok x = true -> ends_with "/.." (a ++ "/" ++ x) = false /\ ends_with "/." (a ++ "/" ++ x) = false.
Proof.
  intros Hx. pose proof (seg_ok_no_char x "/" Hx eq_refl) as Hsl. unfold seg_ok in Hx. apply andb_prop in Hx as [[_ Hd]%andb_prop Hdd].
  split; destruct (ends_with _ _) eqn:E; try done; exfalso; apply ends_with_ex in E as [y Ey];
    apply (f_equal after_last_slash) in Ey; rewrite after_last_slash_app in Ey by done.
  - change "/.." with ("/" ++ "..") in Ey. rewrite after_last_slash_app in Ey by done.
    subst. discriminate.
  - change "/." with ("/" ++ ".") in Ey. rewrite after_last_slash_app in Ey by done.
    subst. discriminate.
Qed.

Lemma forallb_filter {A} (p q : A -> bool) l :
  forallb p l = true -> forallb p (List.filter q l) = true.
Proof.
  induction l as [|y l IH]; simpl; [done|]. intros [Hy Hl]%andb_prop.
  destruct (q y); simpl; [rewrite Hy|]; auto.
Qed.

Lemma abs_path_snoc_shape segs x : exists r, abs_path segs ++ "/" ++ x = String "/" r.
Proof. destruct segs; simpl; eauto. Qed.

(** [uri.normalizePath()] on a path of safe segments: only the collapse of
    doubled slashes changes it, when its result is again a path of safe
    segments. *)
Lemma normalizePath_segs rp segs x segs' q f :
  recode_safe rp -> forallb seg_ok segs = true -> seg_ok x = true ->
  String.eqb (abs_path segs ++ "/" ++ x) "/" = false ->
  collapse_slashes (abs_path (segs ++ [x])) = abs_path segs' -> forallb seg_ok segs' = true ->
  normalizePath rp (mkUri (abs_path (segs ++ [x])) q f) = mkUri (abs_path segs') q f.
Proof.
  intros Hrp Hok Hx Hne Hcol Hok'.
  assert (Hall : forallb seg_ok (segs ++ [x]) = true).
  { rewrite forallb_app, Hok. simpl. by rewrite Hx. }
  unfold normalizePath; cbn [path query fragment].
  destruct (abs_path_snoc_shape segs x) as (r & E).
  rewrite abs_path_snoc, E, <- E, Hne, <- abs_path_snoc.
  rewrite Hrp by (by apply abs_path_chars). rewrite starts_with_slash_abs. cbv zeta. simpl negb.
  cbn iota. rewrite abs_path_snoc. destruct (ends_with_dots (abs_path segs) x Hx) as [-> ->].
  simpl orb. cbn iota. rewrite <- abs_path_snoc. unfold resolve_simples.
  rewrite rs_abs_path, Hcol by auto. simpl. by rewrite find_parent_abs_path.
Qed.

(** On a path that ends with a clean segment, the empty segments (doubled
    slashes) disappear and nothing else changes. *)
Lemma normalizePath_abs rp segs x q f :
  recode_safe rp -> forallb seg_ok segs = true -> clean_seg x = true ->
  normalizePath rp (mkUri (abs_path (segs ++ [x])) q f) =
  mkUri (abs_path (List.filter nonemptyb (segs ++ [x])%list)) q f.
Proof.
  intros Hrp Hok Hx. apply normalizePath_segs; auto using clean_seg_ok.
  - apply slength_ne. rewrite !slength_app. simpl.
    destruct x; [by apply clean_seg_ne in Hx|]. simpl. lia.
  - by apply collapse_abs_path.
  - apply forallb_filter. rewrite forallb_app, Hok. simpl. by rewrite clean_seg_ok.
Qed.

(** A path of clean segments is left alone by the collapse. *)
Lemma collapse_clean_prefix segs r :
  forallb clean_seg segs = true -> collapse_slashes (abs_path segs ++ r) = abs_path segs ++ collapse_slashes r.
Proof.
  induction segs as [|s segs IH]; simpl; [done|]. intros [Hs Hok]%andb_prop.
  pose proof (seg_ok_no_char _ "/" (clean_seg_ok _ Hs) eq_refl) as Hsl.
  apply clean_seg_ne in Hs. destruct s as [|c s]; [done|]. simpl in Hsl |- *.
  apply orb_false_elim in Hsl as [Hc Hsl]. rewrite ?is_char_refl. simpl. char_false Hc. simpl.
  by rewrite !sapp_assoc, collapse_run, IH.
Qed.

Lemma resource_tail u : resource u = path u ++ tail (query u) (fragment u).
Proof. by destruct u as [p [q|] [f|]]. Qed.

Lemma filter_nonempty_clean l : forallb clean_seg l = true -> List.filter nonemptyb l = l.
Proof.
  induction l as [|s l IH]; simpl; [done|]. intros [Hs Hl]%andb_prop.
  unfold nonemptyb at 1. apply clean_seg_ne in Hs.
  apply String.eqb_neq in Hs as ->. simpl. by rewrite IH.
Qed.

(** ** Termination of the [/..] loop *)

Lemma str_take_length n s : String.length (str_take n s) = Nat.min n (String.length s).
Proof. revert s. induction n as [|n IH]; intros [|c s]; simpl; auto. Qed.

Lemma str_drop_length n s : String.length (str_drop n s) = String.length s - n.
Proof. revert s. induction n as [|n IH]; intros [|c s]; simpl; auto with arith. Qed.

Lemma parent_at_length s : parent_at s = true -> 3 <= String.length s.
Proof. unfold parent_at. destruct s as [|? [|? [|? r]]]; simpl; try done. lia. Qed.

(** The match [find_parent] reports is three characters inside [s]. *)
Lemma find_parent_bound s p : find_parent s = Some p -> p + 3 <= String.length s.
Proof.
  revert p. induction s as [|c s IH]; intros p; simpl; [done|].
  destruct (parent_at (String c s)) eqn:Hp.
  - intros [= <-]. apply parent_at_length in Hp. simpl in Hp. lia.
  - destruct (find_parent s) as [q|]; simpl; [|done]. intros [= <-]. specialize (IH q eq_refl). lia.
Qed.

Lemma last_slash_index_bound s q : last_slash_index s = Some q -> q < String.length s.
Proof.
  revert q. induction s as [|c s IH]; intros q; simpl; [done|].
  destruct (last_slash_index s) as [i|].
  - intros [= <-]. specialize (IH i eq_refl). lia.
  - destruct (is_char c "/"); [intros [= <-]; lia|done].
Qed.

(** Each round of the loop shortens the path by at least three
    characters, so [String.length s + 1] rounds, the fuel
    [normalizePath] gives it, are enough: any more fuel gives the same
    path. *)
Lemma resolve_parents_enough f1 f2 s :
  String.length s < f1 -> String.length s < f2 -> resolve_parents f1 s = resolve_parents f2 s.
Proof.
  revert f2 s. induction f1 as [|f1 IH]; intros f2 s H1 H2; [lia|].
  destruct f2 as [|f2]; [lia|]. cbn [resolve_parents].
  destruct (find_parent s) as [[|p]|] eqn:Hf; [| |done].
  - apply find_parent_bound in Hf. apply IH; rewrite str_drop_length; lia.
  - pose proof (find_parent_bound s (S p) Hf) as Hb.
    set (pos := match last_slash_index (str_take (S p) s) with Some q => q | None => S p end).
    assert (Hpos : pos <= S p).
    { subst pos. destruct (last_slash_index (str_take (S p) s)) as [q|] eqn:Hq; [|lia].
      apply last_slash_index_bound in Hq. rewrite str_take_length in Hq. lia. }
    apply IH; rewrite slength_app, str_take_length, str_drop_length; lia.
Qed.

End UriPaths.
