(* ===== verification/Routes.v ===== *)
(** * The route table and its qualification (routing/Routes.ts)

    [Routes] is the application's nested table of paths. A [Literal] is a
    path string. A [RouteFunction] builds a path from its arguments. A
    [RouteMap] is a nested sub-table. The arguments of a route function
    are dynamic values ([jval]); a missing argument is [undefined], which a
    template literal prints as ["undefined"]. A route function returns
    [None] where the JavaScript code throws.

    [qualifyUrls] rewrites every literal and wraps every function with
    [prefixUrlWithoutHostname]. That function inserts the deployment's base
    path in front of the URL's directory and normalises the path with
    urijs. Neither it nor [qualifyUrls] changes anything when the prefix
    is empty, nullish, or ["/"].

    The values of [viewsPath] and [extendedSearchPath] (views/Constants,
    outside src/) are section variables, and so are urijs's percent
    encoders [URI.recodePath] and [URI.encodeQuery]. *)

From stdpp Require Import pretty.
From S2P Require Import Prelude JsValue Uri UriPaths.
From Stdlib Require Import Ascii.

Set Warnings "-clear-no-such-hyp -register-all".

Module Routes.

Local Open Scope string_scope.

(** ** Route tables *)

Inductive RouteMapEntry (L : Type) : Type :=
| Literal (s : L)
| RouteFunction (f : list jval -> option string)
| RouteMap (m : list (string * RouteMapEntry L)).
Arguments Literal {L} s.
Arguments RouteFunction {L} f.
Arguments RouteMap {L} m.

(** The [i]-th argument, [undefined] when missing. *)
Definition argv (args : list jval) (i : nat) : jval := nth i args JUndef.

(** [`${arg}`] *)
Definition tmpl (args : list jval) (i : nat) : string := js_string (argv args i).

(** A property read [o.k] on a dynamic value: [undefined] unless [o] is an
    object that has the key. *)
Definition prop (o : jval) (k : string) : jval :=
  match o with JMap m => mget_u k m | _ => JUndef end.

(** [arr.join(',')] on a truthy value; anything but an array throws. *)
Definition join_arr (v : jval) : option string :=
  match v with JList _ => Some (js_string v) | _ => None end.

Section Table.

(** [viewsPath] and [extendedSearchPath] of views/Constants. *)
Variables viewsPath extendedSearchPath : string.
(** [URI.encodeQuery]: percent-encoding of one query key or value. *)
Variable encodeQuery : string -> string.

(** [URI.buildQuery(data)]: the keys in insertion order. An [undefined]
    value is skipped, [null] gives the bare key, and an array gives one
    [key=value] per distinct element. *)
Definition buildQueryParameter (k : string) (v : jval) : string :=
  match v with
  | JNull => encodeQuery k
  | _ => encodeQuery k ++ "=" ++ encodeQuery (js_string v)
  end.

Fixpoint array_params (k : string) (seen : list string) (xs : list jval) : list string :=
  match xs with
  | [] => []
  | JUndef :: xs' => array_params k seen xs'
  | x :: xs' =>
      if decide (js_string x ∈ seen) then array_params k seen xs'
      else buildQueryParameter k x :: array_params k (js_string x :: seen) xs'
  end.

Definition buildQuery (data : list (string * jval)) : string :=
  String.concat "&"
    (concat (map (fun '(k, v) =>
                    match v with
                    | JUndef => []
                    | JList xs => array_params k [] xs
                    | _ => [buildQueryParameter k v]
                    end) data)).

(** [uri.query(data)] / [uri.search(data)] / [uri.setQuery(data)] on a URL
    without a query, then [uri.resource()]. *)
Definition with_query (resource : string) (data : list (string * jval)) : option string :=
  match Uri.parse resource with
  | Some u =>
      match Uri.query u with
      | None => Some (Uri.resource (Uri.mkUri (Uri.path u) (Uri.nonempty (buildQuery data))
                                             (Uri.fragment u)))
      | Some _ => None
      end
  | None => None
  end.

Definition SECURITY_PATH : string := "/security".
Definition SEARCH : string := "/search".
Definition STREAMS : string := "/streams".
Definition GLOBAL_API_BROWSER_URL : string := "/api/api-browser/global/index.html".
Definition SYSTEM_INPUTS : string := "/system/inputs".

(** [Routes.SYSTEM.METRICS(nodeId)] *)
Definition SYSTEM_METRICS (args : list jval) : string := "/system/metrics/node/" ++ tmpl args 0.
(** [Routes.stream_edit(streamId)] *)
Definition stream_edit (args : list jval) : string := "/streams/" ++ tmpl args 0 ++ "/edit".
(** [Routes.local_input_extractors(nodeId, inputId)] *)
Definition local_input_extractors (args : list jval) : string :=
  "/system/inputs/" ++ tmpl args 0 ++ "/" ++ tmpl args 1 ++ "/extractors".

Definition ALERTS : list (string * RouteMapEntry string) := [
  ("LIST", Literal "/alerts");
  ("replay_search", RouteFunction (fun a => Some ("/alerts/" ++ tmpl a 0 ++ "/replay-search")));
  ("BULK_REPLAY_SEARCH", Literal "/alerts/replay-search");
  ("DEFINITIONS", RouteMap [
    ("LIST", Literal "/alerts/definitions");
    ("CREATE", Literal "/alerts/definitions/new");
    ("edit", RouteFunction (fun a => Some ("/alerts/definitions/" ++ tmpl a 0 ++ "/edit")));
    ("show", RouteFunction (fun a => Some ("/alerts/definitions/" ++ tmpl a 0)));
    ("replay_search",
      RouteFunction (fun a => Some ("/alerts/definitions/" ++ tmpl a 0 ++ "/replay-search")))]);
  ("NOTIFICATIONS", RouteMap [
    ("LIST", Literal "/alerts/notifications");
    ("CREATE", Literal "/alerts/notifications/new");
    ("edit", RouteFunction (fun a => Some ("/alerts/notifications/" ++ tmpl a 0 ++ "/edit")));
    ("show", RouteFunction (fun a => Some ("/alerts/notifications/" ++ tmpl a 0)))])].

Definition SECURITY : list (string * RouteMapEntry string) := [
  ("OVERVIEW", Literal (SECURITY_PATH ++ "/overview"));
  ("USER_ACTIVITY", Literal (SECURITY_PATH ++ "/user-activity"));
  ("HOST_ACTIVITY", Literal (SECURITY_PATH ++ "/host-activity"));
  ("NETWORK_ACTIVITY", Literal (SECURITY_PATH ++ "/network-activity"));
  ("ANOMALIES", Literal (SECURITY_PATH ++ "/anomalies"));
  ("ACTIVITY", Literal (SECURITY_PATH ++ "/activity"))].

Definition SYSTEM_CLUSTER : list (string * RouteMapEntry string) := [
  ("NODES", Literal "/system/cluster");
  ("NODE_SHOW", RouteFunction (fun a => Some ("/system/cluster/node/" ++ tmpl a 0)));
  ("CERTIFICATE_MANAGEMENT", Literal "/system/cluster/certificate-management");
  ("DATANODE_DASHBOARD", Literal "/system/cluster/datanode-dashboard");
  ("DATANODE_MIGRATION", Literal "/system/cluster/datanode-migration");
  ("DATANODE_UPGRADE", Literal "/system/cluster/datanode-upgrade");
  ("DATANODE_SHOW", RouteFunction (fun a => Some ("/system/cluster/datanode/" ++ tmpl a 0)))].

Definition SYSTEM_CONTENT : list (string * RouteMapEntry string) := [
  ("CONFIGURATIONS", Literal "/system/configurations");
  ("configurationsSection", RouteFunction (fun a =>
    Some ("/system/configurations/" ++ tmpl a 0 ++
          (if truthy (argv a 1) then "/" ++ tmpl a 1 else ""))));
  ("CONTENTPACKS", RouteMap [
    ("LIST", Literal "/system/contentpacks");
    ("EXPORT", Literal "/system/contentpacks/export");
    ("CREATE", Literal "/system/contentpacks/create");
    ("edit", RouteFunction (fun a =>
      Some ("/system/contentpacks/" ++ tmpl a 0 ++ "/" ++ tmpl a 1 ++ "/edit")));
    ("show", RouteFunction (fun a => Some ("/system/contentpacks/" ++ tmpl a 0)))]);
  ("GROKPATTERNS", Literal "/system/grokpatterns");
  ("INDICES", RouteMap [
    ("LIST", Literal "/system/indices");
    ("FAILURES", Literal "/system/indices/failures");
    ("TEMPLATES", RouteMap [
      ("view", RouteFunction (fun a => Some ("/system/indices/templates/" ++ tmpl a 0)));
      ("OVERVIEW", Literal "/system/indices/templates");
      ("CREATE", Literal "/system/indices/templates/create");
      ("edit", RouteFunction (fun a => Some ("/system/indices/templates/edit/" ++ tmpl a 0)))]);
    ("FIELD_TYPE_PROFILES", RouteMap [
      ("OVERVIEW", Literal "/system/indices/field-type-profiles");
      ("edit", RouteFunction (fun a =>
        Some ("/system/indices/field-type-profiles/" ++ tmpl a 0)));
      ("CREATE", Literal "/system/indices/field-type-profiles/create")])]);
  ("INDEX_SETS", RouteMap [
    ("CONFIGURATION", RouteFunction (fun a =>
      if truthy (argv a 1)
      then Some ("/system/index_sets/" ++ tmpl a 0 ++ "/configuration?from=" ++ tmpl a 1)
      else Some ("/system/index_sets/" ++ tmpl a 0 ++ "/configuration")));
    ("SHOW", RouteFunction (fun a => Some ("/system/index_sets/" ++ tmpl a 0)));
    ("FIELD_TYPES", RouteFunction (fun a =>
      Some ("/system/index_sets/" ++ tmpl a 0 ++ "/field-types")));
    ("CREATE", Literal "/system/index_sets/create")]);
  ("INPUTS", Literal SYSTEM_INPUTS);
  ("INPUT_DIAGNOSIS", RouteFunction (fun a => Some ("/system/input/diagnosis/" ++ tmpl a 0)));
  ("LOGGING", Literal "/system/logging");
  ("METRICS", RouteFunction (fun a => Some (SYSTEM_METRICS a)));
  ("THREADDUMP", RouteFunction (fun a => Some ("/system/threaddump/" ++ tmpl a 0)));
  ("OUTPUTS", Literal "/system/outputs");
  ("OVERVIEW", Literal "/system/overview");
  ("PROCESSBUFFERDUMP", RouteFunction (fun a => Some ("/system/processbufferdump/" ++ tmpl a 0)));
  ("SYSTEMLOGS", RouteFunction (fun a => Some ("/system/logs/recent/" ++ tmpl a 0)))].

Definition SYSTEM_ACCESS : list (string * RouteMapEntry string) := [
  ("AUTHENTICATION", RouteMap [
    ("BACKENDS", RouteMap [
      ("OVERVIEW", Literal "/system/authentication/services");
      ("ACTIVE", Literal "/system/authentication/services/active");
      ("CREATE", Literal "/system/authentication/services/create");
      ("createBackend", RouteFunction (fun a =>
        Some ("/system/authentication/services/create/" ++ tmpl a 0)));
      ("show", RouteFunction (fun a => Some ("/system/authentication/services/" ++ tmpl a 0)));
      ("edit", RouteFunction (fun a =>
        let editUrl := "/system/authentication/services/edit/" ++ tmpl a 0 in
        if truthy (argv a 1) then Some (editUrl ++ "?initialStepKey=" ++ tmpl a 1)
        else Some editUrl))]);
    ("AUTHENTICATORS", RouteMap [
      ("SHOW", Literal "/system/authentication/authenticator");
      ("EDIT", Literal "/system/authentication/authenticator/edit")])]);
  ("USERS", RouteMap [
    ("CREATE", Literal "/system/users/new");
    ("edit", RouteFunction (fun a => Some ("/system/users/edit/" ++ tmpl a 0)));
    ("TOKENS", RouteMap [
      ("edit", RouteFunction (fun a => Some ("/system/users/tokens/" ++ tmpl a 0)))]);
    ("OVERVIEW", Literal "/system/users");
    ("show", RouteFunction (fun a => Some ("/system/users/" ++ tmpl a 0)))]);
  ("USERS_TOKEN_MANAGEMENT", RouteMap [
    ("overview", Literal "/system/tokenmanagement/overview")]);
  ("AUTHZROLES", RouteMap [
    ("OVERVIEW", Literal "/system/roles");
    ("show", RouteFunction (fun a => Some ("/system/roles/" ++ tmpl a 0)));
    ("edit", RouteFunction (fun a => Some ("/system/roles/edit/" ++ tmpl a 0)))])].

Definition SYSTEM_PROCESSING : list (string * RouteMapEntry string) := [
  ("LOOKUPTABLES", RouteMap [
    ("OVERVIEW", Literal "/system/lookuptables");
    ("CREATE", Literal "/system/lookuptables/create");
    ("show", RouteFunction (fun a => Some ("/system/lookuptables/table/" ++ tmpl a 0)));
    ("edit", RouteFunction (fun a =>
      Some ("/system/lookuptables/table/" ++ tmpl a 0 ++ "/edit")));
    ("CACHES", RouteMap [
      ("OVERVIEW", Literal "/system/lookuptables/caches");
      ("CREATE", Literal "/system/lookuptables/caches/create");
      ("show", RouteFunction (fun a => Some ("/system/lookuptables/caches/" ++ tmpl a 0)));
      ("edit", RouteFunction (fun a =>
        Some ("/system/lookuptables/caches/" ++ tmpl a 0 ++ "/edit")))]);
    ("DATA_ADAPTERS", RouteMap [
      ("OVERVIEW", Literal "/system/lookuptables/data_adapters");
      ("CREATE", Literal "/system/lookuptables/data_adapters/create");
      ("show", RouteFunction (fun a =>
        Some ("/system/lookuptables/data_adapter/" ++ tmpl a 0)));
      ("edit", RouteFunction (fun a =>
        Some ("/system/lookuptables/data_adapter/" ++ tmpl a 0 ++ "/edit")))])]);
  ("PIPELINES", RouteMap [
    ("OVERVIEW", Literal "/system/pipelines");
    ("PIPELINE", RouteFunction (fun a => Some ("/system/pipelines/" ++ tmpl a 0)));
    ("RULES", Literal "/system/pipelines/rules");
    ("RULE", RouteFunction (fun a => Some ("/system/pipelines/rules/" ++ tmpl a 0)));
    ("SIMULATOR", Literal "/system/pipelines/simulate")]);
  ("ENTERPRISE", Literal "/system/enterprise");
  ("SIDECARS", RouteMap [
    ("OVERVIEW", Literal "/system/sidecars");
    ("STATUS", RouteFunction (fun a => Some ("/system/sidecars/" ++ tmpl a 0 ++ "/status")));
    ("ADMINISTRATION", Literal "/system/sidecars/administration");
    ("CONFIGURATION", Literal "/system/sidecars/configuration");
    ("FAILURE_TRACKING", Literal "/system/sidecars/failuretracking");
    ("NEW_CONFIGURATION", Literal "/system/sidecars/configuration/new");
    ("EDIT_CONFIGURATION", RouteFunction (fun a =>
      Some ("/system/sidecars/configuration/edit/" ++ tmpl a 0)));
    ("NEW_COLLECTOR", Literal "/system/sidecars/collector/new");
    ("EDIT_COLLECTOR", RouteFunction (fun a =>
      Some ("/system/sidecars/collector/edit/" ++ tmpl a 0)))])].

(** [search_with_query(query, rangeType, timeRange, streams, streamCategories)] *)
Definition search_with_query (a : list jval) : option string :=
  let base := [("q", argv a 0)] in
  let withRange :=
    if truthy (argv a 1) && truthy (argv a 2) then
      let p := mset "rangetype" (argv a 1) base in
      match argv a 1 with
      | JStr r =>
          if String.eqb r "relative" then Some (mset "relative" (prop (argv a 2) "relative") p)
          else if String.eqb r "absolute" then
            Some (mset "to" (prop (argv a 2) "to") (mset "from" (prop (argv a 2) "from") p))
          else if String.eqb r "keyword" then Some (mset "keyword" (prop (argv a 2) "keyword") p)
          else None
      | _ => None
      end
    else Some base in
  match withRange with
  | None => None
  | Some p =>
      let withStreams :=
        if truthy (argv a 3)
        then option_map (fun s => mset "streams" (JStr s) p) (join_arr (argv a 3))
        else Some p in
      match withStreams with
      | None => None
      | Some p' =>
          let withCategories :=
            if truthy (argv a 4)
            then option_map (fun s => mset "stream_categories" (JStr s) p') (join_arr (argv a 4))
            else Some p' in
          match withCategories with
          | None => None
          | Some p'' => with_query SEARCH p''
          end
      end
  end.

(** [Object.keys(o)] with the values, for [Object.keys(timeRange).forEach]. *)
Definition own_entries (o : jval) : list (string * jval) :=
  match o with
  | JMap m => m
  | JList xs => zip (map (fun i => pretty (Z.of_nat i)) (seq 0 (length xs))) xs
  | JStr s => map (fun '(i, c) => (pretty (Z.of_nat i), JStr (String c EmptyString)))
                  (zip (seq 0 (String.length s)) (String.list_ascii_of_string s))
  | _ => []
  end.

(** [_common_search_url(resource, query, timeRange, resolution)] *)
Definition _common_search_url (resource : string) (query timeRange resolution : jval)
    : option string :=
  let queryParams := [("q", query); ("interval", resolution)] in
  let queryParams :=
    if truthy timeRange
    then fold_left (fun acc '(k, v) => mset k v acc) (own_entries timeRange) queryParams
    else queryParams in
  with_query resource queryParams.

Definition new_extractor (a : list jval) : option string :=
  with_query ("/system/inputs/" ++ tmpl a 0 ++ "/" ++ tmpl a 1 ++ "/extractors/new")
    [("extractor_type", argv a 2); ("field", argv a 3); ("example_index", argv a 4);
     ("example_id", argv a 5)].

Definition SEARCH_AND_MESSAGES : list (string * RouteMapEntry string) := [
  ("search_with_query", RouteFunction search_with_query);
  ("_common_search_url", RouteFunction (fun a =>
    _common_search_url (tmpl a 0) (argv a 1) (argv a 2) (argv a 3)));
  ("search", RouteFunction (fun a => _common_search_url SEARCH (argv a 0) (argv a 1) (argv a 2)));
  ("message_show", RouteFunction (fun a => Some ("/messages/" ++ tmpl a 0 ++ "/" ++ tmpl a 1)));
  ("stream_view", RouteFunction (fun a => Some ("/streams/" ++ tmpl a 0 ++ "/view")));
  ("stream_edit", RouteFunction (fun a => Some (stream_edit a)));
  ("stream_edit_example", RouteFunction (fun a =>
    Some (stream_edit a ++ "?index=" ++ tmpl a 1 ++ "&message_id=" ++ tmpl a 2)));
  ("stream_outputs", RouteFunction (fun a => Some ("/streams/" ++ tmpl a 0 ++ "/outputs")));
  ("stream_search", RouteFunction (fun a =>
    _common_search_url (STREAMS ++ "/" ++ tmpl a 0 ++ "/search") (argv a 1) (argv a 2) (argv a 3)));
  ("stream_alerts", RouteFunction (fun a => Some ("/alerts/?stream_id=" ++ tmpl a 0)));
  ("legacy_stream_search", RouteFunction (fun a => Some ("/streams/" ++ tmpl a 0 ++ "/messages")));
  ("dashboard_show", RouteFunction (fun a => Some ("/dashboards/" ++ tmpl a 0)));
  ("show_saved_search", RouteFunction (fun a => Some ("/search/" ++ tmpl a 0)));
  ("node_inputs", RouteFunction (fun a => Some (SYSTEM_INPUTS ++ "/" ++ tmpl a 0)));
  ("global_input_extractors", RouteFunction (fun a =>
    Some ("/system/inputs/" ++ tmpl a 0 ++ "/extractors")));
  ("local_input_extractors", RouteFunction (fun a => Some (local_input_extractors a)));
  ("export_extractors", RouteFunction (fun a => Some (local_input_extractors a ++ "/export")));
  ("import_extractors", RouteFunction (fun a => Some (local_input_extractors a ++ "/import")));
  ("new_extractor", RouteFunction new_extractor);
  ("edit_extractor", RouteFunction (fun a =>
    Some ("/system/inputs/" ++ tmpl a 0 ++ "/" ++ tmpl a 1 ++ "/extractors/" ++ tmpl a 2 ++ "/edit")));
  ("edit_input_extractor", RouteFunction (fun a =>
    Some ("/system/inputs/" ++ tmpl a 0 ++ "/" ++ tmpl a 1 ++ "/extractors/" ++ tmpl a 2 ++ "/edit")));
  ("filtered_metrics", RouteFunction (fun a => Some (SYSTEM_METRICS a ++ "?filter=" ++ tmpl a 1)));
  ("global_api_browser", RouteFunction (fun _ => Some GLOBAL_API_BROWSER_URL))].

(** [const Routes = { ... }] *)
Definition Routes : list (string * RouteMapEntry string) := [
  ("STARTPAGE", Literal "/");
  ("NOTFOUND", Literal "/notfound");
  ("SEARCH", Literal SEARCH);
  ("STREAMS", Literal STREAMS);
  ("ALERTS", RouteMap ALERTS);
  ("SECURITY", RouteMap SECURITY);
  ("SOURCES", Literal "/sources");
  ("DASHBOARDS", Literal "/dashboards");
  ("WELCOME", Literal "/welcome");
  ("GLOBAL_API_BROWSER_URL", Literal GLOBAL_API_BROWSER_URL);
  ("SYSTEM", RouteMap (("CLUSTER", RouteMap SYSTEM_CLUSTER) ::
                       SYSTEM_CONTENT ++ SYSTEM_ACCESS ++ SYSTEM_PROCESSING));
  ("VIEWS", RouteMap [
    ("LIST", Literal viewsPath);
    ("VIEWID", RouteFunction (fun a => Some (viewsPath ++ "/" ++ tmpl a 0)))]);
  ("EXTENDEDSEARCH", Literal extendedSearchPath);
  ("KEYBOARD_SHORTCUTS", Literal "/keyboard-shortcuts")] ++ SEARCH_AND_MESSAGES.

End Table.

(** ** Qualification *)

Section Qualify.

(** [URI.recodePath] *)
Variable recodePath : string -> string.

(** [prefixUrlWithoutHostname(url, prefix)] *)
Definition prefixUrlWithoutHostname (url prefix : string) : option string :=
  match Uri.parse url with
  | Some u =>
      Some (Uri.resource
              (Uri.normalizePath recodePath
                 (Uri.set_directory recodePath (prefix ++ "/" ++ Uri.directory u) u)))
  | None => None
  end.

(** [!appPrefix || appPrefix === '' || appPrefix === '/'] *)
Definition no_prefix (appPrefix : nullable string) : bool :=
  match appPrefix with
  | Val p => String.eqb p "" || String.eqb p "/"
  | _ => true
  end.

(** The qualified table holds the result of [prefixUrlWithoutHostname]. *)
Fixpoint qualifyEntry (appPrefix : string) (e : RouteMapEntry string) : RouteMapEntry (option string) :=
  match e with
  | Literal s => Literal (prefixUrlWithoutHostname s appPrefix)
  | RouteFunction f =>
      RouteFunction (fun params =>
        match f params with
        | Some result => prefixUrlWithoutHostname result appPrefix
        | None => None
        end)
  | RouteMap m => RouteMap (map (fun '(k, v) => (k, qualifyEntry appPrefix v)) m)
  end.

(** An unqualified table seen as a qualified one: the same values. *)
Fixpoint unqualifiedEntry (e : RouteMapEntry string) : RouteMapEntry (option string) :=
  match e with
  | Literal s => Literal (Some s)
  | RouteFunction f => RouteFunction f
  | RouteMap m => RouteMap (map (fun '(k, v) => (k, unqualifiedEntry v)) m)
  end.

(** [qualifyUrls(routes, appPrefix)] *)
Definition qualifyUrls (routes : list (string * RouteMapEntry string)) (appPrefix : nullable string)
    : list (string * RouteMapEntry (option string)) :=
  match appPrefix with
  | Val p => if no_prefix appPrefix then map (fun '(k, v) => (k, unqualifiedEntry v)) routes
             else map (fun '(k, v) => (k, qualifyEntry p v)) routes
  | _ => map (fun '(k, v) => (k, unqualifiedEntry v)) routes
  end.

(** [prefixUrl(route)] with the configured prefix. *)
Definition prefixUrl (route : string) (appPrefix : nullable string) : option string :=
  match appPrefix with
  | Val p => if no_prefix appPrefix then Some route else prefixUrlWithoutHostname route p
  | _ => Some route
  end.

End Qualify.

(** [m[k]] on a table whose keys are distinct. *)
Fixpoint assoc_get {A} (k : string) (m : list (string * A)) : option A :=
  match m with
  | [] => None
  | (k', v) :: m' => if String.eqb k k' then Some v else assoc_get k m'
  end.

(** Looking a route up by its path of keys ([Routes.SYSTEM.CLUSTER.NODES]). *)
Fixpoint lookup_route {L} (keys : list string) (m : list (string * RouteMapEntry L))
    : option (RouteMapEntry L) :=
  match keys with
  | [] => None
  | [k] => assoc_get k m
  | k :: ks => match assoc_get k m with Some (RouteMap m') => lookup_route ks m' | _ => None end
  end.

(** ** Qualification of clean paths *)

Import UriPaths.
#[local] Arguments String.append : simpl nomatch.

Section Clean.
Context (rp : string -> string) (psegs : list string).
Hypothesis Hrp : recode_safe rp.
Hypothesis Hpne : psegs <> [].
Hypothesis Hpc : forallb clean_seg psegs = true.

Lemma prefix_chars : all_chars path_char (abs_path psegs) = true.
Proof. by apply abs_path_chars, clean_seg_forallb. Qed.

Lemma prefix_dir_ok d : all_chars path_char d = true ->
  abs_path psegs ++ "/" ++ d <> "" /\ all_chars path_char (abs_path psegs ++ "/" ++ d) = true.
Proof.
  intros Hd. split; [by destruct (abs_path psegs)|]. by rewrite !all_chars_app, prefix_chars, Hd.
Qed.

Lemma sapp_ne_r (a b : string) : b <> "" -> a ++ b <> "".
Proof. destruct a; [done|]. discriminate. Qed.

Lemma prefix_top l q f :
  clean_seg l = true ->
  Uri.set_directory rp (abs_path psegs ++ "/" ++ "") (Uri.mkUri ("" ++ "/" ++ l) q f) =
  Uri.mkUri (abs_path (psegs ++ [l])%list) q f.
Proof.
  intros Hl. destruct (prefix_dir_ok "") as [Hne Hc]; [done|].
  rewrite set_directory_file by done. rewrite sapp_nil_r, ends_with_char_snoc, is_char_refl.
  by rewrite abs_path_snoc, sapp_assoc.
Qed.

Lemma prefix_nested init y l q f :
  clean_seg y = true -> clean_seg l = true -> forallb seg_ok init = true ->
  Uri.set_directory rp (abs_path psegs ++ "/" ++ abs_path (init ++ [y])%list)
    (Uri.mkUri (abs_path (init ++ [y])%list ++ "/" ++ l) q f) =
  Uri.mkUri (abs_path ((psegs ++ "" :: init ++ [y]) ++ [l])%list) q f.
Proof.
  intros Hy Hl Hi.
  assert (Hiy : forallb seg_ok (init ++ [y]) = true)
    by (rewrite forallb_app, Hi; simpl; by rewrite clean_seg_ok).
  destruct (prefix_dir_ok (abs_path (init ++ [y]))) as [Hne Hc]; [by apply abs_path_chars|].
  rewrite set_directory_file by done.
  rewrite abs_path_snoc, !ends_with_char_app, ends_with_char_clean by
    (done || (repeat apply sapp_ne_r; by apply clean_seg_ne)).
  rewrite abs_path_snoc, abs_path_app. simpl. rewrite abs_path_snoc. by rewrite !sapp_assoc.
Qed.

Lemma clean_seg_app l1 l2 :
  forallb clean_seg (l1 ++ l2)%list = true -> forallb clean_seg l1 = true /\ forallb clean_seg l2 = true.
Proof. rewrite forallb_app. apply andb_prop. Qed.

Lemma filter_nonempty_app l1 l2 :
  List.filter nonemptyb (l1 ++ l2) = (List.filter nonemptyb l1 ++ List.filter nonemptyb l2)%list.
Proof. apply List.filter_app. Qed.

Lemma nonemptyb_clean s : clean_seg s = true -> nonemptyb s = true.
Proof. intros H%clean_seg_ne. unfold nonemptyb. by apply negb_true_iff, String.eqb_neq. Qed.

Theorem prefixUrlWithoutHostname_clean rsegs q f :
  rsegs <> [] -> forallb clean_seg rsegs = true -> query_ok q = true -> fragment_ok f = true ->
  prefixUrlWithoutHostname rp (abs_path rsegs ++ tail q f) (abs_path psegs) =
  Some (abs_path psegs ++ abs_path rsegs ++ tail q f).
Proof.
  intros Hne Hc Hq Hf. unfold prefixUrlWithoutHostname. rewrite parse_clean by done. f_equal.
  destruct (exists_last Hne) as (init & l & ->).
  apply clean_seg_app in Hc as [Hi Hl]. simpl in Hl. rewrite andb_true_r in Hl.
  rewrite abs_path_snoc, directory_file by done.
  destruct init as [|i0 init0].
  - change (abs_path []) with "". rewrite prefix_top by done.
    rewrite normalizePath_abs by (done || by apply clean_seg_forallb).
    rewrite filter_nonempty_clean by (rewrite forallb_app, Hpc; simpl; by rewrite Hl).
    rewrite resource_tail. simpl. by rewrite abs_path_snoc, sapp_assoc.
  - destruct (exists_last (l := i0 :: init0)) as (init & y & Hinit); [done|].
    rewrite Hinit in Hi |- *. apply clean_seg_app in Hi as [Hi Hy]. simpl in Hy.
    rewrite andb_true_r in Hy. pose proof (clean_seg_forallb _ Hi) as Hiok.
    rewrite prefix_nested by done.
    assert (Hmid : forallb seg_ok (psegs ++ "" :: init ++ [y])%list = true).
    { rewrite forallb_app, (clean_seg_forallb _ Hpc). simpl.
      rewrite forallb_app, Hiok. simpl. by rewrite clean_seg_ok. }
    rewrite normalizePath_abs by done.
    rewrite !filter_nonempty_app. simpl. rewrite filter_nonempty_app. simpl.
    rewrite (nonemptyb_clean y), (nonemptyb_clean l), !filter_nonempty_clean by done.
    rewrite resource_tail. cbn [Uri.path Uri.query Uri.fragment].
    rewrite !abs_path_app. simpl. rewrite !sapp_nil_r, !sapp_assoc. simpl. by rewrite ?sapp_assoc.
Qed.
(** [/] under the prefix: [prefix/]. *)
Lemma prefixUrlWithoutHostname_root :
  prefixUrlWithoutHostname rp "/" (abs_path psegs) = Some (abs_path psegs ++ "/").
Proof.
  pose proof (clean_seg_forallb _ Hpc) as Hok.
  assert (Hall : forallb seg_ok ((psegs ++ [""]) ++ [""])%list = true) by (by rewrite !forallb_app, Hok).
  assert (Hp2 : abs_path ((psegs ++ [""]) ++ [""])%list = abs_path psegs ++ "//")
    by (by rewrite !abs_path_app, sapp_assoc).
  unfold prefixUrlWithoutHostname. cbn -[abs_path Uri.set_directory Uri.normalizePath].
  f_equal. unfold Uri.set_directory. cbn -[abs_path].
  assert (Hend : Uri.ends_with_char "/"%char (abs_path psegs ++ "//") = true).
  { replace (abs_path psegs ++ "//") with ((abs_path psegs ++ "/") ++ String "/"%char "")
      by (by rewrite sapp_assoc). by rewrite ends_with_char_snoc. }
  assert (Hchars : all_chars path_char (abs_path psegs ++ "//") = true)
    by (by rewrite <- Hp2; apply abs_path_chars).
  replace (match abs_path psegs ++ "//" with "" => _ | String _ _ => _ end)
    with (abs_path psegs ++ "//") by (destruct (abs_path psegs ++ "//"); [done|]; by rewrite Hend).
  rewrite Hrp, expand_replacement_plain, sapp_nil_r by (done || by eapply all_chars_has_char).
  rewrite <- Hp2.
  rewrite normalizePath_segs with (segs' := (psegs ++ [""])%list);
    try (done || by rewrite forallb_app, Hok).
  - rewrite resource_tail, abs_path_app. cbn. by rewrite sapp_nil_r.
  - apply slength_ne. rewrite !slength_app. destruct psegs; [done|]. simpl. lia.
  - rewrite Hp2, collapse_clean_prefix, abs_path_app by done. done.
Qed.
End Clean.

(** ** Lookups in a qualified table *)

Lemma assoc_get_map {A B} (g : A -> B) k (m : list (string * A)) :
  assoc_get k (map (fun '(k', v) => (k', g v)) m) = option_map g (assoc_get k m).
Proof. induction m as [|[k' v] m IH]; simpl; [done|]. by destruct (String.eqb k k'). Qed.

(** Looking a route up in a table rewritten entry by entry is rewriting
    the route, for a rewrite that maps sub-tables to sub-tables. *)
Lemma lookup_route_map {A B} (h : RouteMapEntry A -> RouteMapEntry B) keys m :
  (forall m', h (RouteMap m') = RouteMap (map (fun '(k, v) => (k, h v)) m')) ->
  (forall e m', h e = RouteMap m' -> exists m0, e = RouteMap m0) ->
  lookup_route keys (map (fun '(k, v) => (k, h v)) m) = option_map h (lookup_route keys m).
Proof.
  intros Hmap Hnot. revert m.
  induction keys as [|k [|k2 ks] IH]; intros m; [done|apply assoc_get_map|].
  cbn [lookup_route]. rewrite assoc_get_map.
  destruct (assoc_get k m) as [e|]; simpl; [|done].
  destruct e as [l|g|m'] eqn:He.
  - destruct (h (Literal l)) eqn:Hh; try done. by destruct (Hnot _ _ Hh).
  - destruct (h (RouteFunction g)) eqn:Hh; try done. by destruct (Hnot _ _ Hh).
  - rewrite Hmap. apply IH.
Qed.

Lemma lookup_route_qualify rp p keys m :
  lookup_route keys (map (fun '(k, v) => (k, qualifyEntry rp p v)) m) =
  option_map (qualifyEntry rp p) (lookup_route keys m).
Proof.
  apply lookup_route_map; [done|]. intros [] m'; simpl; try discriminate. eauto.
Qed.

Lemma lookup_route_unqualified keys m :
  lookup_route keys (map (fun '(k, v) => (k, unqualifiedEntry v)) m) =
  option_map unqualifiedEntry (lookup_route keys m).
Proof.
  apply lookup_route_map; [done|]. intros [] m'; simpl; try discriminate. eauto.
Qed.

(** Every literal a table holds, however deep. *)
Fixpoint entry_literals {L} (e : RouteMapEntry L) : list L :=
  match e with
  | Literal s => [s]
  | RouteFunction _ => []
  | RouteMap m => flat_map (fun '(_, v) => entry_literals v) m
  end.

Definition table_literals {L} (m : list (string * RouteMapEntry L)) : list L :=
  flat_map (fun '(_, v) => entry_literals v) m.

Lemma assoc_get_In {A} k (m : list (string * A)) v : assoc_get k m = Some v -> In (k, v) m.
Proof.
  induction m as [|[k' v'] m IH]; simpl; [done|].
  destruct (String.eqb k k') eqn:E; [|auto]. apply String.eqb_eq in E. intros [=]; subst; auto.
Qed.

Lemma lookup_literal_in {L} keys (m : list (string * RouteMapEntry L)) l :
  lookup_route keys m = Some (Literal l) -> In l (table_literals m).
Proof.
  revert m. induction keys as [|k [|k2 ks] IH]; intros m; [done| |].
  - intros H%assoc_get_In. apply in_flat_map. exists (k, Literal l). simpl; auto.
  - cbn [lookup_route]. destruct (assoc_get k m) as [[|g|m']|] eqn:E; try done.
    intros H%IH. apply assoc_get_In in E. apply in_flat_map. by exists (k, RouteMap m').
Qed.

(** The literals of [Routes] are ["/"] and clean paths, when [viewsPath]
    and [extendedSearchPath] are. *)
Lemma routes_literals_clean vp esp enc l :
  clean_path vp = true -> clean_path esp = true ->
  In l (table_literals (Routes vp esp enc)) -> l = "/" \/ clean_path l = true.
Proof.
  intros Hvp Hesp Hl. vm_compute in Hl.
  repeat (destruct Hl as [<- | Hl]; [first [by left | by right]|]). done.
Qed.

Lemma no_prefix_abs psegs :
  psegs <> [] -> forallb clean_seg psegs = true -> no_prefix (Val (abs_path psegs)) = false.
Proof.
  intros Hne Hc. destruct psegs as [|s ps]; [done|]. simpl in Hc.
  apply andb_prop in Hc as [Hs _]. apply clean_seg_ne in Hs.
  unfold no_prefix. destruct s; [done|]. by destruct (abs_path ps).
Qed.

(** ** Properties *)

(** C13. With a clean deployment prefix, every literal route of the table,
    looked up by its keys, is the original path with the prefix in front:
    [Routes.SYSTEM.CLUSTER.NODES] becomes [prefix/system/cluster], and the
    start page [/] becomes [prefix/]. [URI.recodePath] must leave URL-safe
    paths alone, and [viewsPath] and [extendedSearchPath] must be clean
    paths. *)
Theorem qualified_literals rp psegs vp esp enc keys l :
  recode_safe rp -> psegs <> [] -> forallb clean_seg psegs = true ->
  clean_path vp = true -> clean_path esp = true ->
  lookup_route keys (Routes vp esp enc) = Some (Literal l) ->
  lookup_route keys (qualifyUrls rp (Routes vp esp enc) (Val (abs_path psegs))) =
  Some (Literal (Some (abs_path psegs ++ l))).
Proof.
  intros Hrp Hne Hc Hvp Hesp Hl. unfold qualifyUrls. rewrite no_prefix_abs by done.
  rewrite lookup_route_qualify, Hl. simpl. do 2 f_equal.
  destruct (routes_literals_clean vp esp enc l Hvp Hesp) as [-> | Hcl];
    [by eapply lookup_literal_in | by apply prefixUrlWithoutHostname_root |].
  destruct (clean_path_spec l Hcl) as (segs & -> & Hsne & Hsc).
  assert (E : abs_path segs = abs_path segs ++ tail None None) by (by rewrite sapp_nil_r).
  rewrite E at 1. by erewrite prefixUrlWithoutHostname_clean; rewrite <- ?E.
Qed.

Lemma qualified_literals_witness :
  lookup_route ["SYSTEM"; "CLUSTER"; "NODES"]
    (qualifyUrls id (Routes "/views" "/search" id) (Val (abs_path ["test"]))) =
  Some (Literal (Some (abs_path ["test"] ++ "/system/cluster"))).
Proof.
  apply (qualified_literals id ["test"] "/views" "/search" id); try done.
Defined.

(** With a clean deployment prefix, a route function of any table
    is wrapped so that a clean path it returns comes back with the prefix
    in front and its query and fragment unchanged:
    [search('', ..., 'hour')] gives [prefix/search?q=&interval=hour&...]. *)
Theorem qualified_functions rp psegs routes keys g args rsegs q f :
  recode_safe rp -> psegs <> [] -> forallb clean_seg psegs = true ->
  lookup_route keys routes = Some (RouteFunction g) ->
  g args = Some (abs_path rsegs ++ tail q f) ->
  rsegs <> [] -> forallb clean_seg rsegs = true -> query_ok q = true -> fragment_ok f = true ->
  exists g', lookup_route keys (qualifyUrls rp routes (Val (abs_path psegs))) = Some (RouteFunction g')
             /\ g' args = Some (abs_path psegs ++ abs_path rsegs ++ tail q f).
Proof.
  intros Hrp Hne Hc Hg Hres Hrne Hrc Hq Hf. unfold qualifyUrls. rewrite no_prefix_abs by done.
  rewrite lookup_route_qualify, Hg. eexists; split; [reflexivity|]. simpl.
  rewrite Hres. by apply prefixUrlWithoutHostname_clean.
Qed.

Lemma qualified_functions_witness :
  exists g', lookup_route ["search"]
      (qualifyUrls id (Routes "/views" "/search" id) (Val (abs_path ["test"]))) = Some (RouteFunction g')
    /\ g' [JStr ""; JMap [("rangetype", JStr "relative"); ("relative", JNum 300)]; JStr "hour"] =
       Some (abs_path ["test"] ++ abs_path ["search"] ++
             tail (Some "q=&interval=hour&rangetype=relative&relative=300") None).
Proof.
  apply (qualified_functions id ["test"] (Routes "/views" "/search" id) ["search"]
           (fun a => _common_search_url id SEARCH (argv a 0) (argv a 1) (argv a 2)));
    try done; vm_compute; reflexivity.
Defined.

(** With no prefix ([undefined], [null], [''] or ['/']) the
    qualified table is the table: every lookup gives the same literal,
    the same function or the same sub-table. *)
Theorem qualifyUrls_no_prefix rp routes p keys :
  no_prefix p = true ->
  lookup_route keys (qualifyUrls rp routes p) = option_map unqualifiedEntry (lookup_route keys routes).
Proof.
  intros H. unfold qualifyUrls. destruct p as [| |p]; try apply lookup_route_unqualified.
  rewrite H. apply lookup_route_unqualified.
Qed.

Lemma qualifyUrls_no_prefix_witness :
  lookup_route ["SEARCH"] (qualifyUrls id (Routes "/views" "/search" id) (Val "/")) =
  option_map unqualifiedEntry (lookup_route ["SEARCH"] (Routes "/views" "/search" id)).
Proof. apply qualifyUrls_no_prefix. reflexivity. Defined.

(** A literal route by its keys, and a route function applied. *)
Definition route_literal (m : list (string * RouteMapEntry (option string))) keys : option string :=
  match lookup_route keys m with Some (Literal s) => s | _ => None end.

Definition route_call (m : list (string * RouteMapEntry (option string))) keys args : option string :=
  match lookup_route keys m with Some (RouteFunction g) => g args | _ => None end.

(** The expectations of routing/Routes.test.ts: without a prefix,
    with the prefix [/test] and with the prefix [/], [Routes.SEARCH],
    [Routes.SYSTEM.CLUSTER.NODE_SHOW('id')] and
    [Routes.search('', {rangetype: 'relative', relative: 300}, 'hour')]
    give the expected paths and query. With [/], [Routes.WELCOME] is
    [/welcome]. *)
Theorem routes_test_expectations :
  let R p := qualifyUrls id (Routes "/views" "/search" id) p in
  let search_args := [JStr ""; JMap [("rangetype", JStr "relative"); ("relative", JNum 300)];
                      JStr "hour"] in
  (route_literal (R Undefined) ["SEARCH"] = Some "/search" /\
   route_call (R Undefined) ["SYSTEM"; "CLUSTER"; "NODE_SHOW"] [JStr "id"] =
     Some "/system/cluster/node/id" /\
   route_call (R Undefined) ["search"] search_args =
     Some "/search?q=&interval=hour&rangetype=relative&relative=300") /\
  (route_literal (R (Val "/test")) ["SEARCH"] = Some "/test/search" /\
   route_call (R (Val "/test")) ["SYSTEM"; "CLUSTER"; "NODE_SHOW"] [JStr "id"] =
     Some "/test/system/cluster/node/id" /\
   route_call (R (Val "/test")) ["search"] search_args =
     Some "/test/search?q=&interval=hour&rangetype=relative&relative=300") /\
  (route_literal (R (Val "/")) ["SEARCH"] = Some "/search" /\
   route_literal (R (Val "/")) ["WELCOME"] = Some "/welcome" /\
   route_call (R (Val "/")) ["SYSTEM"; "CLUSTER"; "NODE_SHOW"] [JStr "id"] =
     Some "/system/cluster/node/id" /\
   route_call (R (Val "/")) ["search"] search_args =
     Some "/search?q=&interval=hour&rangetype=relative&relative=300").
Proof. vm_compute. repeat split. Qed.

(** C17. [search_with_query] throws ([Invalid range type]) when it is
    given a range type and a time range, and the range type is not
    ['relative'], ['absolute'] or ['keyword']. *)
Theorem search_with_query_invalid_range enc a :
  truthy (argv a 1) = true -> truthy (argv a 2) = true ->
  (forall r, argv a 1 = JStr r -> r <> "relative" /\ r <> "absolute" /\ r <> "keyword") ->
  search_with_query enc a = None.
Proof.
  intros H1 H2 Hr. unfold search_with_query. rewrite H1, H2. simpl.
  destruct (argv a 1) as [| | | |r| |]; try done.
  destruct (Hr r eq_refl) as (Hrel & Habs & Hkw).
  apply String.eqb_neq in Hrel, Habs, Hkw. by rewrite Hrel, Habs, Hkw.
Qed.

Lemma search_with_query_invalid_range_witness :
  search_with_query id [JStr "q"; JStr "week"; JMap [("range", JNum 7)]] = None.
Proof.
  apply search_with_query_invalid_range; try reflexivity.
  intros r [= <-]. repeat split; discriminate.
Defined.

End Routes.
