(* ===== verification/UserOverview.v ===== *)
(** * The user overview value object (logic/users/UserOverview.ts)

    [UserOverview] is an immutable record of fifteen fields with a
    [Builder], a [toBuilder], and a JSON mapping ([toJSON] / [fromJSON])
    between camelCase fields and the server's snake_case fields.

    Every field is [nullable]. The TypeScript types are not checked at run
    time: a builder that was never given a field builds a user whose field
    is [undefined], and a JSON object may lack any field. The roles are an
    [Immutable.Set], modelled as an insertion-ordered list without
    duplicates. [toJSON] calls [roles.toArray()], which lists the set in
    Immutable's iteration order ([iter_order]: insertion order up to eight
    roles, a hash order past that) and throws on a nullish [roles]: it
    returns [None] there. [fromJSON] turns the roles into a set
    ([Immutable.Set(undefined)] is the empty set) and defaults three flags
    to [false] with [??].

    The theorems show the two JSON round trips, exactly where they are
    exact (up to eight roles, or past that when the hash order keeps the
    roles' order), and that [toBuilder().build()] gives the user back. *)

From S2P Require Import Prelude.
Set Warnings "-clear-no-such-hyp".

Module UserOverview.

Inductive AccountStatus := AccountEnabled | AccountDisabled | AccountDeleted.

#[export] Instance AccountStatus_eq_dec : EqDecision AccountStatus.
Proof. solve_decision. Defined.

(** [UserOverviewJSON] *)
Record UserOverviewJSON := mkUserOverviewJSON {
  j_id : nullable string;
  j_username : nullable string;
  j_full_name : nullable string;
  j_email : nullable string;
  j_external_user : nullable bool;
  j_roles : nullable (list string);
  j_read_only : nullable bool;
  j_session_active : nullable bool;
  j_client_address : nullable string;
  j_last_activity : nullable string;
  j_enabled : nullable bool;
  j_auth_service_id : nullable string;
  j_auth_service_uid : nullable string;
  j_auth_service_enabled : nullable bool;
  j_account_status : nullable AccountStatus
}.

(** [InternalState], the user itself. [roles] is an [Immutable.Set]. *)
Record UserOverview := mkUserOverview {
  id : nullable string;
  username : nullable string;
  fullName : nullable string;
  email : nullable string;
  roles : nullable (list string);
  readOnly : nullable bool;
  external : nullable bool;
  sessionActive : nullable bool;
  clientAddress : nullable string;
  lastActivity : nullable string;
  enabled : nullable bool;
  authServiceId : nullable string;
  authServiceUid : nullable string;
  authServiceEnabled : nullable bool;
  accountStatus : nullable AccountStatus
}.

(** [UserOverview.create(...)], the constructor with the same argument
    order. *)
Definition create := mkUserOverview.

(** The [name] and [description] getters alias [username] and [fullName]. *)
Definition name (u : UserOverview) : nullable string := username u.
Definition description (u : UserOverview) : nullable string := fullName u.

(** [toJSON()]: [roles.toArray()] throws on a nullish [roles]. *)
Definition toJSON `{HashOrder string} (u : UserOverview) : option UserOverviewJSON :=
  match roles u with
  | Val rs =>
      Some {| j_id := id u; j_username := username u; j_full_name := fullName u;
              j_email := email u; j_roles := Val (iter_order rs); j_read_only := readOnly u;
              j_external_user := external u; j_session_active := sessionActive u;
              j_client_address := clientAddress u; j_last_activity := lastActivity u;
              j_enabled := enabled u; j_auth_service_id := authServiceId u;
              j_auth_service_uid := authServiceUid u;
              j_auth_service_enabled := authServiceEnabled u;
              j_account_status := accountStatus u |}
  | _ => None
  end.

(** [Immutable.Set(roles)]: the empty set for a nullish argument. *)
Definition set_of (rs : nullable (list string)) : list string :=
  match rs with Val l => oset_of l | _ => [] end.

(** [UserOverview.fromJSON(value)] *)
Definition fromJSON (v : UserOverviewJSON) : UserOverview :=
  create (j_id v) (j_username v) (j_full_name v) (j_email v)
    (Val (set_of (j_roles v)))
    (Val (j_read_only v ?? false)) (Val (j_external_user v ?? false))
    (Val (j_session_active v ?? false))
    (j_client_address v) (j_last_activity v) (j_enabled v) (j_auth_service_id v)
    (j_auth_service_uid v) (j_auth_service_enabled v) (j_account_status v).

(** ** The builder

    [BuilderState] is an [Immutable.Map<string, any>] over the fifteen
    keys; [build] reads it with [toObject()], so a key that was never set
    reads as [undefined]. The map is therefore a record of [nullable]
    fields, all [undefined] in [new Builder()]. *)
Record Builder := mkBuilder {
  b_id : nullable string; b_username : nullable string; b_fullName : nullable string;
  b_email : nullable string; b_roles : nullable (list string); b_readOnly : nullable bool;
  b_external : nullable bool; b_sessionActive : nullable bool;
  b_clientAddress : nullable string; b_lastActivity : nullable string;
  b_enabled : nullable bool; b_authServiceId : nullable string;
  b_authServiceUid : nullable string; b_authServiceEnabled : nullable bool;
  b_accountStatus : nullable AccountStatus
}.

(** [UserOverview.builder()] *)
Definition builder : Builder :=
  mkBuilder Undefined Undefined Undefined Undefined Undefined Undefined Undefined Undefined
    Undefined Undefined Undefined Undefined Undefined Undefined Undefined.

(** [toBuilder()] *)
Definition toBuilder (u : UserOverview) : Builder :=
  mkBuilder (id u) (username u) (fullName u) (email u) (roles u) (readOnly u) (external u)
    (sessionActive u) (clientAddress u) (lastActivity u) (enabled u) (authServiceId u)
    (authServiceUid u) (authServiceEnabled u) (accountStatus u).

(** The setters: [new Builder(this.value.set(key, value))]. *)
Definition set_id v b := {| b_id := v; b_username := b_username b; b_fullName := b_fullName b; b_email := b_email b; b_roles := b_roles b; b_readOnly := b_readOnly b; b_external := b_external b; b_sessionActive := b_sessionActive b; b_clientAddress := b_clientAddress b; b_lastActivity := b_lastActivity b; b_enabled := b_enabled b; b_authServiceId := b_authServiceId b; b_authServiceUid := b_authServiceUid b; b_authServiceEnabled := b_authServiceEnabled b; b_accountStatus := b_accountStatus b |}.
Definition set_username v b := {| b_id := b_id b; b_username := v; b_fullName := b_fullName b; b_email := b_email b; b_roles := b_roles b; b_readOnly := b_readOnly b; b_external := b_external b; b_sessionActive := b_sessionActive b; b_clientAddress := b_clientAddress b; b_lastActivity := b_lastActivity b; b_enabled := b_enabled b; b_authServiceId := b_authServiceId b; b_authServiceUid := b_authServiceUid b; b_authServiceEnabled := b_authServiceEnabled b; b_accountStatus := b_accountStatus b |}.
Definition set_fullName v b := {| b_id := b_id b; b_username := b_username b; b_fullName := v; b_email := b_email b; b_roles := b_roles b; b_readOnly := b_readOnly b; b_external := b_external b; b_sessionActive := b_sessionActive b; b_clientAddress := b_clientAddress b; b_lastActivity := b_lastActivity b; b_enabled := b_enabled b; b_authServiceId := b_authServiceId b; b_authServiceUid := b_authServiceUid b; b_authServiceEnabled := b_authServiceEnabled b; b_accountStatus := b_accountStatus b |}.
Definition set_email v b := {| b_id := b_id b; b_username := b_username b; b_fullName := b_fullName b; b_email := v; b_roles := b_roles b; b_readOnly := b_readOnly b; b_external := b_external b; b_sessionActive := b_sessionActive b; b_clientAddress := b_clientAddress b; b_lastActivity := b_lastActivity b; b_enabled := b_enabled b; b_authServiceId := b_authServiceId b; b_authServiceUid := b_authServiceUid b; b_authServiceEnabled := b_authServiceEnabled b; b_accountStatus := b_accountStatus b |}.
Definition set_roles v b := {| b_id := b_id b; b_username := b_username b; b_fullName := b_fullName b; b_email := b_email b; b_roles := v; b_readOnly := b_readOnly b; b_external := b_external b; b_sessionActive := b_sessionActive b; b_clientAddress := b_clientAddress b; b_lastActivity := b_lastActivity b; b_enabled := b_enabled b; b_authServiceId := b_authServiceId b; b_authServiceUid := b_authServiceUid b; b_authServiceEnabled := b_authServiceEnabled b; b_accountStatus := b_accountStatus b |}.
Definition set_readOnly v b := {| b_id := b_id b; b_username := b_username b; b_fullName := b_fullName b; b_email := b_email b; b_roles := b_roles b; b_readOnly := v; b_external := b_external b; b_sessionActive := b_sessionActive b; b_clientAddress := b_clientAddress b; b_lastActivity := b_lastActivity b; b_enabled := b_enabled b; b_authServiceId := b_authServiceId b; b_authServiceUid := b_authServiceUid b; b_authServiceEnabled := b_authServiceEnabled b; b_accountStatus := b_accountStatus b |}.
Definition set_external v b := {| b_id := b_id b; b_username := b_username b; b_fullName := b_fullName b; b_email := b_email b; b_roles := b_roles b; b_readOnly := b_readOnly b; b_external := v; b_sessionActive := b_sessionActive b; b_clientAddress := b_clientAddress b; b_lastActivity := b_lastActivity b; b_enabled := b_enabled b; b_authServiceId := b_authServiceId b; b_authServiceUid := b_authServiceUid b; b_authServiceEnabled := b_authServiceEnabled b; b_accountStatus := b_accountStatus b |}.
Definition set_sessionActive v b := {| b_id := b_id b; b_username := b_username b; b_fullName := b_fullName b; b_email := b_email b; b_roles := b_roles b; b_readOnly := b_readOnly b; b_external := b_external b; b_sessionActive := v; b_clientAddress := b_clientAddress b; b_lastActivity := b_lastActivity b; b_enabled := b_enabled b; b_authServiceId := b_authServiceId b; b_authServiceUid := b_authServiceUid b; b_authServiceEnabled := b_authServiceEnabled b; b_accountStatus := b_accountStatus b |}.
Definition set_clientAddress v b := {| b_id := b_id b; b_username := b_username b; b_fullName := b_fullName b; b_email := b_email b; b_roles := b_roles b; b_readOnly := b_readOnly b; b_external := b_external b; b_sessionActive := b_sessionActive b; b_clientAddress := v; b_lastActivity := b_lastActivity b; b_enabled := b_enabled b; b_authServiceId := b_authServiceId b; b_authServiceUid := b_authServiceUid b; b_authServiceEnabled := b_authServiceEnabled b; b_accountStatus := b_accountStatus b |}.
Definition set_lastActivity v b := {| b_id := b_id b; b_username := b_username b; b_fullName := b_fullName b; b_email := b_email b; b_roles := b_roles b; b_readOnly := b_readOnly b; b_external := b_external b; b_sessionActive := b_sessionActive b; b_clientAddress := b_clientAddress b; b_lastActivity := v; b_enabled := b_enabled b; b_authServiceId := b_authServiceId b; b_authServiceUid := b_authServiceUid b; b_authServiceEnabled := b_authServiceEnabled b; b_accountStatus := b_accountStatus b |}.
Definition set_enabled v b := {| b_id := b_id b; b_username := b_username b; b_fullName := b_fullName b; b_email := b_email b; b_roles := b_roles b; b_readOnly := b_readOnly b; b_external := b_external b; b_sessionActive := b_sessionActive b; b_clientAddress := b_clientAddress b; b_lastActivity := b_lastActivity b; b_enabled := v; b_authServiceId := b_authServiceId b; b_authServiceUid := b_authServiceUid b; b_authServiceEnabled := b_authServiceEnabled b; b_accountStatus := b_accountStatus b |}.
Definition set_authServiceId v b := {| b_id := b_id b; b_username := b_username b; b_fullName := b_fullName b; b_email := b_email b; b_roles := b_roles b; b_readOnly := b_readOnly b; b_external := b_external b; b_sessionActive := b_sessionActive b; b_clientAddress := b_clientAddress b; b_lastActivity := b_lastActivity b; b_enabled := b_enabled b; b_authServiceId := v; b_authServiceUid := b_authServiceUid b; b_authServiceEnabled := b_authServiceEnabled b; b_accountStatus := b_accountStatus b |}.
Definition set_authServiceUid v b := {| b_id := b_id b; b_username := b_username b; b_fullName := b_fullName b; b_email := b_email b; b_roles := b_roles b; b_readOnly := b_readOnly b; b_external := b_external b; b_sessionActive := b_sessionActive b; b_clientAddress := b_clientAddress b; b_lastActivity := b_lastActivity b; b_enabled := b_enabled b; b_authServiceId := b_authServiceId b; b_authServiceUid := v; b_authServiceEnabled := b_authServiceEnabled b; b_accountStatus := b_accountStatus b |}.
Definition set_authServiceEnabled v b := {| b_id := b_id b; b_username := b_username b; b_fullName := b_fullName b; b_email := b_email b; b_roles := b_roles b; b_readOnly := b_readOnly b; b_external := b_external b; b_sessionActive := b_sessionActive b; b_clientAddress := b_clientAddress b; b_lastActivity := b_lastActivity b; b_enabled := b_enabled b; b_authServiceId := b_authServiceId b; b_authServiceUid := b_authServiceUid b; b_authServiceEnabled := v; b_accountStatus := b_accountStatus b |}.
Definition set_accountStatus v b := {| b_id := b_id b; b_username := b_username b; b_fullName := b_fullName b; b_email := b_email b; b_roles := b_roles b; b_readOnly := b_readOnly b; b_external := b_external b; b_sessionActive := b_sessionActive b; b_clientAddress := b_clientAddress b; b_lastActivity := b_lastActivity b; b_enabled := b_enabled b; b_authServiceId := b_authServiceId b; b_authServiceUid := b_authServiceUid b; b_authServiceEnabled := b_authServiceEnabled b; b_accountStatus := v |}.

(** [build()] *)
Definition build (b : Builder) : UserOverview :=
  mkUserOverview (b_id b) (b_username b) (b_fullName b) (b_email b) (b_roles b) (b_readOnly b)
    (b_external b) (b_sessionActive b) (b_clientAddress b) (b_lastActivity b) (b_enabled b)
    (b_authServiceId b) (b_authServiceUid b) (b_authServiceEnabled b) (b_accountStatus b).

(** ** Well-formed users

    A user's roles are a set, and the three flags that [fromJSON]
    defaults are booleans. *)
Definition wf_user (u : UserOverview) : Prop :=
  (exists rs, roles u = Val rs /\ NoDup rs) /\
  isNullish (readOnly u) = false /\ isNullish (external u) = false /\
  isNullish (sessionActive u) = false.

(** The JSON that [fromJSON] reads exactly: duplicate-free roles and the
    three flags present. *)
Definition exact_json (j : UserOverviewJSON) : Prop :=
  (exists rs, j_roles j = Val rs /\ NoDup rs) /\
  isNullish (j_read_only j) = false /\ isNullish (j_external_user j) = false /\
  isNullish (j_session_active j) = false.

Lemma coalesce_val {A} (x : nullable A) d : Val (x ?? d) = x <-> isNullish x = false.
Proof. destruct x; simpl; split; congruence. Qed.

(** [Immutable.Set(rs)] is [rs] exactly when [rs] has no duplicates. *)
Lemma set_of_exact rs : Val (set_of rs) = rs <-> exists l, rs = Val l /\ NoDup l.
Proof.
  split.
  - destruct rs as [| |l]; simpl; try discriminate. intros [= E].
    exists l. split; [done|]. rewrite <- E. apply oset_of_NoDup_result.
  - intros (l & -> & Hl). simpl. by rewrite oset_of_NoDup.
Qed.

(** The roles [toArray()] lists come back from [Immutable.Set] as they
    were exactly when the JSON's roles were a duplicate-free list in the
    set's iteration order. *)
Lemma iter_set_of_exact `{HashOrder string} rs :
  Val (iter_order (set_of rs)) = rs <-> Val (set_of rs) = rs /\ iter_order (set_of rs) = set_of rs.
Proof.
  split; [|intros [E1 ->]; exact E1].
  destruct rs as [| |l]; try discriminate. simpl. intros [= E].
  assert (oset_of l = l) as El.
  { rewrite <- E at 1. rewrite oset_of_NoDup; [done|]. auto with gl. }
  rewrite El in E |- *. done.
Qed.

Lemma user_toBuilder_build u : build (toBuilder u) = u.
Proof. by destruct u. Qed.

Lemma fromJSON_wf j : wf_user (fromJSON j).
Proof.
  split; [|done]. exists (set_of (j_roles j)). split; [done|].
  destruct (j_roles j); simpl; [constructor|constructor|apply oset_of_NoDup_result].
Qed.

(** ** Properties *)

(** Serialising a user and reading it back gives the same user exactly
    when the user is well formed (its roles are a duplicate-free set and
    its [readOnly], [external] and [sessionActive] flags are set) and
    [toArray()] lists its roles in their insertion order. Otherwise
    [fromJSON] fills the flags in with [false], or rebuilds the roles in
    the hash order. *)
Theorem fromJSON_toJSON `{HashOrder string} u rs j :
  roles u = Val rs -> toJSON u = Some j -> (fromJSON j = u <-> wf_user u /\ iter_order rs = rs).
Proof.
  unfold toJSON. intros Hr. rewrite Hr. intros [= <-].
  destruct u as [i un fn em ro rd ex sa ca la en asi asu ase st].
  simpl in *. subst ro. unfold fromJSON, create, wf_user; simpl.
  rewrite <- (coalesce_val rd false), <- (coalesce_val ex false), <- (coalesce_val sa false).
  split.
  - intros [= Hro Hrd Hex Hsa]. pose proof (oset_of_NoDup_result (iter_order rs)) as Hnd.
    rewrite Hro in Hnd. rewrite oset_of_NoDup in Hro by (by apply NoDup_iter_order).
    split; [|done]. split; [|done]. by exists rs.
  - intros [((l & [= <-] & Hl) & -> & -> & ->) Hit].
    by rewrite oset_of_NoDup, Hit by auto with gl.
Qed.

Lemma fromJSON_toJSON_witness :
  let u := mkUserOverview (Val "u1") (Val "jane") (Val "Jane") (Val "j@x") (Val ["admin"; "reader"])
            (Val false) (Val true) (Val false) (Val "10.0.0.1") Null (Val true) Undefined
            Undefined Undefined (Val AccountEnabled) in
  let j := mkUserOverviewJSON (Val "u1") (Val "jane") (Val "Jane") (Val "j@x") (Val true)
          (Val ["admin"; "reader"]) (Val false) (Val false) (Val "10.0.0.1") Null (Val true)
          Undefined Undefined Undefined (Val AccountEnabled) in
  toJSON (H := {| hash_order := reverse; hash_order_perm := reverse_Permutation |}) u = Some j /\
  (fromJSON j = u <-> wf_user u /\
     iter_order (H := {| hash_order := reverse; hash_order_perm := reverse_Permutation |})
       ["admin"; "reader"] = ["admin"; "reader"]).
Proof.
  intros u j. split; [reflexivity|].
  apply (fromJSON_toJSON (H := {| hash_order := reverse; hash_order_perm := reverse_Permutation |})
           u ["admin"; "reader"]); reflexivity.
Defined.

(** C19. Reading a JSON user and serialising it again never throws. The
    roles come back as the same set, possibly reordered. The JSON comes
    back exactly when its roles are duplicate-free, its [read_only],
    [external_user] and [session_active] flags are present, and the set
    keeps the roles' order: it has at most eight roles, or Immutable's
    hash order happens to list them as given. *)
Theorem toJSON_fromJSON `{HashOrder string} j :
  exists j', toJSON (fromJSON j) = Some j' /\
    (exists rs, j_roles j' = Val rs /\ rs ≡ₚ set_of (j_roles j)) /\
    (j' = j <-> exact_json j /\
       (length (set_of (j_roles j)) <= MAX_ARRAY_MAP_SIZE \/
        hash_order (set_of (j_roles j)) = set_of (j_roles j))).
Proof.
  eexists; split; [reflexivity|]. split; [eexists; split; [reflexivity|apply iter_order_perm]|].
  rewrite <- iter_order_id.
  destruct j as [i un fn em ex ro rd sa ca la en asi asu ase st]; unfold exact_json; cbn -[iter_order set_of].
  rewrite <- (coalesce_val rd false), <- (coalesce_val ex false), <- (coalesce_val sa false),
    <- set_of_exact.
  split.
  - intros [= -> Hro -> ->]. apply iter_set_of_exact in Hro. naive_solver.
  - intros ((Hro & -> & -> & ->) & Hit). f_equal. apply iter_set_of_exact. done.
Qed.

End UserOverview.
