(* ===== verification/Telemetry.v ===== *)
(** * Telemetry event types (logic/telemetry/Constants.ts)

    [TELEMETRY_EVENT_TYPE] is a nested object literal of event names. A
    name is what the analytics backend receives, so two keys that map to
    the same name would make their events indistinguishable. A key written
    twice in one object literal would silently keep only the last value.
    The table is modelled as written: a [tnode] is an event name
    ([TName]) or a nested group ([TGroup]), and each group of the source
    is a definition of the same name.

    The theorem [telemetry_table_wf] shows that neither happens: the keys
    of every object are distinct and the 328 event names are pairwise
    distinct. Components look an event up by its key path with
    [lookup_event]. *)

From S2P Require Import Prelude.
Set Warnings "-clear-no-such-hyp -register-all".

Module Telemetry.

Local Open Scope string_scope.

Inductive tnode := TName (s : string) | TGroup (m : list (string * tnode)).

(** [TELEMETRY_EVENT_TYPE.SEARCH_WIDGET_ACTION] *)
Definition SEARCH_WIDGET_ACTION : list (string * tnode) := [
  ("FOCUSED", TName "Search Widget Focused");
  ("DELETED", TName "Search Widget Deleted");
  ("MOVE", TName "Search Widget Moved");
  ("DUPLICATE", TName "Search Widget Duplicate");
  ("COPY_TO_DASHBOARD", TName "Search Widget Copy To Dashboard Clicked");
  ("CREATE_NEW_DASHBOARD", TName "Search Widget Create New Dashboard Clicked");
  ("SEARCH_WIDGET_HORIZONTAL_STRETCH", TName "Search Widget Horizontal Width Toggled");
  ("SEARCH_WIDGET_EXTRA_ACTION", TName "Search Widget Extra Action Clicked");
  ("WIDGET_EDIT_TOGGLED", TName "Search Widget Edit Toggled");
  ("WIDGET_EDIT_CANCEL_CLICKED", TName "Search Widget Edit Cancel Clicked");
  ("WIDGET_CONFIG_UPDATED", TName "Search Widget Config Updated");
  ("EXPORT", TName "Search Widget Exported")].

(** [TELEMETRY_EVENT_TYPE.SEARCH_WIDGET_CREATE] *)
Definition SEARCH_WIDGET_CREATE : list (string * tnode) := [
  ("AGGREGATION", TName "Search Widget Aggregation Created");
  ("MESSAGE_COUNT", TName "Search Widget Message Count Created");
  ("MESSAGE_TABLE", TName "Search Widget Message Table Created");
  ("LOG_VIEW", TName "Search Widget Log View Created")].

(** [TELEMETRY_EVENT_TYPE.SEARCH_FIELD_VALUE_ACTION] *)
Definition SEARCH_FIELD_VALUE_ACTION : list (string * tnode) := [
  ("CHART", TName "Search Field Action Chart Clicked");
  ("STATISTICS", TName "Search Field Action Statistics Clicked");
  ("SHOW_TOP_VALUES", TName "Search Field Action Show Top Values Clicked");
  ("ADD_TO_TABLE", TName "Search Field Action Add To Table Clicked");
  ("REMOVE_FROM_TABLE", TName "Search Field Action Remove From Table Clicked");
  ("ADD_TO_ALL_TABLES", TName "Search Field Action Add To All Tables Clicked");
  ("COPY_FIELD_NAME_TO_CLIPBOARD", TName "Search Field Action Copy Field Name To Clipboard Clicked");
  ("REMOVE_FROM_ALL_TABLES", TName "Search Field Action Remove From All Tables Clicked");
  ("EXCLUDE_FROM_RESULTS", TName "Search Value Action Exclude From Results Clicked");
  ("ADD_TO_QUERY", TName "Search Value Action Add To Query Clicked");
  ("SHOW_DOCUMENT_FOR_VALUE", TName "Search Value Action Show Document For Value Clicked");
  ("CREATE_EXTRACTOR", TName "Search Value Action Create Extractor Clicked");
  ("HIGHLIGHT_THIS_VALUE", TName "Search Value Action Highlight This Value Clicked");
  ("COPY_VALUE_TO_CLIPBOARD", TName "Search Value Action Copy Value To Clipboard Clicked");
  ("CREATE_EVENT_DEFINITION", TName "Search Value Action Create Event Definition Clicked");
  ("INSERT_INTO_DASHBOARD_SEARCH", TName "Search Value Action Insert Into Dashboard/Search Clicked");
  ("CHANGE_FIELD_TYPE_OPENED", TName "Search Field Action Change Field Type Opened");
  ("CHANGE_FIELD_TYPE_CLOSED", TName "Search Field Action Change Field Type Closed");
  ("CHANGE_FIELD_TYPE_CHANGED", TName "Search Field Action Change Field Type Changed");
  ("REMOVE_CUSTOM_FIELD_TYPE_OPENED", TName "Search Field Action Removed Custom Field Type Opened");
  ("REMOVE_CUSTOM_FIELD_TYPE_CLOSED", TName "Search Field Action Removed Custom Field Type Closed");
  ("REMOVE_CUSTOM_FIELD_TYPE_REMOVED", TName "Search Field Action Removed Custom Field Type Removed")].

(** [TELEMETRY_EVENT_TYPE.DASHBOARD_ACTION] *)
Definition DASHBOARD_ACTION : list (string * tnode) := [
  ("DASHBOARD_NEW_SAVED", TName "Dashboard New Saved");
  ("DASHBOARD_SAVED", TName "Dashboard Saved");
  ("DASHBOARD_UPDATED", TName "Dashboard Updated");
  ("DASHBOARD_CREATE_CLICKED", TName "Dashboard Create Clicked");
  ("DASHBOARD_CREATE_PAGE", TName "Dashboard Create Page Clicked");
  ("DASHBOARD_PAGE_CONFIGURATION", TName "Dashboard Page Configuration Clicked");
  ("DASHBOARD_PAGE_CONFIGURATION_UPDATED", TName "Dashboard Page Configuration Updated");
  ("DASHBOARD_PAGE_CONFIGURATION_CANCELED", TName "Dashboard Page Configuration Update Cancel");
  ("DASHBOARD_PAGE_CONFIGURATION_SORTING_UPDATED", TName "Dashboard Page Configuration Sorting Updated");
  ("DASHBOARD_PAGE_CONFIGURATION_PAGE_REMOVED", TName "Dashboard Page Configuration Page Remove")].

(** [TELEMETRY_EVENT_TYPE.EVENTDEFINITION_LIST] *)
Definition EVENTDEFINITION_LIST : list (string * tnode) := [
  ("COLUMNS_CHANGED", TName "EventDefinition List Columns Changed");
  ("SORT_CHANGED", TName "EventDefinition List Sort Changed");
  ("PAGE_SIZE_CHANGED", TName "EventDefinition List Page Size Changed");
  ("BULK_ACTION_DELETE_CLICKED", TName "EventDefinition List Bulk Delete Clicked");
  ("BULK_ACTION_ENABLE_CLICKED", TName "EventDefinition List Bulk Enable Clicked");
  ("BULK_ACTION_DISABLE_CLICKED", TName "EventDefinition List Bulk Disable Clicked");
  ("ROW_ACTION_DELETE_CLICKED", TName "EventDefinition List Row Delete Clicked");
  ("ROW_ACTION_ENABLE_CLICKED", TName "EventDefinition List Row Enable Clicked");
  ("ROW_ACTION_DISABLE_CLICKED", TName "EventDefinition List Row Disable Clicked");
  ("ROW_ACTION_COPY_CLICKED", TName "EventDefinition List Row Copy Clicked");
  ("ROW_ACTION_SHARE_CLICKED", TName "EventDefinition List Row Share Clicked")].

(** [TELEMETRY_EVENT_TYPE.EVENTDEFINITION_DETAILS] *)
Definition EVENTDEFINITION_DETAILS : list (string * tnode) := [
  ("STEP_CLICKED", TName "EventDefinition Details Step Clicked");
  ("PRIORITY_CHANGED", TName "EventDefinition Details Priority Changed")].

(** [TELEMETRY_EVENT_TYPE.EVENTDEFINITION_CONDITION] *)
Definition EVENTDEFINITION_CONDITION : list (string * tnode) := [
  ("STEP_CLICKED", TName "EventDefinition Condition Step Clicked");
  ("TYPE_SELECTED", TName "EventDefinition Condition Type Selected");
  ("FILTER_STREAM_SELECTED", TName "EventDefinition Condition Filter Stream Selected");
  ("FILTER_SEARCH_WITHIN_THE_LAST_UNIT_CHANGED", TName "EventDefinition Condition Filter Search Within The Last Unit Changed");
  ("FILTER_EXECUTE_SEARCH_EVERY_UNIT_CHANGED", TName "EventDefinition Condition Filter Execute Search Every Unit Changed");
  ("FILTER_EXECUTED_AUTOMATICALLY_TOGGLED", TName "EventDefinition Condition Filter Executed Automatically Toggled");
  ("FILTER_EVENT_LIMIT_CHANGED", TName "EventDefinition Condition Filter Event Limit Changed");
  ("AGGREGATION_TOGGLED", TName "EventDefinition Aggregation Toggled");
  ("AGGREGATION_GROUP_BY_FIELD_SELECTED", TName "EventDefinition Aggregation Group By Field Selected")].

(** [TELEMETRY_EVENT_TYPE.EVENTDEFINITION_FIELDS] *)
Definition EVENTDEFINITION_FIELDS : list (string * tnode) := [
  ("STEP_CLICKED", TName "EventDefinition Fields Step Clicked");
  ("ADD_CUSTOM_FIELD_CLICKED", TName "EventDefinition Fields Add Custom Field Clicked");
  ("AS_EVENT_KEY_TOGGLED", TName "EventDefinition Fields As Event Key Toggled");
  ("SET_VALUE_FROM_TEMPLATE_SELECTED", TName "EventDefinition Fields Set Value From Template Selected");
  ("SET_VALUE_FROM_LOOKUP_TABLE_SELECTED", TName "EventDefinition Fields Set Value From Lookup Table Selected");
  ("DONE_CLICKED", TName "EventDefinition Fields Done Clicked");
  ("CANCEL_CLICKED", TName "EventDefinition Fields Cancel Clicked")].

(** [TELEMETRY_EVENT_TYPE.EVENTDEFINITION_NOTIFICATIONS] *)
Definition EVENTDEFINITION_NOTIFICATIONS : list (string * tnode) := [
  ("STEP_CLICKED", TName "EventDefinition Notifications Step Clicked");
  ("ADD_CLICKED", TName "EventDefinition Notifications Add Clicked");
  ("MANAGE_LINK_CLICKED", TName "EventDefinition Notifications Manage Link Clicked");
  ("NOTIFICATION_SELECTED", TName "EventDefinition Notifications Notification Selected");
  ("CREATE_NEW_CLICKED", TName "EventDefinition Notifications Create New Clicked");
  ("NOTIFICATION_TYPE_SELECTED", TName "EventDefinition Notifications Notification Type Selected");
  ("DONE_CLICKED", TName "EventDefinition Notifications Done Clicked");
  ("CANCEL_CLICKED", TName "EventDefinition Notifications Cancel Clicked")].

(** [TELEMETRY_EVENT_TYPE.EVENTDEFINITION_SUMMARY] *)
Definition EVENTDEFINITION_SUMMARY : list (string * tnode) := [
  ("STEP_CLICKED", TName "EventDefinition Summary Step Clicked");
  ("CANCEL_CLICKED", TName "EventDefinition Summary Cancel Clicked");
  ("CREATE_CLICKED", TName "EventDefinition Summary Create Clicked");
  ("UPDATE_CLICKED", TName "EventDefinition Summary Update Clicked")].

(** [TELEMETRY_EVENT_TYPE.NOTIFICATIONS] *)
Definition NOTIFICATIONS : list (string * tnode) := [
  ("CREATE_CLICKED", TName "Notifications Create Clicked");
  ("EDIT_CLICKED", TName "Notifications Edit Clicked");
  ("EXECUTE_TEST_CLICKED", TName "Notifications Execute Test Clicked");
  ("BULK_ACTION_DELETE_CLICKED", TName "Notifications Bulk Delete Clicked");
  ("ROW_ACTION_DELETE_CLICKED", TName "Notifications Row Delete Clicked");
  ("ROW_ACTION_TEST_CLICKED", TName "Notifications Row Test Clicked")].

(** [TELEMETRY_EVENT_TYPE.CONTENTSTREAM] *)
Definition CONTENTSTREAM : list (string * tnode) := [
  ("PREV_ARROW_CLICKED", TName "Content Stream Left Arrow Clicked");
  ("NEXT_ARROW_CLICKED", TName "Content Stream Right Arrow Clicked");
  ("READ_MORE_CLICKED", TName "Content Stream Read More Clicked");
  ("ARTICLE_CLICKED", TName "Content Stream Article Clicked");
  ("RELESE_ARTICLE_CLICKED", TName "Content Stream Release Article Clicked");
  ("NEWS_OPT_IN_TOGGLED", TName "Content Stream News Opt-In Clicked");
  ("RELEASE_OPT_IN_TOGGLED", TName "Content Stream Release Opt-In Clicked")].

(** [TELEMETRY_EVENT_TYPE.STREAMS] *)
Definition STREAMS : list (string * tnode) := [
  ("CREATE_FORM_MODAL_OPENED", TName "Stream Create Form Modal Opened");
  ("NEW_STREAM_CREATED", TName "Stream New Stream Created");
  ("STREAM_ITEM_UPDATED", TName "Stream Item Updated");
  ("STREAM_ITEM_STATUS_TOGGLED", TName "Stream Item Status Toggled");
  ("STREAM_ITEM_SHARE_MODAL_OPENED", TName "Stream Item Share Modal Opened");
  ("STREAM_ITEM_UPDATE_MODAL_OPENED", TName "Stream Item Update Modal Opened");
  ("STREAM_ITEM_CLONED", TName "Stream Item Cloned");
  ("STREAM_ITEM_RULE_SAVED", TName "Stream Item Rule SAVED");
  ("STREAM_ITEM_DELETED", TName "Stream Item Deleted");
  ("STREAM_ITEM_DATA_ROUTING_CLICKED", TName "Stream Item Data Routing Clicked");
  ("STREAM_ITEM_DATA_ROUTING_UPDATE_CLICKED", TName "Stream Item Data Routing Update Clicked");
  ("STREAM_ITEM_DATA_ROUTING_STREAM_INDEXSET_UPDATE_OPENED", TName "Stream Item Data Routing Stream IndexSet Update Opened");
  ("STREAM_ITEM_DATA_ROUTING_INDEXER_FILTER_UPDATE_OPENED", TName "Stream Item Data Routing Indexer Filter Update Opened");
  ("STREAM_ITEM_DATA_ROUTING_INDEXER_FILTER_CREATE_OPENED", TName "Stream Item Data Routing Indexer Filter Create Opened");
  ("STREAM_ITEM_DATA_ROUTING_DATA_WAREHOUSE_FILTER_CREATE_OPENED", TName "Stream Item Data Routing Data Warehouse Filter Create Opened");
  ("STREAM_ITEM_DATA_ROUTING_DATA_WAREHOUSE_FILTER_UPDATE_OPENED", TName "Stream Item Data Routing Data Warehouse Filter Update Opened");
  ("STREAM_ITEM_DATA_ROUTING_FILTER_DELETE_OPENED", TName "Stream Item Data Routing Filter Delete Opened");
  ("STREAM_ITEM_DATA_ROUTING_INTAKE_OPENED", TName "Stream Item Data Routing Intake Opened");
  ("STREAM_ITEM_DATA_ROUTING_PROCESSING_OPENED", TName "Stream Item Data Routing Processing Opened");
  ("STREAM_ITEM_DATA_ROUTING_DESTINATIONS_OPENED", TName "Stream Item Data Routing Destination Opened");
  ("STREAM_ITEM_DATA_ROUTING_DESTINATIONS_OUTPUT_ASSIGN_OPENED", TName "Stream Item Data Routing Destination Output Assign Opened");
  ("STREAM_ITEM_DATA_ROUTING_INTAKE_CREATE_RULE_OPENED", TName "Stream Item Data Routing Intake Create Rule Opened");
  ("STREAM_ITEM_DATA_ROUTING_PROCESSING_EDIT_PIPELINES_CONNECTION", TName "Stream Item Data Routing Edit Pipelines Connection")].

(** [TELEMETRY_EVENT_TYPE.ENTITYSHARE] *)
Definition ENTITYSHARE : list (string * tnode) := [
  ("ENTITY_STREAM_SHARED", TName "Entity Share: Entity Stream Shared");
  ("ENTITY_SEARCH_SHARED", TName "Entity Share: Entity Search Shared");
  ("ENTITY_SEARCH_FILTER_SHARED", TName "Entity Share: Entity Filter Shared");
  ("ENTITY_EVENT_DEFINITION_SHARED", TName "Entity Share: Event Definition Shared");
  ("ENTITY_NOTIFICATION_SHARED", TName "Entity Share: Notification Shared");
  ("ENTITY_DASHBOARD_SHARED", TName "Entity Share: Dashboard Shared")].

(** [TELEMETRY_EVENT_TYPE.PIPELINE_RULE_BUILDER] *)
Definition PIPELINE_RULE_BUILDER : list (string * tnode) := [
  ("CREATE_RULE_CLICKED", TName "Pipeline Create Rule Clicked");
  ("RUN_RULE_SIMULATION_CLICKED", TName "Pipeline Run Rule Simulation Clicked");
  ("RESET_RULE_SIMULATION_CLICKED", TName "Pipeline Reset Rule Simulation Clicked");
  ("USE_SOURCE_CODE_EDITOR_CLICKED", TName "Pipeline RuleBuilder Use Source Code Editor Clicked");
  ("SWITCH_TO_SOURCE_CODE_EDITOR_CONFIRM_CLICKED", TName "Pipeline RuleBuilder Switch to Source Code Editor Confirm Clicked");
  ("SWITCH_TO_SOURCE_CODE_EDITOR_CANCEL_CLICKED", TName "Pipeline RuleBuilder Switch to Source Code Editor Cancel Clicked");
  ("CREATE_NEW_RULE_FROM_CODE_CLICKED", TName "Pipeline RuleBuilder Create New Rule From Code Clicked");
  ("COPY_CODE_AND_CLOSE_CLICKED", TName "Pipeline RuleBuilder Code Copy & Close Clicked");
  ("NEW_CONDITION_SELECTED", TName "Pipeline RuleBuilder New Condition Selected");
  ("NEW_ACTION_SELECTED", TName "Pipeline RuleBuilder New Action Selected");
  ("ADD_CONDITION_CLICKED", TName "Pipeline RuleBuilder Add Condition Clicked");
  ("ADD_ACTION_CLICKED", TName "Pipeline RuleBuilder Add Action Clicked");
  ("UPDATE_CONDITION_CLICKED", TName "Pipeline RuleBuilder Update Condition Clicked");
  ("UPDATE_ACTION_CLICKED", TName "Pipeline RuleBuilder Update Action Clicked");
  ("CANCEL_CLICKED", TName "Pipeline RuleBuilder Cancel Clicked");
  ("ADD_RULE_CLICKED", TName "Pipeline RuleBuilder Add Rule Clicked");
  ("CONVERT_TO_SOURCE_CODE_CLICKED", TName "Pipeline RuleBuilder Convert to Source Code Clicked");
  ("OPERATOR_AND_CLICKED", TName "Pipeline RuleBuilder Operator AND Clicked");
  ("OPERATOR_OR_CLICKED", TName "Pipeline RuleBuilder Operator OR Clicked");
  ("UPDATE_RULE_CLICKED", TName "Pipeline RuleBuilder Update Rule Clicked");
  ("UPDATE_RULE_AND_CLOSE_CLICKED", TName "Pipeline RuleBuilder Update Rule And Close Clicked");
  ("NEGATE_CONDITION_CLICKED", TName "Pipeline RuleBuilder Negate Condition Clicked");
  ("DUPLICATE_ACTION_CLICKED", TName "Pipeline RuleBuilder Duplicate Action Clicked");
  ("INSERT_ABOVE_ACTION_CLICKED", TName "Pipeline RuleBuilder Insert Above Action Clicked");
  ("INSERT_BELOW_ACTION_CLICKED", TName "Pipeline RuleBuilder Insert Below Action Clicked");
  ("DELETE_CONDITION_CLICKED", TName "Pipeline RuleBuilder Delete Condition Clicked");
  ("DELETE_ACTION_CLICKED", TName "Pipeline RuleBuilder Delete Action Clicked");
  ("EDIT_CONDITION_CLICKED", TName "Pipeline RuleBuilder Edit Condition Clicked");
  ("EDIT_ACTION_CLICKED", TName "Pipeline RuleBuilder Edit Action Clicked")].

(** [TELEMETRY_EVENT_TYPE.CONFIGURATIONS] *)
Definition CONFIGURATIONS : list (string * tnode) := [
  ("INDEX_SETS_UPDATED", TName "Configurations Index Sets Defaults Updated");
  ("THREATINTEL_CONFIGURATION_UPDATED", TName "Configurations Threat Intel Configuration Updated");
  ("PERMISSIONS_UPDATED", TName "Configurations Permissions Updated");
  ("SEARCHES_UPDATED", TName "Configurations Searches Updated");
  ("URL_WHITE_LIST_UPDATED", TName "Configurations Url White List Updated");
  ("USER_UPDATED", TName "Configurations User Updated");
  ("CERTIFICATE_RENEWAL_UPDATED", TName "Configurations Certificate Renewal Updated");
  ("CERTIFICATE_RENEWAL_POLICY_UPDATED", TName "Configurations Certificate Renewal Policy Updated");
  ("DECORATORS_UPDATED", TName "Configurations Decorators Updated");
  ("GEOLOCATION_CONFIGURATION_UPDATED", TName "Configurations Geolocation Configuration Updated")].

(** [TELEMETRY_EVENT_TYPE.INPUTS] *)
Definition INPUTS : list (string * tnode) := [
  ("INPUT_SELECTED", TName "Inputs Input Selected");
  ("INPUT_CREATED", TName "Inputs Input Created");
  ("INPUT_DELETED", TName "Inputs Input Deleted");
  ("INPUT_EDIT_CLICKED", TName "Inputs Input Edit Clicked");
  ("INPUT_UPDATED", TName "Inputs Input Updated");
  ("INPUT_SETUP_ENTERED", TName "Inputs Input Setup Mode Entered");
  ("INPUT_SETUP_EXITED", TName "Inputs Input Setup Mode Exited");
  ("SHOW_RECEIVED_MESSAGES_CLICKED", TName "Inputs Show Received Messages Clicked");
  ("MANAGE_EXTRACTORS_CLICKED", TName "Inputs Manage Extractors Clicked");
  ("SHOW_METRICS_CLICKED", TName "Inputs Show Metrics Clicked");
  ("INPUT_DIAGNOSIS_CLICKED", TName "Inputs Input Diagnosis Clicked");
  ("INPUT_START_CLICKED", TName "Inputs Input Start Clicked");
  ("INPUT_STOP_CLICKED", TName "Inputs Input Stop Clicked");
  ("INPUT_SETUP_CLICKED", TName "Inputs Input Setup Clicked")].

(** [TELEMETRY_EVENT_TYPE.INPUT_SETUP_WIZARD] *)
Definition INPUT_SETUP_WIZARD : list (string * tnode) := [
  ("START_INPUT", TName "Input Setup Wizard Start Input Clicked")].

(** [TELEMETRY_EVENT_TYPE.OUTPUTS] *)
Definition OUTPUTS : list (string * tnode) := [
  ("OUTPUT_CREATED", TName "Outputs Output Created");
  ("OUTPUT_ASSIGNED", TName "Outputs Output Assigned");
  ("OUTPUT_GLOBALLY_REMOVED", TName "Outputs Output Globally Removed");
  ("OUTPUT_FROM_STREAM_REMOVED", TName "Outputs Output From Stream Removed");
  ("OUTPUT_UPDATED", TName "Outputs Output Updated")].

(** [TELEMETRY_EVENT_TYPE.INDICES] *)
Definition INDICES : list (string * tnode) := [
  ("INDEX_SET_DEFAULT_SET", TName "Indices Index Set Default Set");
  ("INDEX_SET_DELETED", TName "Indices Index Set Deleted");
  ("INDEX_SET_CREATED", TName "Indices Index Set Created");
  ("INDEX_SET_UPDATED", TName "Indices Index Set Updated")].

(** [TELEMETRY_EVENT_TYPE.LOGGING] *)
Definition LOGGING : list (string * tnode) := [
  ("LOG_LEVEL_EDITED", TName "Logging Log Level Edited");
  ("SHOW_LOG_LEVEL_METRICS_TOGGLED", TName "Logging Show Log Level Metrics Toggled")].

(** [TELEMETRY_EVENT_TYPE.LUT] *)
Definition LUT : list (string * tnode) := [
  ("DELETED", TName "LUT Deleted");
  ("CREATED", TName "LUT Created");
  ("UPDATED", TName "LUT Updated");
  ("CACHE_TYPE_CHANGED", TName "LUT Cache Type Changed");
  ("CACHE_DELETED", TName "LUT Cache Deleted");
  ("CACHE_CREATED", TName "LUT Cache Created");
  ("CACHE_UPDATED", TName "LUT Cache Updated");
  ("DATA_ADAPTER_DELETED", TName "LUT Data Adapter Deleted");
  ("DATA_ADAPTER_CREATED", TName "LUT Data Adapter Created");
  ("DATA_ADAPTER_UPDATED", TName "LUT Data Adapter Updated")].

(** [TELEMETRY_EVENT_TYPE.USERS] *)
Definition USERS : list (string * tnode) := [
  ("USER_CREATED", TName "Users User Created");
  ("USER_DISABLED", TName "Users User Disabled");
  ("USER_ENABLED", TName "Users User Enabled");
  ("USER_DELETED", TName "Users User Deleted")].

(** [TELEMETRY_EVENT_TYPE.GROK_PATTERN] *)
Definition GROK_PATTERN : list (string * tnode) := [
  ("CREATED", TName "Grok Pattern Created");
  ("UPDATED", TName "Grok Pattern Updated");
  ("DELETED", TName "Grok Pattern Deleted");
  ("TESTED", TName "Grok Pattern Tested");
  ("IMPORTED", TName "Grok Pattern Imported")].

(** [TELEMETRY_EVENT_TYPE.ROLES] *)
Definition ROLES : list (string * tnode) := [
  ("USER_ASSIGNED", TName "Roles User Assigned");
  ("USER_UNASSIGNED", TName "Roles User Unassigned")].

(** [TELEMETRY_EVENT_TYPE.AUTHENTICATION] *)
Definition AUTHENTICATION : list (string * tnode) := [
  ("DIRECTORY_GROUP_SYNC_SAVE_CLICKED", TName "Authentication Directory Group Sync Save Clicked");
  ("CONFIG_UPDATED", TName "Authentication Config Updated");
  ("SERVICE_CREATED", TName "Authentication Service Created");
  ("SERVICE_SELECTED", TName "Authentication Service Selected");
  ("DIRECTORY_SERVER_CONFIG_SAVE_CLICKED", TName "Authentication Directory Server Config Save Clicked");
  ("DIRECTORY_USER_SYNC_SAVE_CLICKED", TName "Authentication Directory User Sync Save Clicked");
  ("DIRECTORY_NEXT_USER_SYNC_CLICKED", TName "Authentication Directory Next User Sync Clicked");
  ("DIRECTORY_NEXT_GROUP_SYNC_CLICKED", TName "Authentication Directory Next Group Sync Clicked")].

(** [TELEMETRY_EVENT_TYPE.SIDECARS] *)
Definition SIDECARS : list (string * tnode) := [
  ("CONFIGURATION_CREATED", TName "Sidecar Configuration Created");
  ("CONFIGURATION_UPDATED", TName "Sidecar Configuration Updated");
  ("CONFIGURATION_CLONED", TName "Sidecar Configuration Cloned");
  ("CONFIGURATION_DELETED", TName "Sidecar Configuration Deleted");
  ("CONFIGURATION_ASSIGNED", TName "Sidecar Configuration Assigned");
  ("PROCESS_ACTION_SET", TName "Sidecar Process Action Set");
  ("LOG_COLLECTOR_CLONED", TName "Sidecar Log Collector Cloned");
  ("LOG_COLLECTOR_CREATED", TName "Sidecar Log Collector Created");
  ("LOG_COLLECTOR_SERVICE_TYPE_CHANGED", TName "Sidecar Log Collector Service Type Changed");
  ("LOG_COLLECTOR_NODE_OPERATING_SYSTEM_CHANGED", TName "Sidecar Log Collector Node Operating System Changed");
  ("LOG_COLLECTOR_UPDATED", TName "Sidecar Log Collector Updated");
  ("LOG_COLLECTOR_DELETED", TName "Sidecar Log Collector Deleted")].

(** [TELEMETRY_EVENT_TYPE.CONTENT_PACK] *)
Definition CONTENT_PACK : list (string * tnode) := [
  ("INSTALLED", TName "Content Pack Installed");
  ("DOWNLOADED", TName "Content Pack Downloaded");
  ("ALL_VERSIONS_DELETED", TName "Content Pack All Versions Deleted")].

(** [TELEMETRY_EVENT_TYPE.INDEX_SET_FIELD_TYPE_PROFILE] *)
Definition INDEX_SET_FIELD_TYPE_PROFILE : list (string * tnode) := [
  ("NEW_OPENED", TName "Index Set Field Type Profile Creating New Opened");
  ("NEW_CANCELED", TName "Index Set Field Type Profile Creating New Canceled");
  ("CREATED", TName "Index Set Field Type Profile Created");
  ("EDIT_OPENED", TName "Index Set Field Type Profile Edit Opened");
  ("EDIT_CANCELED", TName "Index Set Field Type Profile Edit Canceled");
  ("EDIT", TName "Index Set Field Type Profile Edited");
  ("CHANGE_FOR_INDEX_OPENED", TName "Index Set Field Type Profile Change For Index Opened");
  ("CHANGE_FOR_INDEX_CANCELED", TName "Index Set Field Type Profile Change For Index  Canceled");
  ("CHANGE_FOR_INDEX_CHANGED", TName "Index Set Field Type Profile Change For Index Changed");
  ("CHANGE_FOR_INDEX_REMOVED", TName "Index Set Field Type Profile Change For Index Removed");
  ("CREATE_PROFILE_FROM_SELECTED_RAN", TName "Index Set Field Type Profile Create From Selected Ran")].

(** [TELEMETRY_EVENT_TYPE.INDEX_SET_TEMPLATE] *)
Definition INDEX_SET_TEMPLATE : list (string * tnode) := [
  ("NEW_OPENED", TName "Index Set Template Create Opened");
  ("NEW_CANCELLED", TName "Index Set Template Create Cancelled");
  ("CREATED", TName "Index Set Template Created");
  ("EDIT_OPENED", TName "Index Set Template Edit Opened");
  ("EDIT_CANCELLED", TName "Index Set Template Edit Cancelled");
  ("EDIT", TName "Index Set Template Edited");
  ("SELECTED", TName "Index Set Template Selected");
  ("SELECT_OPENED", TName "Index Set Template Selected Opened");
  ("SELECT_CLOSED", TName "Index Set Template Selected Cancelled")].

(** [TELEMETRY_EVENT_TYPE.DATANODE_MIGRATION] *)
Definition DATANODE_MIGRATION : list (string * tnode) := [
  ("RESET_MIGRATION_CLICKED", TName "Datanode Migration Reset Migration Clicked");
  ("RESET_MIGRATION_CONFIRM_CLICKED", TName "Datanode Migration Reset Migration Confirm Clicked");
  ("WELCOME_GO_TO_MIGRATION_STEPS_CLICKED", TName "Datanode Migration Welcome Go To Migration Steps Clicked");
  ("WELCOME_CONFIGURE_CERTIFICATE_RENEWAL_POLICY_CLICKED", TName "Datanode Migration Welcome Configure Certificate Renewal Policy Clicked");
  ("WELCOME_NEXT_CLICKED", TName "Datanode Migration Welcome Next Clicked");
  ("CA_CREATE_TAB_CLICKED", TName "Datanode Migration CA Create Tab Clicked");
  ("CA_UPLOAD_TAB_CLICKED", TName "Datanode Migration CA Upload Tab Clicked");
  ("CA_CREATE_CA_CLICKED", TName "Datanode Migration CA Create CA Clicked");
  ("CA_UPLOAD_CA_CLICKED", TName "Datanode Migration CA Upload CA Clicked");
  ("CA_GO_TO_MIGRATION_STEPS_CLICKED", TName "Datanode Migration CA Go To Migration Steps Clicked");
  ("CA_CONFIGURE_CERTIFICATE_RENEWAL_POLICY_CLICKED", TName "Datanode Migration CA Configure Certificate Renewal Policy Clicked");
  ("CA_NEXT_CLICKED", TName "Datanode Migration CA Next Clicked");
  ("CR_EDIT_CONFIGURATION_CLICKED", TName "Datanode Migration CR Edit Configuration Clicked");
  ("CR_UPDATE_CONFIGURATION_CLICKED", TName "Datanode Migration CR Update Configuration Clicked");
  ("CR_GO_TO_MIGRATION_STEPS_CLICKED", TName "Datanode Migration CR Go To Migration Steps Clicked");
  ("CR_NEXT_CLICKED", TName "Datanode Migration CR Next Clicked");
  ("MIGRATION_TYPE_SELECTED", TName "Datanode Migration Migration Type Selected");
  ("INPLACE_RUN_DIRECTORY_COMPATIBILITY_CHECK_CLICKED", TName "Datanode Migration Inplace Run Directory Compatibility Check Clicked");
  ("INPLACE_DIRECTORY_COMPATIBILITY_CHECK_NEXT_CLICKED", TName "Datanode Migration Inplace Directory Compatibility Check Next Clicked");
  ("INPLACE_JOURNAL_SIZE_DOWNTIME_WARNING_NEXT_CLICKED", TName "Datanode Migration Inplace Journal Size Downtime Warning Next Clicked");
  ("INPLACE_STOP_MESSAGE_PROCESSING_NEXT_CLICKED", TName "Datanode Migration Inplace Stop Message Processing Next Clicked");
  ("INPLACE_RESTART_GRAYLOG_NEXT_CLICKED", TName "Datanode Migration Inplace Restart Graylog Next Clicked");
  ("REMOTEREINDEX_WELCOME_NEXT_CLICKED", TName "Datanode Migration RemoteReindex Welcome Next Clicked");
  ("REMOTEREINDEX_MIGRATE_EXISTING_DATA_QUESTION_NEXT_CLICKED", TName "Datanode Migration RemoteReindex Migrate Existing Data Question Next Clicked");
  ("REMOTEREINDEX_MIGRATE_EXISTING_DATA_QUESTION_SKIP_CLICKED", TName "Datanode Migration RemoteReindex Migrate Existing Data Question Skip Clicked");
  ("REMOTEREINDEX_MIGRATE_EXISTING_DATA_CHECK_CONNECTION_CLICKED", TName "Datanode Migration RemoteReindex Migrate Existing Data Check Connection Clicked");
  ("REMOTEREINDEX_MIGRATE_EXISTING_DATA_START_CLICKED", TName "Datanode Migration RemoteReindex Migrate Existing Data Start Clicked");
  ("REMOTEREINDEX_RUNNING_LOGVIEW_CLICKED", TName "Datanode Migration RemoteReindex Running Logview Clicked");
  ("REMOTEREINDEX_RUNNING_RETRY_CLICKED", TName "Datanode Migration RemoteReindex Running Retry Clicked");
  ("REMOTEREINDEX_RUNNING_RETRY_CONFIRM_CLICKED", TName "Datanode Migration RemoteReindex Running Retry Confirm Clicked");
  ("REMOTEREINDEX_SHUTDOWN_OLD_CLUSTER_NEXT_CLICKED", TName "Datanode Migration RemoteReindex Shutdown Old Cluster Next Clicked")].

(** [TELEMETRY_EVENT_TYPE.ALERTS_AND_EVENTS] *)
Definition ALERTS_AND_EVENTS : list (string * tnode) := [
  ("ACTION_RAN", TName "Alerts And Events Action Ran")].

(** [TELEMETRY_EVENT_TYPE.ENTITY_DATA_TABLE] *)
Definition ENTITY_DATA_TABLE : list (string * tnode) := [
  ("COLUMNS_CHANGED", TName "Entity Data Table Columns Changed");
  ("SORT_CHANGED", TName "Entity Data Table Sort Changed");
  ("PAGE_SIZE_CHANGED", TName "Entity Data Table Page Size Changed");
  ("FILTER_CREATED", TName "Entity Data Table Filter Created");
  ("FILTER_DELETED", TName "Entity Data Table Filter Deleted");
  ("FILTER_CHANGED", TName "Entity Data Table Filter Changed")].

(** [TELEMETRY_EVENT_TYPE] *)
Definition TELEMETRY_EVENT_TYPE : list (string * tnode) := [
  ("SEARCH_TIMERANGE_PRESET_SELECTED", TName "Search TimeRange Preset Selected");
  ("SEARCH_TIMERANGE_PICKER_TOGGLED", TName "Search TimeRange Picker Toggled");
  ("SEARCH_TIMERANGE_PICKER_UPDATED", TName "Search TimeRange Picker Updated");
  ("SEARCH_TIMERANGE_PICKER_CANCELED", TName "Search TimeRange Picker Canceled");
  ("SEARCH_TIMERANGE_PICKER_TAB_SELECTED", TName "Search TimeRange Picker Tab Selected");
  ("SEARCH_STREAM_INPUT_CHANGED", TName "Search Stream Input Changed");
  ("SEARCH_REFRESH_CONTROL_PRESET_SELECTED", TName "Search Refresh Control Preset Selected");
  ("SEARCH_REFRESH_CONTROL_TOGGLED", TName "Search Refresh Control Toggled");
  ("ALERTS_REFRESH_CONTROL_PRESET_SELECTED", TName "Alerts Refresh Control Preset Selected");
  ("ALERTS_REFRESH_CONTROL_TOGGLED", TName "Alerts Refresh Control Toggled");
  ("SEARCH_BUTTON_CLICKED", TName "Search Button Clicked");
  ("SEARCH_WIDGET_EXPORT_DOWNLOADED", TName "Search Widget Export Downloaded");
  ("SEARCH_TIMERANGE_PRESET_ADD_QUICK_ACCESS", TName "Search TimeRange Preset Add Quick Access");
  ("SEARCH_WIDGET_ACTION", TGroup SEARCH_WIDGET_ACTION);
  ("SEARCH_WIDGET_CREATE", TGroup SEARCH_WIDGET_CREATE);
  ("SEARCH_FIELD_VALUE_ACTION", TGroup SEARCH_FIELD_VALUE_ACTION);
  ("DASHBOARD_FULL_SCREEN_MODE_STARTED", TName "Dashboard Fullscreen Mode Started");
  ("SEARCH_MESSAGE_TABLE_SHOW_SURROUNDING_MESSAGE", TName "Search Message Table Show Surrounding Message Clicked ");
  ("SEARCH_MESSAGE_TABLE_TEST_AGAINST_STREAM", TName "Search Message Table Test Against Stream Clicked ");
  ("SEARCH_MESSAGE_TABLE_DETAILS_TOGGLED", TName "Widget Message Table Details Toggled");
  ("SEARCH_SIDEBAR_TOGGLE", TName "Search Sidebar Toggled");
  ("SEARCH_SIDEBAR_HIGHLIGHT_CREATED", TName "Search Sidebar Highlight Created");
  ("SEARCH_SIDEBAR_HIGHLIGHT_UPDATED", TName "Search Sidebar Highlight Updated");
  ("SEARCH_SIDEBAR_HIGHLIGHT_DELETED", TName "Search Sidebar Highlight Deleted");
  ("SEARCH_SIDEBAR_REDO", TName "Search Sidebar Redo");
  ("SEARCH_SIDEBAR_UNDO", TName "Search Sidebar Undo");
  ("DASHBOARD_ACTION", TGroup DASHBOARD_ACTION);
  ("EVENTDEFINITION_LIST", TGroup EVENTDEFINITION_LIST);
  ("EVENTDEFINITION_CREATE_BUTTON_CLICKED", TName "EventDefinition Create Button Clicked");
  ("EVENTDEFINITION_DUPLICATED", TName "EventDefinition Duplicated");
  ("EVENTDEFINITION_NEXT_CLICKED", TName "EventDefinition Next Clicked");
  ("EVENTDEFINITION_PREVIOUS_CLICKED", TName "EventDefinition Previous Clicked");
  ("EVENTDEFINITION_DETAILS", TGroup EVENTDEFINITION_DETAILS);
  ("EVENTDEFINITION_CONDITION", TGroup EVENTDEFINITION_CONDITION);
  ("EVENTDEFINITION_FIELDS", TGroup EVENTDEFINITION_FIELDS);
  ("EVENTDEFINITION_NOTIFICATIONS", TGroup EVENTDEFINITION_NOTIFICATIONS);
  ("EVENTDEFINITION_SUMMARY", TGroup EVENTDEFINITION_SUMMARY);
  ("NOTIFICATIONS", TGroup NOTIFICATIONS);
  ("CONTENTSTREAM", TGroup CONTENTSTREAM);
  ("STREAMS", TGroup STREAMS);
  ("ENTITYSHARE", TGroup ENTITYSHARE);
  ("PIPELINE_RULE_BUILDER", TGroup PIPELINE_RULE_BUILDER);
  ("SHORTCUT_TYPED", TName "Shortcut Typed");
  ("CONFIGURATIONS", TGroup CONFIGURATIONS);
  ("INPUTS", TGroup INPUTS);
  ("INPUT_SETUP_WIZARD", TGroup INPUT_SETUP_WIZARD);
  ("OUTPUTS", TGroup OUTPUTS);
  ("INDICES", TGroup INDICES);
  ("LOGGING", TGroup LOGGING);
  ("LUT", TGroup LUT);
  ("USERS", TGroup USERS);
  ("GROK_PATTERN", TGroup GROK_PATTERN);
  ("ROLES", TGroup ROLES);
  ("AUTHENTICATION", TGroup AUTHENTICATION);
  ("SIDECARS", TGroup SIDECARS);
  ("TRAFFIC_GRAPH_DAYS_CHANGED", TName "Traffic Graph Days Changed");
  ("URLWHITELIST_CONFIGURATION_UPDATED", TName "Urlwhitelist Configuration Updated");
  ("CONTENT_PACK", TGroup CONTENT_PACK);
  ("INDEX_SET_FIELD_TYPE_PROFILE", TGroup INDEX_SET_FIELD_TYPE_PROFILE);
  ("INDEX_SET_TEMPLATE", TGroup INDEX_SET_TEMPLATE);
  ("DATANODE_MIGRATION", TGroup DATANODE_MIGRATION);
  ("ALERTS_AND_EVENTS", TGroup ALERTS_AND_EVENTS);
  ("ENTITY_DATA_TABLE", TGroup ENTITY_DATA_TABLE)].

(** Every event name of a table, in source order. *)
Fixpoint tnode_names (t : tnode) : list string :=
  match t with
  | TName s => [s]
  | TGroup m => flat_map (fun '(_, t') => tnode_names t') m
  end.

Definition event_names (m : list (string * tnode)) : list string :=
  flat_map (fun '(_, t) => tnode_names t) m.

(** The keys of every object literal of a table are distinct. *)
Fixpoint tnode_keys_ok (t : tnode) : bool :=
  match t with
  | TName _ => true
  | TGroup m => bool_decide (NoDup (map fst m)) && forallb (fun '(_, t') => tnode_keys_ok t') m
  end.

Definition keys_ok (m : list (string * tnode)) : bool := tnode_keys_ok (TGroup m).

(** [m[k]] *)
Fixpoint assoc_lookup (k : string) (m : list (string * tnode)) : option tnode :=
  match m with
  | [] => None
  | (k', t) :: m' => if String.eqb k k' then Some t else assoc_lookup k m'
  end.

(** [TELEMETRY_EVENT_TYPE.A.B]: the name at a key path. *)
Fixpoint lookup_event (path : list string) (m : list (string * tnode)) : option string :=
  match path with
  | [] => None
  | k :: ks =>
      match assoc_lookup k m, ks with
      | Some (TName s), [] => Some s
      | Some (TGroup m'), _ :: _ => lookup_event ks m'
      | _, _ => None
      end
  end.

(** ** Properties *)

(** The telemetry table is well formed: in every object literal of
    [TELEMETRY_EVENT_TYPE] the keys are distinct, so no entry is silently
    overwritten, and the event names of the whole table are pairwise
    distinct, so no two events reach the backend under one name. *)
Theorem telemetry_table_wf :
  keys_ok TELEMETRY_EVENT_TYPE = true /\ NoDup (event_names TELEMETRY_EVENT_TYPE).
Proof.
  split; [vm_compute; reflexivity|].
  apply (bool_decide_eq_true_1 (NoDup _)). vm_compute. reflexivity.
Qed.

End Telemetry.
