(* ===== verification/EventDefinitionWizard.v ===== *)
(** * The event definition wizard's navigation
      (components/event-definitions/event-definition-form/EventDefinitionForm.tsx)

    The wizard shows the steps of [getStepKeys]. An edited definition has
    five steps; a new one ([action = 'create']) has a Share step before
    the summary. The component keeps no state of its own: the active step
    is a prop. Its three handlers report to telemetry and then call
    [onChangeStep] with the step to show:
    - [handleStepChange] runs when a step is clicked;
    - [openPrevPage] runs for the Previous button;
    - [openNextPage] runs for the Next button.
    Each handler is a definition returning its effects in order
    ([SendTelemetry], then [ChangeStep]). [wizard_step] is the resulting
    transition relation on the active step.

    The render ([render]) computes [canEditCondition] and reads
    [eventDefinition.config.type] before the steps; either throws ([None])
    on a nullish [_scope] or [config]. [step_forms] gives each step's form
    with its [canEdit] prop. [handleSubmit] prevents the event's default and
    submits.

    The theorems show the navigation: Next and Previous move one step, and
    the steps reachable from the first one are the wizard's steps, plus
    [undefined] past either end. They also show which telemetry event a
    step click sends, for every step. In edit mode it is that step's event. In create mode
    the Share step sends the Summary step's event and the summary step
    sends [undefined], because [STEP_TELEMETRY_KEYS] has only five
    entries. Repeated Next clicks ([press_next]) reach the summary from
    any step; the render throws exactly when [canEdit] is false and the
    definition has no [_scope]. *)

From stdpp Require Import relations.
From S2P Require Import Prelude JsValue Telemetry.
Set Warnings "-clear-no-such-hyp".

Module EventDefinitionWizard.
Import Telemetry.

Local Open Scope string_scope.

(** [getStepKeys(isNew)] *)
Definition getStepKeys (isNew : bool) : list string :=
  ["event-details"; "condition"; "fields"; "notifications"] ++
  (if isNew then ["Share"] else []) ++ ["summary"].

(** A property read on [TELEMETRY_EVENT_TYPE]: [undefined] when absent. *)
Definition event_of (path : list string) : nullable string :=
  match lookup_event path TELEMETRY_EVENT_TYPE with Some s => Val s | None => Undefined end.

(** [STEP_TELEMETRY_KEYS] *)
Definition STEP_TELEMETRY_KEYS : list (nullable string) := [
  event_of ["EVENTDEFINITION_DETAILS"; "STEP_CLICKED"];
  event_of ["EVENTDEFINITION_CONDITION"; "STEP_CLICKED"];
  event_of ["EVENTDEFINITION_FIELDS"; "STEP_CLICKED"];
  event_of ["EVENTDEFINITION_NOTIFICATIONS"; "STEP_CLICKED"];
  event_of ["EVENTDEFINITION_SUMMARY"; "STEP_CLICKED"]].

Inductive FormAction := Edit | Create.

#[export] Instance FormAction_eq_dec : EqDecision FormAction.
Proof. solve_decision. Defined.

(** A step of the [steps] array: its key and its title. *)
Record Step := mkStep { step_key : nullable string; step_title : string }.

(** What the handlers do, in order. *)
Inductive Effect :=
| SendTelemetry (event : nullable string) (app_pathname app_section app_action_value : string)
    (current_step : nullable string)
| ChangeStep (step : nullable string)
| PreventDefault                       (* event.preventDefault() *)
| Submit.                              (* onSubmit() *)

Section Form.

(** [PluginStore.exports('eventDefinitionTypes')]: each type with its
    display name. *)
Variable eventDefinitionTypes : list (string * nullable string).
(** [getPathnameWithoutId] of util/URLUtils. *)
Variable getPathnameWithoutId : string -> string.

(** [getConditionPlugin(type)?.displayName]: [{ displayName: null }] for
    an undefined type, the first plugin of that type, or [{}]. *)
Definition conditionDisplayName (type : nullable string) : nullable string :=
  match type with
  | Undefined => Null
  | _ =>
      match List.find (fun '(t, _) => bool_decide (Val t = type)) eventDefinitionTypes with
      | Some (_, d) => d
      | None => Undefined
      end
  end.

(** [const isNew = action === 'create'] *)
Definition isNew (action : FormAction) : bool := bool_decide (action = Create).

(** [const steps = [...]]: the keys and titles. *)
Definition steps (action : FormAction) (type : nullable string) : list Step :=
  let keys := getStepKeys (isNew action) in
  [mkStep (js_at keys 0) "Event Details";
   mkStep (js_at keys 1) (conditionDisplayName type ?? "Condition");
   mkStep (js_at keys 2) "Fields";
   mkStep (js_at keys 3) "Notifications"] ++
  (if isNew action then [mkStep (js_at keys 4) "Share"] else []) ++
  [mkStep (js_at keys (Z.of_nat (length keys) - 1)) "Summary"].

(** [currentStepKeys.indexOf(activeStep)] *)
Definition activeStepIndex (action : FormAction) (activeStep : nullable string) : Z :=
  js_index_of activeStep (map Val (getStepKeys (isNew action))).

Definition app_section (action : FormAction) : string :=
  match action with Create => "new-event-definition" | Edit => "edit-event-definition" end.

(** [steps[activeStepIndex]?.title] *)
Definition current_step (action : FormAction) (type activeStep : nullable string) : nullable string :=
  nmap step_title (js_at (steps action type) (activeStepIndex action activeStep)).

Definition nflat {A} (x : nullable (nullable A)) : nullable A :=
  match x with Val y => y | Undefined => Undefined | Null => Null end.

(** [handleStepChange(nextStep)] *)
Definition handleStepChange (action : FormAction) (type : nullable string) (pathname : string)
    (activeStep : nullable string) (nextStep : string) : list Effect :=
  [SendTelemetry
     (nflat (js_at STEP_TELEMETRY_KEYS (js_index_of nextStep (getStepKeys (isNew action)))))
     (getPathnameWithoutId pathname) (app_section action) "event-definition-step"
     (current_step action type activeStep);
   ChangeStep (Val nextStep)].

(** [openPrevPage()] *)
Definition openPrevPage (action : FormAction) (type : nullable string) (pathname : string)
    (activeStep : nullable string) : list Effect :=
  let i := activeStepIndex action activeStep in
  [SendTelemetry (event_of ["EVENTDEFINITION_PREVIOUS_CLICKED"]) (getPathnameWithoutId pathname)
     (app_section action) "previous-button" (current_step action type activeStep);
   ChangeStep (if decide (0 < i)%Z then js_at (getStepKeys (isNew action)) (i - 1) else Undefined)].

(** [openNextPage()] *)
Definition openNextPage (action : FormAction) (type : nullable string) (pathname : string)
    (activeStep : nullable string) : list Effect :=
  let i := activeStepIndex action activeStep in
  [SendTelemetry (event_of ["EVENTDEFINITION_NEXT_CLICKED"]) (getPathnameWithoutId pathname)
     (app_section action) "next-button" (current_step action type activeStep);
   ChangeStep (js_at (getStepKeys (isNew action)) (i + 1))].

(** The step a list of effects moves to. *)
Definition changed_to (effects : list Effect) : option (nullable string) :=
  match last effects with Some (ChangeStep s) => Some s | _ => None end.

(** A user action on the wizard. *)
Inductive UserAction := ClickStep (s : string) | Previous | Next.

Definition handle (action : FormAction) (type : nullable string) (pathname : string)
    (activeStep : nullable string) (u : UserAction) : list Effect :=
  match u with
  | ClickStep s => handleStepChange action type pathname activeStep s
  | Previous => openPrevPage action type pathname activeStep
  | Next => openNextPage action type pathname activeStep
  end.

(** The wizard only renders its own steps, so a click is on one of them. *)
Definition valid_action (action : FormAction) (u : UserAction) : Prop :=
  match u with ClickStep k => k ∈ getStepKeys (isNew action) | _ => True end.

(** The transition relation on the active step. *)
Inductive wizard_step (action : FormAction) (type : nullable string) (pathname : string)
    : nullable string -> nullable string -> Prop :=
| wstep s u s' :
    valid_action action u ->
    changed_to (handle action type pathname s u) = Some s' ->
    wizard_step action type pathname s s'.

(** The fields of [eventDefinition] the form reads. *)
Record EventDefinition := mkEventDefinition {
  ed_scope : nullable string;            (* _scope *)
  ed_event_procedure : nullable string;  (* event_procedure *)
  ed_config : nullable (nullable string) (* config, with its type *)
}.

(** [canEdit || eventDefinition._scope.toUpperCase() === 'ILLUMINATE']:
    the [||] short-circuits, and [toUpperCase] on a nullish scope is a
    [TypeError] ([None]). *)
Definition canEditCondition (canEdit : bool) (ed : EventDefinition) : option bool :=
  if canEdit then Some true
  else match ed_scope ed with
       | Val s => Some (String.eqb (to_upper s) "ILLUMINATE")
       | _ => None
       end.

(** [eventDefinition?.event_procedure || undefined] *)
Definition eventProcedureId (ed : EventDefinition) : nullable string :=
  match ed_event_procedure ed with
  | Val s => if String.eqb s "" then Undefined else Val s
  | _ => Undefined
  end.

(** The [component] of each step, with the props that differ between
    them. *)
Inductive StepForm :=
| EventDetailsForm (canEdit : bool) (eventDefinitionEventProcedure : nullable string)
| EventConditionForm (canEdit : bool)
| FieldsForm (canEdit : bool)
| NotificationsForm
| ShareForm
| EventDefinitionSummary.

(** The [canEdit] prop a step's form is given, if it has one. *)
Definition form_canEdit (f : StepForm) : option bool :=
  match f with EventDetailsForm c _ | EventConditionForm c | FieldsForm c => Some c | _ => None end.

(** The components of [steps], in order, once [canEditCondition] is
    known. *)
Definition forms_of (action : FormAction) (canEdit : bool) (eventProcedure : nullable string)
    (cec : bool) : list StepForm :=
  [EventDetailsForm canEdit eventProcedure; EventConditionForm cec; FieldsForm canEdit; NotificationsForm] ++
  (if isNew action then [ShareForm] else []) ++ [EventDefinitionSummary].

(** The components of [steps]: they need [canEditCondition], whose
    [TypeError] aborts the render. The render also reads
    [eventDefinition.config.type] before [steps] ([render] below); this
    definition is the forms of a render that got past that read. *)
Definition step_forms (action : FormAction) (canEdit : bool) (ed : EventDefinition) : option (list StepForm) :=
  match canEditCondition canEdit ed with
  | Some cec => Some (forms_of action canEdit (eventProcedureId ed) cec)
  | None => None
  end.

(** [handleSubmit(event)]: [if (event) event.preventDefault(); onSubmit();] *)
Definition handleSubmit (event : nullable jval) : list Effect :=
  (if match event with Val v => truthy v | _ => false end then [PreventDefault] else []) ++ [Submit].

(** What [EventDefinitionForm] renders: the [Wizard]'s steps and active
    step, the [FormControls]' [activeStepIndex], and each step's form
    with the common [key] ([eventDefinition.id]) of [defaultStepProps]. *)
Record FormView := mkFormView {
  wizard_steps : list Step;
  wizard_activeStep : nullable string;
  controls_activeStepIndex : Z;
  step_components : list StepForm;
  form_key : nullable string
}.

(** [EventDefinitionForm]'s render: [canEditCondition] and
    [getConditionPlugin(eventDefinition.config.type)] are computed before
    [steps]; the [TypeError] of either ([_scope] or [config] nullish)
    aborts the render ([None]). The condition type names the condition
    step. *)
Definition render (action : FormAction) (canEdit : bool) (edId : nullable string) (ed : EventDefinition)
    (activeStep : nullable string) : option FormView :=
  cec ← canEditCondition canEdit ed;
  type ← match ed_config ed with Val t => Some t | _ => None end;
  Some (mkFormView (steps action type) activeStep (activeStepIndex action activeStep)
                   (forms_of action canEdit (eventProcedureId ed) cec) edId).

(** [n] clicks on Next from [s]. *)
Fixpoint press_next (action : FormAction) (type : nullable string) (pathname : string)
    (n : nat) (s : nullable string) : option (nullable string) :=
  match n with
  | O => Some s
  | S n' =>
      match changed_to (openNextPage action type pathname s) with
      | Some s' => press_next action type pathname n' s'
      | None => None
      end
  end.

End Form.

(** The telemetry event of a list of effects. *)
Definition sent_event (effects : list Effect) : option (nullable string) :=
  match effects with SendTelemetry e _ _ _ _ :: _ => Some e | _ => None end.

(** The telemetry group of each step. *)
Definition step_group (s : string) : option string :=
  if String.eqb s "event-details" then Some "EVENTDEFINITION_DETAILS"
  else if String.eqb s "condition" then Some "EVENTDEFINITION_CONDITION"
  else if String.eqb s "fields" then Some "EVENTDEFINITION_FIELDS"
  else if String.eqb s "notifications" then Some "EVENTDEFINITION_NOTIFICATIONS"
  else if String.eqb s "summary" then Some "EVENTDEFINITION_SUMMARY"
  else None.

(** ** Navigation *)

Lemma getStepKeys_NoDup b : NoDup (getStepKeys b).
Proof. apply (bool_decide_eq_true_1 (NoDup _)). by destruct b; vm_compute. Qed.

Lemma getStepKeys_length b : length (getStepKeys b) = if b then 6 else 5.
Proof. by destruct b. Qed.

Lemma map_Val_NoDup {A} (l : list A) : NoDup l -> NoDup (map Val l).
Proof. intros. apply NoDup_fmap_2; [|done]. intros ? ? [=]. done. Qed.

Lemma activeStepIndex_nth action i s :
  getStepKeys (isNew action) !! i = Some s ->
  activeStepIndex action (Val s) = Z.of_nat i.
Proof.
  intros Hi. unfold activeStepIndex. apply js_index_of_nth.
  - apply map_Val_NoDup, getStepKeys_NoDup.
  - by rewrite list_lookup_fmap, Hi.
Qed.

Lemma js_at_in {A} (l : list A) i x : js_at l i = Val x -> x ∈ l.
Proof.
  unfold js_at. case_decide; [|discriminate]. destruct (l !! Z.to_nat i) eqn:E; [|discriminate].
  intros [= <-]. by eapply list_elem_of_lookup_2.
Qed.

Lemma getStepKeys_last b : getStepKeys b !! (length (getStepKeys b) - 1)%nat = Some "summary".
Proof. by destruct b. Qed.

(** Next from the [i]-th step shows whatever the keys hold at [i + 1]. *)
Lemma openNextPage_nth edt gp action type pathname i s :
  getStepKeys (isNew action) !! i = Some s ->
  changed_to (openNextPage edt gp action type pathname (Val s))
  = Some (js_at (getStepKeys (isNew action)) (Z.of_nat (S i))).
Proof.
  intros Hi. unfold openNextPage, changed_to; simpl.
  rewrite (activeStepIndex_nth action i s Hi). by replace (Z.of_nat i + 1)%Z with (Z.of_nat (S i)) by lia.
Qed.

(** The form at index [i] is given [canEditCondition] at the condition
    step and [canEdit] everywhere else. *)
Lemma forms_of_canEdit action canEdit ep cec i f b :
  forms_of action canEdit ep cec !! i = Some f -> form_canEdit f = Some b ->
  b = if decide (i = 1%nat) then cec else canEdit.
Proof.
  intros Hi Hb. destruct action;
    do 7 (destruct i as [|i]; [simpl in Hi; simplify_eq/=; done|]); done.
Qed.

(** The render throws exactly when [canEditCondition] does or the event
    definition has no [config]. Otherwise its forms are [step_forms],
    every step of the wizard gets exactly one form, and the form
    controls' index is the position of the active step among the keys. *)
Lemma render_aligned edt action canEdit edId ed i s :
  (render edt action canEdit edId ed (Val s) = None <->
     canEditCondition canEdit ed = None \/ isNullish (ed_config ed) = true) /\
  (forall v, render edt action canEdit edId ed (Val s) = Some v ->
     step_forms action canEdit ed = Some (step_components v) /\
     length (step_components v) = length (wizard_steps v) /\
     (getStepKeys (isNew action) !! i = Some s -> controls_activeStepIndex v = Z.of_nat i)).
Proof.
  unfold render, step_forms. destruct (canEditCondition canEdit ed) as [cec|]; simpl; [|split; [naive_solver|by intros]].
  destruct (ed_config ed) as [| |t]; simpl; [split; [naive_solver|by intros]..|].
  split; [naive_solver|]. intros v [= <-]. simpl. split; [done|]. split; [by destruct action|].
  apply activeStepIndex_nth.
Qed.

(** Every transition lands on a step of the wizard or on [undefined]. *)
Lemma wizard_step_target edt gp action type pathname s s' :
  wizard_step edt gp action type pathname s s' ->
  s' = Undefined \/ exists k, s' = Val k /\ k ∈ getStepKeys (isNew action).
Proof.
  intros [s0 u s1 Hu Hc]. destruct u as [k| |]; simpl in Hc; injection Hc as <-.
  - right. by exists k.
  - case_decide; [|by left]. destruct (js_at _ _) as [| |k] eqn:E; [by left|..].
    + unfold js_at in E. case_decide; [by destruct (_ !! _)|done].
    + right. exists k. split; [done|]. by eapply js_at_in.
  - destruct (js_at _ _) as [| |k] eqn:E; [by left|..].
    + unfold js_at in E. case_decide; [by destruct (_ !! _)|done].
    + right. exists k. split; [done|]. by eapply js_at_in.
Qed.

(** ** Properties *)

(** C23. Next and Previous move by one step, editing or creating: from
    the [i]-th step of [getStepKeys] Next shows step [i + 1], and from
    step [i + 1] Previous shows step [i]. *)
Theorem wizard_next_prev edt gp action type pathname i s s' :
  getStepKeys (isNew action) !! i = Some s -> getStepKeys (isNew action) !! S i = Some s' ->
  changed_to (openNextPage edt gp action type pathname (Val s)) = Some (Val s') /\
  changed_to (openPrevPage edt gp action type pathname (Val s')) = Some (Val s).
Proof.
  intros Hi Hsi. unfold openNextPage, openPrevPage, changed_to; simpl.
  rewrite (activeStepIndex_nth action i s Hi), (activeStepIndex_nth action (S i) s' Hsi).
  rewrite decide_True by lia.
  replace (Z.of_nat i + 1)%Z with (Z.of_nat (S i)) by lia.
  replace (Z.of_nat (S i) - 1)%Z with (Z.of_nat i) by lia.
  by rewrite !js_at_nat, Hi, Hsi.
Qed.

Lemma wizard_next_prev_witness :
  changed_to (openNextPage [] id Create Undefined "/event-definitions/new" (Val "notifications")) =
    Some (Val "Share") /\
  changed_to (openPrevPage [] id Create Undefined "/event-definitions/new" (Val "Share")) =
    Some (Val "notifications").
Proof. apply (wizard_next_prev [] id Create Undefined _ 3); reflexivity. Defined.

(** At the ends the wizard leaves its steps: Previous on the first
    step and Next on the summary show [undefined]. From [undefined] (index
    -1) Next shows the first step again. *)
Theorem wizard_ends edt gp action type pathname :
  changed_to (openPrevPage edt gp action type pathname (Val "event-details")) = Some Undefined /\
  changed_to (openNextPage edt gp action type pathname (Val "summary")) = Some Undefined /\
  changed_to (openNextPage edt gp action type pathname Undefined) = Some (Val "event-details").
Proof. by destruct action. Qed.

(** From the first step, the active steps the wizard can reach are
    exactly its own steps and [undefined], never [null] or another key. *)
Theorem wizard_reachable edt gp action type pathname s :
  rtc (wizard_step edt gp action type pathname) (Val "event-details") s <->
  s = Undefined \/ exists k, s = Val k /\ k ∈ getStepKeys (isNew action).
Proof.
  split.
  - intros Hr. apply rtc_inv_r in Hr as [<- | (s0 & _ & Hs)].
    + right. exists "event-details". split; [done|]. destruct action; left.
    + by eapply wizard_step_target.
  - intros [-> | (k & -> & Hk)]; apply rtc_once.
    + apply (wstep _ _ _ _ _ _ Previous); [done|]. by destruct action.
    + by apply (wstep _ _ _ _ _ _ (ClickStep k)).
Qed.

(** Editing an event definition, a click on a step sends that
    step's own [STEP_CLICKED] telemetry event, which exists. *)
Theorem step_click_telemetry_edit edt gp type pathname active s :
  s ∈ getStepKeys false ->
  exists g ev, step_group s = Some g /\ event_of [g; "STEP_CLICKED"] = Val ev /\
    sent_event (handleStepChange edt gp Edit type pathname active s) = Some (Val ev).
Proof.
  intros Hs. repeat (apply elem_of_cons in Hs as [-> | Hs]; [by eexists _, _|]).
  by apply elem_of_nil in Hs.
Qed.

Lemma step_click_telemetry_edit_witness :
  exists g ev, step_group "fields" = Some g /\ event_of [g; "STEP_CLICKED"] = Val ev /\
    sent_event (handleStepChange [] id Edit Undefined "/event-definitions/1/edit" Undefined "fields")
    = Some (Val ev).
Proof. apply step_click_telemetry_edit. right; right; left. Defined.

(** C25. A click on a step sends the telemetry event of the step's own
    group ([STEP_CLICKED]) exactly when the wizard edits an event
    definition or the step is not the summary. Creating one, the wizard
    has six steps but [STEP_TELEMETRY_KEYS] five entries, looked up by the
    step's index: the Share step (which has no group) sends the Summary
    step's event, and the summary step sends [undefined]. *)
Theorem step_click_telemetry_create edt gp action type pathname active s g :
  s ∈ getStepKeys (isNew action) -> step_group s = Some g ->
  (sent_event (handleStepChange edt gp action type pathname active s) =
     Some (event_of [g; "STEP_CLICKED"]) <-> action = Edit \/ s <> "summary") /\
  (action = Create ->
     sent_event (handleStepChange edt gp action type pathname active "Share") =
       Some (event_of ["EVENTDEFINITION_SUMMARY"; "STEP_CLICKED"])).
Proof.
  intros Hs Hg. split; [|by intros ->].
  destruct action; repeat (apply elem_of_cons in Hs as [-> | Hs];
    [injection Hg as <- || discriminate Hg; vm_compute; naive_solver|]);
    by apply elem_of_nil in Hs.
Qed.

Lemma step_click_telemetry_create_witness :
  "summary" ∈ getStepKeys (isNew Create) /\ step_group "summary" = Some "EVENTDEFINITION_SUMMARY" /\
  ((sent_event (handleStepChange [] id Create Undefined "/event-definitions/new" Undefined "summary") =
     Some (event_of ["EVENTDEFINITION_SUMMARY"; "STEP_CLICKED"]) <-> Create = Edit \/ "summary" <> "summary") /\
  (Create = Create ->
     sent_event (handleStepChange [] id Create Undefined "/event-definitions/new" Undefined "Share") =
       Some (event_of ["EVENTDEFINITION_SUMMARY"; "STEP_CLICKED"]))).
Proof.
  assert ("summary" ∈ getStepKeys (isNew Create)) as Hs by (vm_compute; do 5 right; left).
  split; [exact Hs|]. split; [reflexivity|].
  apply (step_click_telemetry_create [] id Create Undefined _ Undefined "summary"); [exact Hs|reflexivity].
Defined.

(** C16. Liveness of the Next button: from any step of the wizard,
    editing or creating, as many clicks on Next as there are steps after
    it reach the summary step; no click is refused on the way. *)
Theorem next_reaches_summary edt gp action type pathname i s :
  getStepKeys (isNew action) !! i = Some s ->
  press_next edt gp action type pathname (length (getStepKeys (isNew action)) - 1 - i) (Val s)
  = Some (Val "summary").
Proof.
  remember (length (getStepKeys (isNew action)) - 1 - i)%nat as n eqn:Hn.
  revert i s Hn. induction n as [|n IH]; intros i s Hn Hi; cbn [press_next].
  - assert (i = length (getStepKeys (isNew action)) - 1)%nat as ->
      by (apply lookup_lt_Some in Hi; lia).
    by rewrite getStepKeys_last in Hi; simplify_eq.
  - destruct (lookup_lt_is_Some_2 (getStepKeys (isNew action)) (S i)) as [s' Hs'];
      [apply lookup_lt_Some in Hi; lia|].
    rewrite (openNextPage_nth _ _ _ _ _ i s Hi), js_at_nat, Hs'.
    apply (IH (S i)); [lia|done].
Qed.

Lemma next_reaches_summary_witness :
  press_next [] id Create Undefined "/event-definitions/new" 5 (Val "event-details") = Some (Val "summary").
Proof. apply (next_reaches_summary [] id Create Undefined _ 0); reflexivity. Defined.

(** C33. The form renders only when [canEditCondition] evaluates: with
    [canEdit] false and no [_scope] the render throws. When it renders,
    the forms of the event details and the fields are editable exactly
    when [canEdit] holds, and the condition form also when the scope is
    [illuminate] in any letter case. *)
Theorem render_canEditCondition action canEdit ed :
  (step_forms action canEdit ed = None <->
     canEdit = false /\ (ed_scope ed = Undefined \/ ed_scope ed = Null)) /\
  (forall forms i f b, step_forms action canEdit ed = Some forms -> forms !! i = Some f ->
     form_canEdit f = Some b ->
     (b = true <-> canEdit = true \/
        (i = 1%nat /\ exists s, ed_scope ed = Val s /\ to_upper s = "ILLUMINATE"))).
Proof.
  unfold step_forms, canEditCondition. split.
  - destruct canEdit, (ed_scope ed); naive_solver.
  - intros forms i f b Hs Hi Hb. destruct canEdit; [|destruct (ed_scope ed) as [| |s] eqn:E]; simplify_eq.
    + rewrite (forms_of_canEdit _ _ _ _ _ _ _ Hi Hb). case_decide; (split; [intros _; by left|done]).
    + rewrite (forms_of_canEdit _ _ _ _ _ _ _ Hi Hb).
      case_decide as Hi1; split.
      * rewrite String.eqb_eq. intros H. right. split; [done|by exists s].
      * intros [[=] | (_ & s0 & [= <-] & H)]. by apply String.eqb_eq.
      * done.
      * by intros [[=] | [? _]].
Qed.

Lemma render_canEditCondition_witness :
  step_forms Edit false (mkEventDefinition (Val "Illuminate") Null (Val (Val "aggregation-v1"))) = Some (forms_of Edit false Undefined true) /\
  (true = true <-> false = true \/
     (1%nat = 1%nat /\ exists s, ed_scope (mkEventDefinition (Val "Illuminate") Null (Val (Val "aggregation-v1"))) = Val s /\
                                 to_upper s = "ILLUMINATE")).
Proof.
  split; [reflexivity|].
  apply (proj2 (render_canEditCondition Edit false (mkEventDefinition (Val "Illuminate") Null (Val (Val "aggregation-v1"))))
           (forms_of Edit false Undefined true) 1 (EventConditionForm true) true); reflexivity.
Defined.

End EventDefinitionWizard.
