(* ===== verification/ViewLayout.v ===== *)
(** * The view generated for an event (views/logic/views/UseCreateViewForEvent.ts)

    Replaying an event opens a search view that [WidgetsGenerator] lays
    out on a grid twelve columns wide:
    - one aggregation widget per condition of the event definition, two
      per row band ([createViewPosition]);
    - a message-count histogram and an all-messages table below them;
    - with more than one condition, a summary aggregation in the top band.
    [UseCreateViewForEvent] derives the streams, the time range and the
    query string of that view from the event, falling back to the event
    definition.

    [generateId] is a supply of fresh names, threaded as an explicit
    counter ([IdGen]): [fresh n] is the [n]-th id. The widget builders of
    views/logic (outside src/) are reduced to the data this file reads
    from them: the id, the pivots, the series and the sort of an
    aggregation. A position is [WidgetPosition(col, row, height, width)]
    with [Infinity] as a width of its own.

    The theorems show that the histogram and the message table always lie
    below every aggregation widget, and that up to four conditions no two
    widgets overlap. From five conditions on, the third and fifth
    aggregation widgets overlap: the row of a band grows by one per band
    instead of by the widget height. *)

From stdpp Require Import pretty.
From S2P Require Import Prelude.
Set Warnings "-clear-no-such-hyp".

Module ViewLayout.

Local Open Scope Z_scope.
Local Open Scope string_scope.

(** [AGGREGATION_WIDGET_HEIGHT] *)
Definition AGGREGATION_WIDGET_HEIGHT : Z := 3.

Inductive Width := W (n : Z) | Infinity.

(** [new WidgetPosition(col, row, height, width)] *)
Record WidgetPosition := mkPosition { col : Z; row : Z; height : Z; width : Width }.

(** [Math.ceil(x / 2)] on an integer. *)
Definition ceil_half (x : Z) : Z := (x + 1) / 2.

(** [createViewPosition({ index, SUMMARY_ROW_DELTA })] *)
Definition createViewPosition (index SUMMARY_ROW_DELTA : Z) : WidgetPosition :=
  let isEven := Z.eqb ((index + 1) mod 2) 0 in
  let c := if isEven then 7 else 1 in
  let HEIGHT_DELTA := if Z.geb index 2 then AGGREGATION_WIDGET_HEIGHT else 0 in
  let r := ceil_half (index + 1) + HEIGHT_DELTA + SUMMARY_ROW_DELTA in
  mkPosition c r AGGREGATION_WIDGET_HEIGHT (W 6).

Inductive Direction := Ascending | Descending.

(** An aggregation condition of the event definition:
    [{ value, expr, fnSeries }]. *)
Record Aggregation := mkAggregation { agg_value : string; agg_expr : string; agg_fnSeries : string }.

(** What the file reads of an aggregation widget: its id, its row pivots
    (the grouped fields), its series and its sort. *)
Record AggWidget := mkAggWidget {
  aw_id : string;
  aw_rowPivots : list (list string);
  aw_series : list string;
  aw_sort : list (string * Direction)
}.

Inductive Widget :=
| AggregationW (w : AggWidget)
| HistogramW (id : string)
| MessageTableW (id : string) (decorators : list string).

Definition widget_id (w : Widget) : string :=
  match w with AggregationW a => aw_id a | HistogramW i => i | MessageTableW i _ => i end.

(** ** Fresh ids *)

(** [generateId()]: a state monad over the number of ids drawn. *)
Definition IdGen (A : Type) : Type := nat -> A * nat.

#[export] Instance IdGen_ret : MRet IdGen := fun A a n => (a, n).
#[export] Instance IdGen_bind : MBind IdGen := fun A B f m n => let '(a, n') := m n in f a n'.

Section Generator.

(** The [n]-th id [generateId] returns. *)
Variable fresh : nat -> string.

Definition generateId : IdGen string := fun n => (fresh n, S n).

(** [getAggregationWidget({ rowPivots, fnSeries, sort })] *)
Definition getAggregationWidget (rowPivots : list (list string)) (fnSeries : list string)
    (sort : list (string * Direction)) : IdGen AggWidget :=
  i ← generateId; mret (mkAggWidget i rowPivots fnSeries sort).

(** [['>', '>=', '=='].includes(expr)] *)
Definition descending_expr (expr : string) : bool :=
  String.eqb expr ">" || String.eqb expr ">=" || String.eqb expr "==".

(** [createViewWidget({ groupBy, fnSeries, expr })]: one pivot over the
    grouped fields, if any, and a sort on the series. *)
Definition createViewWidget (groupBy : list string) (fnSeries expr : string) : IdGen AggWidget :=
  let rowPivots := match groupBy with [] => [] | _ => [groupBy] end in
  let direction := if descending_expr expr then Descending else Ascending in
  getAggregationWidget rowPivots [fnSeries] [(fnSeries, direction)].

(** [`${fnSeries} ${expr} ${value}`] *)
Definition agg_title (a : Aggregation) : string :=
  agg_fnSeries a ++ " " ++ agg_expr a ++ " " ++ agg_value a.

(** [getSummaryAggregation({ aggregations, groupBy })] *)
Definition getSummaryAggregation (aggregations : list Aggregation) (groupBy : list string)
    : IdGen (string * AggWidget * WidgetPosition) :=
  let '(summaryFnSeries, summaryTitle) :=
    fold_left (fun '(fs, t) a => ((fs ++ [agg_fnSeries a])%list, t ++ " " ++ agg_title a))
      aggregations ([], "Summary: ") in
  w ← getAggregationWidget [groupBy] summaryFnSeries [];
  mret (summaryTitle, w, mkPosition 1 1 AGGREGATION_WIDGET_HEIGHT Infinity).

(** The choice of decorators: stream decorators and category decorators
    as the nested ternary picks them. *)
Definition allDecorators (streamDecorators streamCategoryDecorators : list string) : list string :=
  if bool_decide (length streamDecorators <> 0%nat) && bool_decide (length streamCategoryDecorators <> 0%nat)
  then (streamDecorators ++ streamCategoryDecorators)%list
  else if bool_decide (length streamDecorators <> 0%nat) then streamDecorators
  else streamCategoryDecorators.

(** The aggregation widgets, titles and positions, accumulated by the
    [reduce] over the conditions with their index. *)
Fixpoint aggregation_widgets (groupBy : list string) (SUMMARY_ROW_DELTA : Z) (index : Z)
    (aggregations : list Aggregation)
    : IdGen (list AggWidget * list (string * string) * list (string * WidgetPosition)) :=
  match aggregations with
  | [] => mret ([], [], [])
  | a :: rest =>
      w ← createViewWidget groupBy (agg_fnSeries a) (agg_expr a);
      r ← aggregation_widgets groupBy SUMMARY_ROW_DELTA (index + 1) rest;
      let '(ws, ts, ps) := r in
      mret (w :: ws, (aw_id w, agg_title a) :: ts,
           (aw_id w, createViewPosition index SUMMARY_ROW_DELTA) :: ps)
  end.

(** The generated view: its widgets, its titles and its positions, keyed
    by widget id in the order of the object spreads. *)
Record Generated := mkGenerated {
  g_widgets : list Widget;
  g_titles : list (string * string);
  g_positions : list (string * WidgetPosition)
}.

(** [WidgetsGenerator({ streams, streamCategories, aggregations, groupBy })]
    once the decorators are listed and filtered. *)
Definition WidgetsGenerator (streamDecorators streamCategoryDecorators : list string)
    (aggregations : list Aggregation) (groupBy : list string) : IdGen Generated :=
  histogram ← generateId;
  messageTable ← generateId;
  let decorators := allDecorators streamDecorators streamCategoryDecorators in
  let needsSummaryAggregations := Nat.ltb 1 (length aggregations) in
  let SUMMARY_ROW_DELTA := if needsSummaryAggregations then AGGREGATION_WIDGET_HEIGHT else 0 in
  r ← aggregation_widgets groupBy SUMMARY_ROW_DELTA 0 aggregations;
  let '(aggregationWidgets, aggregationTitles, aggregationPositions) := r in
  let n := Z.of_nat (length aggregationWidgets) in
  let widgets := (map AggregationW aggregationWidgets ++
                  [HistogramW histogram; MessageTableW messageTable decorators])%list in
  let titles := (aggregationTitles ++ [(histogram, "Message Count"); (messageTable, "All Messages")])%list in
  let positions := (
    aggregationPositions ++
    [(histogram, mkPosition 1 (AGGREGATION_WIDGET_HEIGHT * n + 1 + SUMMARY_ROW_DELTA) 2 Infinity);
     (messageTable, mkPosition 1 (AGGREGATION_WIDGET_HEIGHT * n + 3 + SUMMARY_ROW_DELTA) 6 Infinity)])%list in
  if needsSummaryAggregations then
    s ← getSummaryAggregation aggregations groupBy;
    let '(summaryTitle, summaryWidget, summaryPosition) := s in
    mret (mkGenerated (widgets ++ [AggregationW summaryWidget])%list
           (titles ++ [(aw_id summaryWidget, summaryTitle)])%list
           (positions ++ [(aw_id summaryWidget, summaryPosition)])%list)
  else mret (mkGenerated widgets titles positions).

End Generator.

(** ** The view's search parameters *)

(** [eventData.replay_info] *)
Record ReplayInfo := mkReplayInfo {
  ri_query : nullable string;
  ri_streams : nullable (list string);
  ri_stream_categories : nullable (list string);
  ri_timerange_start : nullable string;
  ri_timerange_end : nullable string
}.

(** The fields of an event that the hook reads. *)
Record EventData := mkEventData {
  ev_group_by_fields : nullable (list (string * string));
  ev_replay_info : nullable ReplayInfo
}.

(** [eventDefinition.config] *)
Record EDConfig := mkEDConfig {
  c_query : nullable string;
  c_streams : nullable (list string);
  c_stream_categories : nullable (list string);
  c_search_within_ms : nullable Z;
  c_query_parameters : nullable (list string);
  c_group_by : nullable (list string);
  c_filters : nullable (list string)
}.

(** The time range of the view. A relative range is in seconds:
    [search_within_ms / 1000], kept as the pair of the milliseconds and
    the divisor so that a fractional number of seconds is not rounded. *)
Inductive TimeRange :=
| AbsoluteRange (from to : nullable string)
| RelativeRangeMs (ms : Z).

(** [Object.entries(eventData?.group_by_fields ?? {})] *)
Definition group_by_entries (e : nullable EventData) : list (string * string) :=
  match e with Val ev => ev_group_by_fields ev ?? [] | _ => [] end.

(** [eventData?.replay_info?.f] *)
Definition replay (e : nullable EventData) {A} (f : ReplayInfo -> nullable A) : nullable A :=
  match e with
  | Val ev => match ev_replay_info ev with Val ri => f ri | _ => Undefined end
  | _ => Undefined
  end.

(** [eventDefinition?.config?.f] *)
Definition config (d : nullable EDConfig) {A} (f : EDConfig -> nullable A) : nullable A :=
  match d with Val c => f c | _ => Undefined end.

(** The parameters [UseCreateViewForEvent] passes to [ViewGenerator]. *)
Record ViewParams := mkViewParams {
  vp_streams : list string;
  vp_streamCategories : list string;
  vp_timeRange : TimeRange;
  vp_queryString : string;
  vp_queryParameters : list string;
  vp_groupBy : list string;
  vp_searchFilters : list string
}.

Section Params.

(** [concatQueryStrings(queries, options)], [predicate] and [escape] of
    views/logic/queries/QueryHelper; the options are [{ withBrackets }]
    or absent. *)
Variable concatQueryStrings : list string -> nullable bool -> string.
Variable predicate : string -> string -> string.
Variable escape : string -> string.

(** [UseCreateViewForEvent({ eventData, eventDefinition, aggregations })],
    up to the memoised call of [ViewGenerator]. The event definition is
    reduced to its [config]. *)
Definition UseCreateViewForEvent (eventData : nullable EventData) (definition : nullable EDConfig)
    : ViewParams :=
  let queryStringFromGrouping :=
    concatQueryStrings (map (fun '(field, value) => predicate field (escape value))
                          (group_by_entries eventData)) (Val false) in
  let eventQueryString := replay eventData ri_query ?? (config definition c_query ?? "") in
  let streams := replay eventData ri_streams ?? (config definition c_streams ?? []) in
  let streamCategories :=
    replay eventData ri_stream_categories ?? (config definition c_stream_categories ?? []) in
  let timeRange :=
    match eventData with
    | Val _ => AbsoluteRange (replay eventData ri_timerange_start) (replay eventData ri_timerange_end)
    | _ => RelativeRangeMs (config definition c_search_within_ms ?? 0)
    end in
  let queryString :=
    match eventData with
    | Val _ => concatQueryStrings [eventQueryString; queryStringFromGrouping] Undefined
    | _ => config definition c_query ?? ""
    end in
  mkViewParams streams streamCategories timeRange queryString
    (config definition c_query_parameters ?? []) (config definition c_group_by ?? [])
    (config definition c_filters ?? []).

End Params.

(** ** Overlap on the grid *)

Definition rows_meet (p q : WidgetPosition) : bool :=
  Z.leb (row p) (row q + height q - 1) && Z.leb (row q) (row p + height p - 1).

(** The last column of a widget; [Infinity] reaches the grid's edge. *)
Definition col_last (p : WidgetPosition) : option Z :=
  match width p with W w => Some (col p + w - 1) | Infinity => None end.

Definition le_last (c : Z) (l : option Z) : bool :=
  match l with Some e => Z.leb c e | None => true end.

Definition overlaps (p q : WidgetPosition) : bool :=
  rows_meet p q && le_last (col p) (col_last q) && le_last (col q) (col_last p).

Fixpoint pairwise_disjoint (l : list WidgetPosition) : bool :=
  match l with
  | [] => true
  | p :: l' => forallb (fun q => negb (overlaps p q)) l' && pairwise_disjoint l'
  end.

(** [SUMMARY_ROW_DELTA] for [n] conditions. *)
Definition summary_delta (n : nat) : Z := if Nat.ltb 1 n then AGGREGATION_WIDGET_HEIGHT else 0.

(** The positions [WidgetsGenerator] assigns for [n] conditions, in the
    order of its object spreads. *)
Definition layout_of (n : nat) : list WidgetPosition :=
  (map (fun i => createViewPosition (Z.of_nat i) (summary_delta n)) (seq 0 n) ++
  [mkPosition 1 (AGGREGATION_WIDGET_HEIGHT * Z.of_nat n + 1 + summary_delta n) 2 Infinity;
   mkPosition 1 (AGGREGATION_WIDGET_HEIGHT * Z.of_nat n + 3 + summary_delta n) 6 Infinity] ++
  (if Nat.ltb 1 n then [mkPosition 1 1 AGGREGATION_WIDGET_HEIGHT Infinity] else []))%list.

Section Shape.
Variable fresh : nat -> string.

Lemma aggregation_widgets_shape gb srd idx aggs k :
  let r := aggregation_widgets fresh gb srd idx aggs k in
  length (fst (fst (fst r))) = length aggs /\
  map snd (snd (fst r)) = map (fun i => createViewPosition (idx + Z.of_nat i) srd) (seq 0 (length aggs)) /\
  map fst (snd (fst r)) = map aw_id (fst (fst (fst r))) /\
  map fst (snd (fst (fst r))) = map aw_id (fst (fst (fst r))) /\
  map aw_id (fst (fst (fst r))) = map fresh (seq k (length aggs)) /\
  snd r = (k + length aggs)%nat.
Proof.
  revert idx k. induction aggs as [|a aggs IH]; intros idx k; simpl.
  - rewrite Nat.add_0_r. done.
  - unfold mbind, IdGen_bind, mret, IdGen_ret in *. simpl.
    specialize (IH (idx + 1) (S k)).
    destruct (aggregation_widgets fresh gb srd (idx + 1) aggs (S k)) as [[[ws ts] ps] k'].
    simpl in *. destruct IH as (H1 & H2 & H3 & H3' & H4 & H5).
    split; [lia|]. split; [|split; [by rewrite H3|split; [by rewrite H3'|split; [by rewrite H4|lia]]]].
    rewrite H2, <- seq_shift, map_map. f_equal; [f_equal; lia|].
    apply map_ext. intros i. f_equal. lia.
Qed.

(** The positions depend only on the number of conditions. *)
Lemma WidgetsGenerator_layout sd scd aggs gb k :
  map snd (g_positions (fst (WidgetsGenerator fresh sd scd aggs gb k))) = layout_of (length aggs).
Proof.
  unfold WidgetsGenerator, layout_of, summary_delta, mbind, IdGen_bind, mret, IdGen_ret. simpl.
  pose proof (aggregation_widgets_shape gb
    (if Nat.ltb 1 (length aggs) then AGGREGATION_WIDGET_HEIGHT else 0) 0 aggs (S (S k)))
    as (H1 & H2 & _).
  destruct (aggregation_widgets _ _ _ _ _ _) as [[[ws ts] ps] k']. simpl in *.
  rewrite H1. destruct (Nat.ltb 1 (length aggs)); simpl.
  - unfold getSummaryAggregation, mbind, IdGen_bind, mret, IdGen_ret.
    destruct (fold_left _ _ _) as [fs t]. simpl. rewrite !map_app, H2. simpl.
    by rewrite <- app_assoc.
  - rewrite map_app, H2. done.
Qed.

(** The ids of the generated widgets, in order, and the keys of the
    titles and positions: the same list. *)
Definition ids_of (k n : nat) : list string :=
  (map fresh (seq (S (S k)) n) ++ [fresh k; fresh (S k)] ++
   (if Nat.ltb 1 n then [fresh (S (S k) + n)] else []))%list.

Lemma WidgetsGenerator_ids sd scd aggs gb k :
  let g := fst (WidgetsGenerator fresh sd scd aggs gb k) in
  map widget_id (g_widgets g) = ids_of k (length aggs) /\
  map fst (g_titles g) = ids_of k (length aggs) /\
  map fst (g_positions g) = ids_of k (length aggs).
Proof.
  unfold WidgetsGenerator, ids_of, mbind, IdGen_bind, mret, IdGen_ret. simpl.
  pose proof (aggregation_widgets_shape gb
    (if Nat.ltb 1 (length aggs) then AGGREGATION_WIDGET_HEIGHT else 0) 0 aggs (S (S k)))
    as (H1 & _ & H3 & H3' & H4 & H5).
  destruct (aggregation_widgets _ _ _ _ _ _) as [[[ws ts] ps] k']. simpl in *.
  assert (Hw : map widget_id (map AggregationW ws) = map fresh (seq (S (S k)) (length aggs)))
    by (rewrite map_map; exact H4).
  destruct (Nat.ltb 1 (length aggs)); simpl.
  - unfold getSummaryAggregation, mbind, IdGen_bind, mret, IdGen_ret.
    destruct (fold_left _ _ _) as [fs t]. simpl. subst k'.
    rewrite !map_app, Hw, H3, H3', H4. simpl. by rewrite <- !app_assoc.
  - rewrite !map_app, Hw, H3, H3', H4. done.
Qed.

Lemma ids_of_map k n :
  ids_of k n = map fresh (seq (S (S k)) n ++ [k; S k] ++
                          (if Nat.ltb 1 n then [(S (S k) + n)%nat] else []))%list.
Proof. unfold ids_of. rewrite !map_app. by destruct (Nat.ltb 1 n). Qed.

Lemma ids_of_NoDup k n : Inj eq eq fresh -> NoDup (ids_of k n).
Proof.
  intros Hinj. rewrite ids_of_map. apply NoDup_fmap_2; [done|].
  apply NoDup_app. split; [apply NoDup_seq|]. split.
  - intros x Hx%elem_of_seq Hy. apply elem_of_app in Hy as [Hy | Hy].
    + apply elem_of_cons in Hy as [-> | Hy]; [lia|]. apply list_elem_of_singleton in Hy. lia.
    + destruct (Nat.ltb 1 n); [apply list_elem_of_singleton in Hy; lia|by apply elem_of_nil in Hy].
  - apply NoDup_app. split; [constructor; [rewrite list_elem_of_singleton; lia|apply NoDup_singleton]|].
    split; [|destruct (Nat.ltb 1 n); [apply NoDup_singleton|constructor]].
    intros x Hx Hy. destruct (Nat.ltb 1 n); [|by apply elem_of_nil in Hy].
    apply list_elem_of_singleton in Hy as ->.
    apply elem_of_cons in Hx as [Hx | Hx%list_elem_of_singleton]; lia.
Qed.

End Shape.

Lemma layout_of_agg n i :
  (i < n)%nat -> layout_of n !! i = Some (createViewPosition (Z.of_nat i) (summary_delta n)).
Proof.
  intros Hi. unfold layout_of. rewrite lookup_app_l by (rewrite length_map, length_seq; lia).
  by rewrite list_lookup_fmap, lookup_seq_lt.
Qed.

Lemma layout_of_histogram n :
  layout_of n !! n = Some (mkPosition 1 (AGGREGATION_WIDGET_HEIGHT * Z.of_nat n + 1 + summary_delta n) 2 Infinity) /\
  layout_of n !! S n = Some (mkPosition 1 (AGGREGATION_WIDGET_HEIGHT * Z.of_nat n + 3 + summary_delta n) 6 Infinity).
Proof.
  unfold layout_of. split; rewrite lookup_app_r by (rewrite length_map, length_seq; lia);
    rewrite length_map, length_seq;
    [rewrite Nat.sub_diag | replace (S n - n)%nat with 1%nat by lia]; reflexivity.
Qed.

(** [ceil_half] is the ceiling of the half. *)
Lemma ceil_half_bounds x : x <= 2 * ceil_half x <= x + 1.
Proof.
  unfold ceil_half. pose proof (Z.div_mod (x + 1) 2 ltac:(lia)).
  pose proof (Z.mod_pos_bound (x + 1) 2 ltac:(lia)). lia.
Qed.

(** ** Properties *)

(** C26. With at most four conditions, no two widgets of the generated
    view overlap: aggregation widgets, histogram, message table and
    summary occupy disjoint rectangles of the grid. *)
Theorem layout_disjoint_upto4 fresh sd scd aggs gb k :
  (length aggs <= 4)%nat ->
  pairwise_disjoint (map snd (g_positions (fst (WidgetsGenerator fresh sd scd aggs gb k)))) = true.
Proof.
  intros Hn. rewrite WidgetsGenerator_layout.
  destruct (length aggs) as [|[|[|[|[|n]]]]]; [vm_compute; reflexivity..|lia].
Qed.

Lemma layout_disjoint_upto4_witness :
  pairwise_disjoint (map snd (g_positions (fst (WidgetsGenerator (fun _ => "w") [] []
    [mkAggregation "10" ">" "count()"; mkAggregation "5" "<" "avg(took_ms)";
     mkAggregation "1" "==" "max(bytes)"] ["source"] 0%nat)))) = true.
Proof. apply layout_disjoint_upto4. simpl. lia. Defined.

(** C27. From five conditions on, the third and the fifth aggregation
    widgets overlap: both start in column 1, and the fifth starts one row
    below the third although each is three rows high. *)
Theorem layout_overlap_from5 fresh sd scd aggs gb k :
  (5 <= length aggs)%nat ->
  exists p q, map snd (g_positions (fst (WidgetsGenerator fresh sd scd aggs gb k))) !! 2%nat = Some p /\
    map snd (g_positions (fst (WidgetsGenerator fresh sd scd aggs gb k))) !! 4%nat = Some q /\
    overlaps p q = true.
Proof.
  intros Hn. rewrite WidgetsGenerator_layout, !layout_of_agg by lia.
  do 2 eexists. split; [reflexivity|]. split; [reflexivity|].
  unfold summary_delta. destruct (Nat.ltb_spec 1 (length aggs)); [|lia]. vm_compute. reflexivity.
Qed.

Lemma layout_overlap_from5_witness :
  exists p q, map snd (g_positions (fst (WidgetsGenerator (fun _ => "w") [] []
      (repeat (mkAggregation "10" ">" "count()") 5) ["source"] 0%nat))) !! 2%nat = Some p /\
    map snd (g_positions (fst (WidgetsGenerator (fun _ => "w") [] []
      (repeat (mkAggregation "10" ">" "count()") 5) ["source"] 0%nat))) !! 4%nat = Some q /\
    overlaps p q = true.
Proof. apply layout_overlap_from5. simpl. lia. Defined.

(** C28. For any number of conditions, every aggregation widget ends
    above the message-count histogram, the histogram ends above the
    message table, and with a summary every aggregation widget starts
    below the summary's three rows. *)
Theorem layout_histogram_below fresh sd scd aggs gb k i :
  (i < length aggs)%nat ->
  exists p h t,
    map snd (g_positions (fst (WidgetsGenerator fresh sd scd aggs gb k))) !! i = Some p /\
    map snd (g_positions (fst (WidgetsGenerator fresh sd scd aggs gb k))) !! length aggs = Some h /\
    map snd (g_positions (fst (WidgetsGenerator fresh sd scd aggs gb k))) !! S (length aggs) = Some t /\
    row p + height p <= row h /\ row h + height h <= row t /\
    ((1 < length aggs)%nat -> 1 + AGGREGATION_WIDGET_HEIGHT <= row p).
Proof.
  intros Hi. rewrite WidgetsGenerator_layout, layout_of_agg by done.
  destruct (layout_of_histogram (length aggs)) as [-> ->].
  do 3 eexists. split; [reflexivity|]. split; [reflexivity|]. split; [reflexivity|].
  pose proof (ceil_half_bounds (Z.of_nat i + 1)).
  unfold createViewPosition, summary_delta, AGGREGATION_WIDGET_HEIGHT; simpl.
  destruct (Nat.ltb_spec 1 (length aggs)); destruct (Z.geb_spec (Z.of_nat i) 2);
    destruct (Z.eqb ((Z.of_nat i + 1) mod 2) 0); simpl; repeat split; intros; lia.
Qed.

Lemma layout_histogram_below_witness :
  exists p h t,
    map snd (g_positions (fst (WidgetsGenerator (fun _ => "w") [] []
      (repeat (mkAggregation "10" ">" "count()") 6) ["source"] 0%nat))) !! 5%nat = Some p /\
    map snd (g_positions (fst (WidgetsGenerator (fun _ => "w") [] []
      (repeat (mkAggregation "10" ">" "count()") 6) ["source"] 0%nat))) !! length (repeat (mkAggregation "10" ">" "count()") 6) = Some h /\
    map snd (g_positions (fst (WidgetsGenerator (fun _ => "w") [] []
      (repeat (mkAggregation "10" ">" "count()") 6) ["source"] 0%nat))) !! S (length (repeat (mkAggregation "10" ">" "count()") 6)) = Some t /\
    row p + height p <= row h /\ row h + height h <= row t /\
    ((1 < length (repeat (mkAggregation "10" ">" "count()") 6))%nat -> 1 + AGGREGATION_WIDGET_HEIGHT <= row p).
Proof. apply layout_histogram_below. simpl. lia. Defined.

(** The nested ternary that picks the message table's decorators
    is concatenation: stream decorators followed by stream-category
    decorators, whichever of them is empty. *)
Theorem allDecorators_concat sd scd : allDecorators sd scd = (sd ++ scd)%list.
Proof.
  unfold allDecorators. destruct sd as [|x sd], scd as [|y scd]; simpl; try done.
  by rewrite app_nil_r.
Qed.

(** With [generateId] returning distinct ids, the generated widgets
    have distinct ids, and the titles and the positions are keyed by
    exactly those ids, in the same order: no title or position is
    overwritten or missing. *)
Theorem widget_ids_distinct fresh sd scd aggs gb k :
  Inj eq eq fresh ->
  let g := fst (WidgetsGenerator fresh sd scd aggs gb k) in
  NoDup (map widget_id (g_widgets g)) /\
  map fst (g_titles g) = map widget_id (g_widgets g) /\
  map fst (g_positions g) = map widget_id (g_widgets g).
Proof.
  intros Hinj g. destruct (WidgetsGenerator_ids fresh sd scd aggs gb k) as (Hw & Ht & Hp).
  subst g. rewrite Hw, Ht, Hp. split; [|done]. by apply ids_of_NoDup.
Qed.

Lemma widget_ids_distinct_witness :
  let g := fst (WidgetsGenerator (fun n => pretty (N.of_nat n)) [] []
                  [mkAggregation "10" ">" "count()"; mkAggregation "1" "<" "avg(x)"] ["source"] 0%nat) in
  NoDup (map widget_id (g_widgets g)) /\
  map fst (g_titles g) = map widget_id (g_widgets g) /\
  map fst (g_positions g) = map widget_id (g_widgets g).
Proof.
  apply widget_ids_distinct. intros x y H. apply (inj pretty) in H. lia.
Defined.

End ViewLayout.
