(* ===== verification/Timeout.v ===== *)
(** * The session timeout input (components/users/TimeoutInput.tsx)

    The component edits a timeout in milliseconds as a number and a unit.
    [-1] stands for "sessions do not time out". On mount it picks the
    largest unit that divides the value ([_estimateUnit]) and shows
    [Math.floor(value / unit)]. An effect reports [value * unit], or [-1]
    when the checkbox is set, through [onChange] after the mount and after
    every change of its state.

    The component is a state machine here: [TimeoutState] is the three
    [useState] cells, [init] the mount, [step] the three event handlers,
    and [emitted] what the effect reports. JavaScript's [%] is [Z.rem]
    (the sign of the dividend) and [Math.floor] of a division is [Z.div].
    The cells hold what the code puts in them: numbers on mount, but the
    handlers store the strings the inputs give ([evt.target.value], the
    unit select's value). A cell is a [cell]: a number, the decimal string
    of an integer, or the empty string. The number input is taken to hold
    an integer or nothing. [value * Number(unit)] converts both strings;
    the empty string counts as [0]. React compares the effect's
    dependencies with [Object.is], so the string ["5"] differs from the
    number [5]. The unit constants of
    ./timeoutConstants (outside src/) are one second, minute, hour and day
    in milliseconds.

    [Component] adds the fourth cell, the global session timeout that the
    mount effect requests ([mount], [ConfigLoaded]). [render] shows the
    inputs, disabled under the global timeout (and, for the number and
    the unit, while "never" is checked). [run_component] lets through only
    the events of enabled inputs.

    The theorems show which units are chosen and when mounting the
    component reports the value it was given. A value in whole seconds is
    reported back unchanged. A value with a fraction of a second is
    reported truncated to whole seconds, although nobody edited it. The
    checkbox does not lose the number: unchecking it reports the previous
    timeout again. Once the global timeout is enabled, nothing the user
    does reaches [onChange]. *)

From stdpp Require Import relations pretty.
From S2P Require Import Prelude.
Set Warnings "-clear-no-such-hyp".

Module Timeout.

Local Open Scope Z_scope.

Definition MS_SECOND : Z := 1000.
Definition MS_MINUTE : Z := 60 * MS_SECOND.
Definition MS_HOUR : Z := 60 * MS_MINUTE.
Definition MS_DAY : Z := 24 * MS_HOUR.

(** [_estimateUnit(value)] *)
Definition _estimateUnit (value : Z) : Z :=
  if Z.eqb value 0 then MS_SECOND
  else if Z.eqb (Z.rem value MS_DAY) 0 then MS_DAY
  else if Z.eqb (Z.rem value MS_HOUR) 0 then MS_HOUR
  else if Z.eqb (Z.rem value MS_MINUTE) 0 then MS_MINUTE
  else MS_SECOND.

(** A JavaScript value of a number cell: a number, or a string an input
    gave, the decimal digits of an integer or empty. *)
Inductive cell := CNum (z : Z) | CDigits (z : Z) | CEmpty.

#[export] Instance cell_eq_dec : EqDecision cell.
Proof. solve_decision. Defined.

(** The number a cell stands for in an arithmetic expression ([*] and
    [Number(...)] convert a string; [''] is [0]). *)
Definition num (c : cell) : Z := match c with CNum z | CDigits z => z | CEmpty => 0 end.

(** [`${c}`] *)
Definition cell_string (c : cell) : string :=
  match c with CNum z | CDigits z => pretty z | CEmpty => "" end.

(** The [useState] cells. *)
Record TimeoutState := mkTimeoutState {
  sessionTimeoutNever : bool;
  unit : cell;
  value : cell
}.

(** The initial state from [props.value]: [propsValue ? ... : 0] tests
    the number for truthiness, which only [0] fails. *)
Definition init (propsValue : Z) : TimeoutState :=
  let u := _estimateUnit propsValue in
  mkTimeoutState (Z.eqb propsValue (-1)) (CNum u) (CNum (if Z.eqb propsValue 0 then 0 else propsValue / u)).

(** What the effect passes to [onChange]: [getValue()]. *)
Definition emitted (s : TimeoutState) : Z :=
  if sessionTimeoutNever s then -1 else num (value s) * num (unit s).

(** The event handlers. *)
Inductive Event :=
| Click (checked : bool)      (* _onClick *)
| ChangeValue (v : option Z)  (* _onChangeValue: evt.target.value, digits or empty *)
| ChangeUnit (u : Z).         (* _onChangeUnit: the unit select's value `${ms}` *)

Definition step (s : TimeoutState) (e : Event) : TimeoutState :=
  match e with
  | Click checked => mkTimeoutState checked (unit s) (value s)
  | ChangeValue v =>
      mkTimeoutState (sessionTimeoutNever s) (unit s) (match v with Some z => CDigits z | None => CEmpty end)
  | ChangeUnit u => mkTimeoutState (sessionTimeoutNever s) (CDigits u) (value s)
  end.

#[export] Instance TimeoutState_eq_dec : EqDecision TimeoutState.
Proof. solve_decision. Defined.

(** The effect's later runs: React re-runs it after an event only when one
    of its dependencies [value], [unit], [sessionTimeoutNever] changed. *)
Fixpoint effects (s : TimeoutState) (events : list Event) : list Z :=
  match events with
  | [] => []
  | e :: es =>
      let s' := step s e in
      (if decide (s' = s) then [] else [emitted s']) ++ effects s' es
  end.

(** The values [onChange] receives: one after mounting, then the
    effect's later runs. *)
Definition run (propsValue : Z) (events : list Event) : list Z :=
  emitted (init propsValue) :: effects (init propsValue) events.

(** The state after a sequence of events. *)
Definition final (propsValue : Z) (events : list Event) : TimeoutState :=
  fold_left step events (init propsValue).

Definition units : list Z := [MS_SECOND; MS_MINUTE; MS_HOUR; MS_DAY].

(** ** The global session timeout and the render *)

(** [UserConfigType], as [ConfigurationsActions.list(USER_CONFIG)]
    answers it. *)
Record UserConfigType := mkUserConfig {
  enable_global_session_timeout : bool;
  global_session_timeout_interval : string
}.

Definition USER_CONFIG : string := "org.graylog2.users.UserConfiguration".

(** The whole component: the three cells above and the fourth,
    [globalSessionTimeout]. *)
Record Component := mkComponent { cells : TimeoutState; globalSessionTimeout : UserConfigType }.

(** Mounting: the initial cells, the [onChange] report of the second
    effect and the configuration request of the first. *)
Definition mount (propsValue : Z) : Component * list Z * list string :=
  (mkComponent (init propsValue) (mkUserConfig false ""), [emitted (init propsValue)], [USER_CONFIG]).

(** An event of the component: an input's handler, or the answer to the
    configuration request ([setGlobalSessionTimeout(data)]). *)
Inductive ComponentEvent := Input (e : Event) | ConfigLoaded (data : UserConfigType).

(** A step and what it reports through [onChange]: the effect depends on
    the three cells only. *)
Definition component_step (c : Component) (ev : ComponentEvent) : Component * list Z :=
  match ev with
  | Input e =>
      let s' := step (cells c) e in
      (mkComponent s' (globalSessionTimeout c), if decide (s' = cells c) then [] else [emitted s'])
  | ConfigLoaded data => (mkComponent (cells c) data, [])
  end.

(** The help block under the inputs. *)
Inductive HelpText :=
| GlobalTimeoutEnabled      (* "... not editable because the global session timeout is enabled." *)
| SessionsEndWhenIdle.      (* "Session automatically end after this amount of time, ..." *)

(** What the render shows: the checkbox, the number input, the unit
    select ([`${unit}`]) and the help block. *)
Record View := mkView {
  never_checked : bool; never_disabled : bool;
  value_shown : cell; value_disabled : bool;
  unit_shown : string; unit_disabled : bool;
  help : HelpText
}.

Definition render (c : Component) : View :=
  let g := enable_global_session_timeout (globalSessionTimeout c) in
  let s := cells c in
  mkView (sessionTimeoutNever s) g
         (value s) (sessionTimeoutNever s || g)
         (cell_string (unit s)) (sessionTimeoutNever s || g)
         (if g then GlobalTimeoutEnabled else SessionsEndWhenIdle).

(** A disabled input fires no [onChange]: the events the render lets
    through. *)
Definition enabled (v : View) (e : Event) : bool :=
  match e with
  | Click _ => negb (never_disabled v)
  | ChangeValue _ => negb (value_disabled v)
  | ChangeUnit _ => negb (unit_disabled v)
  end.

(** A run of the component: the events its render lets through, in
    order, with the values [onChange] receives. *)
Fixpoint run_component (c : Component) (evs : list ComponentEvent) : Component * list Z :=
  match evs with
  | [] => (c, [])
  | ev :: evs' =>
      let allowed := match ev with Input e => enabled (render c) e | ConfigLoaded _ => true end in
      if allowed then
        let '(c1, r1) := component_step c ev in
        let '(c2, r2) := run_component c1 evs' in
        (c2, r1 ++ r2)
      else run_component c evs'
  end.

(** Every unit is a multiple of a second. *)
Lemma unit_seconds u : u ∈ units -> Z.rem u MS_SECOND = 0.
Proof. intros Hu. repeat (apply elem_of_cons in Hu as [-> | Hu]; [reflexivity|]). by apply elem_of_nil in Hu. Qed.

Lemma estimateUnit_in v : _estimateUnit v ∈ units.
Proof.
  unfold _estimateUnit, units.
  repeat case_match; set_solver.
Qed.

(** A unit other than a second divides the value. *)
Lemma estimateUnit_divides v : v <> 0 -> Z.rem v (_estimateUnit v) = 0 \/ _estimateUnit v = MS_SECOND.
Proof.
  intros Hv. unfold _estimateUnit.
  destruct (Z.eqb_spec v 0); [lia|].
  destruct (Z.eqb_spec (Z.rem v MS_DAY) 0); [by left|].
  destruct (Z.eqb_spec (Z.rem v MS_HOUR) 0); [by left|].
  destruct (Z.eqb_spec (Z.rem v MS_MINUTE) 0); [by left|by right].
Qed.

(** ** Properties *)

(** For a non-zero value, [_estimateUnit] picks one of the four
    units, and that unit is the largest of them that divides the value
    (a second when none of the larger ones does). *)
Theorem estimateUnit_largest v :
  v <> 0 ->
  _estimateUnit v ∈ units /\
  (_estimateUnit v = MS_SECOND \/ Z.rem v (_estimateUnit v) = 0) /\
  (forall u, u ∈ units -> _estimateUnit v < u -> Z.rem v u <> 0).
Proof.
  intros Hv. split; [apply estimateUnit_in|].
  split; [destruct (estimateUnit_divides v Hv); auto|].
  intros u Hu Hlt. unfold _estimateUnit in *.
  destruct (Z.eqb_spec v 0); [lia|].
  destruct (Z.eqb_spec (Z.rem v MS_DAY) 0) as [|Hd];
  [|destruct (Z.eqb_spec (Z.rem v MS_HOUR) 0) as [|Hh];
  [|destruct (Z.eqb_spec (Z.rem v MS_MINUTE) 0) as [|Hm]]];
  repeat (apply elem_of_cons in Hu as [-> | Hu]; [vm_compute in Hlt; try discriminate; done|]);
  by apply elem_of_nil in Hu.
Qed.

Lemma estimateUnit_largest_witness :
  _estimateUnit 5400000 ∈ units /\
  (_estimateUnit 5400000 = MS_SECOND \/ Z.rem 5400000 (_estimateUnit 5400000) = 0) /\
  (forall u, u ∈ units -> _estimateUnit 5400000 < u -> Z.rem 5400000 u <> 0).
Proof. apply estimateUnit_largest. lia. Defined.

(** C32. Mounting the input reports the timeout it was given exactly
    when that timeout is [-1] (never) or a whole number of seconds. A
    timeout with a fraction of a second, such as 1500 ms, is reported
    truncated to whole seconds on mount, without any edit. *)
Theorem mount_reports_value p :
  0 <= p \/ p = -1 ->
  (emitted (init p) = p <-> p = -1 \/ Z.rem p MS_SECOND = 0).
Proof.
  intros Hp. unfold emitted, init; simpl.
  destruct (Z.eqb_spec p (-1)) as [->|Hn]; [tauto|]. simpl.
  destruct Hp as [Hp|]; [|lia].
  destruct (Z.eqb_spec p 0) as [->|Hz]; [split; [right; reflexivity|done]|].
  pose proof (estimateUnit_in p) as Hin. pose proof (unit_seconds _ Hin) as Hsec.
  assert (Hu : 0 < _estimateUnit p)
    by (repeat (apply elem_of_cons in Hin as [-> | Hin]; [reflexivity|]); by apply elem_of_nil in Hin).
  rewrite Z.rem_mod_nonneg in Hsec |- * by (unfold MS_SECOND; lia).
  pose proof (Z.div_mod p (_estimateUnit p) ltac:(lia)) as Hdm.
  rewrite <- Z.rem_mod_nonneg in Hdm by lia.
  destruct (estimateUnit_divides p Hz) as [Hr | Hs].
  - split; [intros _; right|intros _; lia].
    apply Z.mod_divide; [unfold MS_SECOND; lia|].
    apply Z.mod_divide in Hsec as [a Ha]; [|unfold MS_SECOND; lia].
    exists ((p / _estimateUnit p) * a). lia.
  - rewrite Hs in Hdm |- *. pose proof (Z.mod_pos_bound p MS_SECOND ltac:(unfold MS_SECOND; lia)).
    rewrite <- Z.rem_mod_nonneg by (unfold MS_SECOND; lia). split; intros Heq; [right|destruct Heq]; lia.
Qed.

Lemma mount_reports_value_witness :
  emitted (init 3600000) = 3600000 <-> 3600000 = -1 \/ Z.rem 3600000 MS_SECOND = 0.
Proof. apply mount_reports_value. lia. Defined.

(** Checking "sessions do not time out" reports [-1], and unchecking
    it again reports the timeout the input held before: the number and
    the unit survive the checkbox. *)
Theorem never_toggle_restores s :
  sessionTimeoutNever s = false ->
  effects s [Click true; Click false] = [-1; emitted s].
Proof.
  intros Hs. destruct s as [n u v]; simpl in *; subst n. simpl.
  repeat (rewrite decide_False by congruence). done.
Qed.

Lemma never_toggle_restores_witness :
  effects (init 3600000) [Click true; Click false] = [-1; emitted (init 3600000)].
Proof. apply never_toggle_restores. reflexivity. Defined.

(** Typing the number the input already shows reports the same timeout
    again: the cell changes from the number to its string, and
    [Object.is] tells them apart. *)
Lemma retype_reports_again p v :
  value (init p) = CNum v ->
  effects (init p) [ChangeValue (Some v)] = [emitted (init p)].
Proof.
  intros Hv. cbn [effects]. rewrite decide_False.
  - cbn [app]. f_equal. unfold emitted; cbn [step sessionTimeoutNever unit value]. by rewrite Hv.
  - destruct (init p) as [n u w]. cbn in Hv |- *. subst w. intros [=].
Qed.

(** Once the configuration with the global session timeout enabled has
    arrived, every input is disabled: no event reaches the cells or
    [onChange], whatever the user does. *)
Lemma global_timeout_locks c es :
  enable_global_session_timeout (globalSessionTimeout c) = true -> run_component c (map Input es) = (c, []).
Proof.
  intros Hg. induction es as [|e es IH]; [done|]. simpl. unfold enabled, render. rewrite Hg.
  destruct e; simpl; rewrite ?orb_true_r; exact IH.
Qed.

End Timeout.
