(* ===== verification/SharedEntity.v ===== *)
(** * The shared entity value object (logic/permissions/SharedEntity.ts)

    A [SharedEntity] holds an id, a list of owners ([Grantee]s), a title
    and a type. Its [Builder] wraps an [Immutable.Map<string, any>]; the
    only keys the code ever sets are the four fields, so the map is a
    record of four optional entries ([None]: the key is absent). [build]
    destructures [toObject()], where an absent key reads as [undefined].
    [Grantee] lives outside src/ and is a parameter of the section, with
    its [fromJSON].

    [fromJSON] returns [None] where [owners.map] throws a [TypeError] on a
    nullish owner list.

    The theorem shows that [toBuilder().build()] loses the type: the
    builder map is made of [id], [owners] and [title] only. *)

From S2P Require Import Prelude.

Module SharedEntity.

Section SharedEntity.

Context {Grantee GranteeJSON : Type}.
Variable Grantee_fromJSON : GranteeJSON -> Grantee.

(** [InternalState] *)
Record SharedEntity := mkSharedEntity {
  id : nullable string;
  owners : nullable (list Grantee);
  title : nullable string;
  type : nullable string
}.

(** [SharedEntityType], the server's JSON. *)
Record SharedEntityJSON := mkSharedEntityJSON {
  j_id : nullable string;
  j_owners : nullable (list GranteeJSON);
  j_title : nullable string;
  j_type : nullable string
}.

(** The object [toJSON] returns: the owners stay an [Immutable.List] of
    [Grantee]s. *)
Record SharedEntityOut := mkSharedEntityOut {
  o_id : nullable string;
  o_owners : nullable (list Grantee);
  o_title : nullable string;
  o_type : nullable string
}.

(** The builder's [Immutable.Map], restricted to the four keys. *)
Record Builder := mkBuilder {
  b_id : option (nullable string);
  b_owners : option (nullable (list Grantee));
  b_title : option (nullable string);
  b_type : option (nullable string)
}.

(** [Map.toObject()] destructured: a missing key is [undefined]. *)
Definition entry {A} (e : option (nullable A)) : nullable A :=
  match e with Some v => v | None => Undefined end.

(** [new Builder()] with its default [Immutable.Map()]. *)
Definition builder : Builder := mkBuilder None None None None.

Definition set_id v b := mkBuilder (Some v) (b_owners b) (b_title b) (b_type b).
Definition set_owners v b := mkBuilder (b_id b) (Some v) (b_title b) (b_type b).
Definition set_title v b := mkBuilder (b_id b) (b_owners b) (Some v) (b_type b).
Definition set_type v b := mkBuilder (b_id b) (b_owners b) (b_title b) (Some v).

Definition build (b : Builder) : SharedEntity :=
  mkSharedEntity (entry (b_id b)) (entry (b_owners b)) (entry (b_title b)) (entry (b_type b)).

(** [toBuilder()]: [Immutable.Map({ id, owners, title })]. *)
Definition toBuilder (e : SharedEntity) : Builder :=
  mkBuilder (Some (id e)) (Some (owners e)) (Some (title e)) None.

Definition toJSON (e : SharedEntity) : SharedEntityOut :=
  mkSharedEntityOut (id e) (owners e) (title e) (type e).

(** [fromJSON(value)]: [owners.map] throws on a nullish [owners];
    [Immutable.fromJS] keeps the [Grantee] instances as they are. *)
Definition fromJSON (v : SharedEntityJSON) : option SharedEntity :=
  match j_owners v with
  | Val os =>
      let formattedOwners := map Grantee_fromJSON os in
      Some (build (set_type (j_type v) (set_title (j_title v)
        (set_owners (Val formattedOwners) (set_id (j_id v) builder)))))
  | _ => None
  end.

End SharedEntity.

Arguments SharedEntity : clear implicits.
Arguments SharedEntityJSON : clear implicits.

(** ** Properties *)

(** [toBuilder().build()] gives the entity back exactly when its
    type is [undefined]: every other entity loses its type. *)
Theorem toBuilder_build_type {G} (e : SharedEntity G) :
  build (toBuilder e) = e <-> type e = Undefined.
Proof.
  destruct e as [i o t ty]; unfold build, toBuilder; simpl.
  split; [congruence|intros ->; reflexivity].
Qed.

End SharedEntity.
