(* ===== verification/PluginRoutes.v ===== *)
(** * The plugin route registry ([pluginRoute] of routing/Routes.ts)

    [pluginRoute(routeKey, throwError)] rebuilds a table from the paths
    plugins register. Every path is parsed with [new URI(path)] and split
    with [uri.segment()]; its key is the segments with their first [:]
    removed, joined with [_] and upper-cased. A path without [:param]
    segments is stored as it is. A path with parameters is stored as a
    closure over the parsed [uri]: each call writes the arguments into
    that one object with [uri.segment(i, value)] and returns
    [uri.pathname()]. The table is then qualified with the application
    prefix and looked up.

    The closure is modelled as data ([Closure]): the [uri] it mutates, the
    [segments] array and the parameter names it captured. A call takes the
    closure and returns the closure with its [uri] updated together with
    the path, so that two calls of the same returned function share the
    object the way the code shares it. [segment_set] is urijs 1.19's
    [segment(i, v)]: an existing segment is replaced by [v] without
    surrounding slashes, or removed ([splice]) when [v] is empty; an index
    past the end appends. Setting the path re-encodes it with
    [URI.recodePath], the section variable [recodePath].

    [register] returns [None] for a path [parse] does not take (one with a
    scheme or an authority), which no plugin registers. [toUpperCase] is
    modelled on ASCII letters. Lookups are of the table's own keys: the
    names [Object.prototype] provides all contain lower-case letters, and
    generated keys contain none. *)

From stdpp Require Import gmap.
From S2P Require Import Prelude JsValue Uri UriPaths Routes.
From Stdlib Require Import Ascii.
Set Warnings "-clear-no-such-hyp".

Module PluginRoutes.

Import Uri UriPaths Routes.
Local Open Scope string_scope.

(** [segment.replace(':', '')]: the first colon only. *)
Fixpoint replace_colon (s : string) : string :=
  match s with
  | EmptyString => EmptyString
  | String c s' => if is_char c ":"%char then s' else String c (replace_colon s')
  end.

(** [segment.startsWith(':')] *)
Definition is_param (s : string) : bool := starts_with_char ":"%char s.

(** The key of a route with these segments. *)
Definition route_key (segments : list string) : string :=
  to_upper (String.concat "_" (map replace_colon segments)).

(** The regular expression [/^\/+|\/+$/g] of urijs's [trimSlashes]. *)
Fixpoint drop_leading_slashes (s : string) : string :=
  match s with
  | String c s' => if is_char c "/"%char then drop_leading_slashes s' else s
  | EmptyString => EmptyString
  end.

Fixpoint drop_trailing_slashes (s : string) : string :=
  match s with
  | EmptyString => EmptyString
  | String c s' =>
      let t := drop_trailing_slashes s' in
      if is_char c "/"%char && String.eqb t "" then "" else String c t
  end.

Definition trimSlashes (s : string) : string := drop_trailing_slashes (drop_leading_slashes s).

(** A value returned, or an [Error] thrown with its message. *)
Inductive outcome (A : Type) := Ok (a : A) | Throw (message : string).
Arguments Ok {A} a.
Arguments Throw {A} message.

Section Segments.

(** [URI.recodePath] *)
Variable recodePath : string -> string.

(** [uri.segment()]: the path split on [/], without the empty first
    element of an absolute path. *)
Definition segment_get (u : uri) : list string :=
  let segments := split_slash (path u) in
  if starts_with_char "/"%char (path u) then List.tail segments else segments.

(** [uri.path(v)]: an empty path becomes ["/"]. *)
Definition set_path (v : string) (u : uri) : uri :=
  mkUri (if String.eqb v "" then "/" else recodePath v) (query u) (fragment u).

(** [uri.segment(segment, v)] with a string [v]. A negative index counts
    from the end. *)
Definition segment_set (segment : Z) (v : string) (u : uri) : uri :=
  let absolute := starts_with_char "/"%char (path u) in
  let segments := segment_get u in
  let segment := if decide (segment < 0)%Z
                 then Z.max (Z.of_nat (length segments) + segment) 0 else segment in
  let segments' :=
    match js_at segments segment with
    | Val _ =>
        if String.eqb v "" then delete (Z.to_nat segment) segments
        else <[Z.to_nat segment := trimSlashes v]> segments
    | _ =>
        let v' := trimSlashes v in
        match last segments with
        | Some "" => <[pred (length segments) := v']> segments
        | _ => (segments ++ [v'])%list
        end
    end in
  set_path (String.concat "/" (if absolute then "" :: segments' else segments')) u.

(** The captured state of the function stored for a route with
    parameters: the [uri] object, the [segments] array, [paramNames]. *)
Record Closure := mkClosure { c_uri : uri; c_segments : list string; c_paramNames : list string }.

(** [paramNames.forEach((param, idx) => uri.segment(segments.indexOf(param), String(paramValues[idx])))] *)
Fixpoint fill_params (segments : list string) (paramValues : list jval) (idx : nat)
    (params : list string) (u : uri) : uri :=
  match params with
  | [] => u
  | param :: params' =>
      let value := js_string (argv paramValues idx) in
      fill_params segments paramValues (S idx) params'
        (segment_set (js_index_of param segments) value u)
  end.

(** A call [(...paramValues) => { ...; return uri.pathname(); }]. *)
Definition call (c : Closure) (paramValues : list jval) : Closure * string :=
  let u := fill_params (c_segments c) paramValues 0 (c_paramNames c) (c_uri c) in
  (mkClosure u (c_segments c) (c_paramNames c), path u).

Inductive PluginEntry := PLiteral (p : string) | PFunction (c : Closure).

(** The body of [PluginStore.exports('routes').forEach] for one path. *)
Definition plugin_entry (p : string) : option (string * PluginEntry) :=
  match parse p with
  | Some u =>
      let segments := segment_get u in
      let key := route_key segments in
      let paramNames := List.filter is_param segments in
      if Nat.ltb 0 (length paramNames) then Some (key, PFunction (mkClosure u segments paramNames))
      else Some (key, PLiteral p)
  | None => None
  end.

(** [pluginRoutes[key] = ...] for every registered path, in order. *)
Fixpoint register (routes : list string) (m : gmap string PluginEntry) : option (gmap string PluginEntry) :=
  match routes with
  | [] => Some m
  | p :: routes' =>
      match plugin_entry p with
      | Some (key, e) => register routes' (<[key := e]> m)
      | None => None
      end
  end.

(** An entry of [qualifyUrls(pluginRoutes)]: a literal with the prefix
    applied, or the closure with the prefix its wrapper applies ([None]:
    not wrapped). *)
Inductive QualifiedEntry :=
| QLiteral (r : option string)
| QFunction (c : Closure) (prefix : option string).

Definition qualify (appPrefix : nullable string) (e : PluginEntry) : QualifiedEntry :=
  match appPrefix with
  | Val p =>
      if no_prefix appPrefix then
        match e with PLiteral s => QLiteral (Some s) | PFunction c => QFunction c None end
      else
        match e with
        | PLiteral s => QLiteral (prefixUrlWithoutHostname recodePath s p)
        | PFunction c => QFunction c (Some p)
        end
  | _ => match e with PLiteral s => QLiteral (Some s) | PFunction c => QFunction c None end
  end.

(** Calling a qualified function: the wrapper applies
    [prefixUrlWithoutHostname] to the closure's result. *)
Definition call_qualified (c : Closure) (prefix : option string) (paramValues : list jval)
    : Closure * option string :=
  let '(c', result) := call c paramValues in
  (c', match prefix with
       | None => Some result
       | Some p => prefixUrlWithoutHostname recodePath result p
       end).

(** A route is falsy only as the empty literal. *)
Definition falsy_entry (q : QualifiedEntry) : bool :=
  match q with QLiteral (Some "") => true | _ => false end.

(** [pluginRoute(routeKey, throwError)]; [None] when a registered path is
    outside the model. *)
Definition pluginRoute (routes : list string) (appPrefix : nullable string) (routeKey : string)
    (throwError : bool) : option (outcome (nullable QualifiedEntry)) :=
  match register routes ∅ with
  | Some pluginRoutes =>
      let route := qualify appPrefix <$> pluginRoutes !! routeKey in
      let falsy := match route with Some q => falsy_entry q | None => true end in
      if falsy && throwError then Some (Throw ("Could not find plugin route '" ++ routeKey ++ "'."))
      else Some (Ok (match route with Some q => Val q | None => Undefined end))
  | None => None
  end.

(** [getPluginRoute(routeKey)] *)
Definition getPluginRoute routes appPrefix routeKey := pluginRoute routes appPrefix routeKey false.

End Segments.

(** ** Paths of good segments *)

#[local] Arguments String.append : simpl nomatch.
#[local] Arguments is_char : simpl never.

(** The characters [segment()] and [recodePath] leave alone in a segment. *)
Definition seg_char (c : ascii) : bool := url_safe_char c || is_char c ":"%char.

(** A non-empty segment, or argument, of unreserved characters and colons. *)
Definition good_seg (s : string) : bool := all_chars seg_char s && negb (String.eqb s "").

(** The hypothesis on [URI.recodePath]: a path of unreserved characters,
    slashes and colons is kept (urijs re-encodes every other character
    but leaves [:] in paths). *)
Definition recode_keeps (rp : string -> string) : Prop :=
  forall s, all_chars (fun c => path_char c || is_char c ":"%char) s = true -> rp s = s.

(** The path a call promises: the [k]-th parameter segment replaced by
    the [k]-th value, in left-to-right order. *)
Fixpoint fill_from (V : nat -> string) (k : nat) (segs : list string) : list string :=
  match segs with
  | [] => []
  | s :: ss => if is_param s then V k :: fill_from V (S k) ss else s :: fill_from V k ss
  end.

(** [String(paramValues[k])] *)
Definition arg_string (paramValues : list jval) (k : nat) : string := js_string (argv paramValues k).

Definition filled (segs : list string) (paramValues : list jval) : list string :=
  fill_from (arg_string paramValues) 0 segs.

Definition count_params (l : list string) : nat := length (List.filter is_param l).

Lemma good_seg_no_slash s : good_seg s = true -> has_char "/" s = false.
Proof. intros [H _]%andb_prop. by apply (all_chars_has_char seg_char). Qed.

Lemma good_seg_ne s : good_seg s = true -> s <> "".
Proof. intros [_ H]%andb_prop ->. done. Qed.

Lemma drop_trailing_no_slash s : has_char "/" s = false -> drop_trailing_slashes s = s.
Proof.
  induction s as [|c s IH]; simpl; [done|]. intros [Hc Hs]%orb_false_elim.
  rewrite IH, is_char_sym, Hc by done. done.
Qed.

Lemma trimSlashes_good s : good_seg s = true -> trimSlashes s = s.
Proof.
  intros Hg. pose proof (good_seg_no_slash s Hg) as Hn. unfold trimSlashes.
  destruct s as [|c s']; [done|]. pose proof Hn as Hn0. simpl in Hn.
  apply orb_false_elim in Hn as [Hc _]. simpl. rewrite is_char_sym, Hc.
  by apply drop_trailing_no_slash.
Qed.

Lemma concat_cons2 sep x y ys :
  String.concat sep (x :: y :: ys) = x ++ sep ++ String.concat sep (y :: ys).
Proof. done. Qed.

Lemma concat_slash x xs : String.concat "/" (x :: xs) = x ++ abs_path xs.
Proof.
  revert x. induction xs as [|y ys IH]; intros x.
  - change (String.concat "/" [x]) with x. by rewrite sapp_nil_r.
  - rewrite concat_cons2, IH. done.
Qed.

Lemma split_slash_no_slash x : has_char "/" x = false -> split_slash x = [x].
Proof.
  induction x as [|c x IH]; simpl; [done|]. intros [Hc Hx]%orb_false_elim.
  rewrite is_char_sym, Hc, IH by done. done.
Qed.

Lemma split_slash_app x r : has_char "/" x = false -> split_slash (x ++ String "/" r) = x :: split_slash r.
Proof.
  induction x as [|c x IH]; simpl; intros Hx; [done|].
  apply orb_false_elim in Hx as [Hc Hx]. rewrite is_char_sym, Hc, IH by done. done.
Qed.

Lemma split_abs x xs :
  Forall (fun s => good_seg s = true) (x :: xs) -> split_slash (x ++ abs_path xs) = x :: xs.
Proof.
  revert x. induction xs as [|y ys IH]; intros x Hg; simpl.
  - rewrite sapp_nil_r. apply split_slash_no_slash, good_seg_no_slash. by inversion Hg.
  - inversion Hg as [|? ? Hx Hys]; subst. rewrite split_slash_app by by apply good_seg_no_slash.
    by rewrite IH.
Qed.

Lemma abs_path_cons x xs : abs_path (x :: xs) = String "/" (x ++ abs_path xs).
Proof. done. Qed.

Lemma segment_get_abs L q f :
  Forall (fun s => good_seg s = true) L -> L <> [] -> segment_get (mkUri (abs_path L) q f) = L.
Proof.
  intros Hg Hne. destruct L as [|x xs]; [done|]. unfold segment_get. simpl path.
  simpl. by rewrite split_abs.
Qed.

Lemma abs_path_keep_chars L :
  Forall (fun s => good_seg s = true) L ->
  all_chars (fun c => path_char c || is_char c ":"%char) (abs_path L) = true.
Proof.
  induction 1 as [|x xs Hx _ IH]; [done|]. rewrite abs_path_cons. simpl.
  rewrite all_chars_app, IH, andb_true_r. apply andb_prop in Hx as [Hx _].
  eapply all_chars_impl; [|exact Hx]. unfold seg_char, path_char. intros c.
  intros H; apply orb_prop in H as [-> | ->]; by rewrite ?orb_true_r.
Qed.

Lemma fill_from_app V k a b :
  (fill_from V k (a ++ b) = fill_from V k a ++ fill_from V (k + count_params a) b)%list.
Proof.
  revert k. induction a as [|s a IH]; intros k; simpl; [by rewrite Nat.add_0_r|].
  unfold count_params in *. simpl. destruct (is_param s); simpl; rewrite IH; [|done].
  by rewrite Nat.add_succ_r.
Qed.

Lemma fill_from_length V k l : length (fill_from V k l) = length l.
Proof. revert k. induction l as [|s l IH]; intros k; simpl; [done|]. destruct (is_param s); simpl; by rewrite IH. Qed.

Lemma fill_from_good V k l :
  (forall j, good_seg (V j) = true) -> Forall (fun s => good_seg s = true) l ->
  Forall (fun s => good_seg s = true) (fill_from V k l).
Proof.
  intros HV Hl. revert k. induction Hl as [|s l Hs _ IH]; intros k; simpl; [done|].
  destruct (is_param s); constructor; auto.
Qed.

Lemma arg_string_good pv k :
  Forall (fun v => good_seg (js_string v) = true) pv -> good_seg (arg_string pv k) = true.
Proof.
  intros Hpv. unfold arg_string, argv. destruct (decide (k < length pv)) as [Hk|Hk].
  - rewrite Forall_forall in Hpv. apply Hpv, list_elem_of_In, nth_In, Hk.
  - rewrite nth_overflow by lia. reflexivity.
Qed.

(** A parameter segment that occurs once among the parameters is not in
    the segments before it. *)
Lemma param_not_before pre s rest :
  is_param s = true -> NoDup (List.filter is_param (pre ++ s :: rest)%list) -> s ∉ pre.
Proof.
  intros Hs Hnd Hin. rewrite List.filter_app in Hnd. simpl in Hnd. rewrite Hs in Hnd.
  apply NoDup_app in Hnd as (_ & Hdis & _). apply (Hdis s); [|left].
  apply list_elem_of_In, filter_In. split; [by apply list_elem_of_In|done].
Qed.

Section Keeps.

Context (rp : string -> string).
Hypothesis Hrp : recode_keeps rp.

(** Writing the path of good segments [L] back through [uri.path]. *)
Lemma set_path_abs L u :
  Forall (fun s => good_seg s = true) L -> L <> [] ->
  set_path rp (String.concat "/" ("" :: L)) u = mkUri (abs_path L) (query u) (fragment u).
Proof.
  intros Hg Hne. destruct L as [|x xs]; [done|].
  assert (Hc : String.concat "/" ("" :: x :: xs) = abs_path (x :: xs)) by
    (rewrite (concat_slash "" (x :: xs)); done).
  unfold set_path. rewrite Hc, abs_path_cons. simpl String.eqb. cbv iota.
  rewrite <- abs_path_cons. by rewrite Hrp by by apply abs_path_keep_chars.
Qed.

(** [uri.segment(i, v)] on an existing segment with a good value. *)
Lemma segment_set_abs L (i : nat) v q f :
  Forall (fun s => good_seg s = true) L -> i < length L -> good_seg v = true ->
  segment_set rp (Z.of_nat i) v (mkUri (abs_path L) q f) = mkUri (abs_path (<[i := v]> L)) q f.
Proof.
  intros Hg Hi Hv. assert (Hne : L <> []) by (intros ->; simpl in Hi; lia).
  unfold segment_set. rewrite segment_get_abs by done.
  destruct L as [|x xs]; [done|]. rewrite abs_path_cons. simpl starts_with_char.
  rewrite is_char_refl, decide_False by lia. rewrite js_at_nat.
  destruct (lookup_lt_is_Some_2 (x :: xs) i Hi) as [y ->].
  destruct (String.eqb_spec v "") as [->|_]; [done|]. rewrite trimSlashes_good by done.
  rewrite Nat2Z.id, set_path_abs; [done| |].
  - apply Forall_insert; done.
  - intros Hnil. apply (f_equal length) in Hnil. rewrite length_insert in Hnil. done.
Qed.

(** [uri.segment(i, '')] on an existing segment removes it. *)
Lemma segment_set_empty L (i : nat) q f :
  Forall (fun s => good_seg s = true) L -> i < length L -> delete i L <> [] ->
  segment_set rp (Z.of_nat i) "" (mkUri (abs_path L) q f) = mkUri (abs_path (delete i L)) q f.
Proof.
  intros Hg Hi Hd. assert (Hne : L <> []) by (intros ->; simpl in Hi; lia).
  unfold segment_set. rewrite segment_get_abs by done.
  destruct L as [|x xs]; [done|]. rewrite abs_path_cons. simpl starts_with_char.
  rewrite is_char_refl, decide_False by lia. rewrite js_at_nat.
  destruct (lookup_lt_is_Some_2 (x :: xs) i Hi) as [y ->]. simpl String.eqb. cbv iota.
  rewrite Nat2Z.id, set_path_abs; [done| |done].
  by apply Forall_delete.
Qed.

(** The [forEach] over the parameters, from any point [pre ++ rest] of
    the segments: the parameters of [pre] are filled in already. *)
Lemma fill_params_from segs pv pre rest q f :
  segs = (pre ++ rest)%list ->
  Forall (fun s => good_seg s = true) segs ->
  NoDup (List.filter is_param segs) ->
  Forall (fun v => good_seg (js_string v) = true) pv ->
  fill_params rp segs pv (count_params pre) (List.filter is_param rest)
    (mkUri (abs_path (fill_from (arg_string pv) 0 pre ++ rest)%list) q f)
  = mkUri (abs_path (filled segs pv)) q f.
Proof.
  revert pre. induction rest as [|s rest IH]; intros pre Hsegs Hg Hnd Hpv.
  { simpl. subst. unfold filled. by rewrite !app_nil_r. }
  assert (Hc : count_params (pre ++ [s])%list = count_params pre + (if is_param s then 1 else 0)).
  { unfold count_params. rewrite List.filter_app, length_app. simpl. by destruct (is_param s). }
  assert (Hf : (fill_from (arg_string pv) 0 (pre ++ [s])
               = fill_from (arg_string pv) 0 pre
                 ++ [if is_param s then arg_string pv (count_params pre) else s])%list).
  { rewrite fill_from_app. simpl. by destruct (is_param s). }
  specialize (IH (pre ++ [s])%list ltac:(by rewrite <- app_assoc) Hg Hnd Hpv).
  rewrite Hc, Hf, <- app_assoc in IH. simpl. destruct (is_param s) eqn:Hs; simpl in IH.
  - rewrite Nat.add_1_r in IH. simpl. rewrite <- IH. f_equal.
    assert (Hgood : Forall (fun s => good_seg s = true) (pre ++ s :: rest)%list) by (by subst).
    rewrite Hsegs, js_index_of_app by (apply (param_not_before pre s rest); [done|by subst]).
    rewrite <- (fill_from_length (arg_string pv) 0 pre) at 1.
    rewrite segment_set_abs; [| | |by apply arg_string_good].
    + rewrite insert_app_r_alt by lia. by rewrite Nat.sub_diag.
    + apply Forall_app in Hgood as [Hpre Hrest]. apply Forall_app. split; [|done].
      apply fill_from_good; [|done]. intros j. by apply arg_string_good.
    + rewrite length_app, fill_from_length. simpl. lia.
  - by rewrite Nat.add_0_r in IH.
Qed.

End Keeps.

(** ** The registry *)

Lemma register_other l m k :
  Forall (fun p => is_Some (plugin_entry p) /\ fst <$> plugin_entry p <> Some k) l ->
  exists m', register l m = Some m' /\ m' !! k = m !! k.
Proof.
  intros Hl. revert m. induction Hl as [|p l [[[k' e] He] Hk] _ IH]; intros m; simpl; [eauto|].
  rewrite He. destruct (IH (<[k' := e]> m)) as (m' & -> & Hm'). exists m'. split; [done|].
  rewrite Hm', lookup_insert_ne; [done|]. rewrite He in Hk. simpl in Hk. congruence.
Qed.

Lemma register_some l m :
  Forall (fun p => is_Some (plugin_entry p)) l -> exists m', register l m = Some m'.
Proof.
  intros Hl. revert m. induction Hl as [|p l [[k e] He] _ IH]; intros m; simpl; [eauto|].
  rewrite He. apply IH.
Qed.

Lemma register_app l1 l2 m : register (l1 ++ l2) m = register l1 m ≫= register l2.
Proof.
  revert m. induction l1 as [|p l1 IH]; intros m; simpl; [done|].
  destruct (plugin_entry p) as [[k e]|]; [apply IH|done].
Qed.

Lemma parse_abs segs :
  Forall (fun s => good_seg s = true) segs -> segs <> [] ->
  parse (abs_path segs) = Some (mkUri (abs_path segs) None None).
Proof.
  intros Hg Hne. pose proof (abs_path_keep_chars segs Hg) as Hc.
  unfold parse. rewrite !split_first_absent by (eapply all_chars_has_char; [exact Hc|done]).
  destruct segs as [|x xs]; [done|]. inversion Hg as [|? ? Hx _]; subst.
  pose proof (good_seg_ne x Hx) as Hxne. apply andb_prop in Hx as [Hx _].
  destruct x as [|c x]; [done|]. simpl in Hx. apply andb_prop in Hx as [Hc0 _].
  assert (H1 : is_char c "/" = false) by (destruct (is_char c "/") eqn:E; [|done]; apply is_char_spec in E; subst; vm_compute in Hc0; discriminate).
  assert (H2 : is_char c "\" = false) by (destruct (is_char c "\") eqn:E; [|done]; apply is_char_spec in E; subst; vm_compute in Hc0; discriminate).
  simpl. unfold is_slash_or_backslash. by rewrite H1, H2.
Qed.

(** A path of good segments with parameters registers a closure over
    its own [uri]. *)
Lemma plugin_entry_abs segs :
  Forall (fun s => good_seg s = true) segs -> List.filter is_param segs <> [] ->
  plugin_entry (abs_path segs)
  = Some (route_key segs,
          PFunction (mkClosure (mkUri (abs_path segs) None None) segs (List.filter is_param segs))).
Proof.
  intros Hg Hp. assert (Hne : segs <> []) by (intros ->; done).
  unfold plugin_entry. rewrite parse_abs by done. cbv zeta. rewrite segment_get_abs by done.
  destruct (List.filter is_param segs); [done|]. done.
Qed.

(** [pluginRoute(key)] finds the last path registered with that key. *)
Lemma pluginRoute_lookup rp routes1 routes2 segs appPrefix :
  Forall (fun s => good_seg s = true) segs -> List.filter is_param segs <> [] ->
  no_prefix appPrefix = true ->
  Forall (fun p => is_Some (plugin_entry p)) routes1 ->
  Forall (fun p => is_Some (plugin_entry p) /\ fst <$> plugin_entry p <> Some (route_key segs)) routes2 ->
  pluginRoute rp (routes1 ++ abs_path segs :: routes2)%list appPrefix (route_key segs) true
  = Some (Ok (Val (QFunction
      (mkClosure (mkUri (abs_path segs) None None) segs (List.filter is_param segs)) None))).
Proof.
  intros Hg Hp Hnp H1 H2. unfold pluginRoute. rewrite register_app.
  destruct (register_some routes1 ∅ H1) as [m1 ->]. simpl.
  rewrite plugin_entry_abs by done.
  match goal with |- context [register routes2 (<[?k := ?e]> m1)] =>
    destruct (register_other routes2 (<[k := e]> m1) _ H2) as (m2 & -> & Hm2) end.
  rewrite Hm2, lookup_insert, decide_True by done. simpl.
  destruct appPrefix; simpl in *; try done. by rewrite Hnp.
Qed.

(** ** Properties *)

(** C35. With no application prefix, [pluginRoute] looks a route up by
    the key its path generates, and calling the function it returns with
    one argument per [:param] segment gives the path with the [k]-th
    parameter segment replaced by [String] of the [k]-th argument, left to
    right (a missing argument prints [undefined]). This holds whenever the
    segments and the arguments are non-empty strings of unreserved
    characters and colons, the parameter names are distinct, and no later
    plugin route has the same key. *)
Theorem pluginRoute_fill rp routes1 routes2 segs paramValues appPrefix :
  recode_keeps rp ->
  Forall (fun s => good_seg s = true) segs ->
  List.filter is_param segs <> [] -> NoDup (List.filter is_param segs) ->
  Forall (fun v => good_seg (js_string v) = true) paramValues ->
  no_prefix appPrefix = true ->
  Forall (fun p => is_Some (plugin_entry p)) routes1 ->
  Forall (fun p => is_Some (plugin_entry p) /\ fst <$> plugin_entry p <> Some (route_key segs)) routes2 ->
  exists c,
    pluginRoute rp (routes1 ++ abs_path segs :: routes2)%list appPrefix (route_key segs) true
      = Some (Ok (Val (QFunction c None)))
    /\ snd (call rp c paramValues) = abs_path (filled segs paramValues).
Proof.
  intros Hrp Hg Hp Hnd Hpv Hnp H1 H2.
  eexists. split; [by apply pluginRoute_lookup|]. unfold call. simpl.
  pose proof (fill_params_from rp Hrp segs paramValues [] segs None None eq_refl Hg Hnd Hpv) as H.
  change (count_params []) with 0 in H. simpl in H. by rewrite H.
Qed.

Lemma recode_keeps_id : recode_keeps id.
Proof. done. Qed.

Lemma pluginRoute_fill_witness :
  exists c,
    pluginRoute id (["/system/pipelines"] ++ abs_path ["system"; "pipelines"; ":pipelineId"] :: [])%list
      Undefined (route_key ["system"; "pipelines"; ":pipelineId"]) true
      = Some (Ok (Val (QFunction c None)))
    /\ snd (call id c [JNum 123]) = abs_path (filled ["system"; "pipelines"; ":pipelineId"] [JNum 123]).
Proof.
  apply pluginRoute_fill; [apply recode_keeps_id|repeat constructor|done|repeat constructor; set_solver
    |repeat constructor|done|repeat constructor; by eexists|constructor].
Defined.

(** C36. An empty argument removes its segment from the [uri] the
    returned function shares between calls, and the loss persists: on a
    route [/a/:x/b], a call with [v] gives [/a/v/b], a call with ['']
    gives [/a/b], and a call with [v] after that gives [/a/v], without
    [b]. *)
Theorem pluginRoute_empty_arg_sticks rp a x b v :
  recode_keeps rp ->
  good_seg a = true -> good_seg x = true -> good_seg b = true -> good_seg v = true ->
  is_param a = false -> is_param x = true -> is_param b = false ->
  exists c,
    pluginRoute rp [abs_path [a; x; b]] Undefined (route_key [a; x; b]) true
      = Some (Ok (Val (QFunction c None)))
    /\ snd (call rp c [JStr v]) = abs_path [a; v; b]
    /\ snd (call rp c [JStr ""]) = abs_path [a; b]
    /\ snd (call rp (fst (call rp c [JStr ""])) [JStr v]) = abs_path [a; v].
Proof.
  intros Hrp Ha Hx Hb Hv Hpa Hpx Hpb.
  assert (Hg : Forall (fun s => good_seg s = true) [a; x; b]) by (repeat constructor; done).
  assert (Hf : List.filter is_param [a; x; b] = [x]) by (simpl; by rewrite Hpa, Hpx, Hpb).
  assert (Hi : js_index_of x [a; x; b] = Z.of_nat 1).
  { apply (js_index_of_app [a] x [b]). intros ->%list_elem_of_singleton. congruence. }
  eexists. split; [apply (pluginRoute_lookup rp [] []); rewrite ?Hf; by repeat constructor|].
  rewrite Hf. unfold call. cbn [fill_params c_segments c_paramNames c_uri fst snd]. rewrite !Hi.
  change (js_string (argv [JStr v] 0)) with v. change (js_string (argv [JStr ""] 0)) with "".
  rewrite (segment_set_abs rp Hrp [a; x; b] 1) by (done || simpl; lia).
  rewrite (segment_set_empty rp Hrp [a; x; b] 1) by (done || simpl; lia).
  cbn [path delete list_delete].
  rewrite (segment_set_abs rp Hrp [a; b] 1) by (repeat constructor; done || simpl; lia).
  done.
Qed.

Lemma pluginRoute_empty_arg_sticks_witness :
  exists c,
    pluginRoute id [abs_path ["a"; ":x"; "b"]] Undefined (route_key ["a"; ":x"; "b"]) true
      = Some (Ok (Val (QFunction c None)))
    /\ snd (call id c [JStr "1"]) = abs_path ["a"; "1"; "b"]
    /\ snd (call id c [JStr ""]) = abs_path ["a"; "b"]
    /\ snd (call id (fst (call id c [JStr ""])) [JStr "1"]) = abs_path ["a"; "1"].
Proof. apply pluginRoute_empty_arg_sticks; (apply recode_keeps_id || reflexivity). Defined.

End PluginRoutes.
