(* ===== verification/RawMessageLoader.v ===== *)
(** * Loading a raw message through a codec (components/messageloaders/RawMessageLoader.tsx)

    The form holds six [useState] cells: [loading], [message],
    [remoteAddress], [codec], [codecConfiguration], [inputId]. Its
    handlers change one cell each; choosing a codec also resets the
    codec configuration. Submitting calls [parseRawMessage], which posts
    the message, address, codec and configuration to the server. When
    that promise settles, [onMessageLoaded] gets the formatted message and
    the options the form held at submission, and [loading] is cleared.

    The component is a state machine here. [LoaderState] is the six cells
    together with the settled-later continuation of a submission
    ([pending], the [options] its closure captured). [step] handles one
    [Event]: a handler, a submission, or the settling of the request
    ([Settle]). It returns the effects the code performs ([Effect]): the
    request, the error notifications, and the call of [onMessageLoaded].
    The submit button is disabled while [_isSubmitDisabled] holds; the
    form then cannot be submitted (implicit submission is blocked by a
    disabled default button), so [Submit] does nothing there.

    The option lists ([_formatSelectOptions],
    [_formatInputSelectOptions]), which input selector is shown
    ([InputSelect]), and which configuration fields the selected codec
    renders ([codecConfigurationOptions]) are functions of the state. The
    collation order of [localeCompare] and the message formatter
    ([MessageFormatter.formatResultMessage], outside src/) are section
    variables. Objects are association lists with distinct keys, read by
    their own keys.

    The theorems show that a codec whose id is not a key of the codec
    table (the selectable "No codecs available" option, [none]) makes the
    rendering throw. They show that a submission reports the options it was
    submitted with whatever is edited while it loads, and reports
    [undefined] on failure. They show that choosing a codec discards the
    configuration entered before. *)

From S2P Require Import Prelude JsValue.
Set Warnings "-clear-no-such-hyp".

Module RawMessageLoader.

Local Open Scope string_scope.

Definition DEFAULT_REMOTE_ADDRESS : string := "127.0.0.1".

(** [obj[k]] on an object with distinct keys. *)
Fixpoint obj_get {A} (k : string) (o : list (string * A)) : option A :=
  match o with
  | [] => None
  | (k', v) :: o' => if String.eqb k k' then Some v else obj_get k o'
  end.

(** A [Select] option. *)
Record SelectOption := mkSelectOption { value : string; label : string; disabled : bool }.

(** A codec's configuration field and the codec ([CodecTypes] of ./Types). *)
Record ConfigField := mkConfigField { field_type : string; is_optional : bool }.
Record CodecType := mkCodecType { name : string; requested_configuration : list (string * ConfigField) }.

(** An input of the inputs store. *)
Record InputType := mkInputType { title : string; input_name : string }.

Section Loader.

(** [String.prototype.localeCompare] *)
Variable localeCompare : string -> string -> Z.

(** [_formatSelectOptions()]: every codec but the random HTTP one,
    labelled by its name (its id when the name is empty), sorted by
    label. *)
Definition _formatSelectOptions (codecTypes : nullable (list (string * CodecType))) : list SelectOption :=
  match codecTypes with
  | Val ct =>
      if Nat.eqb (length ct) 0 then [mkSelectOption "none" "No codecs available" false]
      else sort_by (fun a b => localeCompare (to_lower (label a)) (to_lower (label b)))
             (map (fun '(id, c) => mkSelectOption id (if String.eqb (name c) "" then id else name c) false)
                (List.filter (fun '(id, _) => negb (String.eqb id "random-http-msg")) ct))
  | _ => [mkSelectOption "none" "Loading codec types..." true]
  end.

(** [ServerInputSelect]'s [_formatInputSelectOptions()]: the inputs
    sorted by title, labelled [id / title / name]. *)
Definition _formatInputSelectOptions (inputs : nullable (list (string * InputType))) : list SelectOption :=
  match inputs with
  | Val m =>
      if Nat.eqb (length m) 0 then [mkSelectOption "none" "No inputs available" false]
      else map (fun '(id, i) => mkSelectOption id (id ++ " / " ++ title i ++ " / " ++ input_name i) false)
             (sort_by (fun a b => localeCompare (to_lower (title a.2)) (to_lower (title b.2))) m)
  | _ => [mkSelectOption "none" "Loading inputs..." true]
  end.

End Loader.

(** What [InputSelect] renders: nothing, the forwarder selector (cloud),
    the input type chooser with the selector of the chosen type, or the
    server input selector. *)
Inductive InputSelectView :=
| ISHidden
| ISForwarder
| ISChooser (serverShown forwarderShown : bool)
| ISServer.

Definition InputSelect (show isCloud hasForwarderDropdown : bool) (selectedInputType : nullable string)
    : InputSelectView :=
  if negb show then ISHidden
  else if isCloud then ISForwarder
  else if hasForwarderDropdown then
    ISChooser (bool_decide (selectedInputType = Val "server"))
              (bool_decide (selectedInputType = Val "forwarder"))
  else ISServer.

(** [OptionsType], what [onMessageLoaded] receives. *)
Record Options := mkOptions {
  o_message : string;
  o_remoteAddress : string;
  o_codec : string;
  o_codecConfiguration : list (string * jval);
  o_inputId : nullable string
}.

(** The request body of [parseRawMessage]. *)
Record Payload := mkPayload {
  p_message : string;
  remote_address : string;
  p_codec : string;
  configuration : list (string * jval)
}.

Section Component.

Context {Response Message : Type}.
(** [MessageFormatter.formatResultMessage] *)
Variable formatResultMessage : Response -> Message.

(** How [Messages.parse] settles: with a response, or rejected with an
    error whose [additional.status] may be present. [error_text] is what
    [`${error}`] prints. The error is an object: the fetch layer (outside
    src/) rejects with error objects, never with [null] or [undefined],
    on which the handler's [error.additional] would throw. *)
Inductive ParseResult :=
| Parsed (r : Response)
| Failed (additional_status : option Z) (error_text : string).

Inductive Effect :=
| ParseRequest (p : Payload)
| NotifyError (message title : string)
| MessageLoaded (m : nullable Message) (o : Options).

Record LoaderState := mkLoaderState {
  loading : bool;
  message : string;
  remoteAddress : string;
  codec : string;
  codecConfiguration : list (string * jval);
  inputId : nullable string;
  pending : option Options
}.

(** The first render. *)
Definition init : LoaderState :=
  mkLoaderState false "" DEFAULT_REMOTE_ADDRESS "" [] Undefined None.

Inductive Event :=
| CodecSelect (selectedCodec : string)                 (* _onCodecSelect *)
| InputSelected (selectedInput : string)               (* _onInputSelect *)
| MessageChange (v : string)                           (* _onMessageChange *)
| RemoteAddressChange (v : string)                     (* _onRemoteAddressChange *)
| ConfigurationChange (field : string) (v : jval)      (* _onCodecConfigurationChange *)
| Submit                                               (* _loadMessage *)
| Settle (r : ParseResult).                            (* the request settles *)

(** [!message || !codec || loading] *)
Definition _isSubmitDisabled (s : LoaderState) : bool :=
  String.eqb (message s) "" || String.eqb (codec s) "" || loading s.

Definition options_of (s : LoaderState) : Options :=
  mkOptions (message s) (remoteAddress s) (codec s) (codecConfiguration s) (inputId s).

Definition payload_of (o : Options) : Payload :=
  mkPayload (o_message o) (o_remoteAddress o) (o_codec o) (o_codecConfiguration o).

(** [parseRawMessage]'s handlers: the notifications and the value the
    promise resolves with (the rejection handler returns [undefined]). *)
Definition settle_effects (r : ParseResult) : list Effect * nullable Message :=
  match r with
  | Parsed resp => ([], Val (formatResultMessage resp))
  | Failed (Some 400%Z) _ =>
      ([NotifyError ("Please ensure the selected codec and its configuration are right. " ++
                     "Check your server logs for more information.") "Could not load raw message"],
       Undefined)
  | Failed _ err =>
      ([NotifyError ("Loading raw message failed with status: " ++ err) "Could not load raw message"],
       Undefined)
  end.

Definition step (s : LoaderState) (e : Event) : LoaderState * list Effect :=
  match e with
  | CodecSelect c =>
      (mkLoaderState (loading s) (message s) (remoteAddress s) c [] (inputId s) (pending s), [])
  | InputSelected i =>
      (mkLoaderState (loading s) (message s) (remoteAddress s) (codec s) (codecConfiguration s) (Val i)
         (pending s), [])
  | MessageChange v =>
      (mkLoaderState (loading s) v (remoteAddress s) (codec s) (codecConfiguration s) (inputId s)
         (pending s), [])
  | RemoteAddressChange v =>
      (mkLoaderState (loading s) (message s) v (codec s) (codecConfiguration s) (inputId s)
         (pending s), [])
  | ConfigurationChange field v =>
      (mkLoaderState (loading s) (message s) (remoteAddress s) (codec s)
         (mset field v (codecConfiguration s)) (inputId s) (pending s), [])
  | Submit =>
      if _isSubmitDisabled s then (s, [])
      else (mkLoaderState true (message s) (remoteAddress s) (codec s) (codecConfiguration s)
              (inputId s) (Some (options_of s)),
            [ParseRequest (payload_of (options_of s))])
  | Settle r =>
      match pending s with
      | Some o =>
          let '(notes, loaded) := settle_effects r in
          (mkLoaderState false (message s) (remoteAddress s) (codec s) (codecConfiguration s)
             (inputId s) None, (notes ++ [MessageLoaded loaded o])%list)
      | None => (s, [])
      end
  end.

Fixpoint run (s : LoaderState) (es : list Event) : LoaderState * list Effect :=
  match es with
  | [] => (s, [])
  | e :: es' =>
      let '(s1, eff1) := step s e in
      let '(s2, eff2) := run s1 es' in
      (s2, (eff1 ++ eff2)%list)
  end.

End Component.

(** A rendered configuration field: [TextField], [NumberField],
    [BooleanField] or [DropdownField] with its [key], [title] and
    [value]. *)
Inductive FieldKind := KText | KNumber | KBoolean | KDropdown.

Record FieldElement := mkFieldElement {
  fe_kind : FieldKind;
  fe_key : string;
  fe_title : string;
  fe_value : jval
}.

(** [_formatConfigField(key, configField)]; [None] is [null]. *)
Definition _formatConfigField (codecConfiguration : list (string * jval)) (key : string) (configField : ConfigField)
    : option FieldElement :=
  let value := mget_u key codecConfiguration in
  let typeName := "RawMessageLoader" in
  let elementKey := typeName ++ "-" ++ key in
  let mk k := Some (mkFieldElement k elementKey key value) in
  if String.eqb (field_type configField) "text" then mk KText
  else if String.eqb (field_type configField) "number" then mk KNumber
  else if String.eqb (field_type configField) "boolean" then mk KBoolean
  else if String.eqb (field_type configField) "dropdown" then mk KDropdown
  else None.

(** [is_optional - is_optional]: required fields first. *)
Definition optional_cmp (a b : string * ConfigField) : Z :=
  (Z.b2z (is_optional a.2) - Z.b2z (is_optional b.2))%Z.

(** [codecConfigurationOptions]: [undefined] unless both the codec table
    and the codec are set; [None] where [codecTypes[codec]] is
    [undefined] and reading its [requested_configuration] throws. *)
Definition codecConfigurationOptions (codecTypes : nullable (list (string * CodecType)))
    (codec : string) (codecConfiguration : list (string * jval))
    : option (nullable (list (option FieldElement))) :=
  match codecTypes with
  | Val ct =>
      if String.eqb codec "" then Some Undefined
      else match obj_get codec ct with
           | Some c =>
               Some (Val (map (fun '(key, f) => _formatConfigField codecConfiguration key f)
                             (sort_by optional_cmp (requested_configuration c))))
           | None => None
           end
  | _ => Some Undefined
  end.

(** ** The form *)

(** The stores the component asks to load: [CodecTypesActions.list()] on
    mount, and [InputsActions.list()] when [inputIdSelector] is set. *)
Inductive StoreRequest := ListCodecTypes | ListInputs.

Definition mount_requests (inputIdSelector : bool) : list StoreRequest :=
  [ListCodecTypes] ++ (if inputIdSelector then [ListInputs] else []).

(** What the form renders. *)
Record FormView := mkFormView {
  fv_message : string;
  fv_remoteAddress : string;
  fv_remoteAddressHelp : string;
  fv_inputSelect : InputSelectView;
  fv_inputOptions : list SelectOption;        (* ServerInputSelect's options *)
  fv_codecOptions : list SelectOption;
  fv_codec : string;
  fv_configuration : nullable (list (option FieldElement));
  fv_isSubmitting : bool;
  fv_disabledSubmit : bool
}.

Section Render.

Variable localeCompare : string -> string -> Z.
(** [useProductName()] *)
Variable productName : string.
(** [AppConfig.isCloud()] and the forwarder plugin's dropdown *)
Variables isCloud hasForwarderDropdown : bool.

(** [RawMessageLoader]'s render with its props, [InputSelect]'s own
    [selectedInputType] and the loader's state; [None] where
    [codecConfigurationOptions] throws. *)
Definition render (inputIdSelector : bool) (inputs : nullable (list (string * InputType)))
    (codecTypes : nullable (list (string * CodecType))) (selectedInputType : nullable string)
    (s : LoaderState) : option FormView :=
  match codecConfigurationOptions codecTypes (codec s) (codecConfiguration s) with
  | Some options =>
      Some (mkFormView (message s) (remoteAddress s)
              ("Remote IP address to use as message source. " ++ productName ++ " will use " ++
               DEFAULT_REMOTE_ADDRESS ++ " by default.")
              (InputSelect inputIdSelector isCloud hasForwarderDropdown selectedInputType)
              (_formatInputSelectOptions localeCompare inputs)
              (_formatSelectOptions localeCompare codecTypes) (codec s) options
              (loading s) (_isSubmitDisabled s))
  | None => None
  end.

End Render.

Local Open Scope list_scope.

(** ** Runs of the form *)

Section Runs.

Context {Response Message : Type}.
Variable fr : Response -> Message.

(** The configuration the handlers build from [cfg]: each field change
    sets its key, each codec choice empties it. *)
Fixpoint config_after (cfg : list (string * jval)) (es : list (@Event Response)) : list (string * jval) :=
  match es with
  | [] => cfg
  | ConfigurationChange f v :: es' => config_after (mset f v cfg) es'
  | CodecSelect _ :: es' => config_after [] es'
  | _ :: es' => config_after cfg es'
  end.

Lemma run_app s es1 es2 :
  run fr s (es1 ++ es2) = let '(s1, e1) := run fr s es1 in let '(s2, e2) := run fr s1 es2 in (s2, e1 ++ e2).
Proof.
  revert s. induction es1 as [|e es1 IH]; intros s; simpl.
  - by destruct (run fr s es2).
  - destruct (step fr s e) as [s1 e1]. rewrite IH.
    destruct (run fr s1 es1) as [s2 e2]. destruct (run fr s2 es2) as [s3 e3]. by rewrite app_assoc.
Qed.

Lemma step_configuration s e :
  codecConfiguration (step fr s e).1 = config_after (codecConfiguration s) [e].
Proof.
  destruct e; simpl; try done.
  - by destruct (_isSubmitDisabled s).
  - destruct (pending s); [|done]. by destruct (settle_effects fr r).
Qed.

Lemma run_configuration s es :
  codecConfiguration (run fr s es).1 = config_after (codecConfiguration s) es.
Proof.
  revert s. induction es as [|e es IH]; intros s; simpl; [done|].
  pose proof (step_configuration s e) as He. destruct (step fr s e) as [s1 e1].
  destruct (run fr s1 es) as [s2 e2] eqn:Hr. simpl in *.
  specialize (IH s1). rewrite Hr in IH. simpl in IH. rewrite IH, He.
  by destruct e.
Qed.

Lemma config_after_app cfg es1 es2 :
  config_after cfg (es1 ++ es2) = config_after (config_after cfg es1) es2.
Proof. revert cfg. induction es1 as [|e es1 IH]; intros cfg; [done|]. destruct e; apply IH. Qed.

(** [loading] is set exactly while a submission waits to settle. *)
Definition loading_inv (s : LoaderState) : Prop := loading s = true <-> is_Some (pending s).

Lemma step_loading_inv s e : loading_inv s -> loading_inv (step fr s e).1.
Proof.
  unfold loading_inv. intros Hs. destruct e; simpl; try done.
  - destruct (_isSubmitDisabled s); simpl; [exact Hs|]. split; [intros _; by eexists|done].
  - destruct (pending s) eqn:Hp; simpl; [|by rewrite Hp]. destruct (settle_effects fr r); simpl.
    split; [done|]. by intros [? ?].
Qed.

Lemma run_loading_inv s es : loading_inv s -> loading_inv (run fr s es).1.
Proof.
  revert s. induction es as [|e es IH]; intros s Hs; simpl; [done|].
  pose proof (step_loading_inv s e Hs) as H1. destruct (step fr s e) as [s1 e1].
  specialize (IH s1 H1). destruct (run fr s1 es) as [s2 e2]. done.
Qed.

Lemma init_loading_inv : loading_inv init.
Proof. split; [done|]. by intros [? ?]. Qed.

(** While a submission loads, every event but its settling leaves
    [loading] and the captured options alone and has no effect. *)
Lemma run_while_loading s o es :
  loading s = true -> pending s = Some o ->
  Forall (fun e => forall r, e <> Settle r) es ->
  exists s', run fr s es = (s', []) /\ loading s' = true /\ pending s' = Some o.
Proof.
  intros Hl Hp Hes. revert s Hl Hp. induction Hes as [|e es He _ IH]; intros s Hl Hp; simpl.
  { by exists s. }
  assert (Hstep : exists s1, step fr s e = (s1, []) /\ loading s1 = true /\ pending s1 = Some o).
  { destruct e; simpl; try (eexists; split; [reflexivity|]; done).
    - unfold _isSubmitDisabled. rewrite Hl, !orb_true_r. by exists s.
    - by destruct (He r). }
  destruct Hstep as (s1 & -> & Hl1 & Hp1). destruct (IH s1 Hl1 Hp1) as (s2 & -> & ?). by exists s2.
Qed.

End Runs.

(** ** Properties *)

(** C37. Choosing a codec id that is not a key of the codec table makes
    the next render throw: [codecTypes[codec]] is [undefined] and its
    [requested_configuration] is read. The "No codecs available" option,
    shown for an empty codec table, is such an id ([none]) and is not
    disabled. *)
Theorem codec_none_crash {Response Message} (fr : Response -> Message) lc s ct :
  obj_get "none" ct = None ->
  codecConfigurationOptions (Val ct) (codec (step fr s (CodecSelect "none")).1)
    (codecConfiguration (step fr s (CodecSelect "none")).1) = None
  /\ (ct = [] -> _formatSelectOptions lc (Val ct) = [mkSelectOption "none" "No codecs available" false]).
Proof. intros Hnone. split; [simpl; by rewrite Hnone|by intros ->]. Qed.

Lemma codec_none_crash_witness :
  codecConfigurationOptions (Val []) (codec (step (@id Z) init (CodecSelect "none")).1)
    (codecConfiguration (step (@id Z) init (CodecSelect "none")).1) = None
  /\ (@nil (string * CodecType) = [] -> _formatSelectOptions (fun _ _ => 0%Z) (Val []) = [mkSelectOption "none" "No codecs available" false]).
Proof. apply (codec_none_crash (@id Z) (fun _ _ => 0%Z) init []). reflexivity. Defined.

(** C38. From any reachable state where the form can be submitted,
    submitting sends the form's current payload. Until the request
    settles, no event has any effect (a second submission included). The
    settling then calls [onMessageLoaded] with the options the form held
    at submission and clears [loading]. On a failure the call comes after
    the error notification and passes [undefined]. *)
Theorem submit_reports_submitted_options {Response Message} (fr : Response -> Message) pre es r :
  let s := (run fr init pre).1 in
  _isSubmitDisabled s = false ->
  Forall (fun e => forall r', e <> Settle r') es ->
  snd (run fr s (Submit :: es ++ [Settle r])) =
    ParseRequest (payload_of (options_of s)) :: (settle_effects fr r).1
      ++ [MessageLoaded (settle_effects fr r).2 (options_of s)]
  /\ loading (fst (run fr s (Submit :: es ++ [Settle r]))) = false.
Proof.
  intros s Hen Hes.
  assert (Hinv : loading_inv s) by apply run_loading_inv, init_loading_inv.
  assert (Hp : pending s = None).
  { destruct (pending s) eqn:Hp; [|done]. pose proof Hen as Hl. unfold _isSubmitDisabled in Hl.
    apply orb_false_elim in Hl as [_ Hl].
    assert (loading s = true) by (apply Hinv; rewrite Hp; by eexists). congruence. }
  simpl. rewrite Hen. rewrite run_app.
  match goal with |- context [run fr ?s0 es] =>
    destruct (run_while_loading fr s0 (options_of s) es eq_refl eq_refl Hes) as (s' & -> & _ & Hp') end.
  simpl. rewrite Hp'. destruct (settle_effects fr r) as [notes loaded]. simpl.
  by rewrite app_nil_r.
Qed.

Lemma submit_reports_submitted_options_witness :
  let s := (run (@id Z) init [MessageChange "hello"; CodecSelect "raw"]).1 in
  _isSubmitDisabled s = false /\
  (snd (run (@id Z) s (Submit :: [MessageChange "x"; Submit] ++ [Settle (Failed None "boom")])) =
    ParseRequest (payload_of (options_of s)) :: (settle_effects (@id Z) (Failed None "boom")).1
      ++ [MessageLoaded (settle_effects (@id Z) (Failed None "boom")).2 (options_of s)]
  /\ loading (fst (run (@id Z) s (Submit :: [MessageChange "x"; Submit] ++ [Settle (Failed None "boom")]))) = false).
Proof.
  split; [reflexivity|]. apply submit_reports_submitted_options; [reflexivity|].
  repeat constructor; discriminate.
Defined.

(** C39. Choosing a codec discards the configuration entered before: the
    configuration after any run is built only from the field changes
    made after the last codec choice. *)
Theorem codec_select_resets_configuration {Response Message} (fr : Response -> Message) s es1 c es2 :
  codecConfiguration (run fr s (es1 ++ CodecSelect c :: es2)).1 = config_after [] es2.
Proof. by rewrite run_configuration, config_after_app. Qed.

End RawMessageLoader.
