(* ===== verification/SetupRoutingStep.v ===== *)
(** * The routing step of the input setup wizard
      (components/inputs/InputSetupWizard/steps/SetupRoutingStep.tsx)

    The step chooses where the messages of a new input go: the default
    stream, an existing stream, or a stream created in the step. Its
    choice is kept in the wizard's step data under [SETUP_ROUTING] as a
    [RoutingStepData] object, which the wizard's later steps read. The
    component's own state is [selectedStreamId] and [showCreateStream].

    The step data is read and written through
    [getStepConfigOrData] and [updateStepConfigOrData] (helpers/stepHelper,
    outside src/). The development states what the component needs of
    them as the class [StepHelperLaws]: an update with [override] replaces
    the step's object, and one without merges the update into it like
    [{ ...old, ...update }]. The theorems are proved for every instance.
    [step_data_helper] is the instance on the step's own entry, written as
    that spread.

    An object of the step data is a record of optional entries: [None] is
    an absent key, [Some Undefined] a key present with the value
    [undefined]; a spread copies present keys only.

    [step] handles the mount effect and the handlers, with the wizard's
    navigation as effects. [isStepValid], [options] and [view] are the
    values the render computes. The theorem shows that choosing an
    existing stream and then creating a new one leaves the existing
    stream's id in the step data. Every update but Back's merges into the
    step's object, and only clearing the select or Back remove [streamId].
    [handleCreateStream] computes a reset of the step data and drops it;
    being a merge with [{ streamType: 'DEFAULT' }], it would not remove the
    id either. *)

From S2P Require Import Prelude.
Set Warnings "-clear-no-such-hyp".

Module SetupRoutingStep.

Local Open Scope string_scope.

(** [streamType: 'NEW' | 'EXISTING' | 'DEFAULT'] *)
Inductive StreamType := NEW | EXISTING | DEFAULT.

#[export] Instance StreamType_eq_dec : EqDecision StreamType.
Proof. solve_decision. Defined.

Section Data.

(** [StreamFormValues], the form's new stream. *)
Context {StreamForm : Type}.

(** [RoutingStepData] *)
Record RoutingStepData := mkRoutingStepData {
  streamId : option (nullable string);
  newStream : option (nullable StreamForm);
  shouldCreateNewPipeline : option (nullable bool);
  streamType : option (nullable StreamType)
}.

(** A key read [o.k]. *)
Definition read {A} (e : option (nullable A)) : nullable A :=
  match e with Some v => v | None => Undefined end.

(** [{ ...a, ...b }] *)
Definition spread_entry {A} (a b : option (nullable A)) : option (nullable A) :=
  match b with Some v => Some v | None => a end.

Definition merge (old : nullable RoutingStepData) (u : RoutingStepData) : RoutingStepData :=
  match old with
  | Val o =>
      mkRoutingStepData (spread_entry (streamId o) (streamId u)) (spread_entry (newStream o) (newStream u))
        (spread_entry (shouldCreateNewPipeline o) (shouldCreateNewPipeline u))
        (spread_entry (streamType o) (streamType u))
  | _ => u
  end.

(** [defaultStepData] *)
Definition defaultStepData : RoutingStepData := mkRoutingStepData None None None (Some (Val DEFAULT)).

End Data.

Arguments RoutingStepData : clear implicits.

(** What the step needs of the wizard's step data: reading the step's
    object and updating it. *)
Class StepHelper (StreamForm Data : Type) := {
  (** [getStepConfigOrData(stepsData, SETUP_ROUTING)] *)
  getStep : Data -> nullable (RoutingStepData StreamForm);
  (** [updateStepConfigOrData(stepsData, SETUP_ROUTING, update, override)] *)
  updateStep : Data -> RoutingStepData StreamForm -> bool -> Data
}.

Class StepHelperLaws (StreamForm Data : Type) `{!StepHelper StreamForm Data} := {
  get_update_override d u : getStep (updateStep d u true) = Val u;
  get_update_merge d u : getStep (updateStep d u false) = Val (merge (getStep d) u)
}.

(** The helpers on the step's own entry: [{ ...configOrData,
    [stepName]: override ? update : { ...configOrData[stepName], ...update } }]. *)
#[export] Instance step_data_helper {S} : StepHelper S (nullable (RoutingStepData S)) := {
  getStep d := d;
  updateStep d u override := Val (if override then u else merge d u)
}.

#[export] Instance step_data_helper_laws {S} : StepHelperLaws S (nullable (RoutingStepData S)).
Proof. split; done. Qed.

(** A stream of [useStreams]. *)
Record Stream := mkStream { s_id : string; s_title : string; is_default : bool; is_editable : bool }.

Section Component.

Context {StreamForm Data : Type} `{!StepHelper StreamForm Data}.

(** [getStepConfigOrData(stepsData, currentStepName, key)] *)
Definition getKey {A} (f : RoutingStepData StreamForm -> option (nullable A)) (d : Data) : nullable A :=
  match getStep d with Val o => read (f o) | _ => Undefined end.

Record RState := mkRState {
  stepsData : Data;
  selectedStreamId : nullable string;
  showCreateStream : bool
}.

Definition init (d : Data) : RState := mkRState d Undefined false.

Definition truthy_str (s : nullable string) : bool :=
  match s with Val v => negb (String.eqb v "") | _ => false end.

Definition present {A} (x : nullable A) : bool := match x with Val _ => true | _ => false end.

(** [isStepValid()] *)
Definition isStepValid (s : RState) : bool :=
  match getStep (stepsData s) with
  | Val stepData =>
      let newStream := getKey newStream (stepsData s) in
      if showCreateStream s && negb (present newStream) then false
      else match read (streamType stepData) with
           | Val NEW => present newStream
           | Val EXISTING => truthy_str (read (streamId stepData))
           | Val DEFAULT => true
           | _ => false
           end
  | _ => false
  end.

Inductive Nav := GoToNextStep | GoToPreviousStep.

Inductive Event :=
| Mount (wizardReady : bool)                          (* the initial useEffect *)
| StreamSelect (streamId : nullable string)           (* handleStreamSelect *)
| CreateStream                                        (* handleCreateStream *)
| SubmitStreamCreation (stream : StreamForm) (create_new_pipeline : nullable bool)
                                                      (* submitStreamCreation *)
| Back                                                (* handleBackClick *)
| Next (isNextStepDisabled : bool).                  (* onNextStep *)

Definition step (s : RState) (e : Event) : RState * list Nav :=
  match e with
  | Mount ready =>
      if ready && negb (present (getKey streamType (stepsData s)))
      then (mkRState (updateStep (stepsData s) defaultStepData false) (selectedStreamId s) (showCreateStream s), [])
      else (s, [])
  | StreamSelect sid =>
      let d := if truthy_str sid
               then updateStep (stepsData s) (mkRoutingStepData (Some sid) None None (Some (Val EXISTING))) false
               else updateStep (stepsData s) (mkRoutingStepData (Some Undefined) None None (Some (Val DEFAULT))) false in
      (mkRState d sid (showCreateStream s), [])
  | CreateStream =>
      let _ := updateStep (stepsData s) defaultStepData false in
      (mkRState (stepsData s) Undefined true, [])
  | SubmitStreamCreation stream pipe =>
      (mkRState (updateStep (stepsData s)
                   (mkRoutingStepData None (Some (Val stream)) (Some (Val (pipe ?? false))) (Some (Val NEW))) false)
                (selectedStreamId s) (showCreateStream s), [])
  | Back =>
      (mkRState (updateStep (stepsData s) defaultStepData true) (selectedStreamId s) false, [GoToPreviousStep])
  | Next disabled =>
      if disabled || negb (isStepValid s) then (s, []) else (s, [GoToNextStep])
  end.

Fixpoint run (s : RState) (es : list Event) : RState * list Nav :=
  match es with
  | [] => (s, [])
  | e :: es' => let '(s1, n1) := step s e in let '(s2, n2) := run s1 es' in (s2, (n1 ++ n2)%list)
  end.

(** [defaultCompare] (logic/DefaultCompare) *)
Variable defaultCompare : string -> string -> Z.

(** [options]: the editable streams other than the default one, by title. *)
Definition options (streams : nullable (list Stream)) : list (string * string) :=
  match streams with
  | Val l =>
      map (fun st => (s_title st, s_id st))
        (sort_by (fun a b => defaultCompare (s_title a) (s_title b))
           (List.filter (fun st => negb (is_default st) && is_editable st) l))
  | _ => []
  end.

(** What the render shows. *)
Record View := mkView {
  pipelinesAlert : bool;            (* the connected pipelines alert *)
  newStreamSection : bool;          (* "Create new Stream" instead of the two choices *)
  newStreamSummary : bool;          (* the new stream's summary instead of its form *)
  backButton : option string;       (* the back button and its text *)
  nextButton : option bool          (* the next button and whether it is disabled *)
}.

Definition view (hasPreviousStep hasNextStep isNextStepDisabled : bool)
    (streamPipelinesData : nullable (list string)) (s : RState) : View :=
  let newStream := getKey newStream (stepsData s) in
  let streamHasConnectedPipelines :=
    match streamPipelinesData with Val l => Nat.ltb 0 (length l) | _ => false end in
  let showNewStreamSection := present newStream || showCreateStream s in
  let buttons := hasPreviousStep || hasNextStep || showNewStreamSection in
  mkView (truthy_str (selectedStreamId s) && streamHasConnectedPipelines)
    showNewStreamSection (showNewStreamSection && present newStream)
    (if buttons && (hasPreviousStep || showNewStreamSection)
     then Some (if present newStream then "Reset" else "Back") else None)
    (if buttons && hasNextStep then Some (isNextStepDisabled || negb (isStepValid s)) else None).

End Component.

Arguments RState : clear implicits.

(** ** Properties *)

Section Props.

Context {StreamForm Data : Type} `{!StepHelper StreamForm Data} `{!StepHelperLaws StreamForm Data}.

Lemma getKey_merge {A} (f : RoutingStepData StreamForm -> option (nullable A)) d u :
  getKey f (updateStep d u false) = read (f (merge (getStep d) u)).
Proof. unfold getKey. by rewrite get_update_merge. Qed.

(** C40. Choosing an existing stream and then creating a new stream
    hands the wizard step data that names both: the created stream with
    [streamType] [NEW], and the id of the stream chosen before. The step is
    valid, so "Finish & Start Input" is enabled. This holds for every
    implementation of the step data helpers that merges updates. *)
Theorem create_after_select_keeps_stream d sid stream pipe :
  sid <> "" ->
  let s := (run (init d) [StreamSelect (Val sid); CreateStream; SubmitStreamCreation stream pipe]).1 in
  exists sd, getStep (stepsData s) = Val sd
    /\ streamId sd = Some (Val sid) /\ newStream sd = Some (Val stream)
    /\ streamType sd = Some (Val NEW) /\ isStepValid s = true.
Proof.
  intros Hsid s. subst s. simpl. destruct (String.eqb_spec sid ""); [done|]. simpl.
  unfold isStepValid. simpl. rewrite !get_update_merge. simpl.
  eexists. split; [reflexivity|]. unfold getKey. rewrite !get_update_merge.
  by destruct (getStep d).
Qed.

End Props.

Lemma create_after_select_keeps_stream_witness :
  let s := (run (init (Undefined : nullable (RoutingStepData unit)))
              [StreamSelect (Val "s1"); CreateStream; SubmitStreamCreation tt Undefined]).1 in
  exists sd, getStep (stepsData s) = Val sd
    /\ streamId sd = Some (Val "s1") /\ newStream sd = Some (Val tt)
    /\ streamType sd = Some (Val NEW) /\ isStepValid s = true.
Proof. apply create_after_select_keeps_stream. discriminate. Defined.

End SetupRoutingStep.
