(* ===== verification/FetchEvents.v ===== *)
(** * The event search request (components/events/fetchEvents.ts)

    [parseFilters] turns the URL filters of the events page (an
    [Immutable.OrderedMap] from a filter name to its list of values) into
    the [filter] object of the search request, together with the search's
    [timerange]. [getConcatenatedQuery] restricts the query to a stream.
    [fetchEvents] and [fetchEventsHistogram] build the request bodies and
    map the server's answer to a paginated list.

    The URL filter map is an association list with distinct keys. The
    time range parser ([parseTimerangeFilter], outside src/) and the time
    range type are section variables. [parseFilters] returns [None] where
    the code throws: it reads [filters?.get('alert')] with optional
    chaining but [filters.get('timestamp')] without, so a nullish filter
    map is a [TypeError]. An optional key of the result is an [option]. *)

From S2P Require Import Prelude.
Set Warnings "-clear-no-such-hyp".

Module FetchEvents.

Local Open Scope string_scope.

(** [filters.get(k)]: [undefined] for a missing key. *)
Fixpoint fget (k : string) (m : list (string * list string)) : nullable (list string) :=
  match m with
  | [] => Undefined
  | (k', v) :: m' => if String.eqb k k' then Val v else fget k m'
  end.

(** [parseTypeFilter(alert)] *)
Definition parseTypeFilter (alert : nullable string) : string :=
  match alert with
  | Val "true" => "only"
  | Val "false" => "exclude"
  | _ => "include"
  end.

(** [filters.get(k)?.length > 0]: [undefined > 0] is [false]. *)
Definition nonempty_get (k : string) (m : list (string * list string)) : option (list string) :=
  match fget k m with
  | Val (x :: xs) => Some (x :: xs)
  | _ => None
  end.

(** [filters.get(k)?.[0]] *)
Definition first_of (k : string) (m : list (string * list string)) : nullable string :=
  match fget k m with Val l => js_at l 0 | _ => Undefined end.

Section Parse.

Context {TimeRange : Type}.
(** [parseTimerangeFilter(value, defaultTimerange)] *)
Variable parseTimerangeFilter : nullable string -> TimeRange -> TimeRange.

(** [FiltersResult['filter']] *)
Record EventFilter := mkEventFilter {
  alerts : string;
  event_definitions : option (list string);
  priority : option (list string);
  aggregation_timerange : option TimeRange;
  key : option (list string);
  id : option (list string);
  part_of_detection_chain : option string
}.

Record FiltersResult := mkFiltersResult { filter : EventFilter; timerange : TimeRange }.

(** [parseFilters(filters, defaultTimerange)] *)
Definition parseFilters (filters : nullable (list (string * list string))) (defaultTimerange : TimeRange)
    : option FiltersResult :=
  match filters with
  | Val m =>
      let alerts := parseTypeFilter (first_of "alert" m) in
      let timerange := parseTimerangeFilter (first_of "timestamp" m) defaultTimerange in
      let aggregation_timerange :=
        match first_of "timerange_start" m with
        | Val s => if String.eqb s "" then None else Some (parseTimerangeFilter (Val s) defaultTimerange)
        | _ => None
        end in
      let part_of_detection_chain :=
        match nonempty_get "part_of_detection_chain" m with Some (x :: _) => Some x | _ => None end in
      Some (mkFiltersResult
              (mkEventFilter alerts (nonempty_get "event_definition_id" m) (nonempty_get "priority" m)
                 aggregation_timerange (nonempty_get "key" m) (nonempty_get "id" m) part_of_detection_chain)
              timerange)
  | _ => None
  end.

End Parse.

Arguments EventFilter : clear implicits.
Arguments FiltersResult : clear implicits.

(** [getConcatenatedQuery(query, streamId)] *)
Definition getConcatenatedQuery (query streamId : nullable string) : nullable string :=
  let truthy s := match s with Val v => negb (String.eqb v "") | _ => false end in
  let show s := match s with Val v => v | Null => "null" | Undefined => "undefined" end in
  if negb (truthy streamId) then query
  else if negb (truthy query) then Val ("source_streams:" ++ show streamId)
  else Val ("(" ++ show query ++ ") AND source_streams:" ++ show streamId).

(** [SearchParams] of the paginated table. *)
Record SearchParams := mkSearchParams {
  sp_query : nullable string;
  sp_page : Z;
  sp_pageSize : Z;
  sp_sort_attributeId : string;
  sp_sort_direction : string;
  sp_filters : nullable (list (string * list string))
}.

Section Requests.

Context {TimeRange Event Context_ : Type}.
Variable parseTimerangeFilter : nullable string -> TimeRange -> TimeRange.
(** [allTime] and [defaultTimeRange]: relative ranges of [0] and of
    [6 * 30 * 86400] seconds. *)
Variable relative : Z -> TimeRange.

Definition allTime : TimeRange := relative 0.
Definition defaultTimeRange : TimeRange := relative (6 * 30 * 86400).

(** The body [fetchEvents] posts to [/events/search]. *)
Record EventsRequest := mkEventsRequest {
  r_query : nullable string;
  r_page : Z;
  r_per_page : Z;
  r_sort_by : string;
  r_sort_direction : string;
  r_filter : EventFilter TimeRange;
  r_timerange : TimeRange
}.

Definition fetchEvents_request (searchParams : SearchParams) (streamId : nullable string) : option EventsRequest :=
  match parseFilters parseTimerangeFilter (sp_filters searchParams) allTime with
  | Some f =>
      Some (mkEventsRequest (getConcatenatedQuery (sp_query searchParams) streamId) (sp_page searchParams)
              (sp_pageSize searchParams) (sp_sort_attributeId searchParams) (sp_sort_direction searchParams)
              (filter f) (timerange f))
  | None => None
  end.

(** The server's answer and the [PaginatedResponse] built from it. *)
Record EventsResponse := mkEventsResponse {
  events : list Event;            (* events.map(({ event }) => event) is already applied *)
  total_events : Z;
  param_page : Z;
  param_per_page : Z;
  context : Context_
}.

Record Pagination := mkPagination { total : Z; page : Z; per_page : Z; count : Z }.

Record PaginatedEvents := mkPaginatedEvents { list_ : list Event; pagination : Pagination; meta_context : Context_ }.

Definition fetchEvents_response (r : EventsResponse) : PaginatedEvents :=
  mkPaginatedEvents (events r)
    (mkPagination (total_events r) (param_page r) (param_per_page r) (Z.of_nat (length (events r))))
    (context r).

(** [fetchEventsHistogram]: the same filters with the six-month default
    time range; [timerange] is written after the spread, with the same
    value. *)
Definition fetchEventsHistogram_request (searchParams : SearchParams) : option (EventsRequest * TimeRange) :=
  match parseFilters parseTimerangeFilter (sp_filters searchParams) defaultTimeRange with
  | Some f =>
      Some (mkEventsRequest (sp_query searchParams) (sp_page searchParams) (sp_pageSize searchParams)
              (sp_sort_attributeId searchParams) (sp_sort_direction searchParams) (filter f) (timerange f),
            timerange f)
  | None => None
  end.

End Requests.

(** ** Lemmas *)

(** Both requests throw exactly on a nullish filter map, although the
    first read of [parseFilters] is guarded with [?.]. *)
Lemma parseFilters_throws {TR} (ptf : nullable string -> TR -> TR) filters d :
  parseFilters ptf filters d = None <-> isNullish filters = true.
Proof. destruct filters; simpl; split; done. Qed.

(** A list filter is sent exactly when the URL holds a non-empty list
    for it, and then unchanged. *)
Lemma parseFilters_key {TR} (ptf : nullable string -> TR -> TR) m d f l :
  parseFilters ptf (Val m) d = Some f ->
  (key (filter f) = Some l <-> fget "key" m = Val l /\ l <> []).
Proof.
  intros H. injection H as <-. cbn [key filter]. unfold nonempty_get.
  destruct (fget "key" m) as [| |[|x xs]]; split;
    (intros Hk; simplify_eq; naive_solver || (intros [Hk Hne]; simplify_eq; done)).
Qed.

End FetchEvents.
