(* ===== verification/Pipeline.v ===== *)
(** * A pipeline's stages (components/pipelines/Pipeline.tsx)

    The pipeline page lists the stages of a pipeline and edits them. Every
    edit hands a new stage array to [onStagesChange]. [_saveStage] appends
    a stage. [_updateStage(prevStage)] drops every stage numbered like
    [prevStage] and appends the edited one. [_deleteStage] drops the
    stage's number after a confirmation. The render lists the stages in
    order. It marks the last one by comparing with the largest number, and
    it keys the stage form with the stage numbers joined by [-].

    The render orders the stages with [pipeline.stages.sort(...)], which
    sorts the array of the [pipeline] prop in place. That array belongs to
    the parent, so the model returns the pipeline with its [stages]
    replaced by the sorted array: every later read of [pipeline.stages]
    sees it sorted. The sort is [sort_by] of the prelude, stable.
    [Math.max] over an empty list is [-Infinity], the [None] of [maxStage].
    [render] is the whole component. It shows a spinner while the scope
    permissions load, and otherwise the page with its alerts and the
    [disableEdit] props of the child forms. Its hooks run before that early
    return, so the sort happens on every render.

    The lemmas show when an edit keeps the stage numbers distinct, and
    that after a render a new stage is appended to the sorted stages. A
    further lemma shows that a managed pipeline disables every form. *)

From stdpp Require Import pretty.
From S2P Require Import Prelude.
From Stdlib Require Import Sorted.
Set Warnings "-clear-no-such-hyp".

Module Pipeline.

Local Open Scope string_scope.

Section Pipeline.

(** The fields of a stage and of a pipeline that the page passes on. *)
Context {StageRest PipelineRest : Type}.

(** [StageType] *)
Record StageType := mkStage { stage : Z; stage_rest : StageRest }.

(** [PipelineType] *)
Record PipelineType := mkPipeline { stages : list StageType; pipeline_rest : PipelineRest }.

Inductive Effect := OnStagesChange (newStages : list StageType).

(** [s.stage !== n] *)
Definition other_than (n : Z) (s : StageType) : bool := negb (Z.eqb (stage s) n).

(** [_saveStage(stage)]: [slice()], then [push]. *)
Definition _saveStage (p : PipelineType) (st : StageType) : list Effect :=
  [OnStagesChange (stages p ++ [st])%list].

(** [_updateStage(prevStage)(stage)] *)
Definition _updateStage (p : PipelineType) (prevStage st : StageType) : list Effect :=
  [OnStagesChange (List.filter (other_than (stage prevStage)) (stages p) ++ [st])%list].

(** [_deleteStage(stage)()], after [window.confirm]. *)
Definition _deleteStage (p : PipelineType) (st : StageType) (confirmed : bool) : list Effect :=
  if confirmed then [OnStagesChange (List.filter (other_than (stage st)) (stages p))] else [].

(** [stages.reduce((max, s) => Math.max(max, s.stage), -Infinity)] *)
Definition maxStage (l : list StageType) : option Z :=
  fold_left (fun m s => Some (match m with Some v => Z.max v (stage s) | None => stage s end)) l None.

(** The props of a rendered [Stage]. *)
Record StageView := mkStageView { sv_key : string; sv_stage : StageType; isLastStage : bool }.

(** [formattedStages]: the pipeline after the in-place sort, and the
    stages rendered in order. *)
Definition formattedStages (p : PipelineType) : PipelineType * list StageView :=
  let m := maxStage (stages p) in
  let sorted := sort_by (fun s1 s2 => stage s1 - stage s2)%Z (stages p) in
  (mkPipeline sorted (pipeline_rest p),
   map (fun s => mkStageView ("stage-" ++ pretty (stage s)) s (bool_decide (Some (stage s) = m))) sorted).

(** [stageKey] *)
Definition stageKey (p : PipelineType) : string := String.concat "-" (map (fun s => pretty (stage s)) (stages p)).

(** [_connectionsWarning()] is shown. *)
Definition connectionsWarning {C} (connections : list C) : bool := Nat.eqb (length connections) 0.

(** [scopePermissions && !scopePermissions?.is_mutable] *)
Definition isManaged (scopePermissions : nullable (nullable bool)) : bool :=
  match scopePermissions with
  | Val m => match m with Val true => false | _ => true end
  | _ => false
  end.

(** What the render shows once the permissions have loaded. *)
Inductive PipelineView :=
| Spinner
| Page (managedAlert : bool)              (* "This pipeline is system managed" *)
       (connectionWarning : bool)         (* _connectionsWarning() *)
       (detailsDisableEdit : bool)        (* PipelineDetails' disableEdit *)
       (connectionsFormDisableEdit : bool) (* PipelineConnectionsForm's disableEdit *)
       (stageFormKey : string)            (* the new-stage form's key *)
       (stageFormDisableEdit : bool)
       (stageList : list (StageView * bool)). (* each Stage with its disableEdit *)

(** [Pipeline]'s render: the hooks run before the early return, so
    [formattedStages] sorts the caller's stage array in place even while
    only the spinner shows. The result is that array after the render and
    the view. *)
Definition render {C} (loadingScopePermissions : bool) (scopePermissions : nullable (nullable bool))
    (p : PipelineType) (connections : list C) : PipelineType * PipelineView :=
  let '(p', stageViews) := formattedStages p in
  let managed := isManaged scopePermissions in
  (p', if loadingScopePermissions then Spinner
       else Page managed (connectionsWarning connections) managed managed (stageKey p') managed
                 (map (fun sv => (sv, managed)) stageViews)).

End Pipeline.

Arguments StageType : clear implicits.
Arguments PipelineType : clear implicits.

(** The double quote character. *)
Definition quote : string := String (Ascii.ascii_of_nat 34) EmptyString.

(** [_formatConnectedStreams]: the quoted titles, the last joined with
    [and]; [formattedStreams[0]] when there are fewer than two. *)
Definition _formatConnectedStreams (titles : list string) : nullable string :=
  let formatted := map (fun t => quote ++ t ++ quote) titles in
  if Nat.ltb 1 (length formatted)
  then Val (String.concat ", " (removelast formatted) ++ " and " ++ String.concat "," (List.skipn (pred (length formatted)) formatted))
  else js_at formatted 0.


(** ** Lemmas *)

Section Lemmas.

Context {SR PR : Type}.

Lemma NoDup_map_filter {A B} (f : A -> B) (P : A -> bool) l :
  NoDup (map f l) -> NoDup (map f (List.filter P l)).
Proof.
  induction l as [|x l IH]; simpl; [done|]. intros [Hx Hl]%NoDup_cons.
  destruct (P x); simpl; [|by apply IH]. constructor; [|by apply IH].
  intros Hin. apply Hx. apply list_elem_of_In in Hin as (y & Hy & Hin)%in_map_iff.
  apply list_elem_of_In, in_map_iff. exists y. split; [done|]. by apply filter_In in Hin as [? _].
Qed.

(** An edit of a pipeline whose stage numbers are distinct sends
    distinct stage numbers exactly when the edited stage keeps its number
    or takes a number no stage has: the filter drops only the old number. *)
Lemma updateStage_distinct (p : PipelineType SR PR) prev st l :
  NoDup (map stage (stages p)) ->
  _updateStage p prev st = [OnStagesChange l] ->
  (NoDup (map stage l) <-> stage st = stage prev \/ stage st ∉ map stage (stages p)).
Proof.
  intros Hnd [= <-]. rewrite map_app. simpl.
  rewrite NoDup_app. split.
  - intros (_ & Hdis & _). destruct (Z.eq_dec (stage st) (stage prev)) as [|Hne]; [by left|right].
    intros Hin. apply (Hdis (stage st)); [|by left].
    apply list_elem_of_In in Hin as (s & Hs & Hin)%in_map_iff.
    apply list_elem_of_In, in_map_iff. exists s. split; [done|]. apply filter_In.
    split; [done|]. unfold other_than. rewrite Hs. by apply negb_true_iff, Z.eqb_neq.
  - intros Hst. split; [by apply NoDup_map_filter|]. split; [|by repeat constructor; set_solver].
    intros x Hx ->%list_elem_of_singleton.
    apply list_elem_of_In in Hx as (s & Hs & Hin)%in_map_iff. apply filter_In in Hin as [Hin Ho].
    unfold other_than in Ho. apply negb_true_iff, Z.eqb_neq in Ho.
    destruct Hst as [Heq|Hnin]; [congruence|]. apply Hnin.
    apply list_elem_of_In, in_map_iff. by exists s.
Qed.

(** The render leaves the parent's stage array sorted by stage number, a
    permutation of what it was; an edit made after it starts from that
    order. *)
Lemma formattedStages_sorts (p : PipelineType SR PR) :
  stages (formattedStages p).1 ≡ₚ stages p /\ Sorted (key_le stage) (stages (formattedStages p).1).
Proof. split; [apply sort_by_perm|apply sort_by_key_sorted]. Qed.

(** Every render, the spinner included, leaves the caller's stage array
    sorted. A loaded page disables editing in the details, the
    connections form, the new-stage form and every stage exactly when the
    pipeline is managed. It warns exactly when there are no connections,
    and keys the new-stage form by the sorted stage numbers. *)
Lemma render_spec {C} loading sp (p : PipelineType SR PR) (cs : list C) :
  let '(p', v) := render loading sp p cs in
  stages p' ≡ₚ stages p /\ Sorted (key_le stage) (stages p') /\
  match v with
  | Spinner => loading = true
  | Page alert warn d1 d2 key d3 svs =>
      loading = false /\ alert = isManaged sp /\ d1 = alert /\ d2 = alert /\ d3 = alert /\
      Forall (fun x => x.2 = alert) svs /\ key = stageKey p' /\ (warn = true <-> cs = [])
  end.
Proof.
  unfold render. pose proof (formattedStages_sorts p) as [Hp Hs].
  destruct (formattedStages p) as [p' svs]. simpl in *. split; [done|]. split; [done|].
  destruct loading; [done|]. do 5 (split; [done|]). split; [|split; [done|]].
  - apply Forall_forall. intros x. rewrite list_elem_of_fmap. by intros (? & -> & _).
  - unfold connectionsWarning. destruct cs; simpl; naive_solver.
Qed.

End Lemmas.

End Pipeline.
