(* ===== verification/EncryptedInlineBinaryField.v ===== *)
(** * An uploaded binary configuration value
      (components/configurationforms/EncryptedInlineBinaryField.tsx)

    The field takes a file, reads it as a data URL, strips the
    [data:<type>;base64,] prefix and reports the base64 content with
    [onChange(title, value, dirty?)]. An encrypted field wraps the content
    as [{ set_value }], resets as [{ delete_value: true }] and undoes a
    reset with [{ is_set: true }]. A plain field resets to [''] and undoes
    the reset with the value it held when the reset was clicked. While the
    parent says the value is present and not [dirty], the field is shown
    read-only with a Reset button.

    The component's state is [fileName], [isResetted] and
    [resettedFieldValue]; the [value] and [dirty] props come from the
    parent with every event. Values are dynamic values ([jval]); the
    default [value = {}] is the empty object. [step] handles one event and
    returns the [onChange] calls it makes. An event whose button or input
    is not rendered in the current view does nothing. The file read is one
    event ([FileRead]) carrying the file's name and [fileReader.result].

    The lemmas show that Undo Reset restores the value held at the reset
    whatever was uploaded in between. For an encrypted field, Remove
    reports a plain empty string, not an encrypted field value. *)

From S2P Require Import Prelude JsValue.
Set Warnings "-clear-no-such-hyp".

Module EncryptedInlineBinaryField.

Local Open Scope string_scope.

(** [dataUrl.replace(/^data:[\s\S]+\/[\s\S]+;base64,/, '')]. The match
    is anchored and both [[\s\S]+] are greedy, so it ends after the last
    [;base64,] that starts at least two characters after the first [/]
    that has at least one character between it and [data:]. *)
Definition marker_at (body : string) (i : nat) : bool := String.eqb (String.substring i 8 body) ";base64,".

Fixpoint last_marker (body : string) (start k : nat) : option nat :=
  match k with
  | O => None
  | S k' => if marker_at body (start + k') then Some (start + k') else last_marker body start k'
  end.

Definition strip_data_url (dataUrl : string) : string :=
  if String.prefix "data:" dataUrl then
    let body := String.substring 5 (String.length dataUrl - 5) dataUrl in
    match String.index 1 "/" body with
    | Some j =>
        match last_marker body (j + 2) (String.length body - (j + 2)) with
        | Some i => String.substring (i + 8) (String.length body - (i + 8)) body
        | None => dataUrl
        end
    | None => dataUrl
    end
  else dataUrl.

(** [InlineBinaryField] *)
Record Field := mkField { is_encrypted : bool; is_optional : bool }.

Record Props := mkProps {
  field : Field;
  title : string;
  typeName : string;
  dirty : bool;
  value : jval
}.

Record State := mkState { fileName : nullable string; isResetted : bool; resettedFieldValue : jval }.

Definition init : State := mkState Undefined false JUndef.

Inductive Effect := OnChange (title : string) (value : jval) (dirty : option bool).

(** [value?.is_set] *)
Definition is_set (v : jval) : jval := match v with JMap m => mget_u "is_set" m | _ => JUndef end.

(** [isValuePresent] *)
Definition isValuePresent (p : Props) : bool :=
  if is_encrypted (field p) then truthy (is_set (value p)) else truthy (value p).

Definition showReadOnly (p : Props) : bool := negb (dirty p) && isValuePresent p.

Definition fieldId (p : Props) : string := typeName p ++ "-" ++ title p.

Definition truthy_name (n : nullable string) : bool :=
  match n with Val s => negb (String.eqb s "") | _ => false end.

(** What is rendered: the read-only input with its Reset button, or the
    file name with Remove and Undo Reset, or the file input with Undo
    Reset. *)
Inductive View :=
| ReadOnly (resetButton : bool)
| FileShown (name : string) (removeButton undoResetButton : bool)
| FileInput (undoResetButton : bool).

Definition view (p : Props) (s : State) : View :=
  if showReadOnly p then ReadOnly (isValuePresent p)
  else match fileName s with
       | Val n => if String.eqb n "" then FileInput (isResetted s)
                  else FileShown n (truthy_name (fileName s)) (isResetted s)
       | _ => FileInput (isResetted s)
       end.

Inductive Event :=
| FileRead (name : string) (result : nullable string)   (* handleFileUpload, then handleFileRead *)
| Reset                                                 (* handleReset *)
| UndoReset                                             (* handleUndoReset *)
| Remove.                                               (* the Remove button *)

(** [handleFileRead(fileReader, file)] *)
Definition handleFileRead (p : Props) (s : State) (name : string) (result : nullable string) : State * list Effect :=
  match result with
  | Val dataUrl =>
      if String.eqb dataUrl "" then (s, [])
      else let dataString := strip_data_url dataUrl in
           (mkState (Val name) (isResetted s) (resettedFieldValue s),
            [OnChange (title p) (if is_encrypted (field p) then JMap [("set_value", JStr dataString)]
                                 else JStr dataString) None])
  | _ => (s, [])
  end.

Definition step (p : Props) (s : State) (e : Event) : State * list Effect :=
  match e, view p s with
  | FileRead name result, FileInput _ => handleFileRead p s name result
  | Reset, ReadOnly true =>
      if is_encrypted (field p)
      then (mkState (fileName s) true (resettedFieldValue s),
            [OnChange (title p) (JMap [("delete_value", JBool true)]) None])
      else (mkState (fileName s) true (value p), [OnChange (title p) (JStr "") None])
  | UndoReset, FileShown _ _ true | UndoReset, FileInput true =>
      (mkState Undefined false (resettedFieldValue s),
       [OnChange (title p) (if is_encrypted (field p) then JMap [("is_set", JBool true)]
                            else resettedFieldValue s) (Some false)])
  | Remove, FileShown _ true _ =>
      (mkState Undefined (isResetted s) (resettedFieldValue s), [OnChange (title p) (JStr "") None])
  | _, _ => (s, [])
  end.

(** A run: every event comes with the props the parent renders with. *)
Fixpoint run (s : State) (es : list (Props * Event)) : State * list Effect :=
  match es with
  | [] => (s, [])
  | (p, e) :: es' => let '(s1, f1) := step p s e in let '(s2, f2) := run s1 es' in (s2, (f1 ++ f2)%list)
  end.

(** ** Lemmas *)

(** Only a reset changes [resettedFieldValue]. *)
Lemma step_resetted_value p s e :
  e <> Reset -> resettedFieldValue (step p s e).1 = resettedFieldValue s.
Proof.
  intros He. unfold step.
  destruct e as [name result| | |]; [|done| |];
    destruct (view p s) as [b|n b1 b2|b]; try destruct b; try destruct b1; try destruct b2; simpl; try done.
  all: unfold handleFileRead; destruct result as [| |u]; simpl; try done; by destruct (String.eqb u "").
Qed.

Lemma run_resetted_value s es :
  Forall (fun pe => pe.2 <> Reset) es -> resettedFieldValue (run s es).1 = resettedFieldValue s.
Proof.
  revert s. induction es as [|[p e] es IH]; intros s Hes; simpl; [done|].
  inversion Hes as [|? ? He Hes']; subst.
  pose proof (step_resetted_value p s e He) as H1. destruct (step p s e) as [s1 f1].
  specialize (IH s1 Hes'). destruct (run s1 es) as [s2 f2]. simpl in *. congruence.
Qed.

(** Undo Reset on a plain field reports, as not dirty, the value the
    parent held when Reset was clicked, whatever was uploaded or removed
    in between. *)
Lemma undo_reset_restores p0 s es p1 :
  is_encrypted (field p1) = false ->
  Forall (fun pe => pe.2 <> Reset) es ->
  let s1 := (run (step p0 s Reset).1 es).1 in
  step p0 s Reset <> (s, []) ->
  is_encrypted (field p0) = false ->
  (exists n rb, view p1 s1 = FileShown n rb true) \/ view p1 s1 = FileInput true ->
  (step p1 s1 UndoReset).2 = [OnChange (title p1) (value p0) (Some false)].
Proof.
  intros Henc1 Hes s1 Hreset Henc0 Hview.
  assert (Hr : resettedFieldValue (step p0 s Reset).1 = value p0).
  { revert Hreset. unfold step. destruct (view p0 s) as [[]|? ? []|[]]; simpl; try done.
    by rewrite Henc0. }
  assert (Hs1 : resettedFieldValue s1 = value p0) by (subst s1; by rewrite run_resetted_value).
  unfold step. destruct Hview as [(n & rb & ->)| ->]; simpl; by rewrite Henc1, Hs1.
Qed.

(** For an encrypted field, Remove after an upload reports the plain
    string [''], while an upload reports [{ set_value }]. *)
Lemma encrypted_remove_plain p s name dataUrl :
  is_encrypted (field p) = true -> showReadOnly p = false -> fileName s = Undefined ->
  dataUrl <> "" -> name <> "" ->
  let '(s1, f1) := step p s (FileRead name (Val dataUrl)) in
  f1 = [OnChange (title p) (JMap [("set_value", JStr (strip_data_url dataUrl))]) None]
  /\ (step p s1 Remove).2 = [OnChange (title p) (JStr "") None].
Proof.
  intros Henc Hro Hfn Hd Hn. unfold step at 1. unfold view at 1. rewrite Hro, Hfn.
  unfold handleFileRead. destruct (String.eqb_spec dataUrl "") as [|_]; [done|].
  rewrite Henc. split; [done|].
  unfold step, view. simpl. rewrite Hro. destruct (String.eqb_spec name "") as [|_]; [done|]. done.
Qed.

End EncryptedInlineBinaryField.
