(* ===== verification/ExtractorConfiguration.v ===== *)
(** * Extractor and converter configuration forms
      (components/extractors/extractors_configuration/RegexReplaceExtractorConfiguration.tsx,
       components/extractors/converters_configuration/DateConverterConfiguration.tsx,
       FlexdateConverterConfiguration.tsx, UppercaseConverterConfiguration.tsx)

    These forms edit the [configuration] object their parent passes in.
    A field's handler does not copy it: [const newConfig =
    this.props.configuration; newConfig[key] = ...] writes into the
    parent's object, and the parent's [onChange] then receives that same
    object. The model therefore keeps the objects in a heap ([Heap], a
    [gmap] from locations to plain objects), and a configuration or a
    converter's [config] is a location. A handler returns the new heap and
    the calls it makes to the parent, in order, or [None] where it throws.

    [getValueFromInput] (util/FormsUtils, not in the repository) is a
    section variable on the inputs' event targets. The select inputs pass
    a string or [null] as their value; [typeof null === 'object'], so
    [null.target] throws.

    The regex-replace form also tests its configuration on the server
    ([ToolsStore.testRegexReplace]). The request is an effect; its answer
    is an event. The [then] and [finally] callbacks of the answer run in one
    go, one after the other, so an answer is one step. [trying] is true
    exactly while a test is pending: only the Try click sets it, only the
    [finally] callback clears it, and the button is disabled in between.

    The lemmas show that a field edit writes into the parent's object
    before the parent is called, that editing a field of a converter that
    was switched off switches it on again, and that an answer to a test
    started before an edit loads its preview after the edit cleared it. *)

From stdpp Require Import gmap.
From S2P Require Import Prelude JsValue.
Set Warnings "-clear-no-such-hyp".

Module ExtractorConfiguration.

Local Open Scope string_scope.

(** A location of the heap and the plain objects it holds. *)
Definition loc := positive.
Abbreviation Heap := (gmap loc (list (string * jval))).

(** [obj.k] on the object at [l]. *)
Definition hget (h : Heap) (l : loc) (k : string) : option jval :=
  match h !! l with Some o => Some (mget_u k o) | None => None end.

(** [obj[k] = v] on the object at [l]: every holder of [l] sees it. *)
Definition hset (h : Heap) (l : loc) (k : string) (v : jval) : option Heap :=
  match h !! l with Some o => Some (<[l := mset k v o]> h) | None => None end.

Section Forms.

(** The event target of an input and [getValueFromInput(target)]. *)
Context {Target : Type}.
Variable getValueFromInput : Target -> jval.

(** What a field's [onChange] receives: an event, or the value of a
    select. *)
Inductive Data := DEvent (target : Target) | DValue (v : nullable string).

(** [typeof data === 'object' ? getValueFromInput(data.target) : data] *)
Definition data_value (d : Data) : option jval :=
  match d with
  | DEvent t => Some (getValueFromInput t)
  | DValue Null => None
  | DValue Undefined => Some JUndef
  | DValue (Val s) => Some (JStr s)
  end.

(** ** The converters *)

(** The converter object [{ type, config }] handed to the parent. *)
Record Converter := mkConverter { c_type : string; c_config : loc }.

Record CProps := mkCProps { type : string; configuration : loc }.

(** [this.props.onChange(type, converter)]; [None] is [undefined], which
    removes the converter. *)
Inductive CEffect := OnChange (type : string) (converter : option Converter).

(** [_getConverterObject(configuration?)]: [configuration ||
    this.props.configuration]; an object is always truthy. *)
Definition _getConverterObject (p : CProps) (config_arg : option loc) : Converter :=
  mkConverter (type p) (match config_arg with Some l => l | None => configuration p end).

(** [componentDidMount()] *)
Definition componentDidMount (p : CProps) : list CEffect :=
  [OnChange (type p) (Some (_getConverterObject p None))].

(** [_toggleConverter(event)] *)
Definition _toggleConverter (p : CProps) (t : Target) : list CEffect :=
  let converter := if bool_decide (getValueFromInput t = JBool true)
                   then Some (_getConverterObject p None) else None in
  [OnChange (type p) converter].

(** [_onChange(key)(data)] *)
Definition _onChange (p : CProps) (h : Heap) (key : string) (d : Data) : option (Heap * list CEffect) :=
  let newConfig := configuration p in
  match data_value d with
  | Some v =>
      match hset h newConfig key v with
      | Some h' => Some (h', [OnChange (type p) (Some (_getConverterObject p (Some newConfig)))])
      | None => None
      end
  | None => None
  end.

Inductive CEvent :=
| Mount
| Toggle (target : Target)              (* the enable checkbox *)
| Field (key : string) (data : Data).   (* a subfield's onChange *)

(** One event of a date-like converter whose render has the subfields
    [fields]. *)
Definition converter_step (fields : list string) (p : CProps) (h : Heap) (e : CEvent)
    : option (Heap * list CEffect) :=
  match e with
  | Mount => Some (h, componentDidMount p)
  | Toggle t => Some (h, _toggleConverter p t)
  | Field key d => if bool_decide (key ∈ fields) then _onChange p h key d else Some (h, [])
  end.

(** The subfields of [DateConverterConfiguration]'s render. *)
Definition date_fields : list string := ["date_format"; "time_zone"; "locale"].

(** The subfield of [FlexdateConverterConfiguration]'s render. *)
Definition flexdate_fields : list string := ["time_zone"].

(** [DateConverterConfiguration] *)
Definition date_step := converter_step date_fields.

(** [FlexdateConverterConfiguration]: the same handlers as the date
    converter, with the time zone only. *)
Definition flexdate_step := converter_step flexdate_fields.

(** [UppercaseConverterConfiguration]: [_getConverterObject()] takes no
    argument and there is no subfield. *)
Definition uppercase_step (p : CProps) (h : Heap) (e : CEvent) : option (Heap * list CEffect) :=
  match e with
  | Mount => Some (h, [OnChange (type p) (Some (mkConverter (type p) (configuration p)))])
  | Toggle t =>
      Some (h, [OnChange (type p) (if bool_decide (getValueFromInput t = JBool true)
                                   then Some (mkConverter (type p) (configuration p)) else None)])
  | Field _ _ => Some (h, [])
  end.

(** A run of events; it stops at the first that throws. *)
Fixpoint crun (step : Heap -> CEvent -> option (Heap * list CEffect)) (h : Heap) (es : list CEvent)
    : option (Heap * list CEffect) :=
  match es with
  | [] => Some (h, [])
  | e :: es' =>
      match step h e with
      | Some (h1, f1) => match crun step h1 es' with Some (h2, f2) => Some (h2, (f1 ++ f2)%list) | None => None end
      | None => None
      end
  end.

(** ** The regex-replace extractor *)

Record RProps := mkRProps { r_configuration : loc; exampleMessage : nullable string }.

(** [this.state.trying] *)
Record RState := mkRState { trying : bool }.

Definition r_init : RState := mkRState false.

(** The server's answer: [matched], and [match], an object with the
    matched text in its own [match], or [null]. *)
Record TestResult := mkTestResult { matched : bool; result_match : nullable (nullable string) }.

(** A preview: [<samp>{match}</samp>] or ['']. *)
Inductive Preview := Samp (m : string) | EmptyPreview.

Inductive REffect :=
| PreviewLoad (preview : option Preview)   (* onExtractorPreviewLoad; None is undefined *)
| ConfigChange (config : loc)              (* onChange(newConfig) *)
| TestRegexReplace (regex replacement replace_all : jval) (example : nullable string)
| Warning (message : string).              (* UserNotification.warning *)

(** [_onChange(key)(event)] *)
Definition r_onChange (p : RProps) (h : Heap) (key : string) (t : Target) : option (Heap * list REffect) :=
  let newConfig := r_configuration p in
  match hset h newConfig key (getValueFromInput t) with
  | Some h' => Some (h', [PreviewLoad None; ConfigChange newConfig])
  | None => None
  end.

(** [_isTryButtonDisabled()] *)
Definition _isTryButtonDisabled (p : RProps) (s : RState) (h : Heap) : option bool :=
  match hget h (r_configuration p) "regex", hget h (r_configuration p) "replacement" with
  | Some regex, Some replacement =>
      Some (trying s || negb (truthy regex) || negb (truthy replacement)
            || negb (match exampleMessage p with Val m => negb (String.eqb m "") | _ => false end))
  | _, _ => None
  end.

(** [_onTryClick()]: [setState({ trying: true })] and the request. *)
Definition _onTryClick (p : RProps) (h : Heap) : option (RState * list REffect) :=
  match hget h (r_configuration p) "regex", hget h (r_configuration p) "replacement",
        hget h (r_configuration p) "replace_all" with
  | Some regex, Some replacement, Some replace_all =>
      Some (mkRState true, [TestRegexReplace regex replacement replace_all (exampleMessage p)])
  | _, _, _ => None
  end.

(** The [then] callback on a result. *)
Definition on_result (r : TestResult) : list REffect :=
  if negb (matched r) then [Warning "Regular expression did not match."]
  else match result_match r with
       | Val m =>
           [PreviewLoad (Some (match m with
                               | Val t => if String.eqb t "" then EmptyPreview else Samp t
                               | _ => EmptyPreview
                               end))]
       | _ => [Warning "Regular expression does not contain any matcher group to extract."]
       end.

Inductive REvent :=
| Edit (key : string) (target : Target)     (* the regex, replacement and replace_all inputs *)
| TryClick                                  (* the Try button *)
| Answer (result : option TestResult).      (* the request settles; None is a rejection *)

Definition r_fields : list string := ["regex"; "replacement"; "replace_all"].

(** One event; the Try button is clicked only while enabled, and an answer
    comes only for a pending test. *)
Definition r_step (p : RProps) (s : RState) (h : Heap) (e : REvent) : option (RState * Heap * list REffect) :=
  match e with
  | Edit key t =>
      if bool_decide (key ∈ r_fields)
      then match r_onChange p h key t with Some (h', f) => Some (s, h', f) | None => None end
      else Some (s, h, [])
  | TryClick =>
      match _isTryButtonDisabled p s h with
      | Some false => match _onTryClick p h with Some (s', f) => Some (s', h, f) | None => None end
      | Some true => Some (s, h, [])
      | None => None
      end
  | Answer r =>
      if trying s
      then Some (mkRState false, h, match r with Some res => on_result res | None => [] end)
      else Some (s, h, [])
  end.

Fixpoint r_run (p : RProps) (s : RState) (h : Heap) (es : list REvent) : option (RState * Heap * list REffect) :=
  match es with
  | [] => Some (s, h, [])
  | e :: es' =>
      match r_step p s h e with
      | Some (s1, h1, f1) =>
          match r_run p s1 h1 es' with Some (s2, h2, f2) => Some (s2, h2, (f1 ++ f2)%list) | None => None end
      | None => None
      end
  end.

End Forms.

(** ** Lemmas *)

Lemma hset_some h l k v o : h !! l = Some o -> hset h l k v = Some (<[l := mset k v o]> h).
Proof. unfold hset. by intros ->. Qed.

Lemma hget_some h l k o : h !! l = Some o -> hget h l k = Some (mget_u k o).
Proof. unfold hget. by intros ->. Qed.


Lemma crun_cons {T} (step : Heap -> @CEvent T -> option (Heap * list CEffect)) h e es h1 f1 :
  step h e = Some (h1, f1) ->
  crun step h (e :: es) = option_map (fun '(h2, f2) => (h2, (f1 ++ f2)%list)) (crun step h1 es).
Proof. intros He. simpl. rewrite He. by destruct (crun step h1 es) as [[]|]. Qed.

Section Lemmas.

Context {T : Type} (gv : T -> jval).

(** A subfield edit writes the value into the parent's own object, at the
    location it passed in, and hands the parent a converter on that same
    location; a [null] from a select throws before the write. *)
Lemma converter_field_aliases fields p h key d o :
  key ∈ fields -> h !! configuration p = Some o ->
  converter_step gv fields p h (Field key d)
  = match data_value gv d with
    | Some v => Some (<[configuration p := mset key v o]> h,
                      [OnChange (type p) (Some (mkConverter (type p) (configuration p)))])
    | None => None
    end.
Proof.
  intros Hk Ho. unfold converter_step. rewrite bool_decide_eq_true_2 by done.
  unfold _onChange. destruct (data_value gv d); [|done]. by rewrite (hset_some _ _ _ _ o).
Qed.

(** After the edit, the parent's object reads the new value under the
    key, and every other key as before. *)
Lemma converter_field_reads fields p h key d o h' f k :
  key ∈ fields -> h !! configuration p = Some o ->
  converter_step gv fields p h (Field key d) = Some (h', f) ->
  hget h' (configuration p) k = Some (if String.eqb k key then from_option id JUndef (data_value gv d) else mget_u k o).
Proof.
  intros Hk Ho. rewrite (converter_field_aliases _ _ _ _ _ o) by done.
  destruct (data_value gv d) as [v|]; [|done]. intros [= <- _].
  rewrite (hget_some _ _ _ (mset key v o)) by by rewrite lookup_insert_eq.
  destruct (String.eqb_spec k key) as [->|Hne]; [by rewrite mget_mset|by rewrite mget_mset_other].
Qed.

(** C9. Switching a date converter off and then editing its format string
    hands the parent the converter again: the last call the parent
    receives enables the converter while its checkbox is unchecked. The
    edit also writes the format into the parent's configuration object
    itself. *)
Lemma date_edit_after_disable_reenables p h o toff t :
  h !! configuration p = Some o -> gv toff = JBool false ->
  crun (date_step gv p) h [Mount; Toggle toff; Field "date_format" (DEvent t)]
  = Some (<[configuration p := mset "date_format" (gv t) o]> h,
          [OnChange (type p) (Some (mkConverter (type p) (configuration p)));
           OnChange (type p) None;
           OnChange (type p) (Some (mkConverter (type p) (configuration p)))]).
Proof.
  intros Ho Hoff. unfold date_step.
  rewrite (crun_cons _ _ _ _ h (componentDidMount p)) by done.
  rewrite (crun_cons _ _ _ _ h [OnChange (type p) None]) by (simpl; unfold _toggleConverter; by rewrite Hoff).
  rewrite (crun_cons _ _ _ _ (<[configuration p := mset "date_format" (gv t) o]> h)
             [OnChange (type p) (Some (mkConverter (type p) (configuration p)))]); [done|].
  by rewrite (converter_field_aliases _ _ _ _ _ o) by (done || set_solver).
Qed.

(** While a test is pending, the Try button is disabled and a click does
    nothing. *)
Lemma try_click_while_pending p h :
  is_Some (h !! r_configuration p) ->
  r_step gv p (mkRState true) h TryClick = Some (mkRState true, h, []).
Proof. intros [o Ho]. unfold r_step, _isTryButtonDisabled. by rewrite !(hget_some _ _ _ o). Qed.

(** An answer to a test started before an edit of the regex is loaded as
    the preview after the edit cleared it: the preview shown is the match
    of the old regex, while the configuration holds the new one. *)
Lemma stale_preview_after_edit p h o t m :
  h !! r_configuration p = Some o ->
  truthy (mget_u "regex" o) = true -> truthy (mget_u "replacement" o) = true ->
  (exists e, exampleMessage p = Val e /\ e <> "") -> m <> "" ->
  r_run gv p r_init h [TryClick; Edit "regex" t; Answer (Some (mkTestResult true (Val (Val m))))]
  = Some (mkRState false, <[r_configuration p := mset "regex" (gv t) o]> h,
          [TestRegexReplace (mget_u "regex" o) (mget_u "replacement" o) (mget_u "replace_all" o) (exampleMessage p);
           PreviewLoad None; ConfigChange (r_configuration p); PreviewLoad (Some (Samp m))]).
Proof.
  intros Ho Hre Hrp (e & He & Hne) Hm. cbn [r_run].
  unfold r_step at 1, _isTryButtonDisabled, _onTryClick. rewrite !(hget_some _ _ _ o) by done.
  rewrite Hre, Hrp, He. apply String.eqb_neq in Hne. rewrite Hne. simpl.
  unfold r_onChange. rewrite (hset_some _ _ _ _ o) by done. simpl.
  apply String.eqb_neq in Hm. by rewrite Hm.
Qed.

End Lemmas.

Lemma date_edit_after_disable_reenables_witness :
  let p := mkCProps "date" 1%positive in
  let h : Heap := {[1%positive := []]} in
  h !! configuration p = Some [] /\ (fun b : bool => JBool b) false = JBool false /\
  crun (date_step (fun b : bool => JBool b) p) h [Mount; Toggle false; Field "date_format" (DEvent true)]
  = Some (<[configuration p := mset "date_format" (JBool true) []]> h,
          [OnChange (type p) (Some (mkConverter (type p) (configuration p)));
           OnChange (type p) None;
           OnChange (type p) (Some (mkConverter (type p) (configuration p)))]).
Proof.
  intros p h. split; [reflexivity|]. split; [reflexivity|].
  apply (date_edit_after_disable_reenables (fun b : bool => JBool b) p h [] false true); reflexivity.
Defined.

End ExtractorConfiguration.
