(* ===== verification/SchedulingCell.v ===== *)
(** * The scheduling cell of the event definitions table
      (components/event-definitions/event-definitions/SchedulingCell.tsx)

    The cell says how often an event definition runs and over which time
    window ("Runs every 5 minutes, searching within the last 5 minutes.")
    and opens a popover with the scheduler's status, where the queued
    notifications can be cleared. A definition with neither a search window
    nor an interval is "Not Scheduled.".

    The render is [SchedulingCell], which returns the cell, or [None]
    where it throws. The popover is an element built during the render
    ([overlay={detailsPopover(...)}]), so its reads of the scheduler happen
    whether or not it is opened. The configuration's values are dynamic
    values ([jval]), tested with [truthy]. The cron describer
    ([describeExpression], util/CronUtils) and the duration formatter
    ([moment.duration(v).format(...)], moment-duration-format) are not in
    the repository and are section variables; the formatter's flag is
    [usePlural]. [charAt(0).toLowerCase()] lower-cases ASCII letters. *)

From S2P Require Import Prelude JsValue.
Set Warnings "-clear-no-such-hyp".

Module SchedulingCell.

Local Open Scope string_scope.

(** [scheduler.data] *)
Record SchedulerData := mkSchedulerData { timerange_from : nullable string; timerange_to : nullable string }.

(** [Scheduler] *)
Record Scheduler := mkScheduler {
  status : string;
  triggered_at : nullable string;
  next_time : nullable string;
  data : nullable SchedulerData;
  queued_notifications : Z
}.

(** [EventDefinition.config], the fields the cell reads. *)
Record Config := mkConfig {
  search_within_ms : jval;
  execute_every_ms : jval;
  use_cron_scheduling : jval;
  cron_expression : jval
}.

(** [EventDefinition] *)
Record EventDefinition := mkEventDefinition {
  title : string;
  config : nullable Config;
  scheduler : nullable Scheduler
}.

(** [cronDescription.charAt(0).toLowerCase() + cronDescription.slice(1)] *)
Definition lower_first (s : string) : string :=
  match s with
  | EmptyString => EmptyString
  | String c r => String (ascii_lower c) r
  end.

Section Cell.

Variable describeExpression : jval -> string.
(** [moment.duration(v).format('d [days] h [hours] m [minutes] s [seconds]',
    { trim: 'all', usePlural })] *)
Variable formatDuration : jval -> bool -> string.

(** [describeSchedule(isCron, value)] *)
Definition describeSchedule (isCron : bool) (value : jval) : string :=
  if isCron then lower_first (describeExpression value)
  else "every " ++ formatDuration value false.

(** The popover's rows. *)
Record Details := mkDetails {
  d_status : string;
  lastExecution : option string;     (* rendered when [scheduler.triggered_at] is truthy *)
  nextExecution : option string;     (* rendered when [scheduler.next_time] is truthy *)
  nextTimeRange : nullable string * nullable string;
  queued : Z;
  clearButton : bool                 (* [queued_notifications > 0] *)
}.

Definition truthy_str (s : nullable string) : option string :=
  match s with Val v => if String.eqb v "" then None else Some v | _ => None end.

(** [getTimeRange(scheduler)]: [scheduler?.data?.timerange_from] and
    [_to]. *)
Definition getTimeRange (scheduler : nullable Scheduler) : nullable string * nullable string :=
  match scheduler with
  | Val s => match data s with Val d => (timerange_from d, timerange_to d) | _ => (Undefined, Undefined) end
  | _ => (Undefined, Undefined)
  end.

(** [detailsPopover(scheduler, clearNotifications)]: reads
    [scheduler.status] without [?.]. *)
Definition detailsPopover (scheduler : nullable Scheduler) : option Details :=
  match scheduler with
  | Val s =>
      Some (mkDetails (status s) (truthy_str (triggered_at s)) (truthy_str (next_time s))
              (getTimeRange scheduler) (queued_notifications s) (Z.ltb 0 (queued_notifications s)))
  | _ => None
  end.

Inductive Cell :=
| NotScheduled
| Scheduled (text : string) (popoverTitle : string) (details : Details).

(** [SchedulingInfo] *)
Definition SchedulingInfo (executeEveryMs searchWithinMs useCronScheduling cronExpression : jval)
    (scheduler : nullable Scheduler) (title : string) : option Cell :=
  let executeEveryFormatted :=
    describeSchedule (truthy useCronScheduling)
      (if truthy useCronScheduling then cronExpression else executeEveryMs) in
  let searchWithinFormatted := formatDuration searchWithinMs true in
  match detailsPopover scheduler with
  | Some details =>
      Some (Scheduled ("Runs " ++ executeEveryFormatted ++ ", searching within the last "
                       ++ searchWithinFormatted ++ ". ") (title ++ " details.") details)
  | None => None
  end.

(** [!definition?.config?.search_within_ms && !definition?.config?.execute_every_ms] *)
Definition notScheduled (d : EventDefinition) : bool :=
  match config d with
  | Val c => negb (truthy (search_within_ms c)) && negb (truthy (execute_every_ms c))
  | _ => true
  end.

(** [SchedulingCell({ definition })] *)
Definition SchedulingCell (d : EventDefinition) : option Cell :=
  if notScheduled d then Some NotScheduled
  else match config d with
       | Val c => SchedulingInfo (execute_every_ms c) (search_within_ms c) (use_cron_scheduling c)
                    (cron_expression c) (scheduler d) (title d)
       | _ => None
       end.

(** [clearNotifications(definition)()]: after [window.confirm], the
    request [EventDefinitionsActions.clearNotificationQueue(definition)];
    the button exists only when notifications are queued. *)
Definition clearClick (d : EventDefinition) (confirmed : bool) : list EventDefinition :=
  match SchedulingCell d with
  | Some (Scheduled _ _ det) => if clearButton det && confirmed then [d] else []
  | _ => []
  end.

End Cell.

(** ** Lemmas *)

Section Lemmas.

Context (describeExpression : jval -> string) (formatDuration : jval -> bool -> string).

Abbreviation cell := (SchedulingCell describeExpression formatDuration).

Lemma cell_scheduled d c s :
  notScheduled d = false -> config d = Val c -> scheduler d = Val s ->
  cell d = Some (Scheduled
    ("Runs " ++ describeSchedule describeExpression formatDuration (truthy (use_cron_scheduling c))
                 (if truthy (use_cron_scheduling c) then cron_expression c else execute_every_ms c)
     ++ ", searching within the last " ++ formatDuration (search_within_ms c) true ++ ". ")
    (title d ++ " details.")
    (mkDetails (status s) (truthy_str (triggered_at s)) (truthy_str (next_time s))
       (match data s with Val dt => (timerange_from dt, timerange_to dt) | _ => (Undefined, Undefined) end)
       (queued_notifications s) (Z.ltb 0 (queued_notifications s)))).
Proof. intros Hn Hc Hs. unfold SchedulingCell. by rewrite Hn, Hc, Hs. Qed.

(** The render throws exactly for a scheduled definition without a
    scheduler: [getTimeRange] guards [scheduler?.data], but the popover,
    built on every render, reads [scheduler.status] first. *)
Lemma cell_throws d :
  cell d = None <-> notScheduled d = false /\ isNullish (scheduler d) = true.
Proof.
  unfold SchedulingCell, notScheduled.
  destruct (config d) as [| |c]; [naive_solver|naive_solver|].
  unfold SchedulingInfo, detailsPopover.
  destruct (_ && _); [naive_solver|]. destruct (scheduler d); naive_solver.
Qed.

(** Clearing sends the request exactly when the user confirms and
    notifications are queued, for a definition the cell can render. *)
Lemma clear_sends d confirmed :
  clearClick describeExpression formatDuration d confirmed <> [] <->
  confirmed = true /\ notScheduled d = false /\
  exists s, scheduler d = Val s /\ (0 < queued_notifications s)%Z.
Proof.
  unfold clearClick. split.
  - destruct (cell d) as [[|t pt det]|] eqn:Hcell; [done| |done].
    destruct (clearButton det && confirmed) eqn:Hb; [|done]. intros _.
    apply andb_true_iff in Hb as [Hb ->]. split; [done|].
    destruct (notScheduled d) eqn:Hn; [by unfold SchedulingCell in Hcell; rewrite Hn in Hcell|].
    split; [done|]. unfold SchedulingCell in Hcell. rewrite Hn in Hcell.
    destruct (config d) as [| |c]; [done|done|].
    unfold SchedulingInfo, detailsPopover in Hcell. destruct (scheduler d) as [| |s]; [done|done|].
    injection Hcell as _ _ <-. exists s. split; [done|]. by apply Z.ltb_lt.
  - intros (-> & Hn & s & Hs & Hq). destruct (config d) as [| |c] eqn:Hc.
    1,2: by unfold notScheduled in Hn; rewrite Hc in Hn.
    rewrite (cell_scheduled d c s) by done. simpl. apply Z.ltb_lt in Hq. by rewrite Hq.
Qed.

(** A cron schedule's description is lower-cased at its first letter:
    ["At 10:00 AM"] reads ["Runs at 10:00 AM, ..."]. *)
Lemma cron_text_lowercased d c s r :
  notScheduled d = false -> config d = Val c -> scheduler d = Val s ->
  truthy (use_cron_scheduling c) = true -> describeExpression (cron_expression c) = "At " ++ r ->
  exists pt det, cell d = Some (Scheduled ("Runs at " ++ r ++ ", searching within the last "
                                           ++ formatDuration (search_within_ms c) true ++ ". ") pt det).
Proof.
  intros Hn Hc Hs Hcron Hd. rewrite (cell_scheduled d c s) by done.
  rewrite Hcron. unfold describeSchedule. rewrite Hd. by do 2 eexists.
Qed.

End Lemmas.

End SchedulingCell.
