(* ===== verification/DocsHelper.v ===== *)
(** * Links to the documentation (util/DocsHelper.ts)

    [DocsHelper] holds the documentation pages the interface links to and
    builds their URLs under the documentation root, which the branding
    configuration can override ([AppConfig.branding?.()?.help_url], with
    [AppConfig] not in the repository: its answer is an argument here).
    [PAGES] is the object literal as an association list in source order.

    The lemmas show that the page keys are distinct, that every page but
    the welcome page links below the root with one [/], and where an
    overridden root ending in [/] doubles it. *)

From S2P Require Import Prelude.
Set Warnings "-clear-no-such-hyp".

Module DocsHelper.

Local Open Scope string_scope.
#[local] Arguments String.append : simpl nomatch.

Definition defaultDocsUrl : string := "https://go2docs.graylog.org/current".

(** [AppConfig.branding()]'s answer, the field read here. *)
Record Branding := mkBranding { help_url : nullable string }.

(** [AppConfig.branding?.()?.help_url ?? defaultDocsUrl]: the outer
    [nullable] is the [branding] method, the inner one its result. *)
Definition docsUrl (branding : nullable (nullable Branding)) : string :=
  match branding with
  | Val (Val b) => help_url b ?? defaultDocsUrl
  | _ => defaultDocsUrl
  end.

(** [docsHelper.PAGES] *)
Definition PAGES : list (string * string) :=
  [("ALERTS", "interacting_with_your_log_data/alerts.html");
   ("AUDIT_LOG", "interacting_with_your_log_data/audit_log.html");
   ("AUTHENTICATORS", "setting_up_graylog/user_authentication.htm");
   ("AWS_KINESIS_CLOUDWATCH_INPUT", "getting_in_log_data/aws_kinesis_cloudwatch_input.html");
   ("CHANGELOG", "changelogs/changelog.html");
   ("CLUSTER_STATUS_EXPLAINED", "setting_up_graylog/opensearch.htm#ClusterStatusExplained");
   ("COLLECTOR", "getting_in_log_data/graylog_sidecar.html");
   ("COLLECTOR_SIDECAR", "getting_in_log_data/graylog_sidecar.html");
   ("COLLECTOR_STATUS", "getting_in_log_data/getting_started_with_graylog_sidecar.htm#ViewSidecarStatus");
   ("CONFIGURING_ES", "setting_up_graylog/opensearch.htm#GraylogConfigurationSettings");
   ("DASHBOARDS", "interacting_with_your_log_data/dashboards.html");
   ("DECORATORS", "interacting_with_your_log_data/decorators.html");
   ("ENTERPRISE_SETUP", "downloading_and_installing_graylog/installing_graylog.html");
   ("ES_CLUSTER_STATUS_RED", "setting_up_graylog/opensearch.htm#ClusterStatusExplained");
   ("ES_CLUSTER_UNAVAILABLE", "setting_up_graylog/opensearch.htm#GraylogConfigurationSettings");
   ("ES_OPEN_FILE_LIMITS", "setting_up_graylog/opensearch.htm#GraylogConfigurationSettings");
   ("EVENT_PROCEDURES", "what_more_can_graylog_do_for_me/event_procedures.htm");
   ("EXTRACTORS", "making_sense_of_your_log_data/extractors.htm");
   ("GRAYLOG_DATA_NODE", "downloading_and_installing_graylog/install_graylog_data_node.htm");
   ("INDEXER_FAILURES", "getting_in_log_data/indexer_failures.html");
   ("INDEX_MODEL", "setting_up_graylog/index_model.html");
   ("LICENSE", "setting_up_graylog/operations_license_management.html");
   ("LICENSE_MANAGEMENT", "setting_up_graylog/operations_license_management.html");
   ("LOAD_BALANCERS", "setting_up_graylog/load_balancer_integration.html");
   ("LOOKUPTABLES", "making_sense_of_your_log_data/lookup_tables.html");
   ("OPERATIONS_CHANGELOG", "changelogs/operations_changelog.html");
   ("OPEN_SEARCH_SETUP", "setting_up_graylog/opensearch.htm#InstallingOpenSearch");
   ("PAGE_FLEXIBLE_DATE_CONVERTER", "making_sense_of_your_log_data/extractors.htm#Normalization");
   ("PAGE_STANDARD_DATE_CONVERTER", "making_sense_of_your_log_data/extractors.htm#Normalization");
   ("PERMISSIONS", "setting_up_graylog/permission_management.html");
   ("PIPELINE_FUNCTIONS", "making_sense_of_your_log_data/functions.html");
   ("PIPELINE_RULES", "making_sense_of_your_log_data/pipeline_usage.html");
   ("PIPELINES", "making_sense_of_your_log_data/pipelines.html");
   ("REPORTING", "interacting_with_your_log_data/reporting.html");
   ("ROLLING_ES_UPGRADE", "setting_up_graylog/opensearch.htm#UpgradingtoOpenSearch");
   ("SEARCH_FILTERS", "making_sense_of_your_log_data/search_filters.htm");
   ("SEARCH_QUERY_ERRORS", "making_sense_of_your_log_data/writing_search_queries.html#ErrorTypes");
   ("SEARCH_QUERY_LANGUAGE", "making_sense_of_your_log_data/writing_search_queries.html");
   ("SECURITY_EVENTS", "what_more_can_graylog_do_for_me/security_events.htm");
   ("STREAMS", "making_sense_of_your_log_data/streams.html");
   ("STREAM_PROCESSING_RUNTIME_LIMITS", "making_sense_of_your_log_data/stream_processing.htm#StreamProcessingRuntimeLimits");
   ("TIME_FRAME_SELECTOR", "making_sense_of_your_log_data/time_frame_selector.html");
   ("UPGRADE_GUIDE", "upgrading_graylog/upgrading_graylog.html");
   ("USERS_ROLES", "setting_up_graylog/users_teams.htm");
   ("DATA_LAKE_PREVIEW", "setting_up_graylog/data_lake_preview.htm");
   ("WELCOME", "");
   ("DATA_TIERING", "setting_up_graylog/data_tiering.htm");
   ("DATA_TIERING_WARM_TIER_SETUP", "setting_up_graylog/data_tiering.htm#PrepareYourEnvironmentforaWarmTier")].

(** [PAGES[k]] *)
Definition page (k : string) : option string :=
  option_map snd (List.find (fun kv => String.eqb kv.1 k) PAGES).

(** [docsHelper.toString(path)] with [this.DOCS_URL = docsUrl]. *)
Definition toString (branding : nullable (nullable Branding)) (path : string) : string :=
  let baseUrl := docsUrl branding in
  if String.eqb path "" then baseUrl else baseUrl ++ "/" ++ path.

(** [docsHelper.versionedDocsHomePage()] *)
Definition versionedDocsHomePage (branding : nullable (nullable Branding)) : string :=
  toString branding "".

(** [SupportSources] (components/support/SupportSources.tsx): the
    documentation link, for [DocsHelper.PAGES.WELCOME], and the three
    outside sources with their icons. [DocumentationLink] (not in the
    repository) links its [page] through [DocsHelper.toString]. *)
Record SupportSourcesView := mkSupportSourcesView {
  documentation_href : option string;
  sources : list (string * string * string)      (* icon, text, href *)
}.

Definition SupportSources (branding : nullable (nullable Branding)) : SupportSourcesView :=
  mkSupportSourcesView
    (toString branding <$> page "WELCOME")
    [("group", "Community support", "https://www.graylog.org/community-support/");
     ("bug_report", "Issue tracker", "https://github.com/Graylog2/graylog2-server/issues");
     ("favorite", "Professional support", "https://www.graylog.org/professional-support")].

(** ** Lemmas *)

Lemma PAGES_keys_distinct : NoDup (map fst PAGES).
Proof. decide_nodup. Qed.

(** Only the welcome page is the empty path. *)
Lemma page_empty k : page k = Some "" <-> k = "WELCOME".
Proof.
  split; [|by intros ->]. unfold page. cbn [List.find PAGES].
  repeat (match goal with |- context [String.eqb ?a k] => destruct (String.eqb_spec a k) as [<-|_] end;
          [done|]).
  done.
Qed.

(** Every page but the welcome page links below the documentation root,
    joined with one [/]; the welcome page is the root. *)
Lemma page_link b k p :
  page k = Some p ->
  toString b p = (if bool_decide (k = "WELCOME") then docsUrl b else docsUrl b ++ "/" ++ p).
Proof.
  intros Hp. unfold toString. case_bool_decide as Hk.
  - subst k. by vm_compute in Hp; injection Hp as <-.
  - destruct (String.eqb_spec p "") as [->|]; [|done]. by apply page_empty in Hp.
Qed.

(** The "documentation" link of the support sources is the versioned
    documentation's home page, whatever the branding. *)
Lemma SupportSources_documentation b :
  documentation_href (SupportSources b) = Some (versionedDocsHomePage b).
Proof.
  unfold SupportSources. cbn [documentation_href].
  replace (page "WELCOME") with (Some ""); [reflexivity|symmetry; by apply page_empty].
Qed.

(** The root is the branding's [help_url] when it has one, kept as it is:
    a [help_url] ending in [/] gives links with [//]. *)
Lemma docsUrl_branding u :
  docsUrl (Val (Val (mkBranding (Val u)))) = u /\
  toString (Val (Val (mkBranding (Val (u ++ "/"))))) "a" = u ++ "//a".
Proof.
  split; [done|]. unfold toString, docsUrl. cbn [help_url coalesce].
  change (String.eqb "a" "") with false. cbv beta iota.
  induction u as [|c u IH]; simpl in *; [done|]. by rewrite IH.
Qed.

End DocsHelper.
