(* ===== verification/SystemMessages.v ===== *)
(** * The system messages page
      (components/systemmessages/SystemMessagesComponent.jsx)

    The page lists the messages the server nodes generate, thirty to a
    page. It loads the current page on mount, reloads the current page
    every second, and loads a page when the user selects it. Every load is
    a request ([SystemMessagesStore.all(page)]), and its answer is merged
    into the state with [setState(response)] whenever it arrives.

    The state is [currentPage] with the merged [messages] and [total], the
    pages of the requests still pending (in the order they were sent), and
    whether the interval runs. Answers can arrive in any order:
    [Resolve k] answers the [k]-th pending request. An answer that arrives
    after unmounting changes nothing. The store is not in the repository;
    its answer is a record with [messages] and [total].

    A selection comes from the [Pagination] the render shows only when
    [total && messages] is truthy; [Pagination] (not in the repository)
    offers the pages [1] to [totalPages]. A run lets through a selection
    only when the mounted page shows its pagination and the page is one
    it offers ([enabled]).

    The lemmas show that the interval requests the page shown at each tick,
    that no request is made after unmounting, that the number of pages
    covers the total, and that, from any state that shows the list, an
    answer of the interval's reload that arrives late replaces the
    messages of the page the user selected since. *)

From S2P Require Import Prelude.
Set Warnings "-clear-no-such-hyp".

Module SystemMessages.

Section Page.

Context {Message : Type}.

(** [PER_PAGE] *)
Definition PER_PAGE : Z := 30.

(** [SystemMessagesStore.all(page)]'s answer. *)
Record Response := mkResponse { r_messages : list Message; r_total : Z }.

Record State := mkState {
  currentPage : Z;
  messages : nullable (list Message);
  total : nullable Z;
  pending : list Z;          (* the pages of the requests not answered yet *)
  interval : bool;           (* the setInterval of componentDidMount runs *)
  mounted : bool
}.

(** [constructor]: [{ currentPage: 1 }]. *)
Definition init : State := mkState 1 Undefined Undefined [] false false.

Inductive Event :=
| Mount                                   (* componentDidMount *)
| Tick                                    (* the interval's callback *)
| Select (selectedPage : Z)               (* _onSelected, from the pagination *)
| Resolve (k : nat) (response : Response) (* the k-th pending request is answered *)
| Unmount.                                (* componentWillUnmount *)

(** [loadMessages(page)]: one more pending request. *)
Definition loadMessages (s : State) (page : Z) : State :=
  mkState (currentPage s) (messages s) (total s) (pending s ++ [page]) (interval s) (mounted s).

(** [this.setState(response)] *)
Definition merge_response (s : State) (r : Response) : State :=
  mkState (currentPage s) (Val (r_messages r)) (Val (r_total r)) (pending s) (interval s) (mounted s).

Definition remove_nth (k : nat) (l : list Z) : list Z := take k l ++ drop (S k) l.

Definition step (s : State) (e : Event) : State :=
  match e with
  | Mount =>
      let s1 := loadMessages s (currentPage s) in
      mkState (currentPage s1) (messages s1) (total s1) (pending s1) true true
  | Tick => if interval s then loadMessages s (currentPage s) else s
  | Select p => loadMessages (mkState p (messages s) (total s) (pending s) (interval s) (mounted s)) p
  | Resolve k r =>
      if bool_decide (k < length (pending s)) then
        let s1 := mkState (currentPage s) (messages s) (total s) (remove_nth k (pending s)) (interval s) (mounted s) in
        if mounted s then merge_response s1 r else s1
      else s
  | Unmount => mkState (currentPage s) (messages s) (total s) (pending s) false false
  end.

(** [Math.ceil(total / this.PER_PAGE)] on integers. *)
Definition numberPages (t : Z) : Z := (t + PER_PAGE - 1) / PER_PAGE.

(** What [render] shows: the list with its pagination, or the spinner
    while [total && messages] is falsy ([0] is falsy). *)
Inductive View :=
| Spinner
| MessagesList (msgs : list Message) (totalPages currentPage : Z).

Definition view (s : State) : View :=
  match total s, messages s with
  | Val t, Val msgs => if Z.eqb t 0 then Spinner else MessagesList msgs (numberPages t) (currentPage s)
  | _, _ => Spinner
  end.

(** The events a user or the browser can cause: a selection needs the
    mounted page to show its pagination, and a page it offers. *)
Definition enabled (s : State) (e : Event) : bool :=
  match e with
  | Select p =>
      mounted s && match view s with
                   | MessagesList _ n _ => bool_decide (1 <= p <= n)%Z
                   | Spinner => false
                   end
  | _ => true
  end.

Definition step_ui (s : State) (e : Event) : State := if enabled s e then step s e else s.

Definition run (s : State) (es : list Event) : State := fold_left step_ui es s.

End Page.

Arguments State : clear implicits.
Arguments Response : clear implicits.

(** ** Lemmas *)

Section Lemmas.

Context {M : Type}.

Lemma sm_run_cons (s : State M) e es : run s (e :: es) = run (step_ui s e) es.
Proof. done. Qed.

(** While mounted, each tick requests the page shown at that moment. *)
Lemma tick_requests_current (s : State M) :
  interval s = true -> pending (step s Tick) = pending s ++ [currentPage s].
Proof. intros Hi. simpl. by rewrite Hi. Qed.

(** After unmounting, no event but a selection sends a request: the
    interval is cleared. *)
Lemma no_request_after_unmount (s : State M) es :
  Forall (fun e => match e with Select _ | Mount => False | _ => True end) es ->
  length (pending (run (step s Unmount) es)) <= length (pending s).
Proof.
  assert (Hgen : forall (s' : State M), interval s' = false ->
            Forall (fun e => match e with Select _ | Mount => False | _ => True end) es ->
            length (pending (run s' es)) <= length (pending s') /\ interval (run s' es) = false).
  { induction es as [|e es IH]; intros s' Hi Hes; [done|]. inversion Hes as [|? ? He Hes']; subst.
    assert (Hrm : forall k, length (remove_nth k (pending s')) <= length (pending s'))
      by (intros k; unfold remove_nth; rewrite length_app, length_take, length_drop; lia).
    rewrite sm_run_cons. destruct e as [| | |k r|]; try done; cbn [step_ui enabled step]; [rewrite Hi| |];
      [| case_bool_decide; [destruct (mounted s')|] |];
      match goal with
      | |- length (pending (run ?x es)) <= _ /\ _ =>
          destruct (IH x ltac:(done) Hes') as [Hl' Hi'']; cbn [pending interval merge_response] in *;
          split; [try specialize (Hrm k); lia|exact Hi'']
      end. }
  intros Hes. destruct (Hgen (step s Unmount) eq_refl Hes) as [H _]. exact H.
Qed.

(** [numberPages] pages of thirty hold a positive total, and one page less
    does not. *)
Lemma numberPages_bounds (t : Z) :
  (0 < t -> (numberPages t - 1) * PER_PAGE < t <= numberPages t * PER_PAGE)%Z.
Proof. intros Ht. unfold numberPages, PER_PAGE. split; [|]; Z.div_mod_to_equations; lia. Qed.

Lemma step_ui_enabled (s : State M) e : enabled s e = true -> step_ui s e = step s e.
Proof. unfold step_ui. by intros ->. Qed.

(** An answer always arrives: [enabled] lets every [Resolve] through. *)
Lemma step_ui_resolve (s : State M) k r : step_ui s (Resolve k r) = step s (Resolve k r).
Proof. done. Qed.

(** C22. Take any state whose mounted page shows the list, at page
    [p], with the interval running. The interval reloads page [p], and the
    user selects another page [q] the pagination offers. If [q]'s answer
    arrives first and the reload's answer last, the page shows the
    reloaded messages of page [p] under the pagination's page [q]: every
    answer is merged whatever page it was requested for. *)
Lemma late_answer_overwrites (s : State M) msgs n p q (r_old r_new : Response M) :
  mounted s = true -> interval s = true ->
  view s = MessagesList msgs n p -> (1 <= q <= n)%Z ->
  (0 < r_total r_old)%Z ->
  view (run s [Tick; Select q; Resolve (S (length (pending s))) r_new; Resolve (length (pending s)) r_old])
  = MessagesList (r_messages r_old) (numberPages (r_total r_old)) q.
Proof.
  intros Hm Hi Hv Hq Ht. unfold run. cbn [fold_left].
  assert (step_ui s Tick = loadMessages s (currentPage s)) as -> by (unfold step_ui; simpl; by rewrite Hi).
  assert (enabled (loadMessages s (currentPage s)) (Select q) = true) as En.
  { unfold enabled. change (view (loadMessages s (currentPage s))) with (view s). rewrite Hv.
    cbn [mounted loadMessages]. rewrite Hm. simpl. by apply bool_decide_eq_true_2. }
  rewrite (step_ui_enabled _ _ En), !step_ui_resolve.
  cbn [step loadMessages pending mounted currentPage]. rewrite Hm.
  rewrite (bool_decide_eq_true_2 (S (length (pending s)) < length ((pending s ++ [currentPage s]) ++ [q])))
    by (rewrite !length_app; simpl; lia).
  cbn [merge_response pending mounted].
  rewrite bool_decide_eq_true_2
    by (unfold remove_nth; rewrite length_app, length_take, length_drop, !length_app; cbn [length]; lia).
  unfold view. cbn [total messages merge_response currentPage].
  by destruct (Z.eqb_spec (r_total r_old) 0); [lia|].
Qed.

End Lemmas.

(** A page reached from the initial state: mounted, with the first
    answer (31 messages, two pages) shown. *)
Lemma late_answer_overwrites_witness :
  let s := run init [Mount; Resolve 0 (mkResponse [0%Z] 31)] in
  mounted s = true /\ interval s = true /\ view s = MessagesList [0%Z] 2 1 /\ (1 <= 2 <= 2)%Z /\
  (0 < r_total (mkResponse [1%Z] 31))%Z /\
  view (run s [Tick; Select 2; Resolve (S (length (pending s))) (mkResponse [2%Z] 31);
                Resolve (length (pending s)) (mkResponse [1%Z] 31)])
  = MessagesList [1%Z] (numberPages 31) 2.
Proof.
  intros s. split; [reflexivity|]. split; [reflexivity|]. split; [reflexivity|]. split; [lia|].
  split; [simpl; lia|].
  apply (late_answer_overwrites s [0%Z] 2 1 2 (mkResponse [1%Z] 31) (mkResponse [2%Z] 31));
    [reflexivity|reflexivity|reflexivity|lia|simpl; lia].
Defined.

End SystemMessages.
