(* ===== verification/SearchBarView.v ===== *)
(** * What the search bar renders and validates
      (views/components/SearchBar.tsx, 147-357)

    Besides the submit decision of [SearchBar], the search bar computes:
    - the stream options of the stream filter, one [{ key: title, value:
      id }] per stream ([availableStreams]);
    - the stream category options: every category of every stream, the
      duplicates removed by keeping the first occurrence
      ([index === self.findIndex(e => e.value === element.value)]), sorted
      with [defaultCompare] ([availableStreamCategories]);
    - the request [_validateQueryString] hands to the debounced query
      validation, where the plugins' validation payload is spread over the
      form's fields;
    - the decisions of the render: the spinner while there is no query or
      no search configuration, when the search button is disabled or
      spins, when the refresh controls are disabled and whether the search
      actions menu is shown ([view]).

    [defaultCompare] (logic/DefaultCompare), the plugins' payload
    ([pluggableValidationPayload]) and [moment.duration(..).asSeconds()]
    are not in src/ and are section variables. The form values and the
    request are objects of dynamic values. The duplicate filter is proved
    equal to a one-pass reference, [dedup_first]. *)

From S2P Require Import Prelude JsValue.
Set Warnings "-clear-no-such-hyp".

Module SearchBarView.

Local Open Scope string_scope.

(** An option of a select: [{ key, value }]. *)
Record SelectOption := mkOption { key : string; value : string }.

(** A stream of the [StreamsStore], the fields read here. *)
Record Stream := mkStream { s_id : string; s_title : string; categories : nullable (list string) }.

(** [streams.map((stream) => ({ key: stream.title, value: stream.id }))] *)
Definition availableStreams (streams : list Stream) : list SelectOption :=
  map (fun s => mkOption (s_title s) (s_id s)) streams.

(** [streams.flatMap(...)]: a stream without categories contributes
    nothing; an array, even empty, is truthy. *)
Definition category_options (streams : list Stream) : list SelectOption :=
  flat_map (fun s => match categories s with
                     | Val cs => map (fun c => mkOption c c) cs
                     | _ => []
                     end) streams.

(** [self.findIndex(p)]: the first index where [p] holds, or [-1]. *)
Fixpoint find_index {A} (p : A -> bool) (l : list A) : option nat :=
  match l with
  | [] => None
  | x :: l' => if p x then Some 0 else option_map S (find_index p l')
  end.

Definition findIndex {A} (p : A -> bool) (l : list A) : Z :=
  match find_index p l with Some i => Z.of_nat i | None => (-1)%Z end.

(** [self.filter((element, index, self) => ...)] *)
Fixpoint filter_from {A} (f : A -> nat -> list A -> bool) (self : list A) (i : nat) (rest : list A) : list A :=
  match rest with
  | [] => []
  | x :: rest' => if f x i self then x :: filter_from f self (S i) rest' else filter_from f self (S i) rest'
  end.

Definition filter_with_index {A} (f : A -> nat -> list A -> bool) (l : list A) : list A :=
  filter_from f l 0 l.

(** [index === self.findIndex((e) => e.value === element.value)] *)
Definition first_occurrence (element : SelectOption) (index : nat) (self : list SelectOption) : bool :=
  Z.eqb (Z.of_nat index) (findIndex (fun e => String.eqb (value e) (value element)) self).

Section Render.

(** [defaultCompare] *)
Variable defaultCompare : string -> string -> Z.

(** [availableStreamCategories] *)
Definition availableStreamCategories (streams : list Stream) : list SelectOption :=
  sort_by (fun a b => defaultCompare (value a) (value b))
    (filter_with_index first_occurrence (category_options streams)).

(** [pluggableValidationPayload(values, context, pluggableSearchBarControls)] *)
Variable pluggableValidationPayload : nullable (list (string * jval)) -> list (string * jval).

(** [values?.k] *)
Definition opt_get (values : nullable (list (string * jval))) (k : string) : jval :=
  match values with Val m => mget_u k m | _ => JUndef end.

(** [{ ...a, ...b }] on plain objects: a key of [b] overwrites the value
    of [a] in place, a new key is appended. *)
Definition spread (a b : list (string * jval)) : list (string * jval) :=
  fold_left (fun acc '(k, v) => mset k v acc) b a.

(** The request of [_validateQueryString], handed with [userTimezone] to
    [debouncedValidateQuery]. *)
Definition _validateQueryString (values : nullable (list (string * jval))) : list (string * jval) :=
  spread [("timeRange", opt_get values "timerange"); ("streams", opt_get values "streams");
          ("streamCategories", opt_get values "streamCategories");
          ("queryString", opt_get values "queryString")]
         (pluggableValidationPayload values).

(** [moment.duration(config.query_time_range_limit).asSeconds()] *)
Variable asSeconds : jval -> Z.

(** The form's state as SearchBarForm passes it to its children. *)
Record FormState := mkFormState { dirty : bool; isSubmitting : bool; isValid : bool; isValidating : bool }.

(** What the render decides. *)
Record View := mkView {
  limitDuration : Z;
  searchDisabled : bool;      (* SearchButton disabled, and the query input's disableExecution *)
  searchDirty : bool;         (* SearchButton dirty *)
  displaySpinner : bool;      (* SearchButton displaySpinner *)
  refreshDisabled : bool;     (* ViewsRefreshControls disable *)
  actionsMenu : bool          (* SearchActionsMenu is rendered *)
}.

(** [SearchBar]'s render: [None] is the [<Spinner />] shown while there is
    no current query or no search configuration. *)
Definition view (hasQuery : bool) (config : nullable jval) (isLoadingExecution : bool)
    (editing : nullable bool) (fs : FormState) : option View :=
  match config with
  | Val c =>
      if negb hasQuery then None else
      let disableSearchSubmit := isSubmitting fs || isValidating fs || negb (isValid fs) || isLoadingExecution in
      Some (mkView (asSeconds (match c with JMap m => mget_u "query_time_range_limit" m | _ => JUndef end))
              disableSearchSubmit (dirty fs) (isSubmitting fs || isLoadingExecution) (negb (isValid fs))
              (negb (editing ?? false)))
  | _ => None
  end.

End Render.

(** The one-pass reference for the duplicate filter: keep an option when
    its value was not seen before. *)
Fixpoint dedup_first (seen : list string) (l : list SelectOption) : list SelectOption :=
  match l with
  | [] => []
  | x :: l' =>
      if existsb (String.eqb (value x)) seen then dedup_first seen l'
      else x :: dedup_first (seen ++ [value x]) l'
  end.

(** ** Lemmas *)

Lemma find_index_app {A} (p : A -> bool) l1 l2 :
  find_index p (l1 ++ l2)
  = match find_index p l1 with Some i => Some i | None => option_map (Nat.add (length l1)) (find_index p l2) end.
Proof.
  induction l1 as [|x l1 IH]; simpl; [by destruct (find_index p l2)|].
  destruct (p x); [done|]. rewrite IH. by destruct (find_index p l1), (find_index p l2).
Qed.

Lemma find_index_bound {A} (p : A -> bool) l i : find_index p l = Some i -> i < length l.
Proof.
  revert i. induction l as [|x l IH]; intros i; simpl; [done|].
  destruct (p x); [intros [= <-]; lia|]. destruct (find_index p l) as [j|]; [|done].
  intros [= <-]. specialize (IH j eq_refl). lia.
Qed.

(** A value was seen before exactly when [findIndex] finds it in the
    prefix. *)
Lemma existsb_find_index v l :
  existsb (String.eqb v) (map value l) = negb (bool_decide (find_index (fun e => String.eqb (value e) v) l = None)).
Proof.
  induction l as [|x l IH]; simpl; [done|]. rewrite IH, String.eqb_sym.
  destruct (String.eqb (value x) v); simpl; [done|].
  by destruct (find_index _ l).
Qed.

Lemma dedup_first_ext s1 s2 l :
  (forall v, existsb (String.eqb v) s1 = existsb (String.eqb v) s2) ->
  dedup_first s1 l = dedup_first s2 l.
Proof.
  revert s1 s2. induction l as [|x l IH]; intros s1 s2 Hs; simpl; [done|].
  rewrite Hs. destruct (existsb (String.eqb (value x)) s2); [by apply IH|].
  f_equal. apply IH. intros v. rewrite !existsb_app, Hs. done.
Qed.

Lemma filter_from_dedup pre rest :
  filter_from first_occurrence (pre ++ rest) (length pre) rest = dedup_first (map value pre) rest.
Proof.
  revert pre. induction rest as [|x rest IH]; intros pre; [done|]. cbn [filter_from dedup_first].
  unfold first_occurrence, findIndex. rewrite find_index_app, existsb_find_index. simpl.
  rewrite String.eqb_refl.
  replace (pre ++ x :: rest)%list with ((pre ++ [x]) ++ rest)%list by by rewrite <- app_assoc.
  destruct (find_index (fun e => String.eqb (value e) (value x)) pre) as [i|] eqn:Hi; cbn [option_map negb].
  - pose proof Hi as Hi'. apply find_index_bound in Hi. rewrite (proj2 (Z.eqb_neq _ _)) by lia.
    replace (S (length pre)) with (length (pre ++ [x])%list) by (rewrite length_app; simpl; lia).
    rewrite IH, map_app. apply dedup_first_ext. intros v. rewrite existsb_app. simpl.
    destruct (String.eqb_spec v (value x)) as [->|]; [|by rewrite orb_false_r].
    rewrite existsb_find_index, Hi'. by rewrite orb_true_r.
  - rewrite Nat.add_0_r, Z.eqb_refl. f_equal.
    replace (S (length pre)) with (length (pre ++ [x])%list) by (rewrite length_app; simpl; lia).
    by rewrite IH, map_app.
Qed.

(** C29. The duplicate filter of the search bar's category options,
    [index === self.findIndex(e => e.value === element.value)], computes
    the one-pass reference [dedup_first]: it keeps the first option of
    every value, in order. *)
Theorem filter_first_occurrence_dedup l :
  filter_with_index first_occurrence l = dedup_first [] l.
Proof. apply (filter_from_dedup [] l). Qed.

Lemma existsb_eqb_elem v seen : existsb (String.eqb v) seen = true <-> v ∈ seen.
Proof.
  rewrite existsb_exists, list_elem_of_In. split.
  - intros (w & Hw & ->%String.eqb_eq). done.
  - intros Hv. exists v. by rewrite String.eqb_refl.
Qed.

Lemma dedup_first_NoDup seen l :
  NoDup seen -> NoDup (seen ++ map value (dedup_first seen l)).
Proof.
  revert seen. induction l as [|x l IH]; intros seen Hs; simpl; [by rewrite app_nil_r|].
  destruct (existsb (String.eqb (value x)) seen) eqn:Hx; [by apply IH|].
  simpl. replace (seen ++ value x :: map value (dedup_first (seen ++ [value x]) l))%list
    with ((seen ++ [value x]) ++ map value (dedup_first (seen ++ [value x]) l))%list
    by by rewrite <- app_assoc.
  apply IH. apply NoDup_app. split; [done|]. split; [|by apply NoDup_singleton].
  intros v Hv ->%list_elem_of_singleton. apply existsb_eqb_elem in Hv. congruence.
Qed.

Lemma dedup_first_sub seen l o : o ∈ dedup_first seen l -> o ∈ l.
Proof.
  revert seen. induction l as [|x l IH]; intros seen; simpl; [done|].
  destruct (existsb _ seen); [intros; right; by eapply IH|].
  rewrite !elem_of_cons. intros [->|]; [by left|right; by eapply IH].
Qed.

Lemma dedup_first_elem seen l v :
  v ∈ seen \/ v ∈ map value (dedup_first seen l) <-> v ∈ seen \/ v ∈ map value l.
Proof.
  revert seen. induction l as [|x l IH]; intros seen; simpl; [done|].
  destruct (existsb (String.eqb (value x)) seen) eqn:Hx.
  - apply existsb_eqb_elem in Hx. rewrite IH, elem_of_cons.
    split; [naive_solver|]. intros [|[->|]]; naive_solver.
  - simpl. rewrite elem_of_cons. pose proof (IH (seen ++ [value x])%list) as H.
    rewrite elem_of_app, list_elem_of_singleton in H. rewrite elem_of_cons. naive_solver.
Qed.

Section Categories.

Variable defaultCompare : string -> string -> Z.

(** C2. The stream category options of the search bar hold every category
    of every stream exactly once, with the category as both key and value:
    the first-occurrence filter removes exactly the duplicates, and the
    sort only reorders. *)
Theorem availableStreamCategories_spec streams :
  let opts := availableStreamCategories defaultCompare streams in
  NoDup (map value opts) /\ Forall (fun o => key o = value o) opts /\
  (forall v, v ∈ map value opts <->
             exists st cs, st ∈ streams /\ categories st = Val cs /\ v ∈ cs).
Proof.
  intros opts. assert (Hp : opts ≡ₚ dedup_first [] (category_options streams)).
  { subst opts. unfold availableStreamCategories. by rewrite sort_by_perm, filter_first_occurrence_dedup. }
  split; [|split].
  - rewrite Hp. apply (dedup_first_NoDup [] _ (NoDup_nil_2)).
  - rewrite Hp. apply Forall_forall. intros o Ho.
    assert (Ho' : o ∈ category_options streams) by (apply (dedup_first_sub []); exact Ho).
    clear Ho. rename Ho' into Ho. unfold category_options in Ho. rewrite list_elem_of_In, in_flat_map in Ho.
    destruct Ho as (st & _ & Hin). destruct (categories st); [done|done|].
    by apply in_map_iff in Hin as (c & <- & _).
  - intros v. rewrite Hp. pose proof (dedup_first_elem [] (category_options streams) v) as H.
    rewrite elem_of_nil in H. transitivity (v ∈ map value (category_options streams)); [naive_solver|].
    unfold category_options. rewrite list_elem_of_In, in_map_iff. setoid_rewrite in_flat_map. split.
    + intros (o & <- & st & Hst & Hin). destruct (categories st) as [| |cs] eqn:Hc; [done|done|].
      apply in_map_iff in Hin as (c & <- & Hc'). exists st, cs. rewrite !list_elem_of_In. done.
    + intros (st & cs & Hst & Hc & Hv). exists (mkOption v v). split; [done|].
      exists st. rewrite <- list_elem_of_In. split; [done|]. rewrite Hc. apply in_map_iff.
      exists v. by rewrite <- list_elem_of_In.
Qed.

End Categories.

Lemma spread_get_other k a b : k ∉ map fst b -> mget_u k (spread a b) = mget_u k a.
Proof.
  revert a. induction b as [|[k' v] b IH]; intros a Hk; simpl; [done|].
  cbn [map fst] in Hk. rewrite not_elem_of_cons in Hk. destruct Hk as [Hne Hk].
  rewrite IH by done. by apply mget_mset_other.
Qed.

Lemma spread_get_last k v a b : mget_u k (spread a (b ++ [(k, v)])) = v.
Proof. unfold spread. rewrite fold_left_app. simpl. apply mget_mset. Qed.

Section Validate.

Variable payload : nullable (list (string * jval)) -> list (string * jval).

(** The plugins' validation payload is spread last: a plugin key named
    like a field of the form replaces the form's value in the validation
    request, and a field no plugin names is sent as the form has it. *)
Lemma validate_request_fields values b v rk fk :
  payload values = (b ++ [("queryString", v)])%list ->
  (rk, fk) ∈ [("timeRange", "timerange"); ("streams", "streams"); ("streamCategories", "streamCategories")] ->
  rk ∉ map fst (payload values) ->
  mget_u "queryString" (_validateQueryString payload values) = v /\
  mget_u rk (_validateQueryString payload values) = opt_get values fk.
Proof.
  intros Hp Hk Hn. unfold _validateQueryString. split; [by rewrite Hp, spread_get_last|].
  rewrite spread_get_other by done.
  repeat (apply elem_of_cons in Hk as [[= -> ->]|Hk]; [done|]). by apply elem_of_nil in Hk.
Qed.

End Validate.

End SearchBarView.
