(* ===== verification/TimeRangeFilter.v ===== *)
(** * The time range filter of the search bar
      (views/components/searchbar/time-range-filter/TimeRangeFilter.tsx)

    The filter shows the current time range, the buttons that open the
    time range picker, and the buttons that move the range. Its only state
    is [show], whether the picker is open. [toggleShow] flips it and sends
    the [SEARCH_TIMERANGE_PICKER_TOGGLED] telemetry event with the new
    state; [hideTimeRangeDropDown] toggles only while the picker is open.
    Before rendering, the filter throws an [Error] when it is given a time
    range whose [type] is not one of its [validTypes].

    The value is a dynamic value ([jval]). Its default,
    [NO_TIMERANGE_OVERRIDE] (views/Constants, not in the repository), and
    [getPathnameWithoutId] (util/URLUtils) are section variables. The
    event name is read from the telemetry table of [Telemetry], so the
    file also shows that the key the component uses exists there. A thrown
    [TypeError] ([in] on a primitive) is [None]. *)

From S2P Require Import Prelude JsValue Telemetry.
Set Warnings "-clear-no-such-hyp".

Module TimeRangeFilter.
Import Telemetry.

Local Open Scope string_scope.

Section Filter.

Variable NO_TIMERANGE_OVERRIDE : jval.
Variable getPathnameWithoutId : string -> string.

(** The props the render and the handlers read. *)
Record Props := mkProps {
  validTypes : nullable (list string);
  value : nullable jval;
  moveRangeProps : nullable jval;
  pathname : string                    (* useLocation().pathname *)
}.

(** [value = NO_TIMERANGE_OVERRIDE]: the default replaces [undefined]
    only. *)
Definition value_or_default (p : Props) : jval :=
  match value p with Undefined => NO_TIMERANGE_OVERRIDE | Null => JNull | Val v => v end.

(** ['type' in value], after [value] was found truthy: a [TypeError] on a
    primitive. *)
Definition has_type_key (v : jval) : option bool :=
  match v with
  | JMap m => Some (bool_decide (is_Some (mget "type" m)))
  | JList _ => Some false
  | _ => None
  end.

(** [validTypes.includes(value?.type)] *)
Definition includes_type (l : list string) (v : jval) : bool :=
  match v with JMap m => match mget_u "type" m with JStr t => bool_decide (t ∈ l) | _ => false end | _ => false end.

(** What the render passes down. *)
Record View := mkView {
  picker_show : bool;                  (* TimeRangePicker show *)
  currentTimeRange : jval;
  dropdownButtons : bool;              (* TimeRangeFilterButtons are rendered *)
  moveRangeButtons : bool              (* MoveRange displayMoveRangeButtons *)
}.

Inductive Render := Rendered (v : View) | Thrown (message : string).

(** The check at the top of [TimeRangeFilter], then the render. *)
Definition render (p : Props) (showDropdownButton : bool) (show : bool) : option Render :=
  let v := value_or_default p in
  let rendered := Rendered (mkView show v showDropdownButton (match moveRangeProps p with Val m => truthy m | _ => false end)) in
  match validTypes p with
  | Val l =>
      if truthy v then
        match has_type_key v with
        | Some true =>
            if includes_type l v then Some rendered
            else Some (Thrown ("Value is of type " ++ js_string (match v with JMap m => mget_u "type" m | _ => JUndef end)
                               ++ ", but only these types are valid: " ++ js_string (JList (map JStr l))))
        | Some false => Some rendered
        | None => None
        end
      else Some rendered
  | _ => Some rendered
  end.

(** The telemetry event [toggleShow] sends. *)
Record TelemetryEvent := mkTelemetry {
  event_type : option string;          (* TELEMETRY_EVENT_TYPE.SEARCH_TIMERANGE_PICKER_TOGGLED *)
  app_pathname : string;
  app_section : string;
  app_action_value : string;
  showing : bool
}.

(** [toggleShow()] *)
Definition toggleShow (p : Props) (show : bool) : bool * list TelemetryEvent :=
  (negb show, [mkTelemetry (lookup_event ["SEARCH_TIMERANGE_PICKER_TOGGLED"] TELEMETRY_EVENT_TYPE)
                 (getPathnameWithoutId (pathname p)) "search-bar" "time-range-picker" (negb show)]).

(** [hideTimeRangeDropDown()]: [show && toggleShow()]. *)
Definition hideTimeRangeDropDown (p : Props) (show : bool) : bool * list TelemetryEvent :=
  if show then toggleShow p show else (show, []).

Inductive Event := Toggle | Hide.

Definition step (p : Props) (show : bool) (e : Event) : bool * list TelemetryEvent :=
  match e with Toggle => toggleShow p show | Hide => hideTimeRangeDropDown p show end.

Fixpoint run (p : Props) (show : bool) (es : list Event) : bool * list TelemetryEvent :=
  match es with
  | [] => (show, [])
  | e :: es' => let '(s1, t1) := step p show e in let '(s2, t2) := run p s1 es' in (s2, (t1 ++ t2)%list)
  end.

End Filter.

(** ** Lemmas *)

(** The key the component reads names an event of the telemetry table. *)
Lemma toggle_event_name : lookup_event ["SEARCH_TIMERANGE_PICKER_TOGGLED"] TELEMETRY_EVENT_TYPE
                          = Some "Search TimeRange Picker Toggled".
Proof. reflexivity. Qed.

Section Runs.

Context (nto : jval) (gp : string -> string) (p : Props).

(** After any sequence of toggles and hides, the last telemetry event
    reports the picker's state, every event carries the toggled event's
    name, and no event leaves the state unchanged without telemetry but a
    hide of a closed picker. *)
Lemma run_telemetry_tracks_show show es :
  let '(show', ts) := run gp p show es in
  Forall (fun t => event_type t = Some "Search TimeRange Picker Toggled") ts /\
  match last ts with Some t => showing t = show' | None => show' = show end.
Proof.
  revert show. induction es as [|e es IH]; intros show; simpl; [done|].
  specialize (IH (fst (step gp p show e))).
  destruct (step gp p show e) as [s1 t1] eqn:Hs. simpl in IH.
  destruct (run gp p s1 es) as [s2 t2]. destruct IH as [Hf Hl]. split.
  - apply Forall_app. split; [|done].
    destruct e; simpl in Hs; [|destruct show]; injection Hs as _ <-; repeat constructor.
  - rewrite last_app. destruct (last t2) as [t|]; [done|]. subst s2.
    destruct e; simpl in Hs; [|destruct show]; injection Hs as <- <-; done.
Qed.

(** [hideTimeRangeDropDown] always leaves the picker closed, and sends
    telemetry only when it was open. *)
Lemma hide_closes show :
  step gp p show Hide = (false, if show then snd (toggleShow gp p true) else []).
Proof. by destruct show. Qed.

(** The component throws its [Error] exactly for a value with a [type]
    key whose value is not one of [validTypes]; a value without [type]
    (such as the default override) is accepted. *)
Lemma render_throws b show :
  (exists msg, render nto p b show = Some (Thrown msg)) <->
  exists l m, validTypes p = Val l /\ value_or_default nto p = JMap m /\
              is_Some (mget "type" m) /\ includes_type l (JMap m) = false.
Proof.
  unfold render. destruct (validTypes p) as [| |l]; [naive_solver|naive_solver|].
  destruct (value_or_default nto p) as [| | | | | |m]; cbn [truthy has_type_key];
    try (split; [intros [msg H]; repeat case_match; congruence|naive_solver]).
  case_bool_decide as Ht; destruct (includes_type l (JMap m)) eqn:Hi; split.
  - by intros [msg ?].
  - intros (l0 & m0 & [= <-] & [= <-] & _ & H). congruence.
  - intros _. by exists l, m.
  - intros _. by eexists.
  - by intros [msg ?].
  - intros (l0 & m0 & [= <-] & [= <-] & H & _). done.
  - by intros [msg ?].
  - intros (l0 & m0 & [= <-] & [= <-] & H & _). done.
Qed.

End Runs.

End TimeRangeFilter.
