(* ===== verification/OTXAdapter.v ===== *)
(** * The OTX data adapter's fields
      (threatintel/components/adapters/otx/OTXAdapterFieldSet.tsx)

    The field set edits the configuration of an AlienVault OTX lookup
    table adapter: the indicator type, chosen from [OTX_INDICATORS], the API
    key and URL, the HTTP user agent and three HTTP timeouts. The text and
    number inputs hand their events to the parent ([handleFormEvent]). The
    indicator select goes through [handleSelect], which deep-copies the
    configuration ([cloneDeep]), sets the field on the copy and hands the
    copy to [updateConfig].

    Objects live in the heap of [ExtractorConfiguration], so that the
    difference with the extractor forms, which write into the parent's
    object, is visible: the copy is a fresh location and the parent's
    object is untouched. The configuration is flat, so the deep copy is a
    copy of its entries. [validationState] and [validationMessage] come
    from the parent and are section variables. *)

From stdpp Require Import gmap.
From S2P Require Import Prelude JsValue ExtractorConfiguration.
Set Warnings "-clear-no-such-hyp".

Module OTXAdapter.
Import ExtractorConfiguration.

Local Open Scope string_scope.

(** [OTX_INDICATORS]: [{ label, value }]. *)
Definition OTX_INDICATORS : list (string * string) :=
  [("IP Auto-Detect", "IPAutoDetect"); ("IP v4", "IPv4"); ("IP v6", "IPv6"); ("Domain", "domain");
   ("Hostname", "hostname"); ("File", "file"); ("URL", "url"); ("CVE", "cve"); ("NIDS", "nids");
   ("Correlation-Rule", "correlation-rule")].

(** An input of the field set: its [id] (also its [name]), [label], input
    [type], whether it is [required], and its default help text. *)
Record FieldInput := mkFieldInput {
  f_id : string; f_label : string; f_type : string; f_required : bool; f_help : string
}.

(** The inputs in the order the field set renders them. The indicator is
    a select inside an [Input] without a type. *)
Definition fields : list FieldInput := [
  mkFieldInput "indicator" "Indicator" "" true "The OTX indicator type that should be used for lookups.";
  mkFieldInput "api_key" "OTX API Key" "text" false "Your OTX API key.";
  mkFieldInput "api_url" "OTX API URL" "text" false "URL of the OTX API server.";
  mkFieldInput "http_user_agent" "HTTP User-Agent" "text" true
    "The User-Agent header that should be used for the HTTP request.";
  mkFieldInput "http_connect_timeout" "HTTP Connect Timeout" "number" true "HTTP connection timeout in milliseconds.";
  mkFieldInput "http_write_timeout" "HTTP Write Timeout" "number" true "HTTP write timeout in milliseconds.";
  mkFieldInput "http_read_timeout" "HTTP Read Timeout" "number" true "HTTP read timeout in milliseconds."].

Section FieldSet.

Context {ValidationState Help Event : Type}.
Variable validationState : string -> ValidationState.
Variable validationMessage : string -> string -> Help.

(** A rendered input: the field, its [bsStyle], its [help] and its
    [value] ([config[id]]). *)
Record InputView := mkInputView { iv_field : FieldInput; bsStyle : ValidationState; help : Help; iv_value : jval }.

(** The render: [None] when there is no configuration object to read. *)
Definition view (h : Heap) (config : loc) : option (list InputView) :=
  match h !! config with
  | Some o => Some (map (fun f => mkInputView f (validationState (f_id f)) (validationMessage (f_id f) (f_help f))
                                    (mget_u (f_id f) o)) fields)
  | None => None
  end.

Inductive Effect := UpdateConfig (config : loc) | HandleFormEvent (event : Event).

(** [cloneDeep(config)]: a fresh object with the same entries. *)
Definition cloneDeep (h : Heap) (config : loc) : option (Heap * loc) :=
  match h !! config with
  | Some o => let l := fresh (dom h) in Some (<[l := o]> h, l)
  | None => None
  end.

(** [handleSelect(fieldName)(selectedIndicator)] *)
Definition handleSelect (h : Heap) (config : loc) (fieldName : string) (selectedIndicator : string)
    : option (Heap * list Effect) :=
  match cloneDeep h config with
  | Some (h1, newConfig) =>
      match hset h1 newConfig fieldName (JStr selectedIndicator) with
      | Some h2 => Some (h2, [UpdateConfig newConfig])
      | None => None
      end
  | None => None
  end.

Inductive UIEvent :=
| SelectIndicator (value : string)          (* the Select's onChange *)
| InputChange (id : string) (event : Event). (* an Input's onChange *)

(** One event: the select calls [handleSelect('indicator')]; every input,
    the indicator's wrapper included, hands its event to
    [handleFormEvent]. *)
Definition step (h : Heap) (config : loc) (e : UIEvent) : option (Heap * list Effect) :=
  match e with
  | SelectIndicator v => handleSelect h config "indicator" v
  | InputChange i ev => if bool_decide (i ∈ map f_id fields) then Some (h, [HandleFormEvent ev]) else Some (h, [])
  end.

End FieldSet.

(** ** Lemmas *)

Lemma OTX_INDICATORS_distinct : NoDup (map snd OTX_INDICATORS) /\ NoDup (map fst OTX_INDICATORS).
Proof. split; decide_nodup. Qed.

Lemma fields_ids_distinct : NoDup (map f_id fields).
Proof. decide_nodup. Qed.

(** Choosing an indicator hands the parent a new object: the parent's
    configuration is unchanged, and the copy, at a location that was
    free, has the parent's entries with [indicator] set. *)
Lemma handleSelect_copies {Ev : Type} h config o v :
  h !! config = Some o ->
  exists l, h !! l = None /\
    @handleSelect Ev h config "indicator" v = Some (<[l := mset "indicator" (JStr v) o]> h, [UpdateConfig l]) /\
    (<[l := mset "indicator" (JStr v) o]> h) !! config = Some o.
Proof.
  intros Ho. set (l := fresh (dom h)).
  assert (Hl : h !! l = None) by (apply not_elem_of_dom, is_fresh).
  assert (Hne : l <> config) by (intros ->; congruence).
  exists l. split; [done|]. split.
  - unfold handleSelect, cloneDeep. rewrite Ho. fold l.
    rewrite (hset_some _ l _ _ o) by by rewrite lookup_insert_eq.
    by rewrite insert_insert_eq.
  - by rewrite lookup_insert_ne.
Qed.

End OTXAdapter.
