(* ===== verification/ViewGeneration.v ===== *)
(** * The event-replay view and its state
      (views/logic/views/UseCreateViewForEvent.ts, 185-247)

    [ViewStateGenerator] wraps the widgets of [ViewLayout.WidgetsGenerator]
    into a view state and adds one highlighting rule per aggregation
    condition: the condition's series and value, the condition the
    expression maps to ([exprToConditionMapper[expr] || 'equal']) and a
    random colour. [ViewGenerator] builds the query of the view, a search
    holding that query and the parameters, and a search view whose state
    is keyed by the query's id.

    The id supply is [ViewLayout]'s [IdGen] monad. The query generator,
    the view's own id, [randomColor], [exprToConditionMapper],
    [Parameter.fromJSON] and [UpdateSearchForWidgets] are not in src/ and
    are section variables; the query generator is a computation of the
    monad, since it draws an id. The lemmas show that the rules follow the
    conditions one for one, and that the view's state belongs to the
    search's only query. *)

From S2P Require Import Prelude ViewLayout.
Set Warnings "-clear-no-such-hyp".

Module ViewGeneration.
Import ViewLayout.

Local Open Scope string_scope.

Section Gen.

Context {Color Query ParamJson Param : Type}.
Variable fresh : nat -> string.
Variable exprToConditionMapper : string -> nullable string.
(** The colour of the [i]-th rule. *)
Variable randomColor : nat -> Color.

(** [HighlightingRule.create(field, value, condition, color)] *)
Record HighlightingRule := mkRule { hr_field : string; hr_value : string; hr_condition : string; hr_color : Color }.

(** [exprToConditionMapper[expr] || 'equal'] *)
Definition condition_of (expr : string) : string :=
  match exprToConditionMapper expr with
  | Val c => if String.eqb c "" then "equal" else c
  | _ => "equal"
  end.

(** [aggregations?.map(({ fnSeries, value, expr }) => HighlightingRule.create(...))] *)
Definition highlightRules (aggregations : list Aggregation) : list HighlightingRule :=
  imap (fun i a => mkRule (agg_fnSeries a) (agg_value a) (condition_of (agg_expr a)) (randomColor i)) aggregations.

(** [ViewState]: titles, widgets, positions and the formatting's rules. *)
Record ViewState := mkViewState {
  vs_titles : list (string * string);
  vs_widgets : list Widget;
  vs_positions : list (string * WidgetPosition);
  vs_highlighting : list HighlightingRule
}.

(** [ViewStateGenerator({ streams, streamCategories, aggregations, groupBy })],
    once the decorators are known. *)
Definition ViewStateGenerator (streamDecorators streamCategoryDecorators : list string)
    (aggregations : list Aggregation) (groupBy : list string) : IdGen ViewState :=
  g ← WidgetsGenerator fresh streamDecorators streamCategoryDecorators aggregations groupBy;
  mret (mkViewState (g_titles g) (g_widgets g) (g_positions g) (highlightRules aggregations)).

(** [QueryGenerator(streams, streamCategories, undefined, timeRange,
    queryString, searchFilters || [])] and the id of its query. *)
Variable QueryGenerator : IdGen Query.
Variable query_id : Query -> string.
Variable fromJSON : ParamJson -> Param.
(** [View.create().toBuilder().newId()] *)
Variable newViewId : string.

(** A search view before [UpdateSearchForWidgets]. *)
Record View := mkView {
  v_id : string;
  v_type : string;
  v_state : list (string * ViewState);    (* { [query.id]: viewState } *)
  v_queries : list Query;                 (* search.queries *)
  v_parameters : list Param               (* search.parameters *)
}.

Variable UpdateSearchForWidgets : View -> View.

(** [ViewGenerator({ ... })]: the query first, then the view state. *)
Definition view_before_update (sd scd : list string) (aggregations : list Aggregation)
    (groupBy : list string) (queryParameters : list ParamJson) : IdGen View :=
  query ← QueryGenerator;
  viewState ← ViewStateGenerator sd scd aggregations groupBy;
  mret (mkView newViewId "SEARCH" [(query_id query, viewState)] [query] (map fromJSON queryParameters)).

Definition ViewGenerator (sd scd : list string) (aggregations : list Aggregation)
    (groupBy : list string) (queryParameters : list ParamJson) : IdGen View :=
  v ← view_before_update sd scd aggregations groupBy queryParameters;
  mret (UpdateSearchForWidgets v).

End Gen.

(** ** Lemmas *)

Section Lemmas.

Context {Color Query ParamJson Param : Type}.
Context (fresh : nat -> string) (ecm : string -> nullable string) (rc : nat -> Color).

(** One rule per condition, in order, on the condition's series and
    value; an expression the mapper does not know, or maps to [''], is
    highlighted as [equal]. *)
Lemma highlightRules_spec aggregations i a :
  aggregations !! i = Some a ->
  highlightRules ecm rc aggregations !! i
  = Some (mkRule (agg_fnSeries a) (agg_value a)
            (condition_of ecm (agg_expr a)) (rc i)).
Proof. intros Ha. unfold highlightRules. rewrite list_lookup_imap, Ha. done. Qed.

(** The mapper's answer is used when it is a non-empty condition; an
    unknown expression, or one mapped to [''], gives [equal]. *)
Lemma condition_of_spec expr :
  condition_of ecm expr = "equal" \/ ecm expr = Val (condition_of ecm expr).
Proof.
  unfold condition_of. destruct (ecm expr) as [| |c]; [by left|by left|].
  destruct (String.eqb_spec c ""); [by left|by right].
Qed.

(** The generated view holds one query, and its state is keyed by that
    query's id alone: the widgets and rules of the view state belong to
    the search's only query. *)
Lemma view_state_of_query (qg : IdGen Query) (qid : Query -> string) (fj : ParamJson -> Param) vid
    sd scd aggs gb params n :
  let v := fst (view_before_update fresh ecm rc qg qid fj vid sd scd aggs gb params n) in
  map fst (v_state v) = map qid (v_queries v) /\ length (v_queries v) = 1%nat /\
  map snd (v_state v) = [fst (ViewStateGenerator fresh ecm rc sd scd aggs gb (snd (qg n)))] /\
  vs_highlighting (fst (ViewStateGenerator fresh ecm rc sd scd aggs gb (snd (qg n)))) = highlightRules ecm rc aggs.
Proof.
  unfold view_before_update, ViewStateGenerator, mbind, IdGen_bind, mret, IdGen_ret.
  destruct (qg n) as [q n1]. cbn [fst snd]. destruct (WidgetsGenerator fresh sd scd aggs gb n1) as [g n2].
  done.
Qed.

End Lemmas.

End ViewGeneration.
