(* ===== verification/UserTokensEditPage.v ===== *)
(** * The token page of a user (pages/UserTokensEditPage.tsx)

    The page loads the user named by the route's [userId]
    ([UsersDomain.load]) and, once it is loaded, its access tokens
    ([UsersDomain.loadTokens]). It loads the tokens only if the current
    user holds the permission [users:tokenlist:<username>]; otherwise it
    sets the list to [[]]. Creating a token ([_createToken]) sends the
    request, sets [creatingToken], reloads the tokens when the token is
    created, and clears [creatingToken] when the request settles either
    way. Deleting a token reloads the list.

    The state holds the component's three [useState]s and the requests in
    flight. [Resolve i r] settles the [i]-th of them, so answers arrive in
    any order. A request to create a token keeps the [loadTokens] closure of
    the render that sent it, which is the [loadedUser] of that render.

    React's cycle is explicit. After every event the page renders and runs
    the effects whose dependencies changed, in the order they are declared
    ([run_effects]). A [setState] call inside an effect asks for another
    render ([settle], with fuel). Every answer of [UsersDomain.load] is a
    new object, so [user_gen] counts the [setLoadedUser] calls. It stands
    for the identity of [loadedUser] and of the [loadTokens] callback that
    depends on it. The current user does not change while the page is
    shown, and [isPermitted] (util/PermissionsMixin, not in the repository)
    is a section variable. *)

From stdpp Require Import base list relations.
From S2P Require Import Prelude.
Set Warnings "-clear-no-such-hyp".

Module UserTokensEditPage.

Local Open Scope string_scope.

(** The fields of a loaded [User] the page reads. *)
Record User := mkUser {
  u_id : string;
  username : string;
  fullName : nullable string;
  readOnly : nullable bool
}.

Section Page.

Context {Token : Type}.

(** [currentUser?.permissions] *)
Variable permissions : nullable (list string).
Variable isPermitted : nullable (list string) -> list string -> bool.
(** [params?.userId] *)
Variable userId : nullable string.

(** The requests of [UsersDomain] in flight. *)
Inductive Request :=
| LoadUser (id : nullable string)                     (* UsersDomain.load(userId) *)
| LoadTokens (id : string)                            (* UsersDomain.loadTokens(loadedUser.id) *)
| CreateToken (id : nullable string) (tokenName tokenTtl : string)
    (closure_user : option User).                     (* createToken, with its loadTokens closure *)

(** How a request settles. *)
Inductive Response :=
| UserLoaded (u : User)
| TokensLoaded (ts : list Token)
| TokenCreated
| Rejected.

Record State := mkState {
  loadedUser : option User;             (* useState<User | undefined>() *)
  user_gen : nat;                       (* the number of setLoadedUser calls *)
  tokens : list Token;                  (* useState([]) *)
  creatingToken : bool;                 (* useState(false) *)
  pending : list Request;
  loadTokens_deps : option nat;         (* the deps the first effect last ran with *)
  load_deps : option (nullable string)  (* the deps the second effect last ran with *)
}.

Definition init : State := mkState None 0 [] false [] None None.

Definition send (r : Request) (s : State) : State :=
  mkState (loadedUser s) (user_gen s) (tokens s) (creatingToken s) (pending s ++ [r])
    (loadTokens_deps s) (load_deps s).

Definition setTokens (ts : list Token) (s : State) : State :=
  mkState (loadedUser s) (user_gen s) ts (creatingToken s) (pending s) (loadTokens_deps s) (load_deps s).

Definition setCreatingToken (b : bool) (s : State) : State :=
  mkState (loadedUser s) (user_gen s) (tokens s) b (pending s) (loadTokens_deps s) (load_deps s).

Definition setLoadedUser (u : User) (s : State) : State :=
  mkState (Some u) (S (user_gen s)) (tokens s) (creatingToken s) (pending s) (loadTokens_deps s) (load_deps s).

(** [_loadTokens(loadedUser, currentUser, setTokens)]; the flag says
    whether a [setState] ran. *)
Definition _loadTokens (lu : option User) (s : State) : State * bool :=
  match lu with
  | Some u =>
      if isPermitted permissions ["users:tokenlist:" ++ username u]
      then (send (LoadTokens (u_id u)) s, false)
      else (setTokens [] s, true)
  | None => (s, false)
  end.

(** [_createToken(tokenName, userId, loadTokens, setCreatingToken,
    tokenTtl)]: the request, then [setCreatingToken(true)]. *)
Definition _createToken (tokenName tokenTtl : string) (s : State) : State :=
  setCreatingToken true (send (CreateToken userId tokenName tokenTtl (loadedUser s)) s).

Definition remove_at {A} (i : nat) (l : list A) : list A := take i l ++ drop (S i) l.

(** The continuation of a settled request. [None] when the answer does
    not fit the request. *)
Definition on_settled (r : Request) (resp : Response) (s : State) : option State :=
  match r, resp with
  | LoadUser _, UserLoaded u => Some (setLoadedUser u s)          (* .then(setLoadedUser) *)
  | LoadTokens _, TokensLoaded ts => Some (setTokens ts s)        (* .then(setTokens) *)
  | CreateToken _ _ _ lu, TokenCreated =>                           (* .then(loadTokens) *)
      Some (setCreatingToken false (fst (_loadTokens lu s)))      (* .finally(...) *)
  | CreateToken _ _ _ _, Rejected => Some (setCreatingToken false s)
  | LoadUser _, Rejected | LoadTokens _, Rejected => Some s
  | _, _ => None
  end.

(** The state once the [i]-th request has settled. *)
Definition without (i : nat) (s : State) : State :=
  mkState (loadedUser s) (user_gen s) (tokens s) (creatingToken s) (remove_at i (pending s))
    (loadTokens_deps s) (load_deps s).

Definition mark_loadTokens (s : State) : State :=
  mkState (loadedUser s) (user_gen s) (tokens s) (creatingToken s) (pending s) (Some (user_gen s)) (load_deps s).

Definition mark_load (s : State) : State :=
  mkState (loadedUser s) (user_gen s) (tokens s) (creatingToken s) (pending s) (loadTokens_deps s) (Some userId).

(** The two effects after a render, in order:
    [useEffect(() => loadTokens(), [loadTokens, loadedUser])] and
    [useEffect(() => UsersDomain.load(userId).then(setLoadedUser), [userId])].
    The flag says whether one of them called a [setState]. *)
Definition run_effects (s : State) : State * bool :=
  let '(s1, r1) :=
    if decide (loadTokens_deps s = Some (user_gen s)) then (s, false)
    else _loadTokens (loadedUser s) (mark_loadTokens s) in
  if decide (load_deps s1 = Some userId) then (s1, r1)
  else (send (LoadUser userId) (mark_load s1), r1).

(** Render and run the effects until no effect asks for another render. *)
Fixpoint settle (fuel : nat) (s : State) : option State :=
  match fuel with
  | O => None
  | S f => let '(s', again) := run_effects s in if again then settle f s' else Some s'
  end.

(** Two rounds suffice (see [settle_terminates]). *)
Definition SETTLE_FUEL : nat := 2.

Inductive Event :=
| Mount
| Resolve (i : nat) (resp : Response)         (* the i-th request in flight settles *)
| Create (tokenName tokenTtl : string)        (* TokenList onCreate: _handleTokenCreate *)
| Delete.                                     (* TokenList onDelete: loadTokens *)

Definition handle (s : State) (e : Event) : option State :=
  match e with
  | Mount => Some s
  | Resolve i resp =>
      match pending s !! i with
      | Some r =>
          on_settled r resp (without i s)
      | None => None
      end
  | Create n ttl => Some (_createToken n ttl s)
  | Delete => Some (fst (_loadTokens (loadedUser s) s))
  end.

(** An event, then the renders it causes. *)
Definition step (s : State) (e : Event) : option State :=
  match handle s e with Some s' => settle SETTLE_FUEL s' | None => None end.

Inductive reachable : State -> Prop :=
| reach_mount s : settle SETTLE_FUEL init = Some s -> reachable s
| reach_step s e s' : reachable s -> step s e = Some s' -> reachable s'.

(** What the page renders: a spinner until the user is loaded. *)
Inductive View :=
| Spinner
| TokenList (tokens : list Token) (user : User) (creatingToken : bool).

Definition view (s : State) : View :=
  match loadedUser s with
  | Some u => TokenList (tokens s) u (creatingToken s)
  | None => Spinner
  end.

(** The text of [<PageTitle fullName={loadedUser?.fullName} />]: the
    name, after a dash, only when it is a non-empty string. *)
Definition PageTitle (fullName : nullable string) : string :=
  "Edit Tokens Of User " ++
  match fullName with Val n => if String.eqb n "" then "" else "- " ++ n | _ => "" end.

(** [`Edit Tokens Of User ${loadedUser?.fullName ?? ''}`] *)
Definition document_title (s : State) : string :=
  "Edit Tokens Of User " ++ (match loadedUser s with Some u => fullName u | None => Undefined end ?? "").

(** [loadedUser?.readOnly ?? false] *)
Definition userIsReadOnly (s : State) : bool :=
  match loadedUser s with Some u => readOnly u | None => Undefined end ?? false.

End Page.

(** ** Lemmas *)

Section Lemmas.

Context {Token : Type} (permissions : nullable (list string))
  (isPermitted : nullable (list string) -> list string -> bool) (userId : nullable string).

Abbreviation State := (@State Token).
Abbreviation run_effects := (@run_effects Token permissions isPermitted userId).
Abbreviation _loadTokens := (@_loadTokens Token permissions isPermitted).
Abbreviation settle := (@settle Token permissions isPermitted userId).
Abbreviation step := (@step Token permissions isPermitted userId).
Abbreviation handle := (@handle Token permissions isPermitted userId).

(** Both effects last ran with the current dependencies. *)
Definition effects_current (s : State) : Prop :=
  loadTokens_deps s = Some (user_gen s) /\ load_deps s = Some userId.

Definition permitted (u : User) : bool := isPermitted permissions ["users:tokenlist:" ++ username u].

(** [_loadTokens] touches only the token list and the requests. *)
Lemma _loadTokens_frame lu (s : State) :
  let s' := fst (_loadTokens lu s) in
  loadedUser s' = loadedUser s /\ user_gen s' = user_gen s /\ creatingToken s' = creatingToken s /\
  loadTokens_deps s' = loadTokens_deps s /\ load_deps s' = load_deps s.
Proof. destruct lu as [u|]; [unfold _loadTokens; case_match|]; done. Qed.

Lemma _loadTokens_pending lu (s : State) :
  pending (fst (_loadTokens lu s)) =
  (pending s ++ match lu with Some u => if permitted u then [LoadTokens (u_id u)] else [] | None => [] end)%list.
Proof. destruct lu as [u|]; [unfold _loadTokens, permitted; case_match|]; simpl; by rewrite ?app_nil_r. Qed.

Lemma run_effects_current (s : State) : effects_current s -> run_effects s = (s, false).
Proof. intros [H1 H2]. unfold run_effects. by rewrite !decide_True. Qed.

(** One round of effects brings both dependencies up to date. *)
Lemma run_effects_makes_current (s : State) : effects_current (fst (run_effects s)).
Proof.
  unfold run_effects. destruct (decide (loadTokens_deps s = Some (user_gen s))) as [E|E].
  - destruct (decide (load_deps s = Some userId)); done.
  - destruct (_loadTokens (loadedUser s) (mark_loadTokens s)) as [s1 r1] eqn:H.
    pose proof (_loadTokens_frame (loadedUser s) (mark_loadTokens s)) as F.
    rewrite H in F. simpl in F. destruct F as (_ & Hg & _ & Hd & Hl).
    destruct (decide (load_deps s1 = Some userId)); split; simpl; congruence.
Qed.

Lemma settle_S_S (s : State) f : settle (S (S f)) s = Some (fst (run_effects s)).
Proof.
  pose proof (run_effects_current _ (run_effects_makes_current s)) as H.
  cbn [UserTokensEditPage.settle]. destruct (run_effects s) as [s1 []]; simpl in *; [rewrite H|]; done.
Qed.

Lemma step_settles (s s' : State) e :
  step s e = Some s' -> exists s1, handle s e = Some s1 /\ s' = fst (run_effects s1).
Proof.
  unfold UserTokensEditPage.step, SETTLE_FUEL. destruct (handle s e) as [s1|]; [|done].
  rewrite settle_S_S. intros [= <-]. by exists s1.
Qed.

(** A request in flight is consistent with the loaded user [lu]: the
    token lists are requested for [lu], whom the current user may list,
    and the creations hold [lu] in their closure, if any. *)
Definition request_ok (lu : option User) (r : Request) : Prop :=
  match r with
  | LoadTokens id => exists u, lu = Some u /\ u_id u = id /\ permitted u = true
  | CreateToken _ _ _ (Some u) => lu = Some u
  | _ => True
  end.

Definition is_LoadUser (r : Request) : bool := match r with LoadUser _ => true | _ => false end.

Definition loads (s : State) : nat :=
  length (List.filter is_LoadUser (pending s)) + (match loadedUser s with Some _ => 1 | None => 0 end).

Definition inv (s : State) : Prop :=
  effects_current s /\ loads s <= 1 /\ Forall (request_ok (loadedUser s)) (pending s).

Lemma filter_remove_at {A} (p : A -> bool) (l : list A) i x :
  l !! i = Some x ->
  length (List.filter p (remove_at i l)) + (if p x then 1 else 0) = length (List.filter p l).
Proof.
  intros Hi. unfold remove_at. rewrite <- (take_drop_middle l i x Hi) at 3.
  rewrite !List.filter_app, !length_app. simpl. destruct (p x); simpl; lia.
Qed.

Lemma Forall_remove_at {A} (P : A -> Prop) (l : list A) i : Forall P l -> Forall P (remove_at i l).
Proof. intros H. unfold remove_at. apply Forall_app. split; [by apply Forall_take|by apply Forall_drop]. Qed.

(** Before the user is loaded, no request depends on it. *)
Lemma request_ok_unloaded lu r : request_ok None r -> request_ok lu r.
Proof. destruct r as [| |? ? ? []]; simpl; naive_solver. Qed.

Lemma inv_effects (s : State) : inv s -> fst (run_effects s) = s.
Proof. intros [Hc _]. by rewrite run_effects_current. Qed.

Lemma inv_setTokens (s : State) ts : inv s -> inv (setTokens ts s).
Proof. done. Qed.

Lemma inv_setCreatingToken (s : State) b : inv s -> inv (setCreatingToken b s).
Proof. done. Qed.

(** [loadTokens] of the current render or of an earlier one keeps the
    invariant. *)
Lemma inv_loadTokens (s : State) lu :
  inv s -> (lu = None \/ lu = loadedUser s) -> inv (fst (_loadTokens lu s)).
Proof.
  intros (Hc & Hl & Hf) Hlu. pose proof (_loadTokens_frame lu s) as (Hu & Hg & _ & Hd1 & Hd2).
  split; [unfold effects_current; rewrite Hg, Hd1, Hd2; done|]. unfold loads.
  rewrite Hu, _loadTokens_pending, List.filter_app, length_app. split.
  - destruct lu as [u|]; [destruct (permitted u)|]; simpl; unfold loads in Hl; lia.
  - apply Forall_app. split; [done|].
    destruct Hlu as [-> | ->]; [constructor|]. destruct (loadedUser s) as [u|] eqn:E; [|constructor].
    destruct (permitted u) eqn:Hp; repeat constructor. by exists u.
Qed.

Lemma inv_without (s : State) i r :
  inv s -> pending s !! i = Some r ->
  inv (without i s) /\ request_ok (loadedUser s) r /\
  (is_LoadUser r = true -> loadedUser s = None /\ List.filter is_LoadUser (pending (without i s)) = []).
Proof.
  intros (Hc & Hl & Hf) Hi. pose proof (filter_remove_at is_LoadUser _ _ _ Hi) as Hn.
  unfold loads in Hl. split; [|split].
  - split; [done|]. split; [unfold loads; simpl; lia|]. by apply Forall_remove_at.
  - by eapply Forall_lookup_1.
  - intros Hr. rewrite Hr in Hn. simpl. split.
    + destruct (loadedUser s); [lia|done].
    + apply length_zero_iff_nil. lia.
Qed.

(** The answer of [UsersDomain.load]: [setLoadedUser], then the first
    effect loads the tokens of the new user. *)
Lemma inv_user_loaded (s : State) u :
  inv s -> loadedUser s = None -> List.filter is_LoadUser (pending s) = [] ->
  inv (fst (run_effects (setLoadedUser u s))).
Proof.
  intros (Hc & Hl & Hf) Hn H0. destruct Hc as [Hd1 Hd2].
  unfold run_effects. case_decide as Hu; [simpl in Hu; rewrite Hd1 in Hu; injection Hu; lia|].
  pose proof (_loadTokens_frame (Some u) (mark_loadTokens (setLoadedUser u s))) as (_ & _ & _ & _ & Hd).
  cbn [loadedUser setLoadedUser]. destruct (_loadTokens (Some u) _) as [s1 r1] eqn:E. simpl in Hd.
  case_decide; [|by rewrite Hd in *]. simpl.
  change s1 with (fst (s1, r1)). rewrite <- E. apply inv_loadTokens; [|by right].
  split; [done|]. split; [unfold loads; simpl; by rewrite H0|].
  simpl. rewrite Hn in Hf. eapply Forall_impl; [done|]. intros r. apply request_ok_unloaded.
Qed.

Lemma inv_createToken (s : State) n t : inv s -> inv (_createToken userId n t s).
Proof.
  intros (Hc & Hl & Hf). apply inv_setCreatingToken. split; [done|]. unfold loads in *. simpl.
  rewrite List.filter_app, length_app. split; [simpl; lia|].
  apply Forall_app. split; [done|]. repeat constructor. by destruct (loadedUser s).
Qed.

(** Every answer but the user's keeps the invariant. *)
Lemma inv_settled_other (s s1 : State) i r resp :
  inv s -> pending s !! i = Some r -> (forall u, resp <> UserLoaded u) ->
  on_settled permissions isPermitted r resp (without i s) = Some s1 -> inv s1.
Proof.
  intros Hinv Hi Hresp Hs. destruct (inv_without s i r Hinv Hi) as (Hw & Hr & _).
  destruct r as [id|id|id n t lu], resp as [u|ts| |]; simpl in Hs; simplify_eq;
    first [by (exfalso; eapply Hresp) | done | by apply inv_setTokens | by apply inv_setCreatingToken
          | apply inv_setCreatingToken, inv_loadTokens; [done|destruct lu; [right|left]; done]].
Qed.

Lemma step_keep (s s1 : State) e : handle s e = Some s1 -> inv s1 -> step s e = Some s1.
Proof. intros Hh Hi. unfold UserTokensEditPage.step, SETTLE_FUEL. by rewrite Hh, settle_S_S, inv_effects. Qed.

Lemma inv_step (s s' : State) e : inv s -> step s e = Some s' -> inv s'.
Proof.
  intros Hinv Hs. apply step_settles in Hs as (s1 & Hh & ->).
  destruct e as [|i resp|n t|]; simpl in Hh.
  - injection Hh as <-. by rewrite inv_effects.
  - destruct (pending s !! i) as [r|] eqn:Hi; [|done].
    destruct (inv_without s i r Hinv Hi) as (Hw & _ & Hlu).
    destruct resp as [u| | |]; [destruct r; simpl in Hh; simplify_eq|..];
      [destruct (Hlu eq_refl); by apply inv_user_loaded|..];
      (assert (inv s1) by (refine (inv_settled_other s s1 i r _ Hinv Hi _ Hh); intros ? [=]);
       by rewrite inv_effects).
  - injection Hh as <-. rewrite inv_effects; by apply inv_createToken.
  - injection Hh as <-. rewrite inv_effects; (apply inv_loadTokens; [done|by right]).
Qed.

Lemma inv_mount (s : State) : settle SETTLE_FUEL (init (Token:=Token)) = Some s -> inv s.
Proof.
  unfold SETTLE_FUEL. rewrite settle_S_S. intros [= <-].
  unfold UserTokensEditPage.run_effects. simpl. repeat case_decide; simplify_eq/=.
  repeat split; repeat constructor.
Qed.

Lemma reachable_inv (s : State) : reachable permissions isPermitted userId s -> inv s.
Proof. induction 1; [by apply inv_mount|by eapply inv_step]. Qed.

Lemma remove_at_app_length {A} (l l' : list A) x : remove_at (length l) (l ++ x :: l')%list = (l ++ l')%list.
Proof. unfold remove_at. induction l as [|y l IH]; simpl; [done|]. by rewrite IH. Qed.

(** ** Properties *)

(** A render whose effects call a [setState] and so cause another render. *)
Definition rerender (s s' : State) : Prop := run_effects s = (s', true).

(** C4. The page never loops on renders: no chain of renders caused by
    its effects is infinite. Any fuel of at least two rounds settles
    every state, in the state one round of effects gives, and on that
    state the effects do nothing. *)
Theorem render_cycle_terminates (s : State) :
  sn rerender s /\
  (forall n, 2 <= n -> settle n s = Some (fst (run_effects s))) /\
  run_effects (fst (run_effects s)) = (fst (run_effects s), false).
Proof.
  pose proof (run_effects_current _ (run_effects_makes_current s)) as Hq.
  split; [|split; [|done]].
  - constructor. intros s1 H1. unfold flip, rerender in H1. rewrite H1 in Hq. simpl in Hq.
    constructor. intros s2 H2. unfold flip, rerender in H2. congruence.
  - intros [|[|n]] Hn; [lia|lia|apply settle_S_S].
Qed.

(** C8. In every state the page reaches, whatever the order in which the
    requests settle: at most one request for the user is in flight, none
    once the user is loaded, and every request for a token list is for
    the loaded user, whose tokens the current user may list. *)
Theorem reachable_requests (s : State) :
  reachable permissions isPermitted userId s ->
  length (List.filter is_LoadUser (pending s)) <= 1 /\
  (loadedUser s <> None -> List.filter is_LoadUser (pending s) = []) /\
  (forall id, LoadTokens id ∈ pending s ->
     exists u, loadedUser s = Some u /\ u_id u = id /\ permitted u = true).
Proof.
  intros Hr. destruct (reachable_inv s Hr) as (_ & Hl & Hf). unfold loads in Hl. split; [|split].
  - lia.
  - intros Hu. apply length_zero_iff_nil. destruct (loadedUser s); [lia|done].
  - intros id Hid. rewrite Forall_forall in Hf. exact (Hf _ Hid).
Qed.

(** C15. Two token creations that overlap: when the first one settles,
    created or rejected, [creatingToken] is cleared although the second
    creation is still in flight. *)
Theorem overlapping_creates (s : State) n1 t1 n2 t2 resp :
  reachable permissions isPermitted userId s -> resp = TokenCreated \/ resp = Rejected ->
  exists s3,
    (step s (Create n1 t1) ≫= fun s1 => step s1 (Create n2 t2) ≫= fun s2 =>
       step s2 (Resolve (length (pending s)) resp)) = Some s3 /\
    creatingToken s3 = false /\ CreateToken userId n2 t2 (loadedUser s) ∈ pending s3.
Proof.
  intros Hr Hresp. pose proof (reachable_inv s Hr) as Hinv.
  set (s1 := _createToken userId n1 t1 s). set (s2 := _createToken userId n2 t2 s1).
  assert (Hi1 : inv s1) by by apply inv_createToken.
  assert (Hi2 : inv s2) by by apply inv_createToken.
  rewrite (step_keep s s1 (Create n1 t1) eq_refl Hi1). simpl. rewrite (step_keep s1 s2 (Create n2 t2) eq_refl Hi2). simpl.
  assert (Hp : pending s2 = (pending s ++ CreateToken userId n1 t1 (loadedUser s) ::
                 [CreateToken userId n2 t2 (loadedUser s)])%list) by (simpl; by rewrite <- app_assoc).
  assert (Hl : pending s2 !! length (pending s) = Some (CreateToken userId n1 t1 (loadedUser s)))
    by (rewrite Hp; apply list_lookup_middle; done).
  assert (Hw : pending (without (length (pending s)) s2) = (pending s ++ [CreateToken userId n2 t2 (loadedUser s)])%list)
    by (unfold without; cbn [pending]; rewrite Hp; apply remove_at_app_length).
  destruct Hresp as [-> | ->].
  - set (s3 := setCreatingToken false (fst (_loadTokens (loadedUser s) (without (length (pending s)) s2)))).
    assert (Hh : handle s2 (Resolve (length (pending s)) TokenCreated) = Some s3) by (unfold UserTokensEditPage.handle; by rewrite Hl).
    exists s3. rewrite (step_keep _ _ _ Hh (inv_settled_other s2 s3 _ _ TokenCreated Hi2 Hl ltac:(by intros ? [=]) eq_refl)).
    split; [done|split; [done|]]. cbn [s3 pending setCreatingToken]. rewrite _loadTokens_pending, Hw.
    set_solver.
  - set (s3 := setCreatingToken false (without (length (pending s)) s2)).
    assert (Hh : handle s2 (Resolve (length (pending s)) Rejected) = Some s3) by (unfold UserTokensEditPage.handle; by rewrite Hl).
    exists s3. rewrite (step_keep _ _ _ Hh (inv_settled_other s2 s3 _ _ Rejected Hi2 Hl ltac:(by intros ? [=]) eq_refl)).
    split; [done|split; [done|]]. cbn [s3 pending setCreatingToken]. rewrite Hw. set_solver.
Qed.

End Lemmas.

(** ** Witnesses *)

(** The page after mounting, for user [1]. *)
Lemma render_cycle_terminates_witness :
  (2 <= 2)%nat /\
  settle (Token:=unit) Undefined (fun _ _ => false) (Val "1") 2
    (setLoadedUser (mkUser "1" "admin" Undefined Undefined) (mkState None 0 [] false [] (Some 0) (Some (Val "1"))))
  = Some (fst (run_effects Undefined (fun _ _ => false) (Val "1")
      (setLoadedUser (mkUser "1" "admin" Undefined Undefined) (mkState None 0 [] false [] (Some 0) (Some (Val "1")))))).
Proof.
  split; [lia|].
  apply (proj1 (proj2 (render_cycle_terminates Undefined (fun _ _ => false) (Val "1") _)) 2). lia.
Defined.

Lemma reachable_requests_witness :
  length (List.filter is_LoadUser
    (pending (mkState (Token:=unit) None 0 [] false [LoadUser (Val "1")] (Some 0) (Some (Val "1"))))) <= 1.
Proof.
  exact (proj1 (reachable_requests Undefined (fun _ _ => true) (Val "1") _
                  (reach_mount _ _ _ _ ltac:(vm_compute; reflexivity)))).
Defined.

Lemma overlapping_creates_witness :
  exists s3,
    (step Undefined (fun _ _ => true) (Val "1")
       (mkState (Token:=unit) None 0 [] false [LoadUser (Val "1")] (Some 0) (Some (Val "1"))) (Create "a" "P30D")
       ≫= fun s1 => step Undefined (fun _ _ => true) (Val "1") s1 (Create "b" "P30D") ≫= fun s2 =>
       step Undefined (fun _ _ => true) (Val "1") s2 (Resolve 1 TokenCreated)) = Some s3 /\
    creatingToken s3 = false /\ CreateToken (Val "1") "b" "P30D" None ∈ pending s3.
Proof.
  apply (overlapping_creates Undefined (fun _ _ => true) (Val "1")
           (mkState None 0 [] false [LoadUser (Val "1")] (Some 0) (Some (Val "1"))) "a" "P30D" "b" "P30D" TokenCreated).
  - apply reach_mount. vm_compute. reflexivity.
  - by left.
Defined.

End UserTokensEditPage.
