(* ===== verification/SidecarRow.v ===== *)
(** * A row of the sidecar list
      (components/sidecars/sidecars/SidecarRow.tsx)

    The row shows one sidecar: its name linked to its status page, its
    status indicator, its operating system, when it was last seen, its
    node id with an "(inactive)" annotation, its version, and two buttons
    linking to the sidecar administration and to the messages the
    sidecar's collectors sent. The links come from the qualified route
    table of [Routes]: [Routes.SYSTEM.SIDECARS.STATUS],
    [Routes.SYSTEM.SIDECARS.ADMINISTRATION] and [Routes.search_with_query].

    The [sidecar] prop is untyped ([any]) and is a dynamic value here.
    Reading a property of [undefined] or [null] is a [TypeError], and the
    render is then [None]. The status indicator gets the sidecar's status
    only when [node_details.status] is truthy and its code is valid.
    [SidecarStatusEnum.isValidStatusCode] and [recentMessagesTimeRange]
    (logic/sidecar and util/TimeRangeHelper, not in the repository) are
    section variables, and so are the parameters of the route table. The
    component's only state, [showRelativeTime], starts [true] and is never
    set. *)

From S2P Require Import Prelude JsValue Uri Routes.
Set Warnings "-clear-no-such-hyp".

Module SidecarRow.
Import Routes.

Local Open Scope string_scope.

Section Row.

Variables viewsPath extendedSearchPath : string.
Variables encodeQuery recodePath : string -> string.
(** [AppConfig.gl2AppPathPrefix()] *)
Variable appPrefix : nullable string.
Variable isValidStatusCode : jval -> bool.
(** [recentMessagesTimeRange()] *)
Variable recentMessagesTimeRange : jval.

(** The default export of routing/Routes: [qualifyUrls(Routes)]. *)
Definition qualifiedRoutes : list (string * RouteMapEntry (option string)) :=
  qualifyUrls recodePath (Routes viewsPath extendedSearchPath encodeQuery) appPrefix.

(** [{ status, message, id }] for the status indicator. *)
Record SidecarStatus := mkStatus { st_status : jval; st_message : jval; st_id : jval }.

Definition no_status : SidecarStatus := mkStatus JNull JNull JNull.

(** [sidecarStatus] after the [if] of [render]. *)
Definition sidecarStatus (sidecar nodeDetails : jval) : option SidecarStatus :=
  status ← js_get nodeDetails "status";
  if truthy status then
    code ← js_get status "status";
    if isValidStatusCode code then
      message ← js_get status "message";
      id ← js_get sidecar "node_id";
      Some (mkStatus code message id)
    else Some no_status
  else Some no_status.

(** What the row renders. *)
Record View := mkView {
  inactive : bool;                   (* SidecarTR inactive={!sidecar.active} *)
  name_link : string;                (* Routes.SYSTEM.SIDECARS.STATUS(sidecar.node_id) *)
  node_name : jval;
  status : SidecarStatus;
  lastSeen : jval;
  operatingSystem : jval;
  relativeTime : bool;               (* RelativeTime rather than Timestamp *)
  node_id : jval;
  annotation : string;
  sidecar_version : jval;
  manage_link : string;              (* `${Routes.SYSTEM.SIDECARS.ADMINISTRATION}?node_id=${sidecar.node_id}` *)
  messages_link : string             (* Routes.search_with_query(...) *)
}.

(** [render()]. A route that throws (a path urijs cannot parse, or
    [search_with_query]'s range check) aborts the render. *)
Definition render (showRelativeTime : bool) (sidecar : jval) : option View :=
  active ← js_get sidecar "active";
  let annotation := if truthy active then "" else " (inactive)" in
  nodeDetails ← js_get sidecar "node_details";
  st ← sidecarStatus sidecar nodeDetails;
  id ← js_get sidecar "node_id";
  name ← js_get sidecar "node_name";
  statusLink ← route_call qualifiedRoutes ["SYSTEM"; "SIDECARS"; "STATUS"] [id];
  lastSeen ← js_get sidecar "last_seen";
  os ← js_get nodeDetails "operating_system";
  version ← js_get sidecar "sidecar_version";
  administration ← route_literal qualifiedRoutes ["SYSTEM"; "SIDECARS"; "ADMINISTRATION"];
  messages ← route_call qualifiedRoutes ["search_with_query"]
               [JStr ("gl2_source_collector:" ++ js_string id); JStr "absolute"; recentMessagesTimeRange];
  Some (mkView (negb (truthy active)) statusLink name st lastSeen os showRelativeTime id annotation version
          (administration ++ "?node_id=" ++ js_string id) messages).

(** [this.state = { showRelativeTime: true }]; nothing sets it. *)
Definition initial_showRelativeTime : bool := true.

End Row.

(** ** Lemmas *)

Section Lemmas.

Context (viewsPath extendedSearchPath : string) (encodeQuery recodePath : string -> string)
  (appPrefix : nullable string) (isValidStatusCode : jval -> bool) (recentMessagesTimeRange : jval).
Hypothesis Hprefix : no_prefix appPrefix = true.

Abbreviation qualifiedRoutes := (qualifiedRoutes viewsPath extendedSearchPath encodeQuery recodePath appPrefix).
Abbreviation render := (render viewsPath extendedSearchPath encodeQuery recodePath appPrefix isValidStatusCode
                          recentMessagesTimeRange).

(** The query of the "Show messages" link: the collector's messages in
    the recent absolute range, if there is one. *)
Definition messages_query (id : jval) : list (string * jval) :=
  [("q", JStr ("gl2_source_collector:" ++ js_string id))] ++
  (if truthy recentMessagesTimeRange
   then [("rangetype", JStr "absolute"); ("from", prop recentMessagesTimeRange "from");
         ("to", prop recentMessagesTimeRange "to")]
   else []).

Lemma with_query_SEARCH data :
  with_query encodeQuery SEARCH data = Some (Uri.resource (Uri.mkUri "/search" (Uri.nonempty (buildQuery encodeQuery data)) None)).
Proof. unfold with_query. vm_compute (Uri.parse SEARCH). reflexivity. Qed.

Lemma status_route id :
  route_call qualifiedRoutes ["SYSTEM"; "SIDECARS"; "STATUS"] [id] = Some ("/system/sidecars/" ++ js_string id ++ "/status").
Proof. unfold route_call, SidecarRow.qualifiedRoutes. rewrite qualifyUrls_no_prefix by done. reflexivity. Qed.

Lemma administration_route :
  route_literal qualifiedRoutes ["SYSTEM"; "SIDECARS"; "ADMINISTRATION"] = Some "/system/sidecars/administration".
Proof. unfold route_literal, SidecarRow.qualifiedRoutes. rewrite qualifyUrls_no_prefix by done. reflexivity. Qed.

Lemma messages_route id :
  route_call qualifiedRoutes ["search_with_query"]
    [JStr ("gl2_source_collector:" ++ js_string id); JStr "absolute"; recentMessagesTimeRange]
  = Some (Uri.resource (Uri.mkUri "/search" (Uri.nonempty (buildQuery encodeQuery (messages_query id))) None)).
Proof.
  unfold route_call, SidecarRow.qualifiedRoutes. rewrite qualifyUrls_no_prefix by done.
  cbn -[search_with_query]. unfold search_with_query, messages_query, argv. cbn [nth truthy andb].
  destruct (truthy recentMessagesTimeRange); simpl; apply with_query_SEARCH.
Qed.

(** The status the indicator gets once [sidecar] and its [node_details]
    are objects. *)
Lemma sidecarStatus_spec sidecar nd :
  js_nullish sidecar = false -> js_nullish nd = false ->
  sidecarStatus isValidStatusCode sidecar nd =
  Some (if truthy (prop nd "status") && isValidStatusCode (prop (prop nd "status") "status")
        then mkStatus (prop (prop nd "status") "status") (prop (prop nd "status") "message") (prop sidecar "node_id")
        else no_status).
Proof.
  intros Hs Hn. unfold sidecarStatus. rewrite (js_get_some nd "status" Hn). simpl. fold (prop nd "status").
  destruct (truthy (prop nd "status")) eqn:Ht; [|done].
  pose proof (truthy_not_nullish _ Ht) as Hst.
  rewrite (js_get_some _ "status" Hst), (js_get_some _ "message" Hst), (js_get_some sidecar "node_id" Hs).
  simpl. fold (prop (prop nd "status") "status") (prop (prop nd "status") "message") (prop sidecar "node_id").
  by destruct (isValidStatusCode _).
Qed.

(** The row of a sidecar whose [node_details] is an object. *)
Lemma render_eq b sidecar :
  js_nullish sidecar = false -> js_nullish (prop sidecar "node_details") = false ->
  render b sidecar =
  Some (mkView (negb (truthy (prop sidecar "active")))
          ("/system/sidecars/" ++ js_string (prop sidecar "node_id") ++ "/status")
          (prop sidecar "node_name")
          (let st := prop (prop sidecar "node_details") "status" in
           if truthy st && isValidStatusCode (prop st "status")
           then mkStatus (prop st "status") (prop st "message") (prop sidecar "node_id") else no_status)
          (prop sidecar "last_seen") (prop (prop sidecar "node_details") "operating_system") b
          (prop sidecar "node_id") (if truthy (prop sidecar "active") then "" else " (inactive)")
          (prop sidecar "sidecar_version")
          ("/system/sidecars/administration?node_id=" ++ js_string (prop sidecar "node_id"))
          (Uri.resource (Uri.mkUri "/search"
             (Uri.nonempty (buildQuery encodeQuery (messages_query (prop sidecar "node_id")))) None))).
Proof.
  intros Hs Hn. unfold SidecarRow.render.
  rewrite !(js_get_some sidecar _ Hs). cbn [mbind option_bind].
  fold (prop sidecar "active") (prop sidecar "node_details") (prop sidecar "node_id")
    (prop sidecar "node_name") (prop sidecar "last_seen") (prop sidecar "sidecar_version").
  rewrite (sidecarStatus_spec _ _ Hs Hn), (js_get_some _ "operating_system" Hn). cbn [mbind option_bind].
  fold (prop (prop sidecar "node_details") "operating_system").
  by rewrite status_route, administration_route, messages_route.
Qed.

(** A nullish sidecar or [node_details] throws before anything renders. *)
Lemma render_nullish b sidecar :
  js_nullish sidecar = true \/ js_nullish (prop sidecar "node_details") = true -> render b sidecar = None.
Proof.
  intros Hn. unfold SidecarRow.render. destruct (js_nullish sidecar) eqn:Hs.
  - by rewrite (proj2 (js_get_none sidecar "active") Hs).
  - destruct Hn as [|Hn]; [done|].
    rewrite !(js_get_some sidecar _ Hs). cbn [mbind option_bind]. fold (prop sidecar "node_details").
    unfold sidecarStatus. by rewrite (proj2 (js_get_none (prop sidecar "node_details") "status") Hn).
Qed.

(** ** Properties *)

(** C18. The row throws a [TypeError] exactly when the sidecar, or its
    [node_details], is [undefined] or [null]; with no path prefix none of
    its links throws. *)
Theorem row_throws b sidecar :
  render b sidecar = None <-> js_nullish sidecar = true \/ js_nullish (prop sidecar "node_details") = true.
Proof.
  split; [|apply render_nullish]. intros H.
  destruct (js_nullish sidecar) eqn:E1; [by left|]. right.
  destruct (js_nullish (prop sidecar "node_details")) eqn:E2; [done|]. by rewrite render_eq in H.
Qed.

(** C24. With no path prefix, a rendered row links the sidecar's name to
    [/system/sidecars/<node_id>/status], "Manage sidecar" to the
    administration page for [node_id], and "Show messages" to the search
    for [gl2_source_collector:<node_id>] in the recent absolute range. The
    status indicator gets a status only when its code is valid, with the
    sidecar's node id, and an inactive sidecar is annotated. *)
Theorem row_links b sidecar v :
  render b sidecar = Some v ->
  name_link v = "/system/sidecars/" ++ js_string (node_id v) ++ "/status" /\
  manage_link v = "/system/sidecars/administration?node_id=" ++ js_string (node_id v) /\
  messages_link v = Uri.resource (Uri.mkUri "/search"
                      (Uri.nonempty (buildQuery encodeQuery (messages_query (node_id v)))) None) /\
  (status v = no_status \/ isValidStatusCode (st_status (status v)) = true /\ st_id (status v) = node_id v) /\
  (inactive v = true <-> annotation v = " (inactive)").
Proof.
  intros H. destruct (js_nullish sidecar) eqn:E1; [by rewrite render_nullish in H; [|left]|].
  destruct (js_nullish (prop sidecar "node_details")) eqn:E2; [by rewrite render_nullish in H; [|right]|].
  rewrite render_eq in H by done. injection H as <-. cbn.
  split; [done|split; [done|split; [done|split]]].
  - destruct (truthy _ && isValidStatusCode _) eqn:Hv; [right|by left].
    apply andb_true_iff in Hv as [_ Hv]. done.
  - by destruct (truthy (prop sidecar "active")).
Qed.

End Lemmas.


(** ** Witnesses *)

Lemma row_throws_witness :
  no_prefix Undefined = true /\
  render "/views" "/search" id id Undefined (fun _ => true) JUndef true (JMap [("node_details", JNull)]) = None.
Proof.
  split; [reflexivity|].
  apply (proj2 (row_throws "/views" "/search" id id Undefined (fun _ => true) JUndef eq_refl true _)).
  by right.
Defined.

Lemma row_links_witness :
  no_prefix Undefined = true /\
  match render "/views" "/search" id id Undefined (fun _ => true) JUndef true
          (JMap [("active", JBool false); ("node_id", JStr "abc"); ("node_details", JMap [])]) with
  | Some v => name_link v = "/system/sidecars/" ++ js_string (node_id v) ++ "/status"
  | None => False
  end.
Proof.
  split; [reflexivity|].
  destruct (render "/views" "/search" id id Undefined (fun _ => true) JUndef true _) as [v|] eqn:E.
  - exact (proj1 (row_links "/views" "/search" id id Undefined (fun _ => true) JUndef eq_refl true _ v E)).
  - vm_compute in E. discriminate.
Defined.

End SidecarRow.
