(* ===== verification/SearchPage.v ===== *)
(** * The search page (views/components/Search.tsx)

    [Search] lays out a search or a dashboard: the URL synchronisation,
    the sidebar, the header elements, the search bar of a search or of a
    dashboard, the query tabs, the results and the aside elements. Which
    of them render depends on whether the view is interactive, on its type
    and on the focused widget.

    On mount the page executes the active query ([refreshSearch]) and
    refreshes the streams. [useOnWindowUnload] registers a [beforeunload]
    listener that cancels the executed job. Its cleanup runs when the page
    unmounts or the dispatch function changes: it cancels the job and
    removes the listener.

    [GridContainer] and [SearchArea] are the styles that depend on the
    view. [additionalContext] is [ViewAdditionalContextProvider] with its
    [useMemo] cell ([use_memo] of the prelude).

    The render is [render]: the elements in document order, or [None]
    where destructuring throws. The lifecycle is explicit. The effects are
    compared on their dependency arrays. The window's listeners are a list
    of closures, each named by the run of the effect that registered it.
    Each effect's log records the actions in the order they are
    dispatched.

    [IfInteractive], [IfDashboard] and [IfSearch] are not in the
    repository. They render their children in an interactive view, in a
    dashboard and in a search, as their names say. The dispatch function
    is an abstract value with decidable identity. *)

From stdpp Require Import base list.
From S2P Require Import Prelude.
Set Warnings "-clear-no-such-hyp".

Module SearchPage.

(** ** Render *)

Inductive ViewType := SearchView | DashboardView.

#[export] Instance ViewType_eq_dec : EqDecision ViewType.
Proof. solve_decision. Defined.

(** [useSearchPageLayout()]: the parts [Search] reads. *)
Record SidebarLayout := mkSidebarLayout { isShown : bool }.

Record Layout := mkLayout {
  sidebar : nullable SidebarLayout;
  searchAreaContainer : bool;            (* searchAreaContainer?.component is set *)
  infoBar : bool;                        (* infoBar?.component is set *)
  synchronizeUrl : nullable bool
}.

(** [focusedWidget] of [WidgetFocusContext]. *)
Record FocusedWidget := mkFocusedWidget { focusing : bool; editing : bool }.

Inductive Element :=
| SynchronizeUrl | WindowLeaveMessage | Sidebar | HeaderElements | InfoBar
| DashboardSearchBar | SearchBar | QueryBarElements | QueryBar | SearchResult | AsideElements.

#[export] Instance Element_eq_dec : EqDecision Element.
Proof. solve_decision. Defined.

Definition when (b : bool) (l : list Element) : list Element := if b then l else [].

(** [Search]'s render, inside [InteractiveContext] ([interactive]) and a
    view of type [viewType]. Destructuring [sidebar: { isShown }] throws
    on a nullish [sidebar], and [focusedWidget: { focusing, editing } =
    {...}] throws on [null] (the default replaces [undefined] only). *)
Definition render (layout : Layout) (interactive : bool) (viewType : ViewType)
    (focusedWidget : nullable FocusedWidget) : option (list Element) :=
  match sidebar layout with
  | Val sb =>
      (* [synchronizeUrl = true]: the default replaces [undefined] only,
         and a [null] is falsy. *)
      let synchronize := match synchronizeUrl layout with Undefined => true | Null => false | Val b => b end in
      match focusedWidget with
      | Null => None
      | fw =>
          let '(focusingWidget, editingWidget) :=
            match fw with Val w => (focusing w, editing w) | _ => (false, false) end in
          let dashboard := bool_decide (viewType = DashboardView) in
          Some (when synchronize [SynchronizeUrl] ++
                when (interactive && dashboard) [WindowLeaveMessage] ++
                when (interactive && isShown sb) [Sidebar] ++
                when interactive
                  ([HeaderElements] ++ when (infoBar layout) [InfoBar] ++
                   when (dashboard && negb editingWidget) [DashboardSearchBar] ++
                   when (bool_decide (viewType = SearchView)) [SearchBar] ++
                   [QueryBarElements] ++
                   when (dashboard && negb focusingWidget) [QueryBar]) ++
                [SearchResult] ++
                when interactive [AsideElements])
      end
  | _ => None
  end.

(** ** Styles and the additional context *)

(** [GridContainer]'s style: a scrolling flex row in an interactive
    view, [flex: 1] otherwise. *)
Inductive GridStyle := GridFlexScroll | GridFlexOne.

Definition GridContainer (interactive : bool) : GridStyle :=
  if interactive then GridFlexScroll else GridFlexOne.

(** [focusedWidget?.id], truthy: a non-empty id. *)
Definition focused_id (focusedWidget : nullable (nullable string)) : bool :=
  match focusedWidget with Val (Val id) => negb (String.eqb id "") | _ => false end.

(** [SearchArea]'s [.page-content-grid] block, present when
    [focusedWidget?.id] is truthy: its [overflow]. *)
Definition SearchArea (focusedWidget : nullable (nullable string)) : option string :=
  if focused_id focusedWidget
  then Some (if focused_id focusedWidget then "auto" else "visible")
  else None.

Section AdditionalContext.

Context {ViewT User Params Bindings Fields : Type}.
Context `{EqDecision ViewT, EqDecision User, EqDecision Params, EqDecision Bindings, EqDecision Fields}.

(** [useSearchConfiguration().config]: the part the provider reads. *)
Record SearchesClusterConfig := mkSearchesClusterConfig { analysis_disabled_fields : nullable Fields }.

(** The value of [AdditionalContext]. *)
Record ContextValue := mkContextValue {
  cv_view : ViewT;
  analysisDisabledFields : nullable Fields;
  cv_currentUser : User;
  cv_parameters : Params;
  cv_parameterBindings : Bindings
}.

(** [useMemo]'s dependencies: [[currentUser, parameterBindings,
    parameters, searchesClusterConfig?.analysis_disabled_fields, view]]. *)
Definition ContextDeps : Type := User * Bindings * Params * nullable Fields * ViewT.

(** [ViewAdditionalContextProvider]'s render: the context value it
    provides and its memo cell. *)
Definition additionalContext (cell : option (ContextDeps * ContextValue)) (view : ViewT)
    (searchesClusterConfig : nullable SearchesClusterConfig) (parameters : Params) (parameterBindings : Bindings)
    (currentUser : User) : ContextValue * option (ContextDeps * ContextValue) :=
  let fields := match searchesClusterConfig with Val c => analysis_disabled_fields c | _ => Undefined end in
  use_memo cell (currentUser, parameterBindings, parameters, fields, view)
    (mkContextValue view fields currentUser parameters parameterBindings).

End AdditionalContext.

(** ** Lifecycle *)

Section Lifecycle.

Context {Dispatch : Type} `{EqDecision Dispatch}.

Inductive Action := ExecuteActiveQuery | CancelExecutedJob.

(** What the page does outside React: dispatched actions and the streams
    store refresh. *)
Inductive Effect := Dispatched (d : Dispatch) (a : Action) | StreamsRefresh.

Record State := mkState {
  mounted : bool;
  deps : option Dispatch;               (* [dispatch] the effects last ran with *)
  run : nat;                            (* runs of the unload effect so far *)
  listeners : list (nat * Dispatch)     (* beforeunload listeners: the run that added it, its dispatch *)
}.

Definition init : State := mkState false None 0 [].

(** The unload effect's body: [addEventListener('beforeunload',
    handleLeavePage)] with a new closure. *)
Definition unload_setup (d : Dispatch) (s : State) : State :=
  mkState (mounted s) (deps s) (S (run s)) (listeners s ++ [(S (run s), d)]).

(** Its cleanup for the closure of run [n] over [d]: [handleLeavePage()]
    then [removeEventListener]. *)
Definition unload_cleanup (n : nat) (d : Dispatch) (s : State) : State * list Effect :=
  (mkState (mounted s) (deps s) (run s) (filter (fun l => fst l <> n) (listeners s)),
   [Dispatched d CancelExecutedJob]).

Definition set_deps (m : bool) (d : option Dispatch) (s : State) : State :=
  mkState m d (run s) (listeners s).

(** A render with the dispatch function [d]: the first one runs the three
    effects in order; a later one with another [d] runs the cleanup of
    the two effects that depend on it, then their bodies. *)
Definition render_commit (d : Dispatch) (s : State) : State * list Effect :=
  match deps s with
  | None =>
      (unload_setup d (set_deps true (Some d) s), [Dispatched d ExecuteActiveQuery; StreamsRefresh])
  | Some d' =>
      if decide (d = d') then (s, [])
      else let '(s1, e1) := unload_cleanup (run s) d' s in
           (unload_setup d (set_deps true (Some d) s1), e1 ++ [Dispatched d ExecuteActiveQuery])
  end.

(** Unmounting runs the cleanup of the unload effect. *)
Definition unmount (s : State) : State * list Effect :=
  match deps s with
  | Some d => let '(s1, e1) := unload_cleanup (run s) d s in (set_deps false None s1, e1)
  | None => (s, [])
  end.

(** The window fires [beforeunload]: every listener runs. *)
Definition beforeunload (s : State) : list Effect :=
  map (fun l => Dispatched (snd l) CancelExecutedJob) (listeners s).

Inductive Event := Render (d : Dispatch) | Unmount | BeforeUnload.

Definition step (s : State) (e : Event) : State * list Effect :=
  match e with
  | Render d => render_commit d s
  | Unmount => unmount s
  | BeforeUnload => (s, beforeunload s)
  end.

Fixpoint run_events (s : State) (es : list Event) : State * list Effect :=
  match es with
  | [] => (s, [])
  | e :: es' => let '(s1, e1) := step s e in let '(s2, e2) := run_events s1 es' in (s2, e1 ++ e2)
  end.

End Lifecycle.

(** ** Lemmas *)

Section Lemmas.

Context {Dispatch : Type} `{EqDecision Dispatch}.

Abbreviation State := (@State Dispatch).

(** A mounted page has the one listener of the unload effect's last run,
    over the dispatch it last ran with; an unmounted page has none. *)
Definition lifecycle_inv (s : State) : Prop :=
  match deps s with
  | Some d => mounted s = true /\ listeners s = [(run s, d)]
  | None => mounted s = false /\ listeners s = []
  end.

Lemma lifecycle_inv_init : lifecycle_inv init.
Proof. done. Qed.

Lemma lifecycle_inv_step (s : State) e : lifecycle_inv s -> lifecycle_inv (fst (step s e)).
Proof.
  intros Hs. destruct e as [d| |]; cbn [step]; [| |exact Hs].
  - unfold render_commit, lifecycle_inv in *. destruct (deps s) as [d'|] eqn:E; destruct Hs as [Hm Hl].
    + case_decide; [subst; simpl; by rewrite E|]. simpl. rewrite Hl. simpl. by rewrite filter_cons_False by (simpl; lia).
    + simpl. by rewrite Hl.
  - unfold unmount, lifecycle_inv in *. destruct (deps s) as [d|] eqn:E; [|simpl; by rewrite E].
    destruct Hs as [_ Hl]. simpl. rewrite Hl. simpl. by rewrite filter_cons_False by (simpl; lia).
Qed.

Lemma lifecycle_inv_run (s : State) es : lifecycle_inv s -> lifecycle_inv (fst (run_events s es)).
Proof.
  revert s. induction es as [|e es IH]; intros s Hs; [done|]. simpl.
  pose proof (lifecycle_inv_step s e Hs) as H1.
  destruct (step s e) as [s1 e1]. destruct (run_events s1 es) as [s2 e2] eqn:E.
  specialize (IH s1 H1). by rewrite E in IH.
Qed.

(** ** Properties *)

(** C6. After any sequence of renders (with any dispatch functions),
    unmounts and unloads, a [beforeunload] of the window cancels the
    executed job exactly once, through the dispatch function the page last
    rendered with, while the page is mounted, and does nothing once it is
    unmounted: a change of dispatch or an unmount never leaves a stale
    listener behind. *)
Theorem unload_cancels_once es :
  let s := fst (run_events (Dispatch:=Dispatch) init es) in
  beforeunload s = match deps s with Some d => [Dispatched d CancelExecutedJob] | None => [] end /\
  (mounted s = true <-> deps s <> None).
Proof.
  pose proof (lifecycle_inv_run init es lifecycle_inv_init) as H. simpl.
  unfold lifecycle_inv in H. destruct (deps _) as [d|]; destruct H as [Hm Hl];
    unfold beforeunload; rewrite Hl, Hm; naive_solver.
Qed.

End Lemmas.

(** The [visible] branch of [SearchArea]'s [overflow] is dead: the
    block exists only when [focusedWidget?.id] is truthy, and then the
    overflow is [auto]. *)
Lemma SearchArea_auto fw : SearchArea fw = if focused_id fw then Some "auto" else None.
Proof. unfold SearchArea. by destruct (focused_id fw). Qed.

Section ContextLemmas.

Context {ViewT User Params Bindings Fields : Type}.
Context `{EqDecision ViewT, EqDecision User, EqDecision Params, EqDecision Bindings, EqDecision Fields}.

(** A memo cell whose value is the one its dependencies give. *)
Definition context_cell_ok (cell : option (@ContextDeps ViewT User Params Bindings Fields * ContextValue)) : Prop :=
  match cell with
  | Some ((u, b, p, f, v), x) => x = mkContextValue v f u p b
  | None => True
  end.

(** The dependency array of the provider is complete: the memoised
    context value is always the one the current render would build, and
    the cell stays consistent. *)
Lemma additionalContext_current cell view config parameters bindings user :
  context_cell_ok cell ->
  let '(x, cell') := additionalContext cell view config parameters bindings user in
  x = mkContextValue view (match config with Val c => analysis_disabled_fields c | _ => Undefined end)
        user parameters bindings /\ context_cell_ok cell'.
Proof.
  intros Hok. unfold additionalContext.
  match goal with |- context [use_memo ?c ?d ?v] => destruct (use_memo_stores c d v) as (x & E & Hx) end.
  rewrite E. destruct Hx as [Hx|Hx]; subst; [done|]. by simpl in Hok; subst.
Qed.

End ContextLemmas.

(** C31. The search page throws when the layout has no [sidebar] or the
    focused widget is [null]. Otherwise it always shows the results; the
    search bar exactly in an interactive search; the dashboard search bar
    exactly in an interactive dashboard whose widget is not being edited;
    the query tabs exactly in an interactive dashboard with no focused
    widget; and outside an interactive view nothing but the URL
    synchronisation and the results. *)
Theorem render_elements layout interactive vt fw :
  (render layout interactive vt fw = None <-> isNullish (sidebar layout) = true \/ fw = Null) /\
  (forall els, render layout interactive vt fw = Some els ->
     SearchResult ∈ els /\
     (SearchBar ∈ els <-> interactive = true /\ vt = SearchView) /\
     (DashboardSearchBar ∈ els <-> interactive = true /\ vt = DashboardView /\
        match fw with Val w => editing w = false | _ => True end) /\
     (QueryBar ∈ els <-> interactive = true /\ vt = DashboardView /\
        match fw with Val w => focusing w = false | _ => True end) /\
     (interactive = false -> els ⊆ [SynchronizeUrl; SearchResult])).
Proof.
  destruct layout as [sb sac ib su]. unfold render; cbn [sidebar infoBar synchronizeUrl].
  destruct sb as [| |[shown]], fw as [| |[fo ed]]; split; try naive_solver;
    intros els [= <-]; destruct interactive, vt, ib, su as [| |[]], shown; try destruct fo; try destruct ed;
    apply (bool_decide_unpack _); vm_compute; reflexivity.
Qed.


Lemma render_elements_witness :
  SearchResult ∈ [SynchronizeUrl; Sidebar; HeaderElements; SearchBar; QueryBarElements; SearchResult; AsideElements].
Proof.
  exact (proj1 (proj2 (render_elements (mkLayout (Val (mkSidebarLayout true)) false false Undefined) true
                         SearchView Undefined)
                 [SynchronizeUrl; Sidebar; HeaderElements; SearchBar; QueryBarElements; SearchResult; AsideElements]
                 eq_refl)).
Defined.

End SearchPage.
