(* ===== verification/TypeSpecificValue.v ===== *)
(** * A field value shown by its type (views/components/TypeSpecificValue.tsx)

    [TypeSpecificValue] chooses how to show the value of a message field.
    - It shows nothing for [undefined].
    - It uses a [DecoratorValue] for a decorated type.
    - It uses the plugin renderer registered for the type's name, if any.
    - Otherwise it uses [FormattedValue]. With the unit feature on and a
      defined unit, [FormattedValue] shows a value together with its unit.
    - In every other case [_formatValue] prints the value. A string stays
      as it is and anything else goes through [JSON.stringify]. The text is
      truncated to 30 characters on request, and whitespace-only text
      shows as [EmptyValue].

    [JSON.stringify], lodash's [trim] and [truncate] (default options:
    length 30, omission ["..."]) are modelled on ASCII text. [trim]
    removes the ASCII whitespace that [\s] matches. [FieldType],
    [FieldUnit], [MISSING_BUCKET_NAME] and the plugin entities are not in
    the repository; they are records and section variables. *)

From stdpp Require Import pretty.
From Stdlib Require Import Ascii.
From S2P Require Import Prelude JsValue.
Set Warnings "-clear-no-such-hyp".

Module TypeSpecificValue.

Local Open Scope string_scope.

(** ** Library functions *)

(** The two hexadecimal digits of a byte below 32. *)
Definition hex_digit (n : nat) : string :=
  String (ascii_of_nat (if Nat.ltb n 10 then 48 + n else 87 + n)) "".

(** [JSON.stringify]'s escape of one character of a string. *)
Definition json_char (c : ascii) : string :=
  let n := nat_of_ascii c in
  if Nat.eqb n 34 then String "092" (String "034" "")
  else if Nat.eqb n 92 then "\\"
  else if Nat.eqb n 8 then "\b"
  else if Nat.eqb n 12 then "\f"
  else if Nat.eqb n 10 then "\n"
  else if Nat.eqb n 13 then "\r"
  else if Nat.eqb n 9 then "\t"
  else if Nat.ltb n 32 then "\u00" ++ hex_digit (n / 16) ++ hex_digit (n mod 16)
  else String c "".

Fixpoint json_escape (s : string) : string :=
  match s with
  | EmptyString => ""
  | String c s' => json_char c ++ json_escape s'
  end.

Definition json_quote (s : string) : string := String "034" (json_escape s ++ String "034" "").

(** [JSON.stringify(v)]: [None] for [undefined]; inside an array an
    [undefined] element prints [null], and inside an object a key whose
    value is [undefined] is left out. *)
Fixpoint json_stringify (v : jval) : option string :=
  match v with
  | JUndef => None
  | JNull => Some "null"
  | JBool b => Some (if b then "true" else "false")
  | JNum n => Some (pretty n)
  | JStr s => Some (json_quote s)
  | JList xs =>
      Some ("[" ++ String.concat "," (map (fun x => match json_stringify x with Some t => t | None => "null" end) xs)
            ++ "]")
  | JMap m =>
      Some ("{" ++ String.concat ","
                     (flat_map (fun '(k, x) => match json_stringify x with
                                               | Some t => [json_quote k ++ ":" ++ t]
                                               | None => []
                                               end) m) ++ "}")
  end.

Definition is_space (c : ascii) : bool :=
  let n := nat_of_ascii c in Nat.eqb n 32 || (Nat.leb 9 n && Nat.leb n 13).

Fixpoint trim_start (s : string) : string :=
  match s with
  | String c s' => if is_space c then trim_start s' else s
  | EmptyString => EmptyString
  end.

Definition string_rev (s : string) : string :=
  String.string_of_list_ascii (rev (String.list_ascii_of_string s)).

(** lodash [trim]; [trim(undefined)] is [''] *)
Definition trim (s : option string) : string :=
  match s with
  | Some t => string_rev (trim_start (string_rev (trim_start t)))
  | None => ""
  end.

(** lodash [truncate(s)] with its defaults. *)
Definition trunc (s : string) : string :=
  if Nat.leb (String.length s) 30 then s else String.substring 0 27 s ++ "...".

(** ** The component *)

(** A [FieldType]: its name and [isDecorated()]. *)
Record FieldType := mkFieldType { ft_type : string; isDecorated : bool }.

(** A [FieldUnit]: [isDefined], [abbrev] and [unitType]. *)
Record FieldUnit := mkFieldUnit { isDefined : bool; abbrev : string; unitType : string }.

Section Value.

Context {Renderer PluginRenderer : Type}.
(** [FieldType.Unknown] *)
Variable Unknown : FieldType.
Variable MISSING_BUCKET_NAME : string.
(** [useFeature(UNIT_FEATURE_FLAG)] *)
Variable unitFeatureEnabled : bool.
(** [usePluginEntities('fieldTypeValueRenderer')] *)
Variable pluggableEntities : nullable (list (string * PluginRenderer)).

Inductive Rendered :=
| Nothing                                                         (* null *)
| Decorator (value : jval) (field : string) (render : option Renderer) (type : FieldType) (truncate : bool)
| Plugin (r : PluginRenderer) (value : jval) (field : string) (render : option Renderer)
| WithUnit (value : jval) (unit : FieldUnit)                      (* ValueWithUnitRenderer *)
| Empty                                                           (* EmptyValue *)
| Component (render : option Renderer) (field : string) (value : string) (type : nullable FieldType).

(** [Object.fromEntries(entries)[k]]: the last entry with key [k] wins. *)
Definition from_entries_get {A} (k : string) (entries : list (string * A)) : option A :=
  fold_left (fun acc '(k', r) => if String.eqb k k' then Some r else acc) entries None.

(** [usePluggableValueRenderer()[type]] *)
Definition pluggableValueRenderer (type : string) : option PluginRenderer :=
  from_entries_get type (pluggableEntities ?? []).

(** [_formatValue(field, value, truncate, render, type)]; [render] is
    [None] for [defaultComponent]. *)
Definition _formatValue (field : string) (value : jval) (truncate : bool) (render : option Renderer)
    (type : nullable FieldType) : Rendered :=
  let stringified := match value with JStr s => Some s | _ => json_stringify value end in
  if String.eqb (trim stringified) "" then Empty
  else let shown := match stringified with Some t => t | None => "" end in
       Component render field (if truncate then trunc shown else shown) type.

(** [shouldRenderValueWithUnit] *)
Definition shouldRenderValueWithUnit (value : jval) (unit : nullable FieldUnit) : bool :=
  unitFeatureEnabled && (match unit with Val u => isDefined u | _ => false end) && truthy value &&
  negb (bool_decide (value = JStr MISSING_BUCKET_NAME)) && unitFeatureEnabled.

(** [FormattedValue] *)
Definition FormattedValue (field : string) (value : jval) (truncate : bool) (render : option Renderer)
    (unit : nullable FieldUnit) (type : nullable FieldType) : Rendered :=
  if shouldRenderValueWithUnit value unit then
    match unit with Val u => WithUnit value u | _ => Nothing end
  else _formatValue field value truncate render type.

(** [TypeSpecificValue]. [type] defaults to [FieldType.Unknown] when it
    is [undefined]; [type.isDecorated()] on [null] throws ([None]), after
    the check of [value]. *)
Definition TypeSpecificValue (field : string) (value : jval) (render : option Renderer)
    (type : nullable FieldType) (truncate : bool) (unit : nullable FieldUnit) : option Rendered :=
  if bool_decide (value = JUndef) then Some Nothing
  else match type with
       | Null => None
       | _ =>
           let type := match type with Val t => t | _ => Unknown end in
           if isDecorated type then Some (Decorator value field render type truncate)
           else match pluggableValueRenderer (ft_type type) with
                | Some r => Some (Plugin r value field render)
                | None => Some (FormattedValue field value truncate render unit (Val type))
                end
       end.

End Value.

(** ** Lemmas *)

Lemma substring_0_length n s : String.length (String.substring 0 n s) <= n.
Proof. revert s. induction n as [|n IH]; intros [|c s]; simpl; try lia. specialize (IH s). lia. Qed.

Lemma trunc_length s : String.length (trunc s) <= 30.
Proof.
  unfold trunc. destruct (Nat.leb_spec (String.length s) 30); [done|].
  rewrite slength_app. pose proof (substring_0_length 27 s). simpl. lia.
Qed.

Lemma trunc_short s : String.length s <= 30 -> trunc s = s.
Proof. intros H. unfold trunc. by rewrite (proj2 (Nat.leb_le _ _) H). Qed.

Definition all_space (s : string) : bool := forallb is_space (String.list_ascii_of_string s).

Lemma trim_start_empty s : trim_start s = "" <-> all_space s = true.
Proof.
  unfold all_space. induction s as [|c s IH]; simpl; [done|].
  destruct (is_space c); simpl; [done|]. split; discriminate.
Qed.

(** [trim_start] stops at a character that is not a space. *)
Lemma trim_start_all_space s : all_space (trim_start s) = true -> all_space s = true.
Proof.
  unfold all_space. induction s as [|c s IH]; simpl; [done|].
  destruct (is_space c) eqn:E; simpl; [done|]. by rewrite E.
Qed.

Lemma all_space_rev s : all_space (string_rev s) = all_space s.
Proof.
  unfold all_space, string_rev. rewrite String.list_ascii_of_string_of_list_ascii.
  induction (String.list_ascii_of_string s) as [|c l IH]; [done|].
  simpl. rewrite forallb_app, IH. simpl. by rewrite andb_true_r, andb_comm.
Qed.

Lemma string_rev_empty s : string_rev s = "" <-> s = "".
Proof.
  unfold string_rev. split; [|by intros ->].
  destruct s as [|c s]; [done|]. simpl.
  destruct (rev (String.list_ascii_of_string s)); simpl; discriminate.
Qed.

(** lodash [trim] empties exactly the whitespace-only strings. *)
Lemma trim_empty s : trim (Some s) = "" <-> all_space s = true.
Proof.
  unfold trim. rewrite string_rev_empty, trim_start_empty, all_space_rev. split.
  - apply trim_start_all_space.
  - intros H. by rewrite (proj2 (trim_start_empty s) H).
Qed.

(** The text starts with a character that is not a space. *)
Definition starts_solid (t : string) : Prop :=
  match t with String c _ => is_space c = false | EmptyString => False end.

Lemma pretty_N_go_solid x t : starts_solid t -> starts_solid (pretty_N_go x t).
Proof.
  revert t. induction x as [x IH] using (well_founded_induction N.lt_wf_0). intros t Ht.
  destruct (decide (0 < x)%N) as [Hx|Hx].
  - rewrite pretty_N_go_step by done. apply IH; [by apply N.div_lt|].
    unfold starts_solid, pretty_N_char. by repeat case_match.
  - assert (x = 0%N) as -> by lia. by rewrite pretty_N_go_0.
Qed.

Lemma pretty_Z_solid (n : Z) : starts_solid (pretty n).
Proof.
  destruct n as [|p|p]; [done| |done].
  unfold pretty, pretty_Z, pretty, pretty_positive, pretty, pretty_N.
  rewrite decide_False by done. rewrite pretty_N_go_step by lia. apply pretty_N_go_solid.
  unfold starts_solid, pretty_N_char. by repeat case_match.
Qed.

(** [JSON.stringify] of a defined value that is not a string starts with
    [n], [t], [f], a digit, [-], [[] or [{]. *)
Lemma json_stringify_solid v :
  v <> JUndef -> (forall s, v <> JStr s) -> exists t, json_stringify v = Some t /\ starts_solid t.
Proof.
  intros Hu Hs. destruct v as [| |b|n|s|xs|m]; try done; simpl.
  - by eexists.
  - destruct b; by eexists.
  - eexists. split; [done|]. apply pretty_Z_solid.
  - by destruct (Hs s).
  - by eexists.
  - by eexists.
Qed.

Lemma starts_solid_not_space t : starts_solid t -> all_space t = false.
Proof. destruct t as [|c t]; [done|]. unfold all_space. simpl. by intros ->. Qed.

(** ** Properties *)

Section Properties.

Context {Renderer PluginRenderer : Type} (Unknown : FieldType) (MISSING_BUCKET_NAME : string)
  (pluggableEntities : nullable (list (string * PluginRenderer))).

Abbreviation TSV ufe := (@TypeSpecificValue Renderer PluginRenderer Unknown MISSING_BUCKET_NAME ufe pluggableEntities).

(** C14. With the unit feature on and a defined unit, a number is shown
    with its unit, except [0]: the guard [value && ...] treats [0] as
    missing, so [0] is printed as plain ["0"] without the unit. *)
Theorem zero_loses_unit field (render : option Renderer) type truncate unit (n : Z) :
  isDefined unit = true -> isDecorated type = false ->
  pluggableValueRenderer pluggableEntities (ft_type type) = None ->
  TSV true field (JNum n) render (Val type) truncate (Val unit) =
  Some (if Z.eqb n 0 then Component render field "0" (Val type) else WithUnit (JNum n) unit).
Proof.
  intros Hu Hd Hp. unfold TypeSpecificValue. rewrite bool_decide_eq_false_2 by discriminate.
  rewrite Hd, Hp. unfold FormattedValue, shouldRenderValueWithUnit. rewrite Hu.
  destruct (Z.eqb_spec n 0) as [->|Hn]; [by destruct truncate|].
  simpl. rewrite (proj2 (Z.eqb_neq n 0) Hn). simpl. by rewrite ?bool_decide_eq_false_2.
Qed.

(** C21. A value is shown as [EmptyValue] exactly when it is a string of
    whitespace: [JSON.stringify] never gives blank text for a defined
    value that is not a string, [null] included. *)
Theorem empty_exactly_whitespace ufe field (render : option Renderer) type truncate v :
  isDecorated type = false -> pluggableValueRenderer pluggableEntities (ft_type type) = None ->
  TSV ufe field v render (Val type) truncate Undefined = Some Empty <->
  exists s, v = JStr s /\ all_space s = true.
Proof.
  intros Hd Hp. unfold TypeSpecificValue. case_bool_decide as Hv.
  - subst. split; [discriminate|]. by intros (s & [=] & _).
  - rewrite Hd, Hp. unfold FormattedValue, shouldRenderValueWithUnit. rewrite andb_false_r. simpl.
    unfold _formatValue.
    assert (Hcase : (exists s, v = JStr s) \/ (forall s, v <> JStr s))
      by (destruct v; try (right; intros ? [=]; fail); left; eexists; reflexivity).
    destruct Hcase as [[s ->]|Hs].
    + destruct (String.eqb_spec (trim (Some s)) "") as [E|E]; split.
      * intros _. exists s. split; [done|]. by apply trim_empty.
      * done.
      * intros [=].
      * intros (s' & [= <-] & H). by apply trim_empty in H.
    + destruct (json_stringify_solid v Hv Hs) as (t & Ht & Hsolid).
      assert (Hstr : match v with JStr s => Some s | _ => json_stringify v end = Some t)
        by (destruct v as [| | | |s0| |]; try done; exfalso; by apply (Hs s0)).
      rewrite Hstr. pose proof (starts_solid_not_space t Hsolid) as Hn.
      destruct (String.eqb_spec (trim (Some t)) "") as [E|_]; [apply trim_empty in E; congruence|].
      split; [discriminate|]. intros (s & -> & _). by destruct (Hs s).
Qed.

(** A truncated value never shows more than 30 characters. *)
Theorem truncated_bound ufe field v (render : option Renderer) type unit render' field' s type' :
  TSV ufe field v render type true unit = Some (Component render' field' s type') ->
  String.length s <= 30.
Proof.
  unfold TypeSpecificValue, FormattedValue, _formatValue.
  repeat case_match; intros Hc; simplify_eq; apply trunc_length.
Qed.

End Properties.

Lemma zero_loses_unit_witness :
  isDefined (mkFieldUnit true "ms" "time") = true /\
  TypeSpecificValue (Renderer:=unit) (PluginRenderer:=unit) (mkFieldType "unknown" false) "(Empty Value)" true
    Undefined "took_ms" (JNum 0) None (Val (mkFieldType "long" false)) false (Val (mkFieldUnit true "ms" "time"))
  = Some (Component None "took_ms" "0" (Val (mkFieldType "long" false))).
Proof.
  split; [done|].
  exact (zero_loses_unit (mkFieldType "unknown" false) "(Empty Value)" Undefined "took_ms" None
           (mkFieldType "long" false) false (mkFieldUnit true "ms" "time") 0 eq_refl eq_refl eq_refl).
Defined.

Lemma empty_exactly_whitespace_witness :
  TypeSpecificValue (Renderer:=unit) (PluginRenderer:=unit) (mkFieldType "unknown" false) "(Empty Value)" true
    Undefined "message" (JStr "  ") None (Val (mkFieldType "string" false)) false Undefined = Some Empty.
Proof.
  apply (empty_exactly_whitespace (mkFieldType "unknown" false) "(Empty Value)" Undefined true "message" None
           (mkFieldType "string" false) false (JStr "  ") eq_refl eq_refl).
  by exists "  ".
Defined.

Lemma truncated_bound_witness :
  String.length "abcdefghijklmnopqrstuvwxyz0..." <= 30.
Proof.
  apply (truncated_bound (Renderer:=unit) (PluginRenderer:=unit) (mkFieldType "unknown" false) "(Empty Value)"
           Undefined false "message" (JStr "abcdefghijklmnopqrstuvwxyz0123456789") None Undefined Undefined
           None "message" _ (Val (mkFieldType "unknown" false))).
  reflexivity.
Defined.

End TypeSpecificValue.
