(* ===== verification/ContentColumn.v ===== *)
(** * The sidebar's content column (views/components/sidebar/ContentColumn.tsx)

    The column shows the sidebar's title and section. It is pinned when
    the search page's preferences say so or when the page forces it.
    - A pinned column is part of the layout: position [relative], full
      height, no border and a shadow.
    - An unpinned column is an overlay: position [fixed] below the
      navigation bar, with a border.
    Unless pinning is forced, a button toggles the preference through
    [toggleSidebarPinning]. Its title says what a click will do.

    The preferences' store (SearchPagePreferencesProvider) is not in the
    repository. Its contract is the class [PinningPreferences]: it answers
    [config.sidebar.isPinned], and its [toggleSidebarPinning] action flips
    that flag. *)

From S2P Require Import Prelude.
Set Warnings "-clear-no-such-hyp".

Module ContentColumn.

Local Open Scope string_scope.

(** What [ContentColumn] needs of a [SearchPreferencesLayout]. *)
Class PinningPreferences (L : Type) := {
  isPinned : L -> bool;                          (* config.sidebar.isPinned *)
  togglePinning : L -> L;                        (* actions.toggleSidebarPinning() *)
  togglePinning_flips l : isPinned (togglePinning l) = negb (isPinned l)
}.

Section Column.

Context {L : Type} `{PinningPreferences L}.

(** [searchPageLayout?.config.sidebar.isPinned || forceSideBarPinned] *)
Definition sidebarIsPinned (searchPageLayout : nullable L) (forceSideBarPinned : bool) : bool :=
  match searchPageLayout with Val l => isPinned l | _ => false end || forceSideBarPinned.

(** The pinned-dependent declarations of [Container]'s style. *)
Record ContainerStyle := mkContainerStyle {
  position : string; height : string; top : string; left : string;
  borderRight : bool;                   (* a 1px border rather than none *)
  boxShadow : bool;                     (* a shadow rather than none *)
  before : bool                         (* the &::before corner *)
}.

Definition Container (pinned : bool) : ContainerStyle :=
  if pinned then mkContainerStyle "relative" "100%" "0" "0" false true true
  else mkContainerStyle "fixed" "calc(100% - 50px)" "50px" "50px" true false false.

Record View := mkView {
  container : ContainerStyle;
  title : string;
  sectionTitle : string;
  toggleButton : option string          (* the IconButton's title, when it is shown *)
}.

Definition render (title sectionTitle : string) (searchPageLayout : nullable L)
    (forceSideBarPinned enableSidebarPinning : bool) : View :=
  let pinned := sidebarIsPinned searchPageLayout forceSideBarPinned in
  mkView (Container pinned) title sectionTitle
    (if negb forceSideBarPinned && enableSidebarPinning
     then Some ("Display sidebar " ++ (if pinned then "as overlay" else "inline"))
     else None).

(** [toggleSidebarPinning(searchPageLayout)]: nothing without a layout. *)
Definition toggleSidebarPinning (searchPageLayout : nullable L) : nullable L :=
  match searchPageLayout with Val l => Val (togglePinning l) | other => other end.

End Column.

(** ** Lemmas *)

Section Lemmas.

Context {L : Type} `{PinningPreferences L}.

(** The button's title says what a click does: "as overlay" unpins the
    column, "inline" pins it. *)
Lemma toggle_title_truthful title sectionTitle (l : L) enable t :
  toggleButton (render title sectionTitle (Val l) false enable) = Some t ->
  (t = "Display sidebar as overlay" /\ position (container (render title sectionTitle
       (toggleSidebarPinning (Val l)) false enable)) = "fixed") \/
  (t = "Display sidebar inline" /\ position (container (render title sectionTitle
       (toggleSidebarPinning (Val l)) false enable)) = "relative").
Proof.
  unfold render, sidebarIsPinned, toggleSidebarPinning. simpl. rewrite !orb_false_r, togglePinning_flips.
  destruct enable; [|done]. intros [= <-]. destruct (isPinned l); [left|right]; done.
Qed.

(** A forced column is pinned and has no button, whatever the
    preferences. *)
Lemma forced_pinned title sectionTitle (layout : nullable L) enable :
  container (render title sectionTitle layout true enable) = Container true /\
  toggleButton (render title sectionTitle layout true enable) = None.
Proof. unfold render, sidebarIsPinned. by rewrite orb_true_r. Qed.

End Lemmas.

End ContentColumn.
