(* ===== verification/XYPlot.v ===== *)
(** * XY plots (views/components/visualizations/XYPlot.tsx)

    [XYPlot] builds the plotly layout of a line, area or scatter chart and
    hands it to [GenericPlot]. Its layout is computed as follows.
    - A default layout holds the y axis (its type mapped from the widget's
      axis type), the hover mode and, for a non-zero height, the legend's
      vertical position.
    - It is merged with lodash's [merge] under the caller's [plotLayout].
    - Its [xaxis] is then merged with a date range (a timeline with an
      effective time range) or with a fixed range and a category type
      (when the widget is sorted).
    The zoom handler is memoised with [useCallback] on [config.isTimeline]
    and [onZoom] only.

    Plotly layouts are JavaScript values ([pval]), with numbers as
    rationals. lodash's [merge] is a library model ([merge_key], [merge]):
    - a source's [undefined] never overwrites an existing key;
    - arrays merge index by index;
    - plain objects merge key by key into the destination, and into a
      fresh object where the destination has none.
    The destination of every merge of [XYPlot] is fresh: [merge({}, ...)]
    clones the caller's objects. So the functional model sees every value
    the code sees. Cases the code never reaches (an array destination for
    an object source, a string source) are [None]. A source that reaches
    one object twice, which lodash merges into one object, is outside the
    model.

    [assertUnreachable], [useUserDateTime] and [DEFAULT_AXIS_TYPE] are not
    in the repository. The first throws, the second is the section's
    [formatTime] and [userTimezone], and the third is [linear], as
    [XYVisualization] declares it. *)

From stdpp Require Import base list strings.
From Stdlib Require Import QArith.
From S2P Require Import Prelude.
Set Warnings "-clear-no-such-hyp -register-all".

Module XYPlot.

Local Open Scope string_scope.

(** ** Plotly values and lodash's [merge] *)

Inductive pval :=
| PUndef
| PNull
| PBool (b : bool)
| PNum (q : Q)
| PStr (s : string)
| PList (xs : list pval)
| PObj (kvs : list (string * pval)).

(** [key in object] and [object[key]]. *)
Fixpoint assoc_lookup (k : string) (m : list (string * pval)) : option pval :=
  match m with
  | [] => None
  | (k', v) :: m' => if String.eqb k k' then Some v else assoc_lookup k m'
  end.

(** [object[key] = value]: in place, or appended as a new key. *)
Fixpoint assoc_set (k : string) (v : pval) (m : list (string * pval)) : list (string * pval) :=
  match m with
  | [] => [(k, v)]
  | (k', v') :: m' => if String.eqb k k' then (k, v) :: m' else (k', v') :: assoc_set k v m'
  end.

(** [baseMerge] over the keys of an object source, in order: [mk] merges
    each source value into the destination's value for that key. *)
Fixpoint merge_obj_with (mk : option pval -> pval -> option pval)
    (m kvs : list (string * pval)) : option (list (string * pval)) :=
  match kvs with
  | [] => Some m
  | (k, v) :: kvs' => nv ← mk (assoc_lookup k m) v; merge_obj_with mk (assoc_set k nv m) kvs'
  end.

(** The same over the indices of an array source. *)
Fixpoint merge_list_with (mk : option pval -> pval -> option pval) (ys xs : list pval) : option (list pval) :=
  match xs with
  | [] => Some ys
  | x :: xs' => y' ← mk (head ys) x; ys' ← merge_list_with mk (tail ys) xs'; Some (y' :: ys')
  end.

(** [baseMerge]'s treatment of one key: the value the key holds after
    merging [srcValue] into [objValue] ([None] when [key in object] is
    false). A plain object or an array merges into the destination's own
    when it has one of that kind, and into a fresh one otherwise. An
    [undefined] source keeps a present key; any other primitive replaces
    it. The outer [None] is the case the model leaves out: an object
    source on an array destination. *)
Fixpoint merge_key (objValue : option pval) (srcValue : pval) {struct srcValue} : option pval :=
  match srcValue with
  | PList xs =>
      let base := match objValue with Some (PList ys) => ys | _ => [] end in
      PList <$> merge_list_with merge_key base xs
  | PObj kvs =>
      match objValue with
      | Some (PList _) => None
      | _ =>
          let base := match objValue with Some (PObj m) => m | _ => [] end in
          PObj <$> merge_obj_with merge_key base kvs
      end
  | PUndef => Some (default PUndef objValue)
  | _ => Some srcValue
  end.

(** [merge(object, source)]: [Object(object)] makes [undefined] and
    [null] a fresh object, and nullish sources are skipped. *)
Definition merge2 (object source : pval) : option pval :=
  let object := match object with PUndef | PNull => PObj [] | o => o end in
  match source, object with
  | PObj _, PObj _ => merge_key (Some object) source
  | (PUndef | PNull), _ => Some object
  | _, _ => None
  end.

(** [merge(object, ...sources)], left to right. *)
Definition merge (object : pval) (sources : list pval) : option pval :=
  foldl (fun acc s => acc ≫= fun o => merge2 o s) (Some object) sources.

(** ** The component *)

Definition Qltb (a b : Q) : bool := negb (Qle_bool b a).

(** [yLegendPosition]. *)
Definition yLegendPosition (containerHeight : Q) : Q :=
  if Qltb containerHeight 150 then -6 # 10
  else if Qltb containerHeight 400 then -2 # 10
  else -14 # 100.

(** [mapAxisType]: the axis type comes from a saved widget, so any string
    can reach it at run time; [assertUnreachable] throws ([None]). *)
Definition mapAxisType (axisType : string) : option string :=
  if String.eqb axisType "linear" then Some "linear"
  else if String.eqb axisType "logarithmic" then Some "log"
  else None.

Definition DEFAULT_AXIS_TYPE : string := "linear".

(** The chart's names, as [defaultSetColor] reads them. *)
Record ChartConfig := mkChartConfig { originalName : nullable string; name : string }.

(** [defaultSetColor]: a line colored by the chart's original name, or by
    its name. *)
Definition defaultSetColor (colors : string -> string) (chart : ChartConfig) : pval :=
  PObj [("line", PObj [("color", PStr (colors (originalName chart ?? name chart)))])].

(** The parts of [config: AggregationWidgetConfig] the plot reads. *)
Record Config := mkConfig { isTimeline : bool; sort_length : nat }.

Section Plot.

(** [useUserDateTime()]: [formatTime(time, 'internal')]. *)
Variable formatTime : string -> string.

Definition yaxis (axisType : string) : option pval :=
  t ← mapAxisType axisType;
  Some (PObj [("fixedrange", PBool true); ("rangemode", PStr "tozero");
              ("tickformat", PStr ",~r"); ("type", PStr t)]).

(** [defaultLayout], with its [legend] set when [height] is truthy. *)
Definition defaultLayout (axisType : string) (height : Q) : option pval :=
  y ← yaxis axisType;
  Some (PObj ([("yaxis", y); ("hovermode", PStr "x")] ++
              if Qeq_bool height 0 then [] else [("legend", PObj [("y", PNum (yLegendPosition height))])])).

(** The [xaxis] source of lines 112-126. *)
Definition xaxis_source (config : Config) (effectiveTimerange : option (string * string)) : pval :=
  match isTimeline config, effectiveTimerange with
  | true, Some (from, to) =>
      PObj [("range", PList [PStr (formatTime from); PStr (formatTime to)]); ("type", PStr "date")]
  | _, _ =>
      PObj [("fixedrange", PBool true);
            ("type", if Nat.ltb 0 (sort_length config) then PStr "category" else PUndef)]
  end.

(** The [layout] handed to [GenericPlot]: [None] when the render throws. *)
Definition layout (axisType : string) (config : Config) (effectiveTimerange : option (string * string))
    (height : Q) (plotLayout : pval) : option pval :=
  dl ← defaultLayout axisType height;
  l ← merge (PObj []) [dl; plotLayout];
  match l with
  | PObj m =>
      x ← merge (default PUndef (assoc_lookup "xaxis" m)) [xaxis_source config effectiveTimerange];
      Some (PObj (assoc_set "xaxis" x m))
  | _ => None
  end.

(** ** The zoom handler *)

Context {OnZoomFn Dispatch : Type} `{EqDecision OnZoomFn}.

(** What a zoom from [from] to [to] does. *)
Inductive ZoomCall :=
| CallOnZoom (f : OnZoomFn) (from to userTimezone : string)      (* onZoom(from, to, userTimezone) *)
| DispatchOnZoom (d : Dispatch) (from to userTimezone : string)  (* dispatch(OnZoom(from, to, userTimezone)) *)
| KeepRange.                                                      (* () => true *)

(** The function a render hands to [useCallback], with what it closes
    over. *)
Record ZoomHandler := mkZoomHandler {
  zh_isTimeline : bool; zh_onZoom : option OnZoomFn; zh_userTimezone : string; zh_dispatch : Dispatch
}.

Definition _onZoom (h : ZoomHandler) (from to : string) : ZoomCall :=
  if zh_isTimeline h then
    match zh_onZoom h with
    | Some f => CallOnZoom f from to (zh_userTimezone h)
    | None => DispatchOnZoom (zh_dispatch h) from to (zh_userTimezone h)
    end
  else KeepRange.

(** [useCallback]'s hook cell: the dependencies [[config.isTimeline,
    onZoom]] and the function of the render that last changed them. The
    dependencies are compared element-wise ([Object.is]). *)
Definition Memo : Type := option ((bool * option OnZoomFn) * ZoomHandler).

Definition useCallback (memo : Memo) (fn : ZoomHandler) (deps : bool * option OnZoomFn) : ZoomHandler * Memo :=
  use_memo memo deps fn.

(** The props the render reads. [axisType] and [plotLayout] default when
    [undefined]. *)
Record Props := mkProps {
  axisType : nullable string;
  config : Config;
  effectiveTimerange : option (string * string);
  height : Q;
  plotLayout : pval;
  onZoom : option OnZoomFn
}.

(** What [GenericPlot] receives. *)
Record View := mkView { v_layout : pval; v_onZoom : ZoomHandler }.

(** A render with the hooks' [userTimezone] and [dispatch]: the new hook
    cell and the view, or [None] when it throws. *)
Definition render (memo : Memo) (p : Props) (userTimezone : string) (dispatch : Dispatch) : option (Memo * View) :=
  axis ← match axisType p with Undefined => Some DEFAULT_AXIS_TYPE | Null => None | Val a => Some a end;
  l ← layout axis (config p) (effectiveTimerange p) (height p)
        (match plotLayout p with PUndef => PObj [] | pl => pl end);
  let '(h, memo') := useCallback memo
        (mkZoomHandler (isTimeline (config p)) (onZoom p) userTimezone dispatch)
        (isTimeline (config p), onZoom p) in
  Some (memo', mkView l h).

End Plot.

(** ** Lemmas on values and on [merge] *)

(** The induction principle that sees through the nested lists. *)
Section PvalInd.
Variable P : pval -> Prop.
Hypothesis HUndef : P PUndef.
Hypothesis HNull : P PNull.
Hypothesis HBool : forall b, P (PBool b).
Hypothesis HNum : forall q, P (PNum q).
Hypothesis HStr : forall s, P (PStr s).
Hypothesis HList : forall xs, Forall P xs -> P (PList xs).
Hypothesis HObj : forall kvs, Forall (fun kv => P kv.2) kvs -> P (PObj kvs).

Fixpoint pval_ind' (v : pval) : P v :=
  match v with
  | PUndef => HUndef
  | PNull => HNull
  | PBool b => HBool b
  | PNum q => HNum q
  | PStr s => HStr s
  | PList xs =>
      HList xs ((fix go (l : list pval) : Forall P l :=
                   match l with
                   | [] => Forall_nil_2 _
                   | x :: l' => Forall_cons_2 _ x l' (pval_ind' x) (go l')
                   end) xs)
  | PObj kvs =>
      HObj kvs ((fix go (l : list (string * pval)) : Forall (fun kv => P kv.2) l :=
                   match l with
                   | [] => Forall_nil_2 _
                   | kv :: l' => Forall_cons_2 _ kv l' (pval_ind' kv.2) (go l')
                   end) kvs)
  end.
End PvalInd.

(** Every object of the value has distinct keys, as an object literal
    or a parsed JSON object has them. *)
Fixpoint pwf (v : pval) : bool :=
  match v with
  | PList xs => forallb pwf xs
  | PObj kvs => bool_decide (NoDup kvs.*1) && forallb (fun kv => pwf kv.2) kvs
  | _ => true
  end.

(** The value holds no array. *)
Fixpoint no_lists (v : pval) : bool :=
  match v with
  | PList _ => false
  | PObj kvs => forallb (fun kv => no_lists kv.2) kvs
  | _ => true
  end.

(** [obj.key] of a value. *)
Definition get (v : pval) (k : string) : option pval :=
  match v with PObj m => assoc_lookup k m | _ => None end.

Lemma assoc_lookup_set k v m : assoc_lookup k (assoc_set k v m) = Some v.
Proof. induction m as [|[k' v'] m IH]; simpl; [by rewrite String.eqb_refl|]. destruct (String.eqb_spec k k'); simpl; [subst; by rewrite String.eqb_refl|]. by destruct (String.eqb_spec k k'). Qed.

Lemma assoc_lookup_set_other k k' v m : k <> k' -> assoc_lookup k (assoc_set k' v m) = assoc_lookup k m.
Proof.
  intros Hne. induction m as [|[k'' v'] m IH]; simpl.
  - by destruct (String.eqb_spec k k').
  - destruct (String.eqb_spec k' k'') as [<-|]; simpl.
    + by destruct (String.eqb_spec k k').
    + by destruct (String.eqb_spec k k'').
Qed.

Lemma assoc_lookup_notin k m : k ∉ m.*1 -> assoc_lookup k m = None.
Proof. induction m as [|[k' v] m IH]; simpl; [done|]. rewrite not_elem_of_cons. destruct (String.eqb_spec k k'); naive_solver. Qed.

Lemma assoc_lookup_elem k v m : assoc_lookup k m = Some v -> (k, v) ∈ m.
Proof. induction m as [|[k' v'] m IH]; simpl; [done|]. rewrite elem_of_cons. destruct (String.eqb_spec k k'); naive_solver. Qed.

Lemma assoc_set_fresh k v m : assoc_lookup k m = None -> assoc_set k v m = (m ++ [(k, v)])%list.
Proof. induction m as [|[k' v'] m IH]; simpl; [done|]. destruct (String.eqb_spec k k'); [done|]. intros H. by rewrite IH. Qed.

#[local] Hint Rewrite assoc_lookup_set : gl_rw.

Section MergeObj.
Variable mk : option pval -> pval -> option pval.

(** What [merge] leaves under each key of an object: the merge of the
    source's value into the destination's where the source has the key,
    and the destination's value elsewhere. *)
Lemma merge_obj_with_lookup m kvs r k :
  NoDup kvs.*1 -> merge_obj_with mk m kvs = Some r ->
  assoc_lookup k r = match assoc_lookup k kvs with Some v => mk (assoc_lookup k m) v | None => assoc_lookup k m end.
Proof.
  revert m. induction kvs as [|[k0 v0] kvs IH]; intros m Hnd; simpl; [by intros [= ->]|].
  apply NoDup_cons in Hnd as [Hk0 Hnd]. destruct (mk (assoc_lookup k0 m) v0) as [nv|] eqn:E; simpl; [|done].
  intros H. rewrite (IH _ Hnd H). destruct (String.eqb_spec k k0) as [->|Hne].
  - by rewrite assoc_lookup_notin, assoc_lookup_set.
  - by rewrite assoc_lookup_set_other.
Qed.

Lemma merge_obj_with_total m kvs :
  NoDup kvs.*1 -> (forall k v, assoc_lookup k kvs = Some v -> is_Some (mk (assoc_lookup k m) v)) ->
  is_Some (merge_obj_with mk m kvs).
Proof.
  revert m. induction kvs as [|[k0 v0] kvs IH]; intros m Hnd Hmk; simpl; [by eexists|].
  apply NoDup_cons in Hnd as [Hk0 Hnd].
  destruct (Hmk k0 v0) as [nv E]; [simpl; by rewrite String.eqb_refl|]. rewrite E. simpl.
  apply IH; [done|]. intros k v Hk. assert (k <> k0) as Hne.
  { intros ->. apply Hk0. apply assoc_lookup_elem in Hk. by apply (list_elem_of_fmap_2 fst) in Hk. }
  rewrite assoc_lookup_set_other by done. apply Hmk. simpl. by destruct (String.eqb_spec k k0).
Qed.

(** Into keys the destination lacks, the source's entries are appended
    in order. *)
Lemma merge_obj_with_fresh m kvs :
  NoDup kvs.*1 -> (forall k, k ∈ kvs.*1 -> assoc_lookup k m = None) ->
  Forall (fun kv => mk None kv.2 = Some kv.2) kvs ->
  merge_obj_with mk m kvs = Some (m ++ kvs)%list.
Proof.
  revert m. induction kvs as [|[k0 v0] kvs IH]; intros m Hnd Hfresh Hmk; simpl; [by rewrite app_nil_r|].
  apply NoDup_cons in Hnd as [Hk0 Hnd]. apply Forall_cons in Hmk as [Hv0 Hmk]; simpl in Hv0.
  rewrite Hfresh, Hv0 by set_solver. simpl. rewrite assoc_set_fresh by (apply Hfresh; set_solver).
  rewrite IH; [by rewrite <- app_assoc| done | | done].
  intros k Hk. assert (k <> k0) by (intros ->; done). rewrite <- assoc_set_fresh by (apply Hfresh; set_solver).
  rewrite assoc_lookup_set_other by done. apply Hfresh. set_solver.
Qed.

Lemma merge_list_with_nil xs :
  Forall (fun x => mk None x = Some x) xs -> merge_list_with mk [] xs = Some xs.
Proof. induction 1 as [|x xs Hx _ IH]; simpl; [done|]. by rewrite Hx, IH. Qed.

Lemma merge_list_with_nil_total xs :
  Forall (fun x => is_Some (mk None x)) xs -> is_Some (merge_list_with mk [] xs).
Proof. induction 1 as [|x xs [y Hx] _ [ys IH]]; simpl; [by eexists|]. rewrite Hx, IH. by eexists. Qed.

End MergeObj.

Lemma no_lists_lookup k m d : no_lists (PObj m) = true -> assoc_lookup k m = Some d -> no_lists d = true.
Proof.
  simpl. rewrite forallb_forall. intros Hm Hk. apply assoc_lookup_elem in Hk.
  apply (Hm (k, d)). by apply list_elem_of_In.
Qed.

Lemma pwf_obj kvs : pwf (PObj kvs) = true <-> NoDup kvs.*1 /\ Forall (fun kv => pwf kv.2 = true) kvs.
Proof. simpl. by rewrite andb_true_iff, bool_decide_eq_true, forallb_forall, List.Forall_forall. Qed.

Lemma pwf_list xs : pwf (PList xs) = true <-> Forall (fun x => pwf x = true) xs.
Proof. simpl. by rewrite forallb_forall, List.Forall_forall. Qed.

(** Merging into a fresh destination clones: the result is the source. *)
Lemma merge_key_clone v : pwf v = true -> merge_key None v = Some v.
Proof.
  induction v as [| | | | |xs IH|kvs IH] using pval_ind'; try done.
  - rewrite pwf_list. intros Hwf. simpl. rewrite merge_list_with_nil; [done|].
    eapply Forall_impl; [apply Forall_and; split; [exact IH|exact Hwf]|]. intros x [H1 H2]. auto.
  - rewrite pwf_obj. intros [Hnd Hwf]. simpl. rewrite merge_obj_with_fresh; [done|done|by intros|].
    eapply Forall_impl; [apply Forall_and; split; [exact IH|exact Hwf]|]. intros kv [H1 H2]. auto.
Qed.

(** [merge] never meets the case the model leaves out when the
    destination holds no array. *)
Lemma merge_key_total objValue v :
  pwf v = true -> (forall d, objValue = Some d -> no_lists d = true) -> is_Some (merge_key objValue v).
Proof.
  revert objValue. induction v as [| | | | |xs IH|kvs IH] using pval_ind'; intros objValue Hwf Hd; try by eexists.
  - apply pwf_list in Hwf.
    assert (is_Some (merge_list_with merge_key [] xs)) as [ys Hys].
    { apply merge_list_with_nil_total. eapply Forall_impl; [apply Forall_and; split; [exact IH|exact Hwf]|].
      intros x [H1 H2]. by apply H1. }
    destruct objValue as [[]|]; try (by specialize (Hd _ eq_refl)); simpl; rewrite Hys; by eexists.
  - apply pwf_obj in Hwf as [Hnd Hwf]. simpl.
    assert (exists m, match objValue with Some (PObj m) => m | _ => [] end = m /\
              forall k d, assoc_lookup k m = Some d -> no_lists d = true) as (m & Hm & Hmd).
    { destruct objValue as [[]|]; try (eexists; split; [done|done]). eexists; split; [done|].
      intros k d. apply no_lists_lookup, Hd; done. }
    assert (is_Some (merge_obj_with merge_key m kvs)) as [r Hr].
    { apply merge_obj_with_total; [done|]. intros k v Hk. apply assoc_lookup_elem in Hk.
      rewrite Forall_forall in IH, Hwf. apply (IH (k, v) Hk); [apply (Hwf (k, v) Hk)|]. intros d Hl. eauto. }
    destruct objValue as [[]|]; try (by specialize (Hd _ eq_refl)); simpl in Hm; subst m; rewrite Hr; by eexists.
Qed.

(** A [plotLayout] of the type [Partial<PlotLayout>]: nullish or an
    object with distinct keys, whose [xaxis] is absent, nullish or an
    object. *)
Definition plotLayout_ok (pl : pval) : bool :=
  pwf pl &&
  match pl with
  | PUndef | PNull => true
  | PObj m => match assoc_lookup "xaxis" m with None | Some (PUndef | PNull | PObj _) => true | _ => false end
  | _ => false
  end.

Lemma mapAxisType_None a : mapAxisType a = None <-> a <> "linear" /\ a <> "logarithmic".
Proof. unfold mapAxisType. destruct (String.eqb_spec a "linear"), (String.eqb_spec a "logarithmic"); naive_solver. Qed.

(** [merge({}, defaultLayout, plotLayout)] on a default layout without
    arrays or [xaxis]: an object whose [xaxis] is the caller's. *)
Lemma merge_default_layout dm pl :
  pwf (PObj dm) = true -> no_lists (PObj dm) = true -> assoc_lookup "xaxis" dm = None ->
  plotLayout_ok pl = true ->
  exists M, merge (PObj []) [PObj dm; pl] = Some (PObj M) /\ assoc_lookup "xaxis" M = get pl "xaxis".
Proof.
  intros Hwf Hnl Hx Hok. unfold merge. simpl.
  assert (merge_obj_with merge_key [] dm = Some dm) as ->.
  { apply pwf_obj in Hwf as [Hnd Hwf]. apply merge_obj_with_fresh; [done|by intros|].
    eapply Forall_impl; [exact Hwf|]. intros kv. apply merge_key_clone. }
  simpl. unfold plotLayout_ok in Hok. apply andb_true_iff in Hok as [Hpwf Hok].
  destruct pl as [| | | | | |m]; try done; [by exists dm|by exists dm|].
  destruct (merge_key_total (Some (PObj dm)) (PObj m) Hpwf) as [r Hr]; [by intros d [= <-]|].
  unfold merge2. rewrite Hr. simpl in Hr. apply fmap_Some in Hr as (M & HM & ->). exists M. split; [done|].
  apply pwf_obj in Hpwf as [Hnd Hm]. rewrite (merge_obj_with_lookup _ _ _ _ _ Hnd HM), Hx. simpl.
  destruct (assoc_lookup "xaxis" m) as [v|] eqn:Ev; [|done]. apply merge_key_clone.
  apply assoc_lookup_elem in Ev. rewrite Forall_forall in Hm. apply (Hm _ Ev).
Qed.

(** [merge(layout.xaxis, ...)] on the caller's [xaxis]. *)
Lemma merge_xaxis formatTime cfg etr X0 :
  X0 = PUndef \/ X0 = PNull \/ (exists mx, X0 = PObj mx) ->
  exists X, merge X0 [xaxis_source formatTime cfg etr] = Some X /\
  match isTimeline cfg, etr with
  | true, Some (from, to) =>
      get X "type" = Some (PStr "date") /\
      exists rest, get X "range" = Some (PList (PStr (formatTime from) :: PStr (formatTime to) :: rest))
  | _, _ =>
      get X "fixedrange" = Some (PBool true) /\
      get X "type" = Some (if Nat.ltb 0 (sort_length cfg) then PStr "category" else default PUndef (get X0 "type"))
  end.
Proof.
  intros HX0. set (mx := match X0 with PObj mx => mx | _ => [] end).
  assert (get X0 "type" = assoc_lookup "type" mx /\
          forall src, merge X0 [PObj src] = PObj <$> merge_obj_with merge_key mx src) as [Ht Hm].
  { destruct HX0 as [->|[->|[mx' ->]]]; done. }
  unfold xaxis_source. destruct (isTimeline cfg), etr as [[from to]|], (Nat.ltb 0 (sort_length cfg));
    rewrite Hm; simpl; eexists; (split; [reflexivity|]); simpl;
    repeat (rewrite assoc_lookup_set || rewrite assoc_lookup_set_other by discriminate); rewrite ?Ht; eauto.
Qed.

Lemma defaultLayout_shape axis h dl :
  defaultLayout axis h = Some dl ->
  exists dm, dl = PObj dm /\ pwf dl = true /\ no_lists dl = true /\ assoc_lookup "xaxis" dm = None.
Proof.
  unfold defaultLayout, yaxis. destruct (mapAxisType axis); [|done]. intros [= <-].
  eexists; split; [reflexivity|]. by destruct (Qeq_bool h 0).
Qed.

Lemma plotLayout_ok_xaxis pl :
  plotLayout_ok pl = true ->
  let X0 := default PUndef (get pl "xaxis") in X0 = PUndef \/ X0 = PNull \/ exists mx, X0 = PObj mx.
Proof.
  unfold plotLayout_ok. intros [_ Hx]%andb_true_iff. simpl.
  destruct pl as [| | | | | |m]; try done; auto. simpl. destruct (assoc_lookup "xaxis" m) as [[]|]; naive_solver.
Qed.

(** The layout of a valid axis type and a typed [plotLayout]: its
    [xaxis] is the caller's merged with the code's choices. *)
Lemma layout_xaxis formatTime axis cfg etr h pl t :
  plotLayout_ok pl = true -> mapAxisType axis = Some t ->
  exists L X, layout formatTime axis cfg etr h pl = Some L /\ get L "xaxis" = Some X /\
  match isTimeline cfg, etr with
  | true, Some (from, to) =>
      get X "type" = Some (PStr "date") /\
      exists rest, get X "range" = Some (PList (PStr (formatTime from) :: PStr (formatTime to) :: rest))
  | _, _ =>
      get X "fixedrange" = Some (PBool true) /\
      get X "type" = Some (if Nat.ltb 0 (sort_length cfg) then PStr "category"
                           else default PUndef (get (default PUndef (get pl "xaxis")) "type"))
  end.
Proof.
  intros Hok Ht. unfold layout.
  assert (is_Some (defaultLayout axis h)) as [dl Hdl] by (unfold defaultLayout, yaxis; rewrite Ht; by eexists).
  rewrite Hdl. destruct (defaultLayout_shape _ _ _ Hdl) as (dm & -> & Hwf & Hnl & Hx).
  destruct (merge_default_layout dm pl Hwf Hnl Hx Hok) as (M & HM & HMx). simpl. rewrite HM. simpl.
  rewrite HMx. destruct (merge_xaxis formatTime cfg etr _ (plotLayout_ok_xaxis pl Hok)) as (X & HX & Hs).
  rewrite HX. exists (PObj (assoc_set "xaxis" X M)), X.
  split; [reflexivity|]. split; [apply assoc_lookup_set|exact Hs].
Qed.

Lemma layout_throws formatTime axis cfg etr h pl :
  mapAxisType axis = None -> layout formatTime axis cfg etr h pl = None.
Proof. intros Ht. unfold layout, defaultLayout, yaxis. by rewrite Ht. Qed.

Lemma render_handler formatTime {OnZoomFn Dispatch} `{EqDecision OnZoomFn} (memo : @Memo OnZoomFn Dispatch)
    p userTimezone dispatch m v :
  render formatTime memo p userTimezone dispatch = Some (m, v) ->
  (v_onZoom v, m) = useCallback memo (mkZoomHandler (isTimeline (config p)) (onZoom p) userTimezone dispatch)
                                     (isTimeline (config p), onZoom p).
Proof. unfold render. intros H. simplify_option_eq. case_match. by simplify_eq.
Qed.

(** ** Properties *)

(** C7. For a [plotLayout] of its declared type, the XY plot throws
    exactly when its axis type is [null] or a string other than [linear]
    and [logarithmic] (a missing one is [linear]). Otherwise the layout's
    x axis, on a timeline with an effective time range, is a date axis
    whose range starts with the two formatted bounds. In every other case
    it is a fixed range, of type [category] when the widget is sorted. On
    an unsorted widget it keeps the type the caller gave its [xaxis]:
    the [undefined] the code merges in does not clear it. *)
Theorem render_layout formatTime {OnZoomFn Dispatch} `{EqDecision OnZoomFn} (memo : @Memo OnZoomFn Dispatch)
    p userTimezone dispatch :
  plotLayout_ok (plotLayout p) = true ->
  (render formatTime memo p userTimezone dispatch = None <->
     match axisType p with Undefined => False | Null => True | Val a => a <> "linear" /\ a <> "logarithmic" end) /\
  (forall memo' v, render formatTime memo p userTimezone dispatch = Some (memo', v) ->
     exists X, get (v_layout v) "xaxis" = Some X /\
     match isTimeline (config p), effectiveTimerange p with
     | true, Some (from, to) =>
         get X "type" = Some (PStr "date") /\
         exists rest, get X "range" = Some (PList (PStr (formatTime from) :: PStr (formatTime to) :: rest))
     | _, _ =>
         get X "fixedrange" = Some (PBool true) /\
         get X "type" = Some (if Nat.ltb 0 (sort_length (config p)) then PStr "category"
                              else default PUndef (get (plotLayout p) "xaxis" ≫= fun x => get x "type"))
     end).
Proof.
  intros Hok. set (pl := match plotLayout p with PUndef => PObj [] | pl => pl end).
  assert (plotLayout_ok pl = true /\ get pl "xaxis" = get (plotLayout p) "xaxis") as [Hok' Hget]
    by (subst pl; by destruct (plotLayout p)).
  assert ((match axisType p with Undefined => False | Null => True | Val a => a <> "linear" /\ a <> "logarithmic" end) <->
          (match axisType p with Undefined => Some DEFAULT_AXIS_TYPE | Null => None | Val a => Some a end
           ≫= mapAxisType) = None) as ->.
  { destruct (axisType p); simpl; [done|done|]. symmetry. apply mapAxisType_None. }
  unfold render. fold pl.
  destruct (match axisType p with Undefined => Some DEFAULT_AXIS_TYPE | Null => None | Val a => Some a end)
    as [axis|]; [|done]. simpl.
  destruct (mapAxisType axis) as [t|] eqn:Ht.
  - destruct (layout_xaxis formatTime axis (config p) (effectiveTimerange p) (height p) pl t Hok' Ht)
      as (L & X & -> & HX & Hs).
    simpl. destruct (useCallback _ _ _). split; [done|]. intros ? ? [= <- <-]. exists X. split; [done|].
    rewrite <- Hget. by destruct (get pl "xaxis").
  - by rewrite layout_throws.
Qed.

(** C34. The zoom handler is memoised on [config.isTimeline] and
    [onZoom] only: after a re-render that keeps both, zooming still uses
    the user timezone and the dispatch function of the first render, even
    when the user's timezone or the dispatch have changed since. *)
Theorem zoom_uses_first_render formatTime {OnZoomFn Dispatch} `{EqDecision OnZoomFn}
    p1 p2 tz1 tz2 (d1 d2 : Dispatch) (m1 m2 : @Memo OnZoomFn Dispatch) v1 v2 :
  render formatTime None p1 tz1 d1 = Some (m1, v1) ->
  render formatTime m1 p2 tz2 d2 = Some (m2, v2) ->
  isTimeline (config p2) = isTimeline (config p1) -> onZoom p2 = onZoom p1 ->
  forall from to, _onZoom (v_onZoom v2) from to =
    if isTimeline (config p1) then
      match onZoom p1 with Some f => CallOnZoom f from to tz1 | None => DispatchOnZoom d1 from to tz1 end
    else KeepRange.
Proof.
  intros H1 H2 Ht Hz from to. apply render_handler in H1, H2. injection H1 as H1 ->.
  unfold useCallback in H2. rewrite Ht, Hz, use_memo_same in H2. injection H2 as -> _. reflexivity.
Qed.

Lemma render_layout_witness :
  plotLayout_ok (PObj [("xaxis", PObj [("type", PStr "date")])]) = true /\
  (render (fun s => s) (OnZoomFn:=unit) (Dispatch:=unit) None
     (mkProps Undefined (mkConfig false 0) None 200 (PObj [("xaxis", PObj [("type", PStr "date")])]) None)
     "UTC" tt = None <-> False).
Proof.
  split; [reflexivity|].
  exact (proj1 (render_layout (fun s => s) (OnZoomFn:=unit) (Dispatch:=unit) None
     (mkProps Undefined (mkConfig false 0) None 200 (PObj [("xaxis", PObj [("type", PStr "date")])]) None)
     "UTC" tt eq_refl)).
Defined.

Lemma zoom_uses_first_render_witness :
  let p := mkProps Undefined (mkConfig true 0) None 0 PUndef None in
  let h := mkZoomHandler (OnZoomFn:=unit) true None "UTC" true in
  let L := PObj [("yaxis", PObj [("fixedrange", PBool true); ("rangemode", PStr "tozero");
                                 ("tickformat", PStr ",~r"); ("type", PStr "linear")]);
                 ("hovermode", PStr "x");
                 ("xaxis", PObj [("fixedrange", PBool true); ("type", PUndef)])] in
  render (fun s => s) None p "UTC" true = Some (Some ((true, None), h), mkView L h) /\
  render (fun s => s) (Some ((true, None), h)) p "Europe/Berlin" false = Some (Some ((true, None), h), mkView L h) /\
  _onZoom h "0" "1" = DispatchOnZoom true "0" "1" "UTC".
Proof.
  intros p h L. split; [reflexivity|]. split; [reflexivity|].
  exact (zoom_uses_first_render (fun s => s) p p "UTC" "Europe/Berlin" true false (Some ((true, None), h))
           (Some ((true, None), h)) (mkView L h) (mkView L h) eq_refl eq_refl eq_refl eq_refl "0" "1").
Defined.

End XYPlot.
