(* ===== verification/SearchExplain.v ===== *)
(** * The search explain context
      (views/components/contexts/SearchExplainContextProvider.tsx)

    The provider asks the server to explain a dashboard's search: which
    indices and queries each widget's search type will hit. It puts the
    answer in [SearchExplainContext]. Its parts:
    - the [searchExplain] state cell, [undefined] at first;
    - a mutation ([useMutation]) that posts the search's execution state
      to [views/search/<id>/explain], and whose [onSuccess] stores the
      answer in [searchExplain];
    - the context value, memoised on [[searchExplain]]: the explained
      search and [getExplainForWidget], which reads one widget's part of
      it;
    - an effect that calls the mutation whenever one of its dependencies
      changes, for a saved dashboard ([view.search.id] and the title are
      set).

    The explained search is JSON ([jval]). [getExplainForWidget]'s chain
    of [?.] reads is [opt_path]. A widget mapping is an association list
    (Immutable.Map) from widget ids to their search type ids in order
    ([first()]). The execution state and the search types are abstract
    values with decidable identity, and [onSearchExplain] ([mutateAsync])
    keeps its identity across renders, as react-query guarantees. A value
    of [Exec] or [Types] stands for an object reference: two renders that
    pass equal-looking but distinct objects pass distinct values, so the
    equality of [Inputs] is React's [Object.is] on each dependency (the
    strings and the view type are primitives).

    The provider is a state machine. Requests in flight are answered in
    any order: [Succeed k] and [Fail k] settle the [k]-th pending one.
    [useMutation]'s own [onSuccess] runs for every call that succeeds, not
    only the latest. The effect drops the promise [mutateAsync] returns,
    so a failed request is an unhandled rejection. *)

From stdpp Require Import base list strings.
From S2P Require Import Prelude JsValue.
Set Warnings "-clear-no-such-hyp".

Module SearchExplain.

Local Open Scope string_scope.

(** ** Reading the explained search *)

(** [v?.[k1]?.[k2]...]: [undefined] as soon as a value on the path is
    nullish. *)
Fixpoint opt_path (v : jval) (ks : list string) : jval :=
  match ks with
  | [] => v
  | k :: ks' => match js_get v k with None => JUndef | Some v' => opt_path v' ks' end
  end.

(** [WidgetMapping]: the search type ids of each widget. *)
Definition WidgetMapping : Type := list (string * list string).

(** [widgetMapping.get(widgetId)] *)
Fixpoint mapping_get (widgetId : string) (m : WidgetMapping) : option (list string) :=
  match m with
  | [] => None
  | (k, v) :: m' => if String.eqb widgetId k then Some v else mapping_get widgetId m'
  end.

(** [set.first()]: [undefined] on an empty set. *)
Definition first (l : list string) : nullable string :=
  match l with x :: _ => Val x | [] => Undefined end.

(** [getExplainForWidget], over the [searchExplain] its closure captured.
    A missing search type id is the property key ["undefined"], which
    [obj[undefined]] reads. *)
Definition getExplainForWidget (searchExplain : jval) (queryId widgetId : string)
    (widgetMapping : nullable WidgetMapping) : jval :=
  let searchTypeId :=
    match widgetMapping with
    | Val m => match mapping_get widgetId m with Some l => first l | None => Undefined end
    | _ => Undefined
    end in
  opt_path searchExplain
    ["search"; "queries"; queryId; "search_types"; match searchTypeId with Val s => s | _ => "undefined" end].

(** ** The provider *)

Section Provider.

Context {Exec Types : Type} `{EqDecision Exec, EqDecision Types}.

(** [View.Type] *)
Inductive ViewType := SearchType | DashboardType.

#[export] Instance ViewType_eq_dec : EqDecision ViewType.
Proof. solve_decision. Defined.

(** What a render reads that the effect depends on: [view.search.id],
    [executionState], [searchTypesToSearch], [viewType] and
    [view._value.title]. *)
Record Inputs := mkInputs {
  searchId : nullable string;
  executionState : Exec;
  searchTypesToSearch : Types;
  viewType : ViewType;
  title : nullable string
}.

#[export] Instance Inputs_eq_dec : EqDecision Inputs.
Proof. solve_decision. Defined.

(** A truthy string: set and not empty. *)
Definition truthy_str (s : nullable string) : bool :=
  match s with Val x => negb (String.eqb x "") | _ => false end.

(** The effect's condition: [view.search.id && viewType ===
    View.Type.Dashboard && view._value.title]. *)
Definition eligible (i : Inputs) : bool :=
  truthy_str (searchId i) && bool_decide (viewType i = DashboardType) && truthy_str (title i).

(** The mutation's request: [POST views/search/<id>/explain] with
    [buildSearchExecutionState(searchTypesToSearch, executionState)]. *)
Record Request := mkRequest { req_searchId : string; req_searchTypes : Types; req_executionState : Exec }.

Record State := mkState {
  searchExplain : jval;                 (* the useState cell *)
  memo : option (jval * jval);          (* useMemo's cell: [searchExplain] and the captured value *)
  effect_deps : option Inputs;          (* the effect's dependencies at its last run *)
  pending : list Request                (* the mutation's calls in flight, in the order sent *)
}.

Definition init : State := mkState JUndef None None [].

Inductive Effect :=
| Post (r : Request)              (* fetch('POST', ...) *)
| UnhandledRejection.             (* the dropped promise of a failed call *)

Inductive Event :=
| Render (i : Inputs)             (* a render and its commit *)
| Succeed (k : nat) (result : jval) (* the k-th pending call answers *)
| Fail (k : nat).                 (* the k-th pending call fails *)

(** The render's [useMemo]: the context value captures [searchExplain]. *)
Definition render_memo (s : State) : State :=
  mkState (searchExplain s) (snd (use_memo (memo s) (searchExplain s) (searchExplain s)))
          (effect_deps s) (pending s).

(** The effect's body: [onSearchExplain()] for a saved dashboard. *)
Definition explain_effect (i : Inputs) (s : State) : State * list Effect :=
  match searchId i with
  | Val id =>
      if eligible i then
        let r := mkRequest id (searchTypesToSearch i) (executionState i) in
        (mkState (searchExplain s) (memo s) (effect_deps s) ((pending s ++ [r])%list), [Post r])
      else (s, [])
  | _ => (s, [])
  end.

(** A render with inputs [i] and its commit: the memo, then the effect
    when its dependencies changed. *)
Definition render_commit (i : Inputs) (s : State) : State * list Effect :=
  let s1 := render_memo s in
  if decide (effect_deps s1 = Some i) then (s1, [])
  else explain_effect i (mkState (searchExplain s1) (memo s1) (Some i) (pending s1)).

Definition remove_nth {A} (k : nat) (l : list A) : list A := (take k l ++ drop (S k) l)%list.

Definition step (s : State) (e : Event) : State * list Effect :=
  match e with
  | Render i => render_commit i s
  | Succeed k result =>
      if bool_decide (k < length (pending s)) then
        (* onSuccess: setSearchExplain(result), and the re-render's memo *)
        (render_memo (mkState result (memo s) (effect_deps s) (remove_nth k (pending s))), [])
      else (s, [])
  | Fail k =>
      if bool_decide (k < length (pending s)) then
        (mkState (searchExplain s) (memo s) (effect_deps s) (remove_nth k (pending s)), [UnhandledRejection])
      else (s, [])
  end.

Fixpoint run (s : State) (es : list Event) : State * list Effect :=
  match es with
  | [] => (s, [])
  | e :: es' => let '(s1, e1) := step s e in let '(s2, e2) := run s1 es' in (s2, (e1 ++ e2)%list)
  end.

(** The context value children see: the captured explained search. *)
Definition provided (s : State) : jval :=
  match memo s with Some (_, x) => x | None => JUndef end.

End Provider.

(** ** Lemmas *)

(** A widget without search type ids in the mapping (or no mapping at
    all) is looked up under the key ["undefined"]. *)
Lemma getExplainForWidget_unmapped e q w wm :
  match wm with Val m => match mapping_get w m with Some (_ :: _) => False | _ => True end | _ => True end ->
  getExplainForWidget e q w wm = opt_path e ["search"; "queries"; q; "search_types"; "undefined"].
Proof.
  unfold getExplainForWidget. destruct wm as [| |m]; [done|done|]. by destruct (mapping_get w m) as [[]|].
Qed.

Section ProviderLemmas.

Context {Exec Types : Type} `{EqDecision Exec, EqDecision Types}.

Abbreviation State := (@State Exec Types).

(** The memo cell holds the explained search of the last render, which
    is the current one; before the first render it is empty and the
    state is still [undefined]. *)
Definition memo_inv (s : State) : Prop :=
  match memo s with
  | None => searchExplain s = JUndef
  | Some p => p = (searchExplain s, searchExplain s)
  end.

Lemma memo_inv_init : memo_inv init.
Proof. done. Qed.

Lemma memo_inv_render_memo (s : State) : memo_inv s -> memo_inv (render_memo s).
Proof.
  unfold memo_inv, render_memo. simpl. intros Hs.
  destruct (use_memo_stores (memo s) (searchExplain s) (searchExplain s)) as (x & -> & [->|Hc]); [done|].
  rewrite Hc in Hs. by injection Hs as ->.
Qed.

(** Any memo cell becomes the current one after the re-render of a
    [setSearchExplain]. *)
Lemma memo_inv_set result m deps pend :
  (forall d x, m = Some (d, x) -> x = d) ->
  memo_inv (render_memo (mkState (Exec:=Exec) (Types:=Types) result m deps pend)).
Proof.
  intros Hm. unfold memo_inv, render_memo. simpl.
  destruct (use_memo_stores m result result) as (x & -> & [->|Hc]); [done|]. simpl.
  by rewrite (Hm _ _ Hc).
Qed.

Lemma memo_inv_step (s : State) e : memo_inv s -> memo_inv (fst (step s e)).
Proof.
  intros Hs. destruct e as [i|k result|k]; cbn [step].
  - unfold render_commit. pose proof (memo_inv_render_memo s Hs) as H1.
    case_decide; [done|]. unfold explain_effect. simpl.
    repeat case_match; simpl; unfold memo_inv in *; simpl in *; done.
  - case_bool_decide; [|done]. apply memo_inv_set.
    intros d x Hm. unfold memo_inv in Hs. rewrite Hm in Hs. by injection Hs as -> ->.
  - case_bool_decide; [|done]. exact Hs.
Qed.

Lemma memo_inv_run (s : State) es : memo_inv s -> memo_inv (fst (run s es)).
Proof.
  revert s. induction es as [|e es IH]; intros s Hs; [done|]. simpl.
  pose proof (memo_inv_step s e Hs) as H1. destruct (step s e) as [s1 e1].
  specialize (IH s1 H1). destruct (run s1 es) as [s2 e2]. exact IH.
Qed.

(** The context's dependency array is complete: children always see the
    current explained search. *)
Lemma provided_current es : let s := fst (run (Exec:=Exec) (Types:=Types) init es) in provided s = searchExplain s.
Proof.
  pose proof (memo_inv_run init es memo_inv_init) as H. simpl. unfold memo_inv, provided in *.
  destruct (memo _) as [[d x]|]; [by injection H as -> ->|done].
Qed.

Lemma memo_inv_provided (s : State) : memo_inv s -> provided s = searchExplain s.
Proof. unfold memo_inv, provided. destruct (memo s) as [[d x]|]; [by intros [= -> ->]|done]. Qed.

Lemma explain_effect_eligible (i : @Inputs Exec Types) :
  eligible i = true ->
  exists id, forall s : State,
    explain_effect i s = (mkState (searchExplain s) (memo s) (effect_deps s)
                            (pending s ++ [mkRequest id (searchTypesToSearch i) (executionState i)]),
                          [Post (mkRequest id (searchTypesToSearch i) (executionState i))]).
Proof.
  intros Hi. pose proof Hi as Hid. unfold eligible, truthy_str in Hid. unfold explain_effect.
  destruct (searchId i) as [| |id]; [done|done|]. exists id. intros s. by rewrite Hi.
Qed.

Lemma render_commit_changed (i : @Inputs Exec Types) (s : State) :
  effect_deps s <> Some i ->
  render_commit i s = explain_effect i (mkState (searchExplain s) (memo (render_memo s)) (Some i) (pending s)).
Proof. intros Hd. unfold render_commit. by rewrite decide_False. Qed.

End ProviderLemmas.

(** ** Properties *)

(** C30. Two saved-dashboard renders with different inputs post two explain
    requests. When the second request's answer arrives first, the first
    one's answer, arriving last, replaces it: the context shows the
    explanation of inputs the page no longer has. *)
Theorem late_explain_overwrites {Exec Types} `{EqDecision Exec, EqDecision Types} (s : @State Exec Types)
    i1 i2 res1 res2 :
  memo_inv s -> pending s = [] -> effect_deps s <> Some i1 -> i1 <> i2 ->
  eligible i1 = true -> eligible i2 = true ->
  let '(s', effs) := run s [Render i1; Render i2; Succeed 1 res2; Succeed 0 res1] in
  (exists r1 r2, effs = [Post r1; Post r2] /\
     req_executionState r1 = executionState i1 /\ req_searchTypes r1 = searchTypesToSearch i1 /\
     req_executionState r2 = executionState i2 /\ req_searchTypes r2 = searchTypesToSearch i2) /\
  effect_deps s' = Some i2 /\ provided s' = res1.
Proof.
  intros Hinv Hp Hd Hne H1 H2.
  pose proof (memo_inv_run s [Render i1; Render i2; Succeed 1 res2; Succeed 0 res1] Hinv) as Hfin.
  destruct (explain_effect_eligible i1 H1) as [id1 E1], (explain_effect_eligible i2 H2) as [id2 E2].
  cbn [run step] in Hfin |- *. rewrite render_commit_changed, E1 in Hfin |- * by done.
  cbn [fst snd searchExplain memo effect_deps pending] in Hfin |- *.
  rewrite render_commit_changed, E2 in Hfin |- * by (simpl; congruence).
  cbn [fst snd searchExplain memo effect_deps pending] in Hfin |- *. rewrite Hp in Hfin |- *.
  rewrite bool_decide_eq_true_2 in Hfin |- * by (simpl; lia). cbn [fst snd] in Hfin |- *.
  rewrite bool_decide_eq_true_2 in Hfin |- * by (simpl; lia). simpl in Hfin |- *.
  split; [by eexists _, _|]. split; [done|]. rewrite (memo_inv_provided _ Hfin). done.
Qed.


Lemma late_explain_overwrites_witness :
  let i1 := mkInputs (Exec:=nat) (Types:=nat) (Val "s1") 1 2 DashboardType (Val "Dashboard") in
  let i2 := mkInputs (Exec:=nat) (Types:=nat) (Val "s1") 3 2 DashboardType (Val "Dashboard") in
  let '(s', effs) := run init [Render i1; Render i2; Succeed 1 (JStr "new"); Succeed 0 (JStr "old")] in
  (exists r1 r2, effs = [Post r1; Post r2] /\
     req_executionState r1 = 1 /\ req_searchTypes r1 = 2 /\ req_executionState r2 = 3 /\ req_searchTypes r2 = 2) /\
  effect_deps s' = Some i2 /\ provided s' = JStr "old".
Proof.
  intros i1 i2.
  exact (late_explain_overwrites init i1 i2 (JStr "old") (JStr "new") eq_refl eq_refl
           ltac:(discriminate) ltac:(discriminate) eq_refl eq_refl).
Defined.

End SearchExplain.
