(* ===== verification/AssignOutputDropdown.v ===== *)
(** * Assigning an existing output (components/outputs/AssignOutputDropdown.tsx)

    A class component: a select of the available outputs and a button
    that assigns the selected one. Its state is [selectedOutput], at
    first the [PLACEHOLDER] option, which is disabled. Selecting an option
    stores its value. A click submits the stored value and resets it to
    the placeholder. The button is disabled while the placeholder is
    selected. With no outputs the select holds a disabled "No outputs
    available" option instead.

    The model is a state machine. The [outputs] prop is part of the state,
    since the parent can change it between events. A disabled option
    cannot be selected and a disabled button fires no click: [enabled]
    lets through only the events the current render allows. The select
    is controlled, and a [value] that matches no option shows the first
    one, but the state keeps the value.

    The theorem shows what that means: a submitted id was an output when
    the user selected it, but if the parent removed that output since, the
    enabled button submits an id the dropdown no longer offers. *)

From stdpp Require Import base list strings.
From S2P Require Import Prelude.
Set Warnings "-clear-no-such-hyp".

Module AssignOutputDropdown.

Local Open Scope string_scope.

(** An output as the select reads it. *)
Record Output := mkOutput { id : string; title : string }.

Definition PLACEHOLDER : string := "placeholder".

Record State := mkState { outputs : list Output; selectedOutput : string }.

(** [constructor] *)
Definition init (outputs : list Output) : State := mkState outputs PLACEHOLDER.

Inductive Event :=
| Update (value : string)           (* _handleUpdate: the select's change *)
| Click                             (* _handleClick *)
| Props (outputs : list Output).    (* the parent renders with new outputs *)

(** A step and the values handed to [onSubmit]. *)
Definition step (s : State) (e : Event) : State * list string :=
  match e with
  | Update v => (mkState (outputs s) v, [])
  | Click => (mkState (outputs s) PLACEHOLDER, [selectedOutput s])
  | Props os => (mkState os (selectedOutput s), [])
  end.

(** The render: the options of the select (value, label, disabled) and
    whether the button is disabled. *)
Record View := mkView { options : list (string * string * bool); buttonDisabled : bool }.

Definition render (s : State) : View :=
  mkView ((PLACEHOLDER, "Select existing output", true) ::
          match outputs s with
          | [] => [("No outputs available", "No outputs available", true)]
          | os => map (fun o => (id o, title o, false)) os
          end)
         (bool_decide (selectedOutput s = PLACEHOLDER)).

(** The events the render lets through: an enabled option, an enabled
    button; the parent can always re-render. *)
Definition enabled (v : View) (e : Event) : bool :=
  match e with
  | Update value => existsb (fun o => String.eqb o.1.1 value && negb o.2) (options v)
  | Click => negb (buttonDisabled v)
  | Props _ => true
  end.

(** A run: the events the render lets through, with what [onSubmit]
    receives. *)
Fixpoint run (s : State) (es : list Event) : State * list string :=
  match es with
  | [] => (s, [])
  | e :: es' =>
      if enabled (render s) e then
        let '(s1, o1) := step s e in let '(s2, o2) := run s1 es' in (s2, (o1 ++ o2)%list)
      else run s es'
  end.

(** ** Lemmas *)

(** The values the select lets the user pick: the outputs' ids. *)
Lemma enabled_update s v : enabled (render s) (Update v) = true <-> v ∈ map id (outputs s).
Proof.
  unfold enabled. rewrite existsb_exists. unfold render; cbn [options].
  split.
  - intros (o & Ho & Hv). apply andb_true_iff in Hv as [Hv Hd]. apply String.eqb_eq in Hv. subst v.
    destruct Ho as [<-|Ho]; [done|].
    destruct (outputs s) as [|o0 os].
    + by destruct Ho as [<-|[]].
    + apply in_map_iff in Ho as (o' & <- & Ho'). apply list_elem_of_In. exact (in_map id _ _ Ho').
  - intros Hv. apply list_elem_of_In, in_map_iff in Hv as (o & <- & Ho).
    exists (id o, title o, false). split; [|simpl; by rewrite String.eqb_refl].
    right. destruct (outputs s); [done|]. by apply in_map_iff; exists o.
Qed.

Section Run.

(** The outputs lists the component may have been given. *)
Variable given : list Output -> Prop.

Lemma run_submits_given s es :
  given (outputs s) ->
  (selectedOutput s = PLACEHOLDER \/ exists os, given os /\ selectedOutput s ∈ map id os) ->
  (forall os, Props os ∈ es -> given os) ->
  forall v, v ∈ snd (run s es) -> v <> PLACEHOLDER /\ exists os, given os /\ v ∈ map id os.
Proof.
  revert s. induction es as [|e es IH]; intros s Hs Hsel Hes v; simpl; [by rewrite elem_of_nil|].
  destruct (enabled (render s) e) eqn:He; [|apply IH; auto; intros os Hos; apply Hes; by right].
  destruct e as [u| |os']; simpl.
  - apply enabled_update in He. destruct (run _ es) as [s2 o2] eqn:E. simpl. intros Hv.
    specialize (IH (mkState (outputs s) u) Hs). rewrite E in IH. apply IH; [|by intros ? ?; apply Hes; right|done].
    right. by exists (outputs s).
  - destruct (run _ es) as [s2 o2] eqn:E. simpl. rewrite elem_of_cons. intros [->|Hv].
    + unfold enabled, render in He. simpl in He. apply negb_true_iff, bool_decide_eq_false in He.
      split; [done|]. by destruct Hsel.
    + specialize (IH (mkState (outputs s) PLACEHOLDER) Hs). rewrite E in IH.
      apply IH; [by left|by intros ? ?; apply Hes; right|done].
  - destruct (run _ es) as [s2 o2] eqn:E. simpl. intros Hv.
    specialize (IH (mkState os' (selectedOutput s))). rewrite E in IH.
    apply IH; [apply Hes; by left|done|by intros ? ?; apply Hes; right|done].
Qed.

End Run.

(** Whatever the parent and the user do, [onSubmit] receives only ids of
    outputs the component was given at some point, never the
    placeholder. *)
Theorem submitted_offered os0 es v :
  v ∈ snd (run (init os0) es) ->
  v <> PLACEHOLDER /\ exists os, (os = os0 \/ Props os ∈ es) /\ v ∈ map id os.
Proof.
  apply (run_submits_given (fun os => os = os0 \/ Props os ∈ es)); [by left|by left|by right].
Qed.

(** But not necessarily one it still offers: an output selected and then
    removed by the parent is submitted by the still enabled button. *)
Lemma removed_output_submitted os os' o :
  o ∈ os -> id o <> PLACEHOLDER ->
  run (init os) [Update (id o); Props os'; Click] = (mkState os' PLACEHOLDER, [id o]).
Proof.
  intros Ho Hid. cbn [run].
  assert (enabled (render (init os)) (Update (id o)) = true) as ->.
  { apply enabled_update. simpl. apply list_elem_of_In, in_map, list_elem_of_In, Ho. }
  simpl. by rewrite bool_decide_eq_false_2.
Qed.

End AssignOutputDropdown.
