(* ===== verification/BootstrapForms.v ===== *)
(** * Form wrappers (components/bootstrap/FormGroup.tsx, BootstrapModalForm.tsx)

    [FormGroup] styles a form group by its [validationState]. The style's
    colour variant is the state itself, except that [error] uses the
    [danger] colours. A group without a state gets no style. The theme's
    colour tables and chroma-js's [darken] / [brighten] are section
    variables.

    [BootstrapModalForm] puts a form in a modal. Its [submit] handler
    checks the form's validity first, through the DOM node's
    [checkValidity] and then through the jQuery wrapper's, when they are
    functions. An invalid form has its submission prevented. A valid one
    is handed to [onSubmitForm] when there is one, with the default
    prevented; without a handler the browser submits the form itself. The
    validity checks are the answers of [checkValidity] ([None] when it is
    not a function). The render is the props the modal and its footer
    receive. *)

From stdpp Require Import base list strings.
From S2P Require Import Prelude.
Set Warnings "-clear-no-such-hyp".

Module BootstrapForms.

Local Open Scope string_scope.

(** ** FormGroup *)

(** [validationState?: 'error' | 'success' | 'warning'] *)
Inductive ValidationState := VError | VSuccess | VWarning.

Definition state_name (v : ValidationState) : string :=
  match v with VError => "error" | VSuccess => "success" | VWarning => "warning" end.

(** The theme's colour variants. *)
Inductive Variant := Danger | Success | Warning.

(** [validationState === 'error' ? 'danger' : validationState], nullish
    when there is no state. *)
Definition variant (validationState : nullable ValidationState) : option Variant :=
  match validationState with
  | Val VError => Some Danger
  | Val VSuccess => Some Success
  | Val VWarning => Some Warning
  | _ => None
  end.

Section Theme.

(** [theme.colors.variant.dark], [.light] and [.lightest]. *)
Variables dark light lightest : Variant -> string.
(** [chroma(c).darken(0.1).toString()] and [chroma(c).brighten(0.2).toString()]. *)
Variables darken brighten : string -> string.

(** The declarations [StyledFormGroup] adds under [&.has-<state>]. *)
Record GroupStyle := mkGroupStyle {
  state_class : string;        (* has-<validationState> *)
  text_color : string;         (* labels, help blocks, addons, feedback icon *)
  border_color : string;       (* controls and addons *)
  focus_border_color : string;
  focus_glow : string;
  addon_background : string
}.

(** [StyledFormGroup]'s style: [undefined] without a variant. *)
Definition StyledFormGroup (validationState : nullable ValidationState) : option GroupStyle :=
  match validationState, variant validationState with
  | Val st, Some v =>
      Some (mkGroupStyle ("has-" ++ state_name st) (dark v) (light v)
                         (darken (light v)) (brighten (light v)) (lightest v))
  | _, _ => None
  end.

(** [FormGroup]: [validationState = null] by default. *)
Definition FormGroup (validationState : nullable ValidationState) : option GroupStyle :=
  StyledFormGroup (match validationState with Undefined => Null | v => v end).

End Theme.

(** ** BootstrapModalForm *)

Inductive SubmitEffect :=
| PreventDefault                  (* event.preventDefault() *)
| OnSubmitForm.                   (* onSubmitForm(event) *)

(** [submit(event)]: [domValid] and [jqueryValid] are what the DOM node's
    and the jQuery wrapper's [checkValidity()] answer, [None] when it is
    not a function. *)
Definition submit (domValid jqueryValid : option bool) (hasOnSubmitForm : bool) : list SubmitEffect :=
  if bool_decide (domValid = Some false) || bool_decide (jqueryValid = Some false) then [PreventDefault]
  else if hasOnSubmitForm then [PreventDefault; OnSubmitForm]
  else [].

(** The props of [BootstrapModalWrapper] and [ModalSubmit]. *)
Record ModalView := mkModalView {
  showModal : bool;
  backdrop : nullable bool;
  bsSize : nullable string;
  modalTitle : string;
  submitButtonText : string;
  disabledSubmit : bool
}.

(** The render, with the defaults of the destructuring. *)
Definition render (backdrop : nullable bool) (submitButtonDisabled : nullable bool) (bsSize : nullable string)
    (show : bool) (submitButtonText : nullable string) (title : string) : ModalView :=
  mkModalView show backdrop bsSize title
    (match submitButtonText with Undefined => "Submit" | Val t => t | Null => "" end)
    (match submitButtonDisabled with Undefined => false | Val b => b | Null => false end).

(** ** Lemmas *)

(** An error state is coloured as [danger] but keeps its [has-error]
    class; a group without a state, [FormGroup]'s default, is not
    styled. *)
Lemma FormGroup_error dark light lightest darken brighten :
  FormGroup dark light lightest darken brighten (Val VError) =
    Some (mkGroupStyle "has-error" (dark Danger) (light Danger) (darken (light Danger))
                       (brighten (light Danger)) (lightest Danger)) /\
  FormGroup dark light lightest darken brighten Undefined = None.
Proof. done. Qed.

(** [onSubmitForm] is called exactly for a valid form with a handler. The
    submission is prevented in every other case but one: a valid form
    without a handler, which the browser submits (and the page leaves). *)
Lemma submit_spec domValid jqueryValid h :
  let valid := negb (bool_decide (domValid = Some false) || bool_decide (jqueryValid = Some false)) in
  (OnSubmitForm ∈ submit domValid jqueryValid h <-> valid = true /\ h = true) /\
  (PreventDefault ∈ submit domValid jqueryValid h <-> valid = false \/ h = true).
Proof.
  unfold submit. destruct (bool_decide _ || bool_decide _), h; simpl; set_solver.
Qed.

End BootstrapForms.
