(* ===== verification/RuleList.v ===== *)
(** * The pipeline rule list (components/rules/RuleList.tsx)

    [RuleList] shows the rules in a [DataTable] sorted by title. Each row
    is a [RuleListEntry], given the pipelines that use the rule:
    [usingPipelines[rule.id]], where [usingPipelines] comes from
    destructuring [rulesContext: { used_in_pipelines: usingPipelines } =
    {}] in the row formatter.

    [rulesContext] defaults to [undefined]. The destructuring default [{}]
    replaces [undefined] only, so [usingPipelines] is then [undefined] and
    indexing it throws. A [null] context throws at the destructuring
    already. The row formatter runs once per displayed row, so the list
    throws exactly when it has a rule to show without a context.

    The rendered rows are the result of [mapM] over the rows in the
    table's order: [None] is the [TypeError]. [DataTable] (not in the
    repository) orders the rows by title. Here that order is a section
    variable, a permutation of the rules. *)

From stdpp Require Import base list strings.
From S2P Require Import Prelude.
Set Warnings "-clear-no-such-hyp".

Module RuleList.

Local Open Scope string_scope.

(** The fields of a [RuleType] the list reads. *)
Record Rule := mkRule { rule_id : string; rule_title : string }.

(** [RulesContext]: the pipelines using each rule, by rule id. *)
Record RulesContext := mkRulesContext { used_in_pipelines : nullable (list (string * list string)) }.

(** [obj[key]] on a plain object: [undefined] for a missing key. *)
Fixpoint obj_get (k : string) (m : list (string * list string)) : nullable (list string) :=
  match m with
  | [] => Undefined
  | (k', v) :: m' => if String.eqb k k' then Val v else obj_get k m'
  end.

(** The props of one [RuleListEntry]. *)
Record Row := mkRow { row_key : string; row_rule : Rule; usingPipelines : nullable (list string) }.

(** [_ruleInfoFormatter(rule)]. *)
Definition _ruleInfoFormatter (rulesContext : nullable RulesContext) (rule : Rule) : option Row :=
  let usingPipelines :=
    match rulesContext with
    | Undefined => Some Undefined          (* the default {} *)
    | Null => None                          (* destructuring null *)
    | Val c => Some (used_in_pipelines c)
    end in
  match usingPipelines with
  | Some (Val m) => Some (mkRow (rule_id rule) rule (obj_get (rule_id rule) m))
  | _ => None                               (* usingPipelines[rule.id] on a nullish value *)
  end.

Definition headers : list string :=
  ["Title"; "Description"; "Created"; "Last modified"; "Throughput"; "Errors"; "Pipelines"; "Actions"].

(** What the [DataTable] shows. *)
Record View := mkView { table_headers : list string; rows : list Row }.

Section Render.

(** [DataTable]'s order of the rows ([sortByKey="title"]). *)
Variable sortByTitle : list Rule -> list Rule.

Definition render (rulesContext : nullable RulesContext) (rules : list Rule) : option View :=
  rs ← mapM (_ruleInfoFormatter rulesContext) (sortByTitle rules);
  Some (mkView headers rs).

End Render.

(** ** Lemmas *)

Section Lemmas.

Variable sortByTitle : list Rule -> list Rule.
Hypothesis sortByTitle_perm : forall l, sortByTitle l ≡ₚ l.

(** Whether a row can be formatted depends on the context only. *)
Lemma formatter_ok rulesContext rule :
  is_Some (_ruleInfoFormatter rulesContext rule) <->
  match rulesContext with Val c => isNullish (used_in_pipelines c) = false | _ => False end.
Proof.
  unfold _ruleInfoFormatter. destruct rulesContext as [| |[[| |m]]]; simpl; split; try done;
    try (intros [? [=]]); by eexists.
Qed.

(** The list throws exactly when it has a rule to show and no
    [used_in_pipelines] map: with the default [rulesContext], with a
    [null] one, or with one whose map is nullish. Otherwise every rule
    gets one row, in the table's order, with its pipelines. *)
Lemma rule_list_render_spec rulesContext rules :
  (render sortByTitle rulesContext rules = None <->
     rules <> [] /\ match rulesContext with Val c => isNullish (used_in_pipelines c) = true | _ => True end) /\
  (forall v, render sortByTitle rulesContext rules = Some v ->
     map row_rule (rows v) = sortByTitle rules /\
     forall r, r ∈ rows v -> exists m, rulesContext = Val (mkRulesContext (Val m)) /\
                                  usingPipelines r = obj_get (rule_id (row_rule r)) m).
Proof.
  unfold render. split.
  - destruct (mapM _ _) as [rs|] eqn:E; simpl.
    + split; [done|]. intros [Hne Hc]. exfalso. apply mapM_Some in E.
      destruct (sortByTitle rules) as [|r l] eqn:Hs.
      * apply Hne. apply Permutation_nil. rewrite <- Hs. apply sortByTitle_perm.
      * inversion E as [|? ? ? ? Hr]; subst.
        assert (is_Some (_ruleInfoFormatter rulesContext r)) as Hok by (eexists; eauto).
        apply formatter_ok in Hok. destruct rulesContext as [| |c]; [done..|]. by rewrite Hc in Hok.
    + split; [|done]. intros _. apply mapM_None in E. apply Exists_exists in E as (r & Hr & Hf).
      split.
      * intros ->. pose proof (sortByTitle_perm []) as Hp. symmetry in Hp. apply Permutation_nil in Hp. rewrite Hp in Hr. inversion Hr.
      * destruct rulesContext as [| |c]; [done|done|]. destruct (isNullish (used_in_pipelines c)) eqn:Hn; [done|].
        exfalso. destruct (proj2 (formatter_ok (Val c) r) Hn) as [? Hx]. by rewrite Hx in Hf.
  - intros v. destruct (mapM _ _) as [rs|] eqn:E; simpl; [|done]. intros [= <-]. simpl.
    apply mapM_Some in E. split.
    + induction E as [|r row l rs Hr _ IH]; [done|]. simpl. rewrite IH.
      unfold _ruleInfoFormatter in Hr. repeat case_match; simplify_eq; done.
    + intros row Hrow. induction E as [|r row' l rs Hr _ IH]; [by apply elem_of_nil in Hrow|].
      apply elem_of_cons in Hrow as [->|Hrow]; [|by apply IH].
      unfold _ruleInfoFormatter in Hr. destruct rulesContext as [| |[um]]; [done|done|]. simpl in Hr.
      destruct um as [| |m]; simplify_eq. by exists m.
Qed.

End Lemmas.

End RuleList.
