(* ===== verification/AuthenticationBackendEditPage.v ===== *)
(** * Editing an authentication backend (pages/AuthenticationBackendEditPage.tsx)

    The page loads the backend named by the route's [backendId] with
    [AuthenticationDomain.load] in an effect that depends on [backendId],
    and stores the answer's [backend] in its one state cell. It shows a
    spinner until a backend is stored. Then it looks up the
    authentication service plugin of the backend's [config.type]:
    - without one, it shows a message;
    - with one, it shows the plugin's edit component for the stored
      backend.

    The page is a state machine. A render commits with the current
    [backendId] and starts a load when the id changed. Loads in flight are
    answered in any order ([Resolve k]), and each answer is stored
    whatever the current id: the effect has no cleanup that would ignore
    a stale answer. The plugin registry ([getAuthServicePlugin]) and the
    backend's type are section variables. *)

From stdpp Require Import base list strings.
From S2P Require Import Prelude.
Set Warnings "-clear-no-such-hyp".

Module AuthenticationBackendEditPage.

Local Open Scope string_scope.

Section Page.

Context {Backend Plugin : Type}.
(** [authBackend.config.type] *)
Variable config_type : Backend -> string.
(** [getAuthServicePlugin(type)] *)
Variable getAuthServicePlugin : string -> option Plugin.

Record State := mkState {
  authBackend : option Backend;        (* useState<AuthenticationBackend | undefined>() *)
  effect_deps : option string;         (* the backendId the effect last ran with *)
  pending : list string                (* the ids of the loads in flight, in the order sent *)
}.

Definition init : State := mkState None None [].

Inductive Event :=
| Render (backendId : string)          (* a render with the route's backendId, and its commit *)
| Resolve (k : nat) (backend : Backend). (* the k-th load answers *)

(** A step and the loads it starts. *)
Definition step (s : State) (e : Event) : State * list string :=
  match e with
  | Render backendId =>
      if decide (effect_deps s = Some backendId) then (s, [])
      else (mkState (authBackend s) (Some backendId) ((pending s ++ [backendId])%list), [backendId])
  | Resolve k backend =>
      if bool_decide (k < length (pending s)) then
        (mkState (Some backend) (effect_deps s) ((take k (pending s) ++ drop (S k) (pending s))%list), [])
      else (s, [])
  end.

Fixpoint run (s : State) (es : list Event) : State * list string :=
  match es with
  | [] => (s, [])
  | e :: es' => let '(s1, l1) := step s e in let '(s2, l2) := run s1 es' in (s2, (l1 ++ l2)%list)
  end.

Definition dq : string := String (Ascii.ascii_of_nat 34) EmptyString.

Inductive View :=
| Spinner
| NoPlugin (message : string)
| BackendEdit (plugin : Plugin) (authenticationBackend : Backend) (initialStepKey : nullable string).

(** The render, with the route's [initialStepKey]. *)
Definition render (initialStepKey : nullable string) (s : State) : View :=
  match authBackend s with
  | None => Spinner
  | Some b =>
      match getAuthServicePlugin (config_type b) with
      | None => NoPlugin ("No authentication service plugin configured for " ++ dq ++ config_type b ++ dq)
      | Some p => BackendEdit p b initialStepKey
      end
  end.

End Page.

(** ** Lemmas *)

Section Lemmas.

Context {Backend Plugin : Type}.
Variable config_type : Backend -> string.
Variable getAuthServicePlugin : string -> option Plugin.

Abbreviation State := (@State Backend).

(** After a change of [backendId], the page keeps showing the backend it
    had until an answer arrives. When the old id's load answers last, the
    editor is the old backend's on the new id's page. *)
Lemma stale_backend (s : State) idA idB a b k :
  effect_deps s <> Some idA -> idA <> idB -> pending s = [] ->
  getAuthServicePlugin (config_type a) = Some k ->
  let '(s', loads) := run s [Render idA; Render idB; Resolve 1 b; Resolve 0 a] in
  loads = [idA; idB] /\ effect_deps s' = Some idB /\ pending s' = [] /\
  render config_type getAuthServicePlugin Undefined s' = BackendEdit k a Undefined.
Proof.
  intros HA Hne Hp Hk. simpl. rewrite decide_False by done. simpl.
  rewrite decide_False by congruence. rewrite Hp. simpl. unfold render. simpl. by rewrite Hk.
Qed.

End Lemmas.

End AuthenticationBackendEditPage.
